(** * College-student bandwidth model: a shallow embedding

    The repository holds four near-duplicate Python modules
    ([CollegeStudentBandwidthModel.py] and its [_v8], [_v13], [_v18]
    successors).  Each builds four 48-slot bandwidth series, the later ones
    derive a WiFi band table from them, and all of them compute summary
    statistics.

    Conventions of the embedding.
    - A numpy [float64] is an exact rational ([Q]); a decimal literal of the
      source denotes that decimal.  Rounding is therefore not part of this
      model and numeric results are compared with [==].  Where a property
      hangs on rounding, [Binary64] reads the code of v8 once more in the
      arithmetic of the program.
    - A numpy array is a [list Q], read with [!!] and updated with
      [<[i:=x]>]; an index out of range raises [IndexError] as in numpy.
    - A Python [dict] is an association list in insertion order, because
      the code iterates over [.values()] and [.items()].
    - Exceptions are values of [exn]; a fallible computation lives in
      [result].
    - Colours, labels and the drawing itself are presentation and are not
      embedded.  Of the plotting code only what it computes is: the peak
      markers and the hover handlers, whose text is kept as the values
      formatted into it. *)

From Stdlib Require Import QArith Qround Qabs Lqa ZArith.
From Stdlib Require Import Floats Uint63.
From stdpp Require Import base option list strings pretty gmap.

#[local] Open Scope Q_scope.

(** A decimal literal of type [float] stands for the nearest binary64
    number, as in Python; the warning that it is not that number exactly is
    turned off. *)
#[local] Set Warnings "-inexact-float".

(** ** Python: exceptions, results, dictionaries, loops *)

Inductive exn : Type :=
  | KeyError (key : string)
  | IndexError (index : nat)
  | ValueError (msg : string)
  | UnboundLocalError (name : string)
  | FileNotFoundError (filename : string)
  | ParserError (msg : string).

Inductive result (A : Type) : Type :=
  | Ok (a : A)
  | Raise (e : exn).
Arguments Ok {A} a.
Arguments Raise {A} e.

#[export] Instance result_ret : MRet result := fun A a => Ok a.
#[export] Instance result_bind : MBind result := fun A B f m =>
  match m with
  | Ok a => f a
  | Raise e => Raise e
  end.

(** [for x in xs: s = body x s], stopping at the first exception. *)
Fixpoint for_each {A S : Type} (xs : list A) (body : A -> S -> result S)
    (s : S) : result S :=
  match xs with
  | [] => Ok s
  | x :: xs' => s' ← body x s; for_each xs' body s'
  end.

Definition range (n : nat) : list nat := seq 0 n.

(** A [dict] keeps its keys in insertion order. *)
Abbreviation dict V := (list (string * V)).

Fixpoint dict_get {V : Type} (d : dict V) (k : string) : option V :=
  match d with
  | [] => None
  | (k', v) :: d' => if String.eqb k' k then Some v else dict_get d' k
  end.

(** [d[k] = v]: an existing key keeps its position, a new key goes last. *)
Fixpoint dict_set {V : Type} (d : dict V) (k : string) (v : V) : dict V :=
  match d with
  | [] => [(k, v)]
  | (k', v') :: d' =>
      if String.eqb k' k then (k', v) :: d' else (k', v') :: dict_set d' k v
  end.

(** [d[k]] as an expression. *)
Definition dict_getitem {V : Type} (d : dict V) (k : string) : result V :=
  match dict_get d k with
  | Some v => Ok v
  | None => Raise (KeyError k)
  end.

Definition dict_keys {V : Type} (d : dict V) : list string := d.*1.
Definition dict_values {V : Type} (d : dict V) : list V := d.*2.

(** ** numpy on one-dimensional arrays of rationals *)

Abbreviation ndarray := (list Q).

Definition Qgtb (x y : Q) : bool := negb (Qle_bool x y).
Definition Qltb (x y : Q) : bool := negb (Qle_bool y x).
Notation "x >? y" := (Qgtb x y) : Q_scope.
Notation "x <? y" := (Qltb x y) : Q_scope.
Notation "x <=? y" := (Qle_bool x y) : Q_scope.

Definition np_zeros (n : nat) : ndarray := replicate n 0.
Definition np_ones (n : nat) : ndarray := replicate n 1.
Definition np_zeros_like (a : ndarray) : ndarray := np_zeros (length a).

(** [np.arange(start, stop, step)] for a positive step. *)
Definition np_arange (start stop step : Q) : ndarray :=
  let n := Z.to_nat (Qceiling ((stop - start) / step)) in
  map (fun i : nat => start + inject_Z (Z.of_nat i) * step) (seq 0 n).

(** [a[i]] for a non-negative index. *)
Definition np_getitem (a : ndarray) (i : nat) : result Q :=
  match a !! i with
  | Some x => Ok x
  | None => Raise (IndexError i)
  end.

(** [d[k][i]]. *)
Definition subscript2 (d : dict ndarray) (k : string) (i : nat) : result Q :=
  a ← dict_getitem d k; np_getitem a i.

(** [d[k][i] += rhs] and [d[k][i] -= rhs].  Python loads the target
    [d[k][i]] before it evaluates the right-hand side; the array is
    updated in place, so the dictionary keeps its keys and their order. *)
Definition iadd_at (d : dict ndarray) (k : string) (i : nat) (rhs : result Q)
    : result (dict ndarray) :=
  a ← dict_getitem d k;
  x ← np_getitem a i;
  v ← rhs;
  mret (dict_set d k (<[i := x + v]> a)).

Definition isub_at (d : dict ndarray) (k : string) (i : nat) (rhs : result Q)
    : result (dict ndarray) :=
  a ← dict_getitem d k;
  x ← np_getitem a i;
  v ← rhs;
  mret (dict_set d k (<[i := x - v]> a)).

(** [total += device] on arrays: shapes must agree, except that a
    one-element right operand is broadcast. *)
Definition np_iadd (total device : ndarray) : result ndarray :=
  if Nat.eqb (length device) (length total) then
    Ok (zip_with Qplus total device)
  else
    match device with
    | [x] => Ok (map (fun t => t + x) total)
    | _ => Raise (ValueError "operands could not be broadcast together")
    end.

Definition np_sum (a : ndarray) : Q := fold_left Qplus a 0.

(** [np.max]: the first element that no later element exceeds; an empty
    array raises [ValueError]. *)
Definition np_max (a : ndarray) : result Q :=
  match a with
  | [] => Raise (ValueError "zero-size array to reduction operation maximum")
  | x :: a' => Ok (fold_left (fun m y => if y >? m then y else m) a' x)
  end.

(** [np.argmax]: the first index of the maximum. *)
Fixpoint argmax_from (a : ndarray) (i : nat) (best : nat) (m : Q) : nat :=
  match a with
  | [] => best
  | y :: a' =>
      if y >? m then argmax_from a' (S i) i y else argmax_from a' (S i) best m
  end.

Definition np_argmax (a : ndarray) : result nat :=
  match a with
  | [] => Raise (ValueError "attempt to get argmax of an empty sequence")
  | x :: a' => Ok (argmax_from a' 1 0%nat x)
  end.

(** [np.mean]: the sum over the number of elements.  (On an empty array
    numpy answers nan with a warning; the arrays of this program always
    hold 48 elements.) *)
Definition np_mean (a : ndarray) : Q := np_sum a / inject_Z (Z.of_nat (length a)).

(** [np.clip(a, lo, hi)] is [minimum(hi, maximum(a, lo))] elementwise. *)
Definition clip1 (lo hi x : Q) : Q :=
  let y := if lo >? x then lo else x in
  if y >? hi then hi else y.

Definition np_clip (a : ndarray) (lo hi : Q) : ndarray := map (clip1 lo hi) a.

(** [a * c] for a scalar [c]. *)
Definition np_scale (a : ndarray) (c : Q) : ndarray := map (fun x => x * c) a.

(** [get_total_bandwidth], shared text of all four versions:
    [total = np.zeros_like(self.hours)] and then [total += device] for each
    value of [self.bandwidth_data], in dictionary order. *)
Definition total_over (hours : ndarray) (bandwidth_data : dict ndarray)
    : result ndarray :=
  for_each (dict_values bandwidth_data)
    (fun device total => np_iadd total device)
    (np_zeros_like hours).

(** One entry of [device_contributions] or [wifi_band_usage]. *)
Record usage_stats : Type := {
  average_mbps : Q;
  peak_mbps : Q;
  percentage_of_total : Q
}.

(** The dictionary (comprehension or loop) over [series.items()] that
    [get_statistics] builds; division by a zero total is numpy's nan,
    which [Q] does not have: [x / 0] is [0] here. *)
Definition usage_of (total : ndarray) (data : ndarray) : result usage_stats :=
  peak ← np_max data;
  mret {| average_mbps := np_mean data;
          peak_mbps := peak;
          percentage_of_total := (np_sum data / np_sum total) * 100 |}.

Fixpoint usage_table (total : ndarray) (series : dict ndarray)
    : result (dict usage_stats) :=
  match series with
  | [] => Ok []
  | (name, data) :: rest =>
      u ← usage_of total data;
      us ← usage_table total rest;
      mret ((name, u) :: us)
  end.

(** [a[start:stop]] for non-negative bounds: a slice is cut to the array
    and never raises. *)
Definition np_slice (a : ndarray) (start stop : nat) : ndarray :=
  take (stop - start) (drop start a).

(** ** Python: comprehensions and sorting *)

(** [[f x for x in xs]], stopping at the first exception. *)
Fixpoint comprehension {A B : Type} (f : A -> result B) (xs : list A)
    : result (list B) :=
  match xs with
  | [] => Ok []
  | x :: xs' => y ← f x; ys ← comprehension f xs'; mret (y :: ys)
  end.

(** [sorted(xs, key=key, reverse=True)]: the keys are computed first, the
    sort is by decreasing key and stable, so elements with equal keys stay
    in their original order. *)
Fixpoint insert_reverse {A : Type} (x : Q * A) (l : list (Q * A))
    : list (Q * A) :=
  match l with
  | [] => [x]
  | y :: l' => if x.1 <? y.1 then y :: insert_reverse x l' else x :: y :: l'
  end.

Definition sorted_reverse {A : Type} (key : A -> result Q) (xs : list A)
    : result (list A) :=
  keyed ← comprehension (fun x => k ← key x; mret (k, x)) xs;
  mret (map snd (foldr insert_reverse [] keyed)).

(** ** pandas: binning *)

(** One value of [pd.cut(values, bins=bins, labels=labels)] with the
    defaults [right=True] and [include_lowest=False], for increasing bin
    edges and one label per interval as in this program: the label of the
    interval [(lo, hi]] that holds the value, and NaN (here [None]) for a
    value in none of them. *)
Fixpoint pd_cut (x : Q) (bins : list Q) (labels : list string)
    : option string :=
  match bins with
  | [] => None
  | lo :: bins' =>
      match bins', labels with
      | hi :: _, label :: labels' =>
          if (lo <? x) && (x <=? hi) then Some label
          else pd_cut x bins' labels'
      | _, _ => None
      end
  end.

(** ** Python: numbers, lists, text *)

(** [int(x)] on a float truncates toward zero. *)
Definition py_int (x : Q) : Z := if x <? 0 then Qceiling x else Qfloor x.

(** [x % y] on floats, for a positive [y]: the result lies in [[0, y)]. *)
Definition py_mod (x y : Q) : Q := x - y * inject_Z (Qfloor (x / y)).

(** [l[i]] on a list, for a non-negative index. *)
Definition list_getitem {A : Type} (l : list A) (i : nat) : result A :=
  match l !! i with
  | Some x => Ok x
  | None => Raise (IndexError i)
  end.

(** The line feed of an escaped [\n]. *)
Definition nl : string := String (Ascii.ascii_of_nat 10) EmptyString.

(** ** Python: code that changes objects and may raise

    A piece of code that can raise after it has changed some objects
    returns its outcome together with the objects as it leaves them. *)
Definition stateful (S A : Type) : Type := S -> result A * S.

#[export] Instance stateful_ret {S : Type} : MRet (stateful S) :=
  fun A a s => (Ok a, s).
#[export] Instance stateful_bind {S : Type} : MBind (stateful S) :=
  fun A B f m s =>
    match m s with
    | (Ok a, s') => f a s'
    | (Raise e, s') => (Raise e, s')
    end.

Definition st_lift {S A : Type} (r : result A) : stateful S A :=
  fun s => (r, s).
Definition st_get {S : Type} : stateful S S := fun s => (Ok s, s).
Definition st_modify {S : Type} (f : S -> S) : stateful S unit :=
  fun s => (Ok (), f s).

Fixpoint st_for_each {S A : Type} (xs : list A) (body : A -> stateful S unit)
    : stateful S unit :=
  match xs with
  | [] => mret ()
  | x :: xs' => body x;; st_for_each xs' body
  end.

(** ** matplotlib: what a hover handler sees and changes *)

Module mpl.

(** A [motion_notify_event]: the axes under the mouse, if any, and the
    mouse position in data coordinates. *)
Record mouse_event (Axes : Type) : Type := {
  inaxes : option Axes;
  xdata : option Q
}.
Arguments inaxes {Axes} _.
Arguments xdata {Axes} _.

(** An annotation: its text ([None] is the empty text it is created
    with), the point it is anchored at, and whether it is drawn.  The text
    is kept as the values the handler formats into it: float formatting is
    presentation. *)
Record annotation (Text : Type) : Type := {
  text : option Text;
  xy : Q * Q;
  visible : bool
}.
Arguments text {Text} _.
Arguments xy {Text} _.
Arguments visible {Text} _.

Definition set_visible {Text : Type} (v : bool) (a : annotation Text)
    : annotation Text :=
  {| text := text a; xy := xy a; visible := v |}.

(** A line or a row of markers: its data and whether it is drawn. *)
Record line2d : Type := {
  line_xdata : list Q;
  line_ydata : list Q;
  line_visible : bool
}.

Definition line_set_xdata (xs : list Q) (l : line2d) : line2d :=
  {| line_xdata := xs; line_ydata := line_ydata l;
     line_visible := line_visible l |}.

Definition line_set_data (xs ys : list Q) (l : line2d) : line2d :=
  {| line_xdata := xs; line_ydata := ys; line_visible := line_visible l |}.

Definition line_set_visible (v : bool) (l : line2d) : line2d :=
  {| line_xdata := line_xdata l; line_ydata := line_ydata l;
     line_visible := v |}.

(** A text box of an axes: its text, kept like the text of an
    annotation, and whether it is drawn. *)
Record text_box (Text : Type) : Type := {
  box_text : option Text;
  box_visible : bool
}.
Arguments box_text {Text} _.
Arguments box_visible {Text} _.

Definition box_set_text {Text : Type} (t : Text) (b : text_box Text)
    : text_box Text :=
  {| box_text := Some t; box_visible := box_visible b |}.

Definition box_set_visible {Text : Type} (v : bool) (b : text_box Text)
    : text_box Text :=
  {| box_text := box_text b; box_visible := v |}.

End mpl.

(** ** Baseline: [CollegeStudentBandwidthModel.py] *)

Module Baseline.

Record model : Type := {
  hours : ndarray;
  bandwidth_data : dict ndarray
}.

Definition smartphone : ndarray :=
  [ 1; 0.5; 0.3; 0.2; 0.2; 0.3; 2; 3; 5; 4; 8; 12;
    10; 8; 5; 3; 2; 1.5; 1; 1.5; 2; 5; 10; 8;
    12; 15; 8; 4; 3; 2; 3; 2.5; 2; 1.5; 3; 4;
    5; 8; 10; 12; 8; 6; 10; 12; 8; 10; 8; 6 ].

Definition laptop : ndarray :=
  [ 20; 15; 0.5; 0.3; 0.3; 0.5; 1; 0.8; 1; 2; 3; 5;
    8; 12; 15; 8; 5; 4; 6; 10; 8; 12; 10; 6;
    12; 10; 8; 15; 18; 12; 8; 10; 12; 8; 5; 3;
    15; 20; 25; 22; 18; 12; 8; 10; 15; 20; 22; 20 ].

Definition tablet : ndarray :=
  [ 1; 2; 1.5; 1; 0.5; 0.5; 0.3; 0.2; 0.2; 0.3; 1; 2;
    3; 2; 1; 0.5; 0.3; 2; 3; 2.5; 2; 3; 2; 1.5;
    2; 3; 4; 3; 2.5; 2; 1.5; 1; 0.5; 0.3; 2; 4;
    3; 5; 8; 10; 6; 4; 2; 3; 8; 12; 10; 8 ].

Definition smartwatch : ndarray :=
  [ 0.01; 0.01; 0.01; 0.01; 0.01; 0.01; 0.01; 0.01; 0.02; 0.05; 0.08; 0.1;
    0.15; 0.12; 0.5; 0.3; 0.1; 0.08; 0.1; 0.15; 0.1; 0.08; 0.06; 0.05;
    0.08; 0.1; 0.08; 0.06; 0.05; 0.1; 0.25; 0.3; 0.2; 0.15; 0.1; 0.08;
    0.1; 0.12; 0.15; 0.1; 0.08; 0.06; 0.05; 0.08; 0.1; 0.06; 0.04; 0.02 ].

Definition _generate_bandwidth_data : dict ndarray :=
  let data := [] in
  let data := dict_set data "smartphone" smartphone in
  let data := dict_set data "laptop" laptop in
  let data := dict_set data "tablet" tablet in
  let data := dict_set data "smartwatch" smartwatch in
  data.

Definition __init__ : model :=
  {| hours := np_arange 0 24 0.5;
     bandwidth_data := _generate_bandwidth_data |}.

Definition get_total_bandwidth (self : model) : result ndarray :=
  total_over (hours self) (bandwidth_data self).

Record statistics : Type := {
  peak_bandwidth : Q;
  peak_time : Q;
  average_bandwidth : Q;
  total_daily_data_gb : Q;
  device_contributions : dict usage_stats
}.

Definition get_statistics (self : model) : result statistics :=
  total ← get_total_bandwidth self;
  peak ← np_max total;
  at_peak ← np_argmax total;
  time ← np_getitem (hours self) at_peak;
  devices ← usage_table total (bandwidth_data self);
  mret {| peak_bandwidth := peak;
          peak_time := time;
          average_bandwidth := np_mean total;
          total_daily_data_gb := np_sum total * 0.5 * 3600 / (8 * 1024);
          device_contributions := devices |}.

(** The peak markers of [plot_interactive]: the assignments to
    [peak_indices] and [major_peaks], and the points [(self.hours[peak],
    total[peak])] at which the loop over [major_peaks] draws a star. *)
Definition peak_indices (total : ndarray) : result (list nat) :=
  comprehension
    (fun i => k ← np_argmax (np_slice total (i * 2) ((i + 1) * 2));
              mret (k + i * 2)%nat)
    (range 12).

Definition major_peaks (total : ndarray) : result (list nat) :=
  peak_indices ← peak_indices total;
  sorted ← sorted_reverse (fun i => np_getitem total i) peak_indices;
  mret (take 3 sorted).

Definition peak_markers (self : model) : result (list (Q * Q)) :=
  total ← get_total_bandwidth self;
  major_peaks ← major_peaks total;
  comprehension
    (fun peak => h ← np_getitem (hours self) peak;
                 t ← np_getitem total peak;
                 mret (h, t))
    major_peaks.

(** [self.activities], assigned once by [__init__]. *)
Definition _generate_activity_descriptions : list string :=
  let activities := [] in
  let activities := activities ++ [
    "00:00 - Streaming Netflix 4K in bed (Laptop)" +:+ nl +:+
      "Messaging friends (Phone)" +:+ nl +:+ "Sleep prep (Watch)";
    "00:30 - Finishing movie, winding down" +:+ nl +:+
      "Late night social media scroll (Phone)";
    "01:00 - Devices entering sleep mode" +:+ nl +:+
      "Cloud photo backup starting (Phone)";
    "01:30 - Deep sleep mode" +:+ nl +:+ "Background system updates (Laptop)";
    "02:00 - Sleep tracking active (Watch)" +:+ nl +:+
      "Scheduled cloud backup (Phone, Tablet)";
    "02:30 - Minimal network activity" +:+ nl +:+ "Periodic sync checks";
    "03:00 - Deep sleep continues" +:+ nl +:+
      "iCloud/Google backup window (Phone)";
    "03:30 - Background maintenance" +:+ nl +:+ "App updates downloading";
    "04:00 - Continued backup sync" +:+ nl +:+ "OS updates (Laptop)";
    "04:30 - Low activity period" +:+ nl +:+ "Backup completion";
    "05:00 - Pre-wake prep" +:+ nl +:+ "Calendar/email pre-sync";
    "05:30 - System wake routines" +:+ nl +:+ "Weather/news cache update"
  ] in
  let activities := activities ++ [
    "06:00 - ALARM! First phone check in bed" +:+ nl +:+
      "Email sync, Instagram scroll, news apps";
    "06:30 - Getting ready routine" +:+ nl +:+ "Spotify streaming (Phone)" +:+ nl +:+
      "Morning health sync (Watch)";
    "07:00 - Breakfast time" +:+ nl +:+ "Podcast listening" +:+ nl +:+
      "Background app refresh";
    "07:30 - Pre-class prep begins" +:+ nl +:+
      "Downloading lecture slides (Laptop)" +:+ nl +:+
      "LMS access, Canvas/Blackboard";
    "08:00 - Reviewing notes" +:+ nl +:+ "PDF textbook download (Tablet)" +:+ nl +:+
      "Class schedule check (Phone)";
    "08:30 - Walking to class" +:+ nl +:+ "Transition to campus WiFi" +:+ nl +:+
      "Music streaming continues";
    "09:00 - First lecture starts" +:+ nl +:+
      "Cloud note-taking (Laptop: Google Docs)" +:+ nl +:+
      "Digital textbook (Tablet)";
    "09:30 - Lecture continues" +:+ nl +:+ "Reference materials lookup" +:+ nl +:+
      "Lecture recording stream";
    "10:00 - Class wrapping up" +:+ nl +:+ "Saving notes to cloud" +:+ nl +:+
      "Quick email check";
    "10:30 - BREAK - Coffee & social media" +:+ nl +:+
      "Instagram, TikTok, Snapchat (Phone)" +:+ nl +:+
      "Heavy short-form video";
    "11:00 - Second class (Discussion seminar)" +:+ nl +:+
      "Collaborative doc editing" +:+ nl +:+ "Screen share viewing";
    "11:30 - Active class participation" +:+ nl +:+
      "Real-time research during discussion" +:+ nl +:+ "Fact-checking"
  ] in
  let activities := activities ++ [
    "12:00 - Lunch at dining hall" +:+ nl +:+
      "YouTube videos while eating (Phone)" +:+ nl +:+
      "Social media catch-up";
    "12:30 - Lunch continues" +:+ nl +:+ "Group chat conversations" +:+ nl +:+
      "Planning afternoon";
    "13:00 - Library study session begins" +:+ nl +:+
      "Academic database research (Laptop)" +:+ nl +:+ "JSTOR, PubMed access";
    "13:30 - Deep research mode" +:+ nl +:+ "PDF journal downloads" +:+ nl +:+
      "Reference manager sync";
    "14:00 - Writing research paper" +:+ nl +:+ "Google Docs collaboration" +:+ nl +:+
      "Spotify background music";
    "14:30 - Continued writing" +:+ nl +:+ "Multiple reference tabs open" +:+ nl +:+
      "Citation management";
    "15:00 - Gym time!" +:+ nl +:+ "Fitness tracking (Watch)" +:+ nl +:+
      "Workout app sync";
    "15:30 - Workout continues" +:+ nl +:+ "Music streaming (mostly offline)" +:+ nl +:+
      "Quick social checks between sets";
    "16:00 - Post-gym, heading back" +:+ nl +:+
      "Campus to dorm WiFi transition" +:+ nl +:+ "Music continues";
    "16:30 - Quick shower" +:+ nl +:+ "Devices reconnecting to dorm WiFi" +:+ nl +:+
      "Day's data syncing";
    "17:00 - Homework starts" +:+ nl +:+ "Video tutorials (YouTube EDU)" +:+ nl +:+
      "Coding environment active";
    "17:30 - Intensive project work" +:+ nl +:+ "Multiple browser tabs" +:+ nl +:+
      "Cloud storage sync"
  ] in
  let activities := activities ++ [
    "18:00 - Homework continues" +:+ nl +:+ "GitHub activity" +:+ nl +:+
      "Multi-device productivity";
    "18:30 - Dinner time!" +:+ nl +:+ "Netflix/YouTube during meal" +:+ nl +:+
      "Texting friends";
    "19:00 - Dinner entertainment" +:+ nl +:+ "Streaming content" +:+ nl +:+
      "Social media browsing";
    "19:30 - Study group video call" +:+ nl +:+ "Zoom/Discord 1080p" +:+ nl +:+
      "Screen sharing, collaborative docs";
    "20:00 - Video call continues" +:+ nl +:+ "Note-taking during call" +:+ nl +:+
      "Shared presentations";
    "20:30 - Call wrapping up" +:+ nl +:+ "Finalizing group notes" +:+ nl +:+
      "Scheduling next session";
    "21:00 - Social/Gaming hour" +:+ nl +:+ "Online gaming OR Reddit/YouTube" +:+ nl +:+
      "Discord voice chat";
    "21:30 - Continued gaming/social" +:+ nl +:+ "Heavy social media" +:+ nl +:+
      "Casual mobile games (Tablet)";
    "22:00 - Evening wind-down" +:+ nl +:+
      "4K streaming (Netflix/Prime/Disney+)" +:+ nl +:+ "Messaging friends";
    "22:30 - Binge watching continues" +:+ nl +:+ "Twitch stream alternative" +:+ nl +:+
      "Last social checks";
    "23:00 - Pre-sleep routine" +:+ nl +:+ "Final TikTok/Instagram scroll" +:+ nl +:+
      "Meditation app";
    "23:30 - Getting ready for bed" +:+ nl +:+ "Setting alarms" +:+ nl +:+
      "Devices moving to sleep mode"
  ] in
  activities.

(** The two axes of [plot_interactive]. *)
Inductive axes : Type := ax1 | ax2.

Definition axes_eqb (a b : axes) : bool :=
  match a, b with
  | ax1, ax1 | ax2, ax2 => true
  | _, _ => false
  end.

(** The values [_on_hover] formats into the annotation text, in the order
    of the text: the two numbers of [time_str], the total, the four
    devices, the activity. *)
Record hover_text : Type := {
  time_str : Z * Z;
  shown_total : Q;
  shown_phone : Q;
  shown_laptop : Q;
  shown_tablet : Q;
  shown_watch : Q;
  shown_activity : string
}.

(** [_on_hover(self, event, ax)], with [self.annotation] passed in and
    returned; redrawing the canvas changes nothing here. *)
Definition _on_hover (self : model) (annotation : mpl.annotation hover_text)
    (event : mpl.mouse_event axes) (ax : axes)
    : result (mpl.annotation hover_text) :=
  let activities := _generate_activity_descriptions in
  if match mpl.inaxes event with
     | Some a => axes_eqb a ax
     | None => false
     end
  then
    match mpl.xdata event with
    | Some x =>
        if (0 <=? x) && (x <=? 24) then
          (* Find closest time slot *)
          let idx := py_int (x * 2) in
          let idx :=
            if (idx >=? Z.of_nat (length activities))%Z
            then (Z.of_nat (length activities) - 1)%Z else idx in
          (* x is not negative here, and so is idx *)
          let idx := Z.to_nat idx in
          (* Get bandwidth values *)
          total_ ← get_total_bandwidth self;
          total ← np_getitem total_ idx;
          laptop ← subscript2 (bandwidth_data self) "laptop" idx;
          phone ← subscript2 (bandwidth_data self) "smartphone" idx;
          tablet ← subscript2 (bandwidth_data self) "tablet" idx;
          watch ← subscript2 (bandwidth_data self) "smartwatch" idx;
          (* Format annotation text *)
          let time_str := (py_int x, py_int (py_mod x 1 * 60)) in
          activity ← list_getitem activities idx;
          mret {| mpl.text :=
                    Some {| time_str := time_str;
                            shown_total := total;
                            shown_phone := phone;
                            shown_laptop := laptop;
                            shown_tablet := tablet;
                            shown_watch := watch;
                            shown_activity := activity |};
                  mpl.xy := (x, total);
                  mpl.visible := true |}
        else Ok (mpl.set_visible false annotation)
    | None => Ok (mpl.set_visible false annotation)
    end
  else Ok annotation.

End Baseline.

(** ** Version 8: [CollegeStudentBandwidthModel_v8.py] *)

Module V8.

Record model : Type := {
  hours : ndarray;
  bandwidth_data : dict ndarray;
  wifi_band_data : dict ndarray
}.

Definition smartphone : ndarray :=
  [ 1; 0.5; 0.3; 0.2; 0.2; 0.3; 2; 3; 5; 4; 8; 12;
    10; 8; 5; 3; 2; 1.5; 1; 1.5; 2; 5; 10; 8;
    12; 15; 8; 4; 3; 2; 3; 2.5; 2; 1.5; 3; 4;
    5; 8; 10; 12; 8; 6; 10; 12; 8; 10; 8; 6 ].

Definition laptop : ndarray :=
  [ 20; 15; 0.5; 0.3; 0.3; 0.5; 1; 0.8; 1; 2; 3; 5;
    8; 12; 15; 8; 5; 4; 6; 10; 8; 12; 10; 6;
    12; 10; 8; 15; 18; 12; 8; 10; 12; 8; 5; 3;
    15; 20; 25; 22; 18; 12; 8; 10; 15; 20; 22; 20 ].

Definition tablet : ndarray :=
  [ 1; 2; 1.5; 1; 0.5; 0.5; 0.3; 0.2; 0.2; 0.3; 1; 2;
    3; 2; 1; 0.5; 0.3; 2; 3; 2.5; 2; 3; 2; 1.5;
    2; 3; 4; 3; 2.5; 2; 1.5; 1; 0.5; 0.3; 2; 4;
    3; 5; 8; 10; 6; 4; 2; 3; 8; 12; 10; 8 ].

Definition smartwatch : ndarray :=
  [ 0.01; 0.01; 0.01; 0.01; 0.01; 0.01; 0.01; 0.01; 0.02; 0.05; 0.08; 0.1;
    0.15; 0.12; 0.5; 0.3; 0.1; 0.08; 0.1; 0.15; 0.1; 0.08; 0.06; 0.05;
    0.08; 0.1; 0.08; 0.06; 0.05; 0.1; 0.25; 0.3; 0.2; 0.15; 0.1; 0.08;
    0.1; 0.12; 0.15; 0.1; 0.08; 0.06; 0.05; 0.08; 0.1; 0.06; 0.04; 0.02 ].

Definition _generate_bandwidth_data : dict ndarray :=
  let data := [] in
  let data := dict_set data "smartphone" smartphone in
  let data := dict_set data "laptop" laptop in
  let data := dict_set data "tablet" tablet in
  let data := dict_set data "smartwatch" smartwatch in
  data.

(** The body of [for i in range(48)] in [_generate_wifi_band_data]. *)
Definition wifi_band_slot (bandwidth_data : dict ndarray) (i : nat)
    (band_data : dict ndarray) : result (dict ndarray) :=
  let hour := inject_Z (Z.of_nat i) / 2.0 in
  (* Smartwatch always on 2.4GHz *)
  band_data ← iadd_at band_data "2.4GHz" i
                (subscript2 bandwidth_data "smartwatch" i);
  (* Smartphone: 5GHz most of the time, 6GHz for heavy usage *)
  phone_bw ← subscript2 bandwidth_data "smartphone" i;
  band_data ← (if phone_bw >? 8
               then iadd_at band_data "6GHz" i (Ok phone_bw)
               else iadd_at band_data "5GHz" i (Ok phone_bw));
  (* Laptop: prefers 6GHz for high bandwidth, 5GHz otherwise *)
  laptop_bw ← subscript2 bandwidth_data "laptop" i;
  band_data ← (if laptop_bw >? 15
               then iadd_at band_data "6GHz" i (Ok laptop_bw)
               else if laptop_bw >? 5
               then iadd_at band_data "5GHz" i (Ok laptop_bw)
               else iadd_at band_data "2.4GHz" i (Ok laptop_bw));
  (* Tablet: 5GHz, uses 2.4GHz when idle *)
  tablet_bw ← subscript2 bandwidth_data "tablet" i;
  band_data ← (if tablet_bw >? 3
               then iadd_at band_data "5GHz" i (Ok tablet_bw)
               else iadd_at band_data "2.4GHz" i (Ok tablet_bw));
  (* During gym time (15:00-16:00) move the phone from 5GHz to 2.4GHz *)
  if (15 <=? hour) && (hour <? 16) then
    if phone_bw <=? 8 then
      band_data ← isub_at band_data "5GHz" i (Ok phone_bw);
      iadd_at band_data "2.4GHz" i (Ok phone_bw)
    else Ok band_data
  else Ok band_data.

(** The statements of that body on their own, as [wifi_band_slot] runs
    them in turn: the smartwatch line, the smartphone [if] (lines 104 to
    107), and what follows it (laptop, tablet and the gym-hour block). *)
Definition smartwatch_statement (bandwidth_data : dict ndarray) (i : nat)
    (band_data : dict ndarray) : result (dict ndarray) :=
  iadd_at band_data "2.4GHz" i (subscript2 bandwidth_data "smartwatch" i).

Definition smartphone_statement (phone_bw : Q) (i : nat)
    (band_data : dict ndarray) : result (dict ndarray) :=
  if phone_bw >? 8
  then iadd_at band_data "6GHz" i (Ok phone_bw)
  else iadd_at band_data "5GHz" i (Ok phone_bw).

Definition after_smartphone (bandwidth_data : dict ndarray) (i : nat)
    (phone_bw : Q) (band_data : dict ndarray) : result (dict ndarray) :=
  let hour := inject_Z (Z.of_nat i) / 2.0 in
  laptop_bw ← subscript2 bandwidth_data "laptop" i;
  band_data ← (if laptop_bw >? 15
               then iadd_at band_data "6GHz" i (Ok laptop_bw)
               else if laptop_bw >? 5
               then iadd_at band_data "5GHz" i (Ok laptop_bw)
               else iadd_at band_data "2.4GHz" i (Ok laptop_bw));
  tablet_bw ← subscript2 bandwidth_data "tablet" i;
  band_data ← (if tablet_bw >? 3
               then iadd_at band_data "5GHz" i (Ok tablet_bw)
               else iadd_at band_data "2.4GHz" i (Ok tablet_bw));
  if (15 <=? hour) && (hour <? 16) then
    if phone_bw <=? 8 then
      band_data ← isub_at band_data "5GHz" i (Ok phone_bw);
      iadd_at band_data "2.4GHz" i (Ok phone_bw)
    else Ok band_data
  else Ok band_data.

Definition _generate_wifi_band_data (bandwidth_data : dict ndarray)
    : result (dict ndarray) :=
  let band_data :=
    [ ("2.4GHz"%string, np_zeros 48);
      ("5GHz"%string, np_zeros 48);
      ("6GHz"%string, np_zeros 48) ] in
  for_each (range 48) (wifi_band_slot bandwidth_data) band_data.

Definition __init__ : result model :=
  let bandwidth_data := _generate_bandwidth_data in
  wifi_band_data ← _generate_wifi_band_data bandwidth_data;
  mret {| hours := np_arange 0 24 0.5;
          bandwidth_data := bandwidth_data;
          wifi_band_data := wifi_band_data |}.

Definition get_total_bandwidth (self : model) : result ndarray :=
  total_over (hours self) (bandwidth_data self).

Record statistics : Type := {
  peak_bandwidth : Q;
  peak_time : Q;
  average_bandwidth : Q;
  total_daily_data_gb : Q;
  device_contributions : dict usage_stats;
  wifi_band_usage : dict usage_stats
}.

Definition get_statistics (self : model) : result statistics :=
  total ← get_total_bandwidth self;
  peak ← np_max total;
  at_peak ← np_argmax total;
  time ← np_getitem (hours self) at_peak;
  devices ← usage_table total (bandwidth_data self);
  bands ← usage_table total (wifi_band_data self);
  mret {| peak_bandwidth := peak;
          peak_time := time;
          average_bandwidth := np_mean total;
          total_daily_data_gb := np_sum total * 0.5 * 3600 / (8 * 1024);
          device_contributions := devices;
          wifi_band_usage := bands |}.

(** [self.activities], assigned once by [__init__]. *)
Definition _generate_activity_descriptions : list string :=
  let activities := [] in
  let activities := activities ++ [
    "00:00 - Streaming Netflix 4K in bed (Laptop)" +:+ nl +:+
      "Messaging friends (Phone)" +:+ nl +:+ "Sleep prep (Watch)";
    "00:30 - Finishing movie, winding down" +:+ nl +:+
      "Late night social media scroll (Phone)";
    "01:00 - Devices entering sleep mode" +:+ nl +:+
      "Cloud photo backup starting (Phone)";
    "01:30 - Deep sleep mode" +:+ nl +:+ "Background system updates (Laptop)";
    "02:00 - Sleep tracking active (Watch)" +:+ nl +:+
      "Scheduled cloud backup (Phone, Tablet)";
    "02:30 - Minimal network activity" +:+ nl +:+ "Periodic sync checks";
    "03:00 - Deep sleep continues" +:+ nl +:+
      "iCloud/Google backup window (Phone)";
    "03:30 - Background maintenance" +:+ nl +:+ "App updates downloading";
    "04:00 - Continued backup sync" +:+ nl +:+ "OS updates (Laptop)";
    "04:30 - Low activity period" +:+ nl +:+ "Backup completion";
    "05:00 - Pre-wake prep" +:+ nl +:+ "Calendar/email pre-sync";
    "05:30 - System wake routines" +:+ nl +:+ "Weather/news cache update"
  ] in
  let activities := activities ++ [
    "06:00 - ALARM! First phone check in bed" +:+ nl +:+
      "Email sync, Instagram scroll, news apps";
    "06:30 - Getting ready routine" +:+ nl +:+ "Spotify streaming (Phone)" +:+ nl +:+
      "Morning health sync (Watch)";
    "07:00 - Breakfast time" +:+ nl +:+ "Podcast listening" +:+ nl +:+
      "Background app refresh";
    "07:30 - Pre-class prep begins" +:+ nl +:+
      "Downloading lecture slides (Laptop)" +:+ nl +:+
      "LMS access, Canvas/Blackboard";
    "08:00 - Reviewing notes" +:+ nl +:+ "PDF textbook download (Tablet)" +:+ nl +:+
      "Class schedule check (Phone)";
    "08:30 - Walking to class" +:+ nl +:+ "Transition to campus WiFi" +:+ nl +:+
      "Music streaming continues";
    "09:00 - First lecture starts" +:+ nl +:+
      "Cloud note-taking (Laptop: Google Docs)" +:+ nl +:+
      "Digital textbook (Tablet)";
    "09:30 - Lecture continues" +:+ nl +:+ "Reference materials lookup" +:+ nl +:+
      "Lecture recording stream";
    "10:00 - Class wrapping up" +:+ nl +:+ "Saving notes to cloud" +:+ nl +:+
      "Quick email check";
    "10:30 - BREAK - Coffee & social media" +:+ nl +:+
      "Instagram, TikTok, Snapchat (Phone)" +:+ nl +:+
      "Heavy short-form video";
    "11:00 - Second class (Discussion seminar)" +:+ nl +:+
      "Collaborative doc editing" +:+ nl +:+ "Screen share viewing";
    "11:30 - Active class participation" +:+ nl +:+
      "Real-time research during discussion" +:+ nl +:+ "Fact-checking"
  ] in
  let activities := activities ++ [
    "12:00 - Lunch at dining hall" +:+ nl +:+
      "YouTube videos while eating (Phone)" +:+ nl +:+
      "Social media catch-up";
    "12:30 - Lunch continues" +:+ nl +:+ "Group chat conversations" +:+ nl +:+
      "Planning afternoon";
    "13:00 - Library study session begins" +:+ nl +:+
      "Academic database research (Laptop)" +:+ nl +:+ "JSTOR, PubMed access";
    "13:30 - Deep research mode" +:+ nl +:+ "PDF journal downloads" +:+ nl +:+
      "Reference manager sync";
    "14:00 - Writing research paper" +:+ nl +:+ "Google Docs collaboration" +:+ nl +:+
      "Spotify background music";
    "14:30 - Continued writing" +:+ nl +:+ "Multiple reference tabs open" +:+ nl +:+
      "Citation management";
    "15:00 - Gym time!" +:+ nl +:+ "Fitness tracking (Watch)" +:+ nl +:+
      "Workout app sync";
    "15:30 - Workout continues" +:+ nl +:+ "Music streaming (mostly offline)" +:+ nl +:+
      "Quick social checks between sets";
    "16:00 - Post-gym, heading back" +:+ nl +:+
      "Campus to dorm WiFi transition" +:+ nl +:+ "Music continues";
    "16:30 - Quick shower" +:+ nl +:+ "Devices reconnecting to dorm WiFi" +:+ nl +:+
      "Day's data syncing";
    "17:00 - Homework starts" +:+ nl +:+ "Video tutorials (YouTube EDU)" +:+ nl +:+
      "Coding environment active";
    "17:30 - Intensive project work" +:+ nl +:+ "Multiple browser tabs" +:+ nl +:+
      "Cloud storage sync"
  ] in
  let activities := activities ++ [
    "18:00 - Homework continues" +:+ nl +:+ "GitHub activity" +:+ nl +:+
      "Multi-device productivity";
    "18:30 - Dinner time!" +:+ nl +:+ "Netflix/YouTube during meal" +:+ nl +:+
      "Texting friends";
    "19:00 - Dinner entertainment" +:+ nl +:+ "Streaming content" +:+ nl +:+
      "Social media browsing";
    "19:30 - Study group video call" +:+ nl +:+ "Zoom/Discord 1080p" +:+ nl +:+
      "Screen sharing, collaborative docs";
    "20:00 - Video call continues" +:+ nl +:+ "Note-taking during call" +:+ nl +:+
      "Shared presentations";
    "20:30 - Call wrapping up" +:+ nl +:+ "Finalizing group notes" +:+ nl +:+
      "Scheduling next session";
    "21:00 - Social/Gaming hour" +:+ nl +:+ "Online gaming OR Reddit/YouTube" +:+ nl +:+
      "Discord voice chat";
    "21:30 - Continued gaming/social" +:+ nl +:+ "Heavy social media" +:+ nl +:+
      "Casual mobile games (Tablet)";
    "22:00 - Evening wind-down" +:+ nl +:+
      "4K streaming (Netflix/Prime/Disney+)" +:+ nl +:+ "Messaging friends";
    "22:30 - Binge watching continues" +:+ nl +:+ "Twitch stream alternative" +:+ nl +:+
      "Last social checks";
    "23:00 - Pre-sleep routine" +:+ nl +:+ "Final TikTok/Instagram scroll" +:+ nl +:+
      "Meditation app";
    "23:30 - Getting ready for bed" +:+ nl +:+ "Setting alarms" +:+ nl +:+
      "Devices moving to sleep mode"
  ] in
  activities.

(** The axes of the figure of [plot_overlaid_devices]: the two the hover
    handler knows, and the others. *)
Inductive axes : Type := ax_overlay | ax_bands | ax_other.

(** The values [_on_hover] formats into the annotation text, in the order
    of the text. *)
Record hover_text : Type := {
  time_str : Z * Z;
  shown_total : Q;
  shown_phone : Q;
  shown_laptop : Q;
  shown_tablet : Q;
  shown_watch : Q;
  shown_band_24 : Q;
  shown_band_5 : Q;
  shown_band_6 : Q;
  shown_activity : string
}.

(** [_on_hover(self, event)], with [self.annotation] passed in and
    returned: the handler is connected after the annotation is created, so
    the attribute exists. *)
Definition _on_hover (self : model) (annotation : mpl.annotation hover_text)
    (event : mpl.mouse_event axes) : result (mpl.annotation hover_text) :=
  let activities := _generate_activity_descriptions in
  match mpl.inaxes event with
  | Some ax_overlay | Some ax_bands =>
      match mpl.xdata event with
      | Some x =>
          if (0 <=? x) && (x <? 24) then
            (* Find closest time slot; x is not negative here *)
            let idx := Z.to_nat (Z.min (py_int (x * 2)) 47) in
            (* Get bandwidth values *)
            total_ ← get_total_bandwidth self;
            total ← np_getitem total_ idx;
            laptop ← subscript2 (bandwidth_data self) "laptop" idx;
            phone ← subscript2 (bandwidth_data self) "smartphone" idx;
            tablet ← subscript2 (bandwidth_data self) "tablet" idx;
            watch ← subscript2 (bandwidth_data self) "smartwatch" idx;
            (* Get WiFi band info *)
            band_24 ← subscript2 (wifi_band_data self) "2.4GHz" idx;
            band_5 ← subscript2 (wifi_band_data self) "5GHz" idx;
            band_6 ← subscript2 (wifi_band_data self) "6GHz" idx;
            (* Format annotation text *)
            let time_str := (py_int x, py_int (py_mod x 1 * 60)) in
            activity ← list_getitem activities idx;
            mret {| mpl.text :=
                      Some {| time_str := time_str;
                              shown_total := total;
                              shown_phone := phone;
                              shown_laptop := laptop;
                              shown_tablet := tablet;
                              shown_watch := watch;
                              shown_band_24 := band_24;
                              shown_band_5 := band_5;
                              shown_band_6 := band_6;
                              shown_activity := activity |};
                    mpl.xy :=
                      (x, match mpl.inaxes event with
                          | Some ax_overlay => total
                          | _ => band_24 + band_5 + band_6
                          end);
                    mpl.visible := true |}
          else Ok (mpl.set_visible false annotation)
      | None => Ok (mpl.set_visible false annotation)
      end
  | _ => Ok (mpl.set_visible false annotation)
  end.

End V8.

(** ** Version 13: [CollegeStudentBandwidthModel_v13.py] *)

Module V13.

Record model : Type := {
  hours : ndarray;
  bandwidth_data : dict ndarray;
  wifi_band_data : dict ndarray
}.

Definition smartphone : ndarray :=
  [ 1; 0.5; 0.3; 0.2; 0.2; 0.3; 2; 3; 5; 4; 8; 12;
    10; 8; 5; 3; 2; 1.5; 1; 1.5; 2; 5; 10; 8;
    12; 15; 8; 4; 3; 2; 3; 2.5; 2; 1.5; 3; 4;
    5; 8; 10; 12; 8; 6; 10; 12; 8; 10; 8; 6 ].

Definition laptop : ndarray :=
  [ 20; 15; 0.5; 0.3; 0.3; 0.5; 1; 0.8; 1; 2; 3; 5;
    8; 12; 15; 8; 5; 4; 6; 10; 8; 12; 10; 6;
    12; 10; 8; 15; 18; 12; 8; 10; 12; 8; 5; 3;
    15; 20; 25; 22; 18; 12; 8; 10; 15; 20; 22; 20 ].

Definition tablet : ndarray :=
  [ 1; 2; 1.5; 1; 0.5; 0.5; 0.3; 0.2; 0.2; 0.3; 1; 2;
    3; 2; 1; 0.5; 0.3; 2; 3; 2.5; 2; 3; 2; 1.5;
    2; 3; 4; 3; 2.5; 2; 1.5; 1; 0.5; 0.3; 2; 4;
    3; 5; 8; 10; 6; 4; 2; 3; 8; 12; 10; 8 ].

Definition smartwatch : ndarray :=
  [ 0.01; 0.01; 0.01; 0.01; 0.01; 0.01; 0.01; 0.01; 0.02; 0.05; 0.08; 0.1;
    0.15; 0.12; 0.5; 0.3; 0.1; 0.08; 0.1; 0.15; 0.1; 0.08; 0.06; 0.05;
    0.08; 0.1; 0.08; 0.06; 0.05; 0.1; 0.25; 0.3; 0.2; 0.15; 0.1; 0.08;
    0.1; 0.12; 0.15; 0.1; 0.08; 0.06; 0.05; 0.08; 0.1; 0.06; 0.04; 0.02 ].

Definition _generate_bandwidth_data : dict ndarray :=
  let data := [] in
  let data := dict_set data "smartphone" smartphone in
  let data := dict_set data "laptop" laptop in
  let data := dict_set data "tablet" tablet in
  let data := dict_set data "smartwatch" smartwatch in
  data.

(** The body of [for i in range(48)] in [_generate_wifi_band_data]. *)
Definition wifi_band_slot (bandwidth_data : dict ndarray) (i : nat)
    (band_data : dict ndarray) : result (dict ndarray) :=
  let hour := inject_Z (Z.of_nat i) / 2.0 in
  (* Smartwatch always on 2.4GHz *)
  band_data ← iadd_at band_data "2.4GHz" i
                (subscript2 bandwidth_data "smartwatch" i);
  (* Smartphone: 5GHz most of the time, 6GHz for heavy usage *)
  phone_bw ← subscript2 bandwidth_data "smartphone" i;
  band_data ← (if phone_bw >? 8
               then iadd_at band_data "6GHz" i (Ok phone_bw)
               else iadd_at band_data "5GHz" i (Ok phone_bw));
  (* Laptop: prefers 6GHz for high bandwidth, 5GHz otherwise *)
  laptop_bw ← subscript2 bandwidth_data "laptop" i;
  band_data ← (if laptop_bw >? 15
               then iadd_at band_data "6GHz" i (Ok laptop_bw)
               else if laptop_bw >? 5
               then iadd_at band_data "5GHz" i (Ok laptop_bw)
               else iadd_at band_data "2.4GHz" i (Ok laptop_bw));
  (* Tablet: 5GHz, uses 2.4GHz when idle *)
  tablet_bw ← subscript2 bandwidth_data "tablet" i;
  band_data ← (if tablet_bw >? 3
               then iadd_at band_data "5GHz" i (Ok tablet_bw)
               else iadd_at band_data "2.4GHz" i (Ok tablet_bw));
  (* During gym time (15:00-16:00) move the phone from 5GHz to 2.4GHz *)
  if (15 <=? hour) && (hour <? 16) then
    if phone_bw <=? 8 then
      band_data ← isub_at band_data "5GHz" i (Ok phone_bw);
      iadd_at band_data "2.4GHz" i (Ok phone_bw)
    else Ok band_data
  else Ok band_data.

(** The statements of that body on their own, as [wifi_band_slot] runs
    them in turn: the smartwatch line, the smartphone [if] (lines 105 to
    108), and what follows it (laptop, tablet and the gym-hour block). *)
Definition smartwatch_statement (bandwidth_data : dict ndarray) (i : nat)
    (band_data : dict ndarray) : result (dict ndarray) :=
  iadd_at band_data "2.4GHz" i (subscript2 bandwidth_data "smartwatch" i).

Definition smartphone_statement (phone_bw : Q) (i : nat)
    (band_data : dict ndarray) : result (dict ndarray) :=
  if phone_bw >? 8
  then iadd_at band_data "6GHz" i (Ok phone_bw)
  else iadd_at band_data "5GHz" i (Ok phone_bw).

Definition after_smartphone (bandwidth_data : dict ndarray) (i : nat)
    (phone_bw : Q) (band_data : dict ndarray) : result (dict ndarray) :=
  let hour := inject_Z (Z.of_nat i) / 2.0 in
  laptop_bw ← subscript2 bandwidth_data "laptop" i;
  band_data ← (if laptop_bw >? 15
               then iadd_at band_data "6GHz" i (Ok laptop_bw)
               else if laptop_bw >? 5
               then iadd_at band_data "5GHz" i (Ok laptop_bw)
               else iadd_at band_data "2.4GHz" i (Ok laptop_bw));
  tablet_bw ← subscript2 bandwidth_data "tablet" i;
  band_data ← (if tablet_bw >? 3
               then iadd_at band_data "5GHz" i (Ok tablet_bw)
               else iadd_at band_data "2.4GHz" i (Ok tablet_bw));
  if (15 <=? hour) && (hour <? 16) then
    if phone_bw <=? 8 then
      band_data ← isub_at band_data "5GHz" i (Ok phone_bw);
      iadd_at band_data "2.4GHz" i (Ok phone_bw)
    else Ok band_data
  else Ok band_data.

Definition _generate_wifi_band_data (bandwidth_data : dict ndarray)
    : result (dict ndarray) :=
  let band_data :=
    [ ("2.4GHz"%string, np_zeros 48);
      ("5GHz"%string, np_zeros 48);
      ("6GHz"%string, np_zeros 48) ] in
  for_each (range 48) (wifi_band_slot bandwidth_data) band_data.

Definition __init__ : result model :=
  let bandwidth_data := _generate_bandwidth_data in
  wifi_band_data ← _generate_wifi_band_data bandwidth_data;
  mret {| hours := np_arange 0 24 0.5;
          bandwidth_data := bandwidth_data;
          wifi_band_data := wifi_band_data |}.

Definition get_total_bandwidth (self : model) : result ndarray :=
  total_over (hours self) (bandwidth_data self).

Record statistics : Type := {
  peak_bandwidth : Q;
  peak_time : Q;
  average_bandwidth : Q;
  total_daily_data_gb : Q;
  device_contributions : dict usage_stats;
  wifi_band_usage : dict usage_stats
}.

Definition get_statistics (self : model) : result statistics :=
  total ← get_total_bandwidth self;
  peak ← np_max total;
  at_peak ← np_argmax total;
  time ← np_getitem (hours self) at_peak;
  devices ← usage_table total (bandwidth_data self);
  bands ← usage_table total (wifi_band_data self);
  mret {| peak_bandwidth := peak;
          peak_time := time;
          average_bandwidth := np_mean total;
          total_daily_data_gb := np_sum total * 0.5 * 3600 / (8 * 1024);
          device_contributions := devices;
          wifi_band_usage := bands |}.

(** [self.activities], assigned once by [__init__]. *)
Definition _generate_activity_descriptions : list string :=
  let activities := [] in
  let activities := activities ++ [
    "00:00 - Streaming Netflix 4K in bed (Laptop)" +:+ nl +:+
      "Messaging friends (Phone)" +:+ nl +:+ "Sleep prep (Watch)";
    "00:30 - Finishing movie, winding down" +:+ nl +:+
      "Late night social media scroll (Phone)";
    "01:00 - Devices entering sleep mode" +:+ nl +:+
      "Cloud photo backup starting (Phone)";
    "01:30 - Deep sleep mode" +:+ nl +:+ "Background system updates (Laptop)";
    "02:00 - Sleep tracking active (Watch)" +:+ nl +:+
      "Scheduled cloud backup (Phone, Tablet)";
    "02:30 - Minimal network activity" +:+ nl +:+ "Periodic sync checks";
    "03:00 - Deep sleep continues" +:+ nl +:+
      "iCloud/Google backup window (Phone)";
    "03:30 - Background maintenance" +:+ nl +:+ "App updates downloading";
    "04:00 - Continued backup sync" +:+ nl +:+ "OS updates (Laptop)";
    "04:30 - Low activity period" +:+ nl +:+ "Backup completion";
    "05:00 - Pre-wake prep" +:+ nl +:+ "Calendar/email pre-sync";
    "05:30 - System wake routines" +:+ nl +:+ "Weather/news cache update"
  ] in
  let activities := activities ++ [
    "06:00 - ALARM! First phone check in bed" +:+ nl +:+
      "Email sync, Instagram scroll, news apps";
    "06:30 - Getting ready routine" +:+ nl +:+ "Spotify streaming (Phone)" +:+ nl +:+
      "Morning health sync (Watch)";
    "07:00 - Breakfast time" +:+ nl +:+ "Podcast listening" +:+ nl +:+
      "Background app refresh";
    "07:30 - Pre-class prep begins" +:+ nl +:+
      "Downloading lecture slides (Laptop)" +:+ nl +:+
      "LMS access, Canvas/Blackboard";
    "08:00 - Reviewing notes" +:+ nl +:+ "PDF textbook download (Tablet)" +:+ nl +:+
      "Class schedule check (Phone)";
    "08:30 - Walking to class" +:+ nl +:+ "Transition to campus WiFi" +:+ nl +:+
      "Music streaming continues";
    "09:00 - First lecture starts" +:+ nl +:+
      "Cloud note-taking (Laptop: Google Docs)" +:+ nl +:+
      "Digital textbook (Tablet)";
    "09:30 - Lecture continues" +:+ nl +:+ "Reference materials lookup" +:+ nl +:+
      "Lecture recording stream";
    "10:00 - Class wrapping up" +:+ nl +:+ "Saving notes to cloud" +:+ nl +:+
      "Quick email check";
    "10:30 - BREAK - Coffee & social media" +:+ nl +:+
      "Instagram, TikTok, Snapchat (Phone)" +:+ nl +:+
      "Heavy short-form video";
    "11:00 - Second class (Discussion seminar)" +:+ nl +:+
      "Collaborative doc editing" +:+ nl +:+ "Screen share viewing";
    "11:30 - Active class participation" +:+ nl +:+
      "Real-time research during discussion" +:+ nl +:+ "Fact-checking"
  ] in
  let activities := activities ++ [
    "12:00 - Lunch at dining hall" +:+ nl +:+
      "YouTube videos while eating (Phone)" +:+ nl +:+
      "Social media catch-up";
    "12:30 - Lunch continues" +:+ nl +:+ "Group chat conversations" +:+ nl +:+
      "Planning afternoon";
    "13:00 - Library study session begins" +:+ nl +:+
      "Academic database research (Laptop)" +:+ nl +:+ "JSTOR, PubMed access";
    "13:30 - Deep research mode" +:+ nl +:+ "PDF journal downloads" +:+ nl +:+
      "Reference manager sync";
    "14:00 - Writing research paper" +:+ nl +:+ "Google Docs collaboration" +:+ nl +:+
      "Spotify background music";
    "14:30 - Continued writing" +:+ nl +:+ "Multiple reference tabs open" +:+ nl +:+
      "Citation management";
    "15:00 - Gym time!" +:+ nl +:+ "Fitness tracking (Watch)" +:+ nl +:+
      "Workout app sync";
    "15:30 - Workout continues" +:+ nl +:+ "Music streaming (mostly offline)" +:+ nl +:+
      "Quick social checks between sets";
    "16:00 - Post-gym, heading back" +:+ nl +:+
      "Campus to dorm WiFi transition" +:+ nl +:+ "Music continues";
    "16:30 - Quick shower" +:+ nl +:+ "Devices reconnecting to dorm WiFi" +:+ nl +:+
      "Day's data syncing";
    "17:00 - Homework starts" +:+ nl +:+ "Video tutorials (YouTube EDU)" +:+ nl +:+
      "Coding environment active";
    "17:30 - Intensive project work" +:+ nl +:+ "Multiple browser tabs" +:+ nl +:+
      "Cloud storage sync"
  ] in
  let activities := activities ++ [
    "18:00 - Homework continues" +:+ nl +:+ "GitHub activity" +:+ nl +:+
      "Multi-device productivity";
    "18:30 - Dinner time!" +:+ nl +:+ "Netflix/YouTube during meal" +:+ nl +:+
      "Texting friends";
    "19:00 - Dinner entertainment" +:+ nl +:+ "Streaming content" +:+ nl +:+
      "Social media browsing";
    "19:30 - Study group video call" +:+ nl +:+ "Zoom/Discord 1080p" +:+ nl +:+
      "Screen sharing, collaborative docs";
    "20:00 - Video call continues" +:+ nl +:+ "Note-taking during call" +:+ nl +:+
      "Shared presentations";
    "20:30 - Call wrapping up" +:+ nl +:+ "Finalizing group notes" +:+ nl +:+
      "Scheduling next session";
    "21:00 - Social/Gaming hour" +:+ nl +:+ "Online gaming OR Reddit/YouTube" +:+ nl +:+
      "Discord voice chat";
    "21:30 - Continued gaming/social" +:+ nl +:+ "Heavy social media" +:+ nl +:+
      "Casual mobile games (Tablet)";
    "22:00 - Evening wind-down" +:+ nl +:+
      "4K streaming (Netflix/Prime/Disney+)" +:+ nl +:+ "Messaging friends";
    "22:30 - Binge watching continues" +:+ nl +:+ "Twitch stream alternative" +:+ nl +:+
      "Last social checks";
    "23:00 - Pre-sleep routine" +:+ nl +:+ "Final TikTok/Instagram scroll" +:+ nl +:+
      "Meditation app";
    "23:30 - Getting ready for bed" +:+ nl +:+ "Setting alarms" +:+ nl +:+
      "Devices moving to sleep mode"
  ] in
  activities.

(** The axes of the figure of [plot_overlaid_devices]: the two the hover
    handler knows, and the others. *)
Inductive axes : Type := ax_overlay | ax_bands | ax_other.

(** The values [_on_hover] formats into the two info texts, in the order
    of the texts. *)
Record overlay_text : Type := {
  time_str : Z * Z;
  shown_total : Q;
  shown_laptop : Q;
  shown_phone : Q;
  shown_tablet : Q;
  shown_watch : Q;
  shown_activity : string
}.

Record bands_text : Type := {
  bands_time_str : Z * Z;
  shown_total_bands : Q;
  shown_band_24 : Q;
  shown_percent_24 : Q;
  shown_band_5 : Q;
  shown_percent_5 : Q;
  shown_band_6 : Q;
  shown_percent_6 : Q;
  bands_activity : string
}.

(** The artists [plot_overlaid_devices] creates for the hover handler. *)
Record hover_elements : Type := {
  vline_overlay : mpl.line2d;
  markers_overlay : dict mpl.line2d;
  info_box_overlay : mpl.text_box overlay_text;
  vline_bands : mpl.line2d;
  info_box_bands : mpl.text_box bands_text
}.

(** The artists as [plot_overlaid_devices] creates them: two cursor
    lines [axvline(x=0, visible=False)], one empty invisible marker per
    device, two empty invisible text boxes. *)
Definition hover_elements_created : hover_elements :=
  let markers_overlay := [] in
  let markers_overlay :=
    foldl (fun markers device =>
             dict_set markers device
               {| mpl.line_xdata := []; mpl.line_ydata := [];
                  mpl.line_visible := false |})
          markers_overlay
          ["laptop"; "smartphone"; "tablet"; "smartwatch"]%string in
  {| vline_overlay :=
       {| mpl.line_xdata := [0; 0]; mpl.line_ydata := [0; 1];
          mpl.line_visible := false |};
     markers_overlay := markers_overlay;
     info_box_overlay := {| mpl.box_text := None; mpl.box_visible := false |};
     vline_bands :=
       {| mpl.line_xdata := [0; 0]; mpl.line_ydata := [0; 1];
          mpl.line_visible := false |};
     info_box_bands := {| mpl.box_text := None; mpl.box_visible := false |} |}.

Definition set_vline_overlay (f : mpl.line2d -> mpl.line2d)
    : stateful hover_elements unit :=
  st_modify (fun e =>
    {| vline_overlay := f (vline_overlay e);
       markers_overlay := markers_overlay e;
       info_box_overlay := info_box_overlay e;
       vline_bands := vline_bands e;
       info_box_bands := info_box_bands e |}).

Definition set_markers_overlay (f : dict mpl.line2d -> dict mpl.line2d)
    : stateful hover_elements unit :=
  st_modify (fun e =>
    {| vline_overlay := vline_overlay e;
       markers_overlay := f (markers_overlay e);
       info_box_overlay := info_box_overlay e;
       vline_bands := vline_bands e;
       info_box_bands := info_box_bands e |}).

Definition set_info_box_overlay
    (f : mpl.text_box overlay_text -> mpl.text_box overlay_text)
    : stateful hover_elements unit :=
  st_modify (fun e =>
    {| vline_overlay := vline_overlay e;
       markers_overlay := markers_overlay e;
       info_box_overlay := f (info_box_overlay e);
       vline_bands := vline_bands e;
       info_box_bands := info_box_bands e |}).

Definition set_vline_bands (f : mpl.line2d -> mpl.line2d)
    : stateful hover_elements unit :=
  st_modify (fun e =>
    {| vline_overlay := vline_overlay e;
       markers_overlay := markers_overlay e;
       info_box_overlay := info_box_overlay e;
       vline_bands := f (vline_bands e);
       info_box_bands := info_box_bands e |}).

Definition set_info_box_bands
    (f : mpl.text_box bands_text -> mpl.text_box bands_text)
    : stateful hover_elements unit :=
  st_modify (fun e =>
    {| vline_overlay := vline_overlay e;
       markers_overlay := markers_overlay e;
       info_box_overlay := info_box_overlay e;
       vline_bands := vline_bands e;
       info_box_bands := f (info_box_bands e) |}).

(** [self.markers_overlay[device].m(...)] for a method [m] of the marker. *)
Definition on_marker (device : string) (m : mpl.line2d -> mpl.line2d)
    : stateful hover_elements unit :=
  e ← st_get;
  marker ← st_lift (dict_getitem (markers_overlay e) device);
  set_markers_overlay (fun markers => dict_set markers device (m marker)).

Definition _hide_overlay_elements : stateful hover_elements unit :=
  set_vline_overlay (mpl.line_set_visible false);;
  set_markers_overlay
    (map (fun kv : string * mpl.line2d =>
            (kv.1, mpl.line_set_visible false kv.2)));;
  set_info_box_overlay (mpl.box_set_visible false).

Definition _hide_bands_elements : stateful hover_elements unit :=
  set_vline_bands (mpl.line_set_visible false);;
  set_info_box_bands (mpl.box_set_visible false).

(** [_on_hover(self, event)] on the artists; redrawing the canvas changes
    nothing here.  A division by a zero [total_bands] is numpy's nan and
    [0] here. *)
Definition _on_hover (self : model) (event : mpl.mouse_event axes)
    : stateful hover_elements unit :=
  let activities := _generate_activity_descriptions in
  match mpl.inaxes event with
  | Some ax_overlay =>
      (* Check if hovering over overlay chart *)
      match mpl.xdata event with
      | Some x =>
          if (0 <=? x) && (x <? 24) then
            (* Find closest time slot; x is not negative here *)
            let idx := Z.to_nat (Z.min (py_int (x * 2)) 47) in
            (* Show vertical line *)
            set_vline_overlay (mpl.line_set_xdata [x; x]);;
            set_vline_overlay (mpl.line_set_visible true);;
            (* Update markers for each device *)
            st_for_each ["laptop"; "smartphone"; "tablet"; "smartwatch"]%string
              (fun device =>
                 y_val ← st_lift (subscript2 (bandwidth_data self) device idx);
                 on_marker device (mpl.line_set_data [x] [y_val]);;
                 on_marker device (mpl.line_set_visible true));;
            (* Get bandwidth values *)
            total_ ← st_lift (get_total_bandwidth self);
            total ← st_lift (np_getitem total_ idx);
            laptop ← st_lift (subscript2 (bandwidth_data self) "laptop" idx);
            phone ← st_lift (subscript2 (bandwidth_data self) "smartphone" idx);
            tablet ← st_lift (subscript2 (bandwidth_data self) "tablet" idx);
            watch ← st_lift (subscript2 (bandwidth_data self) "smartwatch" idx);
            (* Format info text *)
            let time_str := (py_int x, py_int (py_mod x 1 * 60)) in
            activity ← st_lift (list_getitem activities idx);
            set_info_box_overlay
              (mpl.box_set_text
                 {| time_str := time_str;
                    shown_total := total;
                    shown_laptop := laptop;
                    shown_phone := phone;
                    shown_tablet := tablet;
                    shown_watch := watch;
                    shown_activity := activity |});;
            set_info_box_overlay (mpl.box_set_visible true)
          else _hide_overlay_elements
      | None => _hide_overlay_elements
      end
  | Some ax_bands =>
      (* Check if hovering over band chart *)
      match mpl.xdata event with
      | Some x =>
          if (0 <=? x) && (x <? 24) then
            (* Find closest time slot; x is not negative here *)
            let idx := Z.to_nat (Z.min (py_int (x * 2)) 47) in
            (* Show vertical line *)
            set_vline_bands (mpl.line_set_xdata [x; x]);;
            set_vline_bands (mpl.line_set_visible true);;
            (* Get WiFi band info *)
            band_24 ← st_lift (subscript2 (wifi_band_data self) "2.4GHz" idx);
            band_5 ← st_lift (subscript2 (wifi_band_data self) "5GHz" idx);
            band_6 ← st_lift (subscript2 (wifi_band_data self) "6GHz" idx);
            let total_bands := band_24 + band_5 + band_6 in
            (* Format info text *)
            let time_str := (py_int x, py_int (py_mod x 1 * 60)) in
            activity ← st_lift (list_getitem activities idx);
            set_info_box_bands
              (mpl.box_set_text
                 {| bands_time_str := time_str;
                    shown_total_bands := total_bands;
                    shown_band_24 := band_24;
                    shown_percent_24 := band_24 / total_bands * 100;
                    shown_band_5 := band_5;
                    shown_percent_5 := band_5 / total_bands * 100;
                    shown_band_6 := band_6;
                    shown_percent_6 := band_6 / total_bands * 100;
                    bands_activity := activity |});;
            set_info_box_bands (mpl.box_set_visible true)
          else _hide_bands_elements
      | None => _hide_bands_elements
      end
  | _ =>
      (* If not hovering over either chart, hide everything *)
      _hide_overlay_elements;;
      _hide_bands_elements
  end.

End V13.

(** ** Version 18: [CollegeStudentBandwidthModel_v18.py] *)

Module V18.

(** One row of the [device_config] DataFrame. *)
Record device_row : Type := {
  device : string;
  display_name : string;
  color : string;
  line_style : string;
  wifi_capability : string;
  max_bandwidth_mbps : Q;
  typical_usage_mbps : Q;
  power_mode : string;
  preferred_band : string;
  device_count : Z;
  enabled : bool
}.

(** The numeric columns of [timeseries_df] are kept, in column order;
    the text columns (time label, period, activity) are presentation. *)
Record model : Type := {
  hours : ndarray;
  device_config : list device_row;
  bandwidth_data : dict ndarray;
  wifi_band_data : dict ndarray;
  timeseries_df : dict ndarray
}.

Definition default_device_config : list device_row :=
  [ {| device := "laptop"; display_name := "Laptop"; color := "#4ECDC4";
       line_style := "-"; wifi_capability := "WiFi 6E";
       max_bandwidth_mbps := 100; typical_usage_mbps := 15;
       power_mode := "high"; preferred_band := "6GHz";
       device_count := 1; enabled := true |};
    {| device := "smartphone"; display_name := "Smartphone"; color := "#FF6B6B";
       line_style := "-"; wifi_capability := "WiFi 6E";
       max_bandwidth_mbps := 50; typical_usage_mbps := 8;
       power_mode := "medium"; preferred_band := "5GHz";
       device_count := 1; enabled := true |};
    {| device := "tablet"; display_name := "Tablet"; color := "#45B7D1";
       line_style := "-"; wifi_capability := "WiFi 6";
       max_bandwidth_mbps := 40; typical_usage_mbps := 5;
       power_mode := "medium"; preferred_band := "5GHz";
       device_count := 1; enabled := true |};
    {| device := "smartwatch"; display_name := "Smartwatch"; color := "#FFA07A";
       line_style := "--"; wifi_capability := "WiFi 4";
       max_bandwidth_mbps := 5; typical_usage_mbps := 0.2;
       power_mode := "low"; preferred_band := "2.4GHz";
       device_count := 1; enabled := true |} ].

Definition base_patterns : dict ndarray :=
  [ ("smartphone"%string,
     [1;0.5;0.3;0.2;0.2;0.3;2;3;5;4;8;12;10;8;5;3;2;1.5;1;1.5;2;5;10;8;12;15;8;4;3;2;3;2.5;2;1.5;3;4;5;8;10;12;8;6;10;12;8;10;8;6]);
    ("laptop"%string,
     [20;15;0.5;0.3;0.3;0.5;1;0.8;1;2;3;5;8;12;15;8;5;4;6;10;8;12;10;6;12;10;8;15;18;12;8;10;12;8;5;3;15;20;25;22;18;12;8;10;15;20;22;20]);
    ("tablet"%string,
     [1;2;1.5;1;0.5;0.5;0.3;0.2;0.2;0.3;1;2;3;2;1;0.5;0.3;2;3;2.5;2;3;2;1.5;2;3;4;3;2.5;2;1.5;1;0.5;0.3;2;4;3;5;8;10;6;4;2;3;8;12;10;8]);
    ("smartwatch"%string,
     [0.01;0.01;0.01;0.01;0.01;0.01;0.01;0.01;0.02;0.05;0.08;0.1;0.15;0.12;0.5;0.3;0.1;0.08;0.1;0.15;0.1;0.08;0.06;0.05;0.08;0.1;0.08;0.06;0.05;0.1;0.25;0.3;0.2;0.15;0.1;0.08;0.1;0.12;0.15;0.1;0.08;0.06;0.05;0.08;0.1;0.06;0.04;0.02]) ].

(** The body of [for _, device in self.device_config.iterrows()] in
    [_generate_bandwidth_data].  The local [device_name] is assigned in
    the enabled branch only, so the loop carries it: [None] while it is
    still unbound, and in the other branch whatever an earlier row left. *)
Definition bandwidth_row (row : device_row)
    (st : dict ndarray * option string)
    : result (dict ndarray * option string) :=
  let '(data, device_name) := st in
  if enabled row then
    let device_name := device row in
    let base_pattern :=
      default (np_scale (np_ones 48) (typical_usage_mbps row))
              (dict_get base_patterns device_name) in
    (* Scale by device count *)
    let scaled_pattern := np_scale base_pattern (inject_Z (device_count row)) in
    (* Clip to max bandwidth *)
    Ok (dict_set data device_name
          (np_clip scaled_pattern 0 (max_bandwidth_mbps row)),
        Some device_name)
  else
    match device_name with
    | Some name => Ok (dict_set data name (np_zeros 48), Some name)
    | None => Raise (UnboundLocalError "device_name")
    end.

Definition _generate_bandwidth_data (device_config : list device_row)
    : result (dict ndarray) :=
  st ← for_each device_config bandwidth_row ([], None);
  mret st.1.

(** The body of the inner loop of [_generate_wifi_band_data]. *)
Definition wifi_band_device (bandwidth_data : dict ndarray) (i : nat)
    (row : device_row) (band_data : dict ndarray) : result (dict ndarray) :=
  if negb (enabled row) then Ok band_data
  else
    let device_name := device row in
    bw ← subscript2 bandwidth_data device_name i;
    let preferred := preferred_band row in
    if String.eqb preferred "6GHz" && String.eqb (wifi_capability row) "WiFi 6E"
    then
      if bw >? 15 then iadd_at band_data "6GHz" i (Ok bw)
      else if bw >? 5 then iadd_at band_data "5GHz" i (Ok bw)
      else iadd_at band_data "2.4GHz" i (Ok bw)
    else if String.eqb preferred "5GHz" || String.eqb preferred "6GHz"
    then
      if bw >? 3 then iadd_at band_data "5GHz" i (Ok bw)
      else iadd_at band_data "2.4GHz" i (Ok bw)
    else iadd_at band_data "2.4GHz" i (Ok bw).

Definition _generate_wifi_band_data (device_config : list device_row)
    (bandwidth_data : dict ndarray) : result (dict ndarray) :=
  let band_data :=
    [ ("2.4GHz"%string, np_zeros 48);
      ("5GHz"%string, np_zeros 48);
      ("6GHz"%string, np_zeros 48) ] in
  for_each (range 48)
    (fun i band_data =>
       for_each device_config (wifi_band_device bandwidth_data i) band_data)
    band_data.

(** [df[name] = values]: the values must be as long as the index. *)
Definition df_setitem (index_len : nat) (df : dict ndarray) (name : string)
    (values : ndarray) : result (dict ndarray) :=
  if Nat.eqb (length values) index_len then Ok (dict_set df name values)
  else Raise (ValueError "Length of values does not match length of index").

(** [df[columns].sum(axis=1)]. *)
Definition df_row_sum (index_len : nat) (df : dict ndarray)
    (columns : list string) : result ndarray :=
  for_each columns
    (fun c acc => col ← dict_getitem df c; mret (zip_with Qplus acc col))
    (np_zeros index_len).

Definition device_columns : list string :=
  ["laptop"; "smartphone"; "tablet"; "smartwatch"]%string.
Definition band_columns : list string := ["2.4GHz"; "5GHz"; "6GHz"]%string.

Definition _create_timeseries_dataframe (hours : ndarray)
    (bandwidth_data wifi_band_data : dict ndarray) : result (dict ndarray) :=
  let n := length hours in
  let df := [("hour_decimal"%string, hours)] in
  (* Add device bandwidth columns *)
  df ← for_each device_columns
         (fun d df =>
            df_setitem n df (d +:+ "_mbps")
              (default (np_zeros 48) (dict_get bandwidth_data d)))
         df;
  (* Add WiFi band columns *)
  df ← for_each band_columns
         (fun band df =>
            col ← dict_getitem wifi_band_data band;
            df_setitem n df ("band_" +:+ band) col)
         df;
  (* Calculate totals *)
  total ← df_row_sum n df (map (fun d => d +:+ "_mbps") device_columns);
  df ← df_setitem n df "total_mbps" total;
  total_band ← df_row_sum n df (map (fun b => "band_" +:+ b) band_columns);
  df_setitem n df "total_band_mbps" total_band.

Definition __init__ : result model :=
  let hours := np_arange 0 24 0.5 in
  let device_config := default_device_config in
  bandwidth_data ← _generate_bandwidth_data device_config;
  wifi_band_data ← _generate_wifi_band_data device_config bandwidth_data;
  timeseries_df ← _create_timeseries_dataframe hours bandwidth_data wifi_band_data;
  mret {| hours := hours;
          device_config := device_config;
          bandwidth_data := bandwidth_data;
          wifi_band_data := wifi_band_data;
          timeseries_df := timeseries_df |}.

Definition get_total_bandwidth (self : model) : result ndarray :=
  total_over (hours self) (bandwidth_data self).

Record statistics : Type := {
  peak_bandwidth : Q;
  peak_time : Q;
  average_bandwidth : Q;
  total_daily_data_gb : Q;
  device_contributions : dict usage_stats;
  wifi_band_usage : dict usage_stats
}.

Definition get_statistics (self : model) : result statistics :=
  total ← get_total_bandwidth self;
  peak ← np_max total;
  at_peak ← np_argmax total;
  time ← np_getitem (hours self) at_peak;
  (* Device stats *)
  devices ← usage_table total (bandwidth_data self);
  (* WiFi band stats *)
  bands ← usage_table total (wifi_band_data self);
  mret {| peak_bandwidth := peak;
          peak_time := time;
          average_bandwidth := np_mean total;
          total_daily_data_gb := np_sum total * 0.5 * 3600 / (8 * 1024);
          device_contributions := devices;
          wifi_band_usage := bands |}.

(** *** Methods that assign attributes of [self]

    Such a method may raise after it has assigned some attributes, so it
    returns its outcome together with the object as the call leaves it. *)
Definition method (A : Type) : Type := model -> result A * model.

#[export] Instance method_ret : MRet method := fun A a self => (Ok a, self).
#[export] Instance method_bind : MBind method := fun A B f m self =>
  match m self with
  | (Ok a, self') => f a self'
  | (Raise e, self') => (Raise e, self')
  end.

Definition lift {A : Type} (r : result A) : method A := fun self => (r, self).
Definition get_self : method model := fun self => (Ok self, self).

Definition set_device_config (v : list device_row) : method unit :=
  fun self =>
    (Ok (), {| hours := hours self; device_config := v;
               bandwidth_data := bandwidth_data self;
               wifi_band_data := wifi_band_data self;
               timeseries_df := timeseries_df self |}).

Definition set_bandwidth_data (v : dict ndarray) : method unit :=
  fun self =>
    (Ok (), {| hours := hours self; device_config := device_config self;
               bandwidth_data := v;
               wifi_band_data := wifi_band_data self;
               timeseries_df := timeseries_df self |}).

Definition set_wifi_band_data (v : dict ndarray) : method unit :=
  fun self =>
    (Ok (), {| hours := hours self; device_config := device_config self;
               bandwidth_data := bandwidth_data self;
               wifi_band_data := v;
               timeseries_df := timeseries_df self |}).

Definition set_timeseries_df (v : dict ndarray) : method unit :=
  fun self =>
    (Ok (), {| hours := hours self; device_config := device_config self;
               bandwidth_data := bandwidth_data self;
               wifi_band_data := wifi_band_data self;
               timeseries_df := v |}).

(** The three assignments that follow every change of [device_config]:
    [self.bandwidth_data = self._generate_bandwidth_data()],
    [self.wifi_band_data = self._generate_wifi_band_data()],
    [self.timeseries_df = self._create_timeseries_dataframe()]. *)
Definition regenerate : method unit :=
  self ← get_self;
  data ← lift (_generate_bandwidth_data (device_config self));
  set_bandwidth_data data;;
  self ← get_self;
  bands ← lift (_generate_wifi_band_data (device_config self)
                  (bandwidth_data self));
  set_wifi_band_data bands;;
  self ← get_self;
  df ← lift (_create_timeseries_dataframe (hours self) (bandwidth_data self)
               (wifi_band_data self));
  set_timeseries_df df.

Section CsvImport.

(** pandas' CSV parser is not part of the repository: it is a
    parameter that turns the text of a file into device rows or
    raises.  The files are a finite map from names to contents. *)
Variable parse_device_csv : string -> result (list device_row).

Definition pd_read_csv (files : gmap string string) (filename : string)
    : result (list device_row) :=
  match files !! filename with
  | None => Raise (FileNotFoundError filename)
  | Some text => parse_device_csv text
  end.

Definition import_device_config (files : gmap string string)
    (filename : string) : method unit :=
  df ← lift (pd_read_csv files filename);
  set_device_config df;;
  (* Regenerate data with new config *)
  regenerate.

End CsvImport.

(** [df.at[idx, 'enabled']] and [df.at[idx, 'enabled'] = v] on the
    default integer index. *)
Definition at_enabled (df : list device_row) (idx : Z) : result bool :=
  if (idx <? 0)%Z then Raise (KeyError (pretty idx))
  else
    match df !! Z.to_nat idx with
    | Some row => Ok (enabled row)
    | None => Raise (KeyError (pretty idx))
    end.

Definition with_enabled (v : bool) (row : device_row) : device_row :=
  {| device := device row; display_name := display_name row;
     color := color row; line_style := line_style row;
     wifi_capability := wifi_capability row;
     max_bandwidth_mbps := max_bandwidth_mbps row;
     typical_usage_mbps := typical_usage_mbps row;
     power_mode := power_mode row; preferred_band := preferred_band row;
     device_count := device_count row; enabled := v |}.

Definition set_at_enabled (df : list device_row) (idx : nat) (v : bool)
    : list device_row :=
  alter (with_enabled v) idx df.

(** [enable_disable_device_menu(model)], with the number typed at the
    prompt as [device_num]. *)
Definition enable_disable_device_menu (device_num : Z) : method unit :=
  self ← get_self;
  if ((device_num =? 0) || (device_num >? Z.of_nat (length (device_config self))))%Z
  then mret ()
  else
    let device_idx := (device_num - 1)%Z in
    current_status ← lift (at_enabled (device_config self) device_idx);
    set_device_config
      (set_at_enabled (device_config self) (Z.to_nat device_idx)
         (negb current_status));;
    (* Regenerate data *)
    regenerate.

(** The [period] column of [timeseries_df]:
    [pd.cut(df['hour_decimal'], bins=[0, 6, 9, 12, 15, 18, 22, 24],
    labels=[...])]. *)
Definition period (hour_decimal : Q) : option string :=
  pd_cut hour_decimal [0; 6; 9; 12; 15; 18; 22; 24]
    ["Sleep"; "Morning"; "Classes"; "Midday"; "Afternoon"; "Evening";
     "Night"]%string.

Definition period_column (hours : ndarray) : list (option string) :=
  map period hours.

End V18.

(** ** numpy at machine precision: IEEE binary64

    The embedding above computes in exact rationals.  Where a property
    hangs on rounding, the code is read once more with the arithmetic numpy
    uses: [float] is binary64, a decimal literal of the source denotes the
    nearest binary64 number, as in Python, and [+], [-], [*] and [/] round
    to nearest, ties to even.  Dictionaries, results and loops are the ones
    above. *)

Module Binary64.

Abbreviation ndarray := (list float).

(** The number a binary64 value stands for; infinities and nan do not
    occur in this program and are sent to 0. *)
Definition to_Q (x : float) : Q :=
  match Prim2SF x with
  | S754_finite s m e =>
      (if s then -1 else 1) * inject_Z (Z.pos m) * 2 ^ e
  | _ => 0
  end.

(** [float(i)] for an index [i] of a loop. *)
Definition of_nat (i : nat) : float := of_uint63 (Uint63.of_Z (Z.of_nat i)).

Definition np_zeros (n : nat) : ndarray := replicate n 0%float.
Definition np_zeros_like (a : ndarray) : ndarray := np_zeros (length a).

(** [np.arange(start, stop, step)] for a positive step: the length is
    [ceil((stop - start) / step)], computed in binary64. *)
Definition np_arange (start stop step : float) : ndarray :=
  let n := Z.to_nat (Qceiling (to_Q ((stop - start) / step))) in
  map (fun i : nat => (start + of_nat i * step)%float) (seq 0 n).

Definition np_getitem (a : ndarray) (i : nat) : result float :=
  match a !! i with
  | Some x => Ok x
  | None => Raise (IndexError i)
  end.

Definition subscript2 (d : dict ndarray) (k : string) (i : nat) : result float :=
  a ← dict_getitem d k; np_getitem a i.

(** [d[k][i] += rhs] and [d[k][i] -= rhs], the target loaded first. *)
Definition iadd_at (d : dict ndarray) (k : string) (i : nat)
    (rhs : result float) : result (dict ndarray) :=
  a ← dict_getitem d k;
  x ← np_getitem a i;
  v ← rhs;
  mret (dict_set d k (<[i := (x + v)%float]> a)).

Definition isub_at (d : dict ndarray) (k : string) (i : nat)
    (rhs : result float) : result (dict ndarray) :=
  a ← dict_getitem d k;
  x ← np_getitem a i;
  v ← rhs;
  mret (dict_set d k (<[i := (x - v)%float]> a)).

(** [total += device] on arrays. *)
Definition np_iadd (total device : ndarray) : result ndarray :=
  if Nat.eqb (length device) (length total) then
    Ok (zip_with PrimFloat.add total device)
  else
    match device with
    | [x] => Ok (map (fun t => (t + x)%float) total)
    | _ => Raise (ValueError "operands could not be broadcast together")
    end.

Definition total_over (hours : ndarray) (bandwidth_data : dict ndarray)
    : result ndarray :=
  for_each (dict_values bandwidth_data)
    (fun device total => np_iadd total device)
    (np_zeros_like hours).

(** *** Version 8 at machine precision *)

Module V8.

Record model : Type := {
  hours : ndarray;
  bandwidth_data : dict ndarray;
  wifi_band_data : dict ndarray
}.

Definition smartphone : ndarray :=
  [ 1; 0.5; 0.3; 0.2; 0.2; 0.3; 2; 3; 5; 4; 8; 12;
    10; 8; 5; 3; 2; 1.5; 1; 1.5; 2; 5; 10; 8;
    12; 15; 8; 4; 3; 2; 3; 2.5; 2; 1.5; 3; 4;
    5; 8; 10; 12; 8; 6; 10; 12; 8; 10; 8; 6 ]%float.

Definition laptop : ndarray :=
  [ 20; 15; 0.5; 0.3; 0.3; 0.5; 1; 0.8; 1; 2; 3; 5;
    8; 12; 15; 8; 5; 4; 6; 10; 8; 12; 10; 6;
    12; 10; 8; 15; 18; 12; 8; 10; 12; 8; 5; 3;
    15; 20; 25; 22; 18; 12; 8; 10; 15; 20; 22; 20 ]%float.

Definition tablet : ndarray :=
  [ 1; 2; 1.5; 1; 0.5; 0.5; 0.3; 0.2; 0.2; 0.3; 1; 2;
    3; 2; 1; 0.5; 0.3; 2; 3; 2.5; 2; 3; 2; 1.5;
    2; 3; 4; 3; 2.5; 2; 1.5; 1; 0.5; 0.3; 2; 4;
    3; 5; 8; 10; 6; 4; 2; 3; 8; 12; 10; 8 ]%float.

Definition smartwatch : ndarray :=
  [ 0.01; 0.01; 0.01; 0.01; 0.01; 0.01; 0.01; 0.01; 0.02; 0.05; 0.08; 0.1;
    0.15; 0.12; 0.5; 0.3; 0.1; 0.08; 0.1; 0.15; 0.1; 0.08; 0.06; 0.05;
    0.08; 0.1; 0.08; 0.06; 0.05; 0.1; 0.25; 0.3; 0.2; 0.15; 0.1; 0.08;
    0.1; 0.12; 0.15; 0.1; 0.08; 0.06; 0.05; 0.08; 0.1; 0.06; 0.04; 0.02 ]%float.

Definition _generate_bandwidth_data : dict ndarray :=
  let data := [] in
  let data := dict_set data "smartphone" smartphone in
  let data := dict_set data "laptop" laptop in
  let data := dict_set data "tablet" tablet in
  let data := dict_set data "smartwatch" smartwatch in
  data.

(** The body of [for i in range(48)] in [_generate_wifi_band_data]. *)
Definition wifi_band_slot (bandwidth_data : dict ndarray) (i : nat)
    (band_data : dict ndarray) : result (dict ndarray) :=
  let hour := (of_nat i / 2.0)%float in
  (* Smartwatch always on 2.4GHz *)
  band_data ← iadd_at band_data "2.4GHz" i
                (subscript2 bandwidth_data "smartwatch" i);
  (* Smartphone: 5GHz most of the time, 6GHz for heavy usage *)
  phone_bw ← subscript2 bandwidth_data "smartphone" i;
  band_data ← (if (8 <? phone_bw)%float
               then iadd_at band_data "6GHz" i (Ok phone_bw)
               else iadd_at band_data "5GHz" i (Ok phone_bw));
  (* Laptop: prefers 6GHz for high bandwidth, 5GHz otherwise *)
  laptop_bw ← subscript2 bandwidth_data "laptop" i;
  band_data ← (if (15 <? laptop_bw)%float
               then iadd_at band_data "6GHz" i (Ok laptop_bw)
               else if (5 <? laptop_bw)%float
               then iadd_at band_data "5GHz" i (Ok laptop_bw)
               else iadd_at band_data "2.4GHz" i (Ok laptop_bw));
  (* Tablet: 5GHz, uses 2.4GHz when idle *)
  tablet_bw ← subscript2 bandwidth_data "tablet" i;
  band_data ← (if (3 <? tablet_bw)%float
               then iadd_at band_data "5GHz" i (Ok tablet_bw)
               else iadd_at band_data "2.4GHz" i (Ok tablet_bw));
  (* During gym time (15:00-16:00) move the phone from 5GHz to 2.4GHz *)
  if (15 <=? hour)%float && (hour <? 16)%float then
    if (phone_bw <=? 8)%float then
      band_data ← isub_at band_data "5GHz" i (Ok phone_bw);
      iadd_at band_data "2.4GHz" i (Ok phone_bw)
    else Ok band_data
  else Ok band_data.

Definition _generate_wifi_band_data (bandwidth_data : dict ndarray)
    : result (dict ndarray) :=
  let band_data :=
    [ ("2.4GHz"%string, np_zeros 48);
      ("5GHz"%string, np_zeros 48);
      ("6GHz"%string, np_zeros 48) ] in
  for_each (range 48) (wifi_band_slot bandwidth_data) band_data.

Definition __init__ : result model :=
  let bandwidth_data := _generate_bandwidth_data in
  wifi_band_data ← _generate_wifi_band_data bandwidth_data;
  mret {| hours := np_arange 0 24 0.5;
          bandwidth_data := bandwidth_data;
          wifi_band_data := wifi_band_data |}.

Definition get_total_bandwidth (self : model) : result ndarray :=
  total_over (hours self) (bandwidth_data self).

End V8.

(** The two sides of the conservation property at slot [i], each added up
    from left to right as an expression of the program would be. *)
Definition band_sum (wifi_band_data : dict ndarray) (i : nat) : result float :=
  b24 ← subscript2 wifi_band_data "2.4GHz" i;
  b5 ← subscript2 wifi_band_data "5GHz" i;
  b6 ← subscript2 wifi_band_data "6GHz" i;
  mret (b24 + b5 + b6)%float.

Definition device_sum (bandwidth_data : dict ndarray) (i : nat) : result float :=
  l ← subscript2 bandwidth_data "laptop" i;
  p ← subscript2 bandwidth_data "smartphone" i;
  t ← subscript2 bandwidth_data "tablet" i;
  w ← subscript2 bandwidth_data "smartwatch" i;
  mret (l + p + t + w)%float.

End Binary64.

(** ** Vocabulary of the properties *)

Inductive band : Type := GHz2_4 | GHz5 | GHz6.

#[export] Instance band_eq_dec : EqDecision band.
Proof. solve_decision. Defined.

Definition band_key (b : band) : string :=
  match b with
  | GHz2_4 => "2.4GHz"
  | GHz5 => "5GHz"
  | GHz6 => "6GHz"
  end.

(** The part of [x] that lands on band [b] when all of it goes to [target]. *)
Definition share (b target : band) (x : Q) : Q :=
  if decide (b = target) then x else 0.

(** [d[k][i]] as a number, for statements about tables whose entries are
    known to exist. *)
Definition reading (d : dict ndarray) (k : string) (i : nat) : Q :=
  match subscript2 d k i with
  | Ok x => x
  | Raise _ => 0
  end.

(** The four series are present and cover the 48 slots. *)
Definition covers_day (bandwidth_data : dict ndarray) (name : string) : Prop :=
  exists a : ndarray, dict_get bandwidth_data name = Some a /\ (48 <= length a)%nat.

Definition well_formed (bandwidth_data : dict ndarray) : Prop :=
  covers_day bandwidth_data "smartwatch" /\
  covers_day bandwidth_data "smartphone" /\
  covers_day bandwidth_data "laptop" /\
  covers_day bandwidth_data "tablet".

(** The gym hour of v8 and v13: [15 <= i / 2.0 < 16]. *)
Definition gym_hour (i : nat) : bool :=
  let hour := inject_Z (Z.of_nat i) / 2.0 in
  (15 <=? hour) && (hour <? 16).

(** The band each rule picks for a bandwidth value. *)
Definition laptop_band (bw : Q) : band :=
  if bw >? 15 then GHz6 else if bw >? 5 then GHz5 else GHz2_4.

Definition tablet_band (bw : Q) : band :=
  if bw >? 3 then GHz5 else GHz2_4.

(** Smartphone in v8 and v13, with the gym-hour move. *)
Definition phone_band (i : nat) (bw : Q) : band :=
  if bw >? 8 then GHz6 else if gym_hour i then GHz2_4 else GHz5.

(** The band v18 picks for a device row. *)
Definition row_band (row : V18.device_row) (bw : Q) : band :=
  if String.eqb (V18.preferred_band row) "6GHz"
     && String.eqb (V18.wifi_capability row) "WiFi 6E"
  then laptop_band bw
  else if String.eqb (V18.preferred_band row) "5GHz"
          || String.eqb (V18.preferred_band row) "6GHz"
  then tablet_band bw
  else GHz2_4.

(** Entry [(b, i)] of the v8/v13 band table, as a sum of shares. *)
Definition table_v8 (bandwidth_data : dict ndarray) (b : band) (i : nat) : Q :=
  let w := reading bandwidth_data "smartwatch" i in
  let p := reading bandwidth_data "smartphone" i in
  let l := reading bandwidth_data "laptop" i in
  let t := reading bandwidth_data "tablet" i in
  share b GHz2_4 w + share b (phone_band i p) p
  + share b (laptop_band l) l + share b (tablet_band t) t.

(** Entry [(b, i)] of the v18 band table for a device configuration. *)
Fixpoint table_v18 (device_config : list V18.device_row)
    (bandwidth_data : dict ndarray) (b : band) (i : nat) : Q :=
  match device_config with
  | [] => 0
  | row :: rows =>
      (if V18.enabled row then
         let bw := reading bandwidth_data (V18.device row) i in
         share b (row_band row bw) bw
       else 0)
      + table_v18 rows bandwidth_data b i
  end.

(** *** Conservation (sum of the bands against sum of the devices) *)

Definition band_sum (wifi_band_data : dict ndarray) (i : nat) : result Q :=
  b24 ← subscript2 wifi_band_data "2.4GHz" i;
  b5 ← subscript2 wifi_band_data "5GHz" i;
  b6 ← subscript2 wifi_band_data "6GHz" i;
  mret (b24 + b5 + b6).

Definition device_sum (bandwidth_data : dict ndarray) (i : nat) : result Q :=
  l ← subscript2 bandwidth_data "laptop" i;
  p ← subscript2 bandwidth_data "smartphone" i;
  t ← subscript2 bandwidth_data "tablet" i;
  w ← subscript2 bandwidth_data "smartwatch" i;
  mret (l + p + t + w).

Definition conserves (wifi_band_data bandwidth_data : dict ndarray)
    (total : result ndarray) (i : nat) : Prop :=
  exists bands devices tot : Q,
    band_sum wifi_band_data i = Ok bands /\
    device_sum bandwidth_data i = Ok devices /\
    (t ← total; np_getitem t i) = Ok tot /\
    bands == devices /\ devices == tot.

(** *** What one device adds to the table

    The table is computed twice, from the data as it is and from the data
    with one device's series replaced by zeros; the difference at an entry
    is what the device added there. *)

Definition without (bandwidth_data : dict ndarray) (name : string) : dict ndarray :=
  dict_set bandwidth_data name (np_zeros 48).

Definition adds (table : dict ndarray -> result (dict ndarray))
    (bandwidth_data : dict ndarray) (name : string) (b : band) (i : nat)
    (amount : Q) : Prop :=
  exists (t t0 : dict ndarray) (v v0 : Q),
    table bandwidth_data = Ok t /\
    table (without bandwidth_data name) = Ok t0 /\
    subscript2 t (band_key b) i = Ok v /\
    subscript2 t0 (band_key b) i = Ok v0 /\
    v - v0 == amount.

(** All of [x] goes to band [target] and nothing to the other two. *)
Definition added_to (table : dict ndarray -> result (dict ndarray))
    (bandwidth_data : dict ndarray) (name : string) (target : band)
    (i : nat) (x : Q) : Prop :=
  forall b : band, adds table bandwidth_data name b i (share b target x).

Definition laptop_rule (table : dict ndarray -> result (dict ndarray))
    (bandwidth_data : dict ndarray) (i : nat) : Prop :=
  exists l : Q,
    subscript2 bandwidth_data "laptop" i = Ok l /\
    (15 < l -> added_to table bandwidth_data "laptop" GHz6 i l) /\
    (5 < l /\ l <= 15 -> added_to table bandwidth_data "laptop" GHz5 i l) /\
    (l <= 5 -> added_to table bandwidth_data "laptop" GHz2_4 i l).

(** The smartphone's share of the finished table, the gym hour set apart. *)
Definition smartphone_rule (table : dict ndarray -> result (dict ndarray))
    (bandwidth_data : dict ndarray) (i : nat) : Prop :=
  exists p : Q,
    subscript2 bandwidth_data "smartphone" i = Ok p /\
    (8 < p -> added_to table bandwidth_data "smartphone" GHz6 i p) /\
    (p <= 8 /\ i <> 30%nat /\ i <> 31%nat ->
       added_to table bandwidth_data "smartphone" GHz5 i p) /\
    (p <= 8 /\ (i = 30%nat \/ i = 31%nat) ->
       added_to table bandwidth_data "smartphone" GHz2_4 i p).

(** *** Agreement of two band tables *)

Definition same_entry (t1 t2 : dict ndarray) (b : band) (i : nat) : Prop :=
  exists v1 v2 : Q,
    subscript2 t1 (band_key b) i = Ok v1 /\
    subscript2 t2 (band_key b) i = Ok v2 /\
    v1 == v2.

(** Agreement once a stated share is taken out of each entry. *)
Definition same_entry_besides (t1 t2 : dict ndarray) (b : band) (i : nat)
    (s1 s2 : Q) : Prop :=
  exists v1 v2 : Q,
    subscript2 t1 (band_key b) i = Ok v1 /\
    subscript2 t2 (band_key b) i = Ok v2 /\
    v1 - s1 == v2 - s2.

(** *** The state of the three bands at one slot, and framing *)

(** The three band arrays hold, at slot [i], numbers equal to [x]. *)
Definition state_at (d : dict ndarray) (i : nat) (x : band -> Q) : Prop :=
  forall b : band, exists y : Q, subscript2 d (band_key b) i = Ok y /\ y == x b.

(** [d'] differs from [d] at slot [i] only. *)
Definition frame (d d' : dict ndarray) (i : nat) : Prop :=
  forall (k : string) (j : nat), j <> i -> subscript2 d' k j = subscript2 d k j.

(** The band table [t] is the closed form [f] on the first [n] slots and
    still zero on the rest of the day. *)
Definition filled (f : band -> nat -> Q) (n : nat) (t : dict ndarray) : Prop :=
  forall (b : band) (j : nat), (j < 48)%nat ->
    exists y : Q,
      subscript2 t (band_key b) j = Ok y /\
      y == (if decide (j < n)%nat then f b j else 0).

(** *** Statistics as the specification words them *)

(** Total bandwidth at slot [i]: the pointwise sum of the four series. *)
Definition total_at (bandwidth_data : dict ndarray) (i : nat) : Q :=
  reading bandwidth_data "laptop" i + reading bandwidth_data "smartphone" i
  + reading bandwidth_data "tablet" i + reading bandwidth_data "smartwatch" i.

Definition sum_list (l : list Q) : Q := fold_right Qplus 0 l.

Definition sum_over_slots (n : nat) (f : nat -> Q) : Q :=
  sum_list (map f (seq 0 n)).

Definition maximum_over_slots (n : nat) (f : nat -> Q) (m : Q) : Prop :=
  (forall i : nat, (i < n)%nat -> f i <= m) /\
  (exists i : nat, (i < n)%nat /\ m == f i).

Definition stated_aggregates (bandwidth_data : dict ndarray)
    (peak average daily_gb : Q) : Prop :=
  maximum_over_slots 48 (total_at bandwidth_data) peak /\
  average == sum_over_slots 48 (total_at bandwidth_data) / 48 /\
  daily_gb ==
    sum_over_slots 48 (total_at bandwidth_data) * (0.5 * 3600) / (8 * 1024).

Definition percentages (table : dict usage_stats) : list Q :=
  map percentage_of_total (dict_values table).

(** *** The shape of the data *)

Definition half_hours : list Q :=
  [ 0.0; 0.5; 1.0; 1.5; 2.0; 2.5; 3.0; 3.5; 4.0; 4.5; 5.0; 5.5;
    6.0; 6.5; 7.0; 7.5; 8.0; 8.5; 9.0; 9.5; 10.0; 10.5; 11.0; 11.5;
    12.0; 12.5; 13.0; 13.5; 14.0; 14.5; 15.0; 15.5; 16.0; 16.5; 17.0; 17.5;
    18.0; 18.5; 19.0; 19.5; 20.0; 20.5; 21.0; 21.5; 22.0; 22.5; 23.0; 23.5 ].

Definition device_names : list string :=
  ["laptop"; "smartphone"; "tablet"; "smartwatch"]%string.

Definition band_names : list string := ["2.4GHz"; "5GHz"; "6GHz"]%string.

(** [d] has exactly the keys [names], each mapped to a 48-element series. *)
Definition day_table (names : list string) (d : dict ndarray) : Prop :=
  dict_keys d ≡ₚ names /\ Forall (fun a : ndarray => length a = 48%nat) (dict_values d).

Definition day_axis (hours : ndarray) : Prop :=
  length hours = 48%nat /\ Forall2 Qeq hours half_hours.

(** *** Side conditions of the general statements *)

(** Every enabled row of the configuration has a series that covers the
    day. *)
Definition rows_covered (device_config : list V18.device_row)
    (bandwidth_data : dict ndarray) : Prop :=
  Forall (fun row => V18.enabled row = true ->
                     covers_day bandwidth_data (V18.device row))
         device_config.

(** Exactly the four device series, 48 slots each. *)
Definition four_series (bandwidth_data : dict ndarray) : Prop :=
  exists l p t w : ndarray,
    dict_get bandwidth_data "laptop" = Some l /\
    dict_get bandwidth_data "smartphone" = Some p /\
    dict_get bandwidth_data "tablet" = Some t /\
    dict_get bandwidth_data "smartwatch" = Some w /\
    dict_values bandwidth_data ≡ₚ [l; p; t; w] /\
    length l = 48%nat /\ length p = 48%nat /\
    length t = 48%nat /\ length w = 48%nat.

(** *** The v18 model between calls *)

(** The sum over the enabled rows of a configuration of what each row's
    device uses at slot [i]. *)
Fixpoint enabled_sum (device_config : list V18.device_row)
    (bandwidth_data : dict ndarray) (i : nat) : Q :=
  match device_config with
  | [] => 0
  | row :: rows =>
      (if V18.enabled row then reading bandwidth_data (V18.device row) i else 0)
      + enabled_sum rows bandwidth_data i
  end.

(** Some enabled row of the configuration can reach 6GHz at slot [i]: it
    prefers 6GHz, is a WiFi 6E device and uses more than 15 Mbps there. *)
Definition reaches_6GHz (device_config : list V18.device_row)
    (bandwidth_data : dict ndarray) (i : nat) : Prop :=
  exists row : V18.device_row,
    row ∈ device_config /\ V18.enabled row = true /\
    V18.preferred_band row = "6GHz"%string /\
    V18.wifi_capability row = "WiFi 6E"%string /\
    15 < reading bandwidth_data (V18.device row) i.

(** The derived attributes are those the three assignments after a change
    of [device_config] would compute again. *)
Definition consistent (self : V18.model) : Prop :=
  V18.regenerate self = (Ok (), self).

(** Keys and lengths of a dictionary of arrays. *)
Definition shape (d : dict ndarray) : list (string * nat) :=
  map (fun kv : string * ndarray => (kv.1, length kv.2)) d.

Definition band_shape : list (string * nat) :=
  [("2.4GHz"%string, 48%nat); ("5GHz"%string, 48%nat); ("6GHz"%string, 48%nat)].

(** *** The device series of v18 *)

(** The series an enabled row writes: 48 entries, clipped to the row's
    maximum. *)
Definition row_series (row : V18.device_row) : ndarray :=
  np_clip
    (np_scale
       (default (np_scale (np_ones 48) (V18.typical_usage_mbps row))
                (dict_get V18.base_patterns (V18.device row)))
       (inject_Z (V18.device_count row)))
    0 (V18.max_bandwidth_mbps row).

(** Every series of [data] has 48 entries and belongs to an enabled row of
    [rows], within that row's bounds when its maximum is not negative. *)
Definition series_within (rows : list V18.device_row) (data : dict ndarray)
    : Prop :=
  forall (k : string) (a : ndarray),
    dict_get data k = Some a ->
    length a = 48%nat /\
    exists row : V18.device_row,
      row ∈ rows /\ V18.enabled row = true /\ V18.device row = k /\
      (0 <= V18.max_bandwidth_mbps row ->
       Forall (fun x => 0 <= x <= V18.max_bandwidth_mbps row) a).

(** *** What the hover handlers show

    The text a handler writes for the slot [idx] when the total there is
    [total] and the activity is [activity]. *)

Definition hover_text_baseline (self : Baseline.model) (x : Q) (idx : nat)
    (total : Q) (activity : string) : Baseline.hover_text :=
  {| Baseline.time_str := (py_int x, py_int (py_mod x 1 * 60));
     Baseline.shown_total := total;
     Baseline.shown_phone := reading (Baseline.bandwidth_data self) "smartphone" idx;
     Baseline.shown_laptop := reading (Baseline.bandwidth_data self) "laptop" idx;
     Baseline.shown_tablet := reading (Baseline.bandwidth_data self) "tablet" idx;
     Baseline.shown_watch := reading (Baseline.bandwidth_data self) "smartwatch" idx;
     Baseline.shown_activity := activity |}.

Definition hover_text_v8 (self : V8.model) (x : Q) (idx : nat) (total : Q)
    (activity : string) : V8.hover_text :=
  {| V8.time_str := (py_int x, py_int (py_mod x 1 * 60));
     V8.shown_total := total;
     V8.shown_phone := reading (V8.bandwidth_data self) "smartphone" idx;
     V8.shown_laptop := reading (V8.bandwidth_data self) "laptop" idx;
     V8.shown_tablet := reading (V8.bandwidth_data self) "tablet" idx;
     V8.shown_watch := reading (V8.bandwidth_data self) "smartwatch" idx;
     V8.shown_band_24 := reading (V8.wifi_band_data self) "2.4GHz" idx;
     V8.shown_band_5 := reading (V8.wifi_band_data self) "5GHz" idx;
     V8.shown_band_6 := reading (V8.wifi_band_data self) "6GHz" idx;
     V8.shown_activity := activity |}.

Definition bands_text_v13 (self : V13.model) (x : Q) (idx : nat)
    (activity : string) : V13.bands_text :=
  let band_24 := reading (V13.wifi_band_data self) "2.4GHz" idx in
  let band_5 := reading (V13.wifi_band_data self) "5GHz" idx in
  let band_6 := reading (V13.wifi_band_data self) "6GHz" idx in
  let total_bands := band_24 + band_5 + band_6 in
  {| V13.bands_time_str := (py_int x, py_int (py_mod x 1 * 60));
     V13.shown_total_bands := total_bands;
     V13.shown_band_24 := band_24;
     V13.shown_percent_24 := band_24 / total_bands * 100;
     V13.shown_band_5 := band_5;
     V13.shown_percent_5 := band_5 / total_bands * 100;
     V13.shown_band_6 := band_6;
     V13.shown_percent_6 := band_6 / total_bands * 100;
     V13.bands_activity := activity |}.

(** *** What one statement adds to the table *)

(** The band table as the loop over the day starts. *)
Definition fresh_bands : dict ndarray :=
  [ ("2.4GHz"%string, np_zeros 48);
    ("5GHz"%string, np_zeros 48);
    ("6GHz"%string, np_zeros 48) ].

(** [after] is [before] with [x] added to entry [(b, i)], every other
    entry being as it was. *)
Definition adds_to_entry (before after : dict ndarray) (b : band) (i : nat)
    (x : Q) : Prop :=
  (exists v : Q,
     subscript2 before (band_key b) i = Ok v /\
     subscript2 after (band_key b) i = Ok (v + x)) /\
  forall (k : string) (j : nat),
    k <> band_key b \/ j <> i -> subscript2 after k j = subscript2 before k j.

Section SmartphoneStatement.

(** The loop body of a version and its statements. *)
Variable slot : dict ndarray -> nat -> dict ndarray -> result (dict ndarray).
Variable smartwatch_statement :
  dict ndarray -> nat -> dict ndarray -> result (dict ndarray).
Variable smartphone_statement :
  Q -> nat -> dict ndarray -> result (dict ndarray).
Variable after_smartphone :
  dict ndarray -> nat -> Q -> dict ndarray -> result (dict ndarray).

(** Iteration [i] of the loop as it runs.  The iterations before it leave
    the table [start]; the smartwatch line makes it [before]; the
    smartphone statement, with [p] the smartphone's bandwidth of the slot,
    makes it [after]; the rest of the body makes it [finish], which is
    what the whole body returns.  The smartphone statement adds [p] to the
    6GHz entry of the slot when [p] exceeds 8 and to the 5GHz entry
    otherwise, and touches nothing else. *)
Definition smartphone_statement_rule (bandwidth_data : dict ndarray) (i : nat)
    : Prop :=
  exists (start before after finish : dict ndarray) (p : Q),
    for_each (range i) (slot bandwidth_data) fresh_bands = Ok start /\
    smartwatch_statement bandwidth_data i start = Ok before /\
    subscript2 bandwidth_data "smartphone" i = Ok p /\
    smartphone_statement p i before = Ok after /\
    after_smartphone bandwidth_data i p after = Ok finish /\
    slot bandwidth_data i start = Ok finish /\
    (8 < p -> adds_to_entry before after GHz6 i p) /\
    (p <= 8 -> adds_to_entry before after GHz5 i p).

End SmartphoneStatement.

(** *** Conservation at machine precision *)

(** The conservation property at slot [i] as the program could test it
    with [==]: the sum of the three bands, the sum of the four devices and
    entry [i] of the total are equal binary64 numbers. *)
Definition conserves_in_binary64
    (wifi_band_data bandwidth_data : dict Binary64.ndarray)
    (total : result Binary64.ndarray) (i : nat) : bool :=
  match Binary64.band_sum wifi_band_data i,
        Binary64.device_sum bandwidth_data i,
        (t ← total; Binary64.np_getitem t i) with
  | Ok bands, Ok devices, Ok tot =>
      (bands =? devices)%float && (devices =? tot)%float
  | _, _, _ => false
  end.

(** *** Statistics over whatever series there are *)

(** Total bandwidth at slot [i] as [get_total_bandwidth] adds it up: over
    every series of [bandwidth_data], whichever they are. *)
Definition total_of_series (bandwidth_data : dict ndarray) (i : nat) : Q :=
  sum_list (map (fun a : ndarray => nth i a 0) (dict_values bandwidth_data)).

(** The three aggregates of a day whose total at slot [i] is [total i]. *)
Definition aggregates (total : nat -> Q) (peak average daily_gb : Q) : Prop :=
  maximum_over_slots 48 total peak /\
  average == sum_over_slots 48 total / 48 /\
  daily_gb == sum_over_slots 48 total * (0.5 * 3600) / (8 * 1024).

(** *** A configuration of v18 with a fifth device *)

(** The default rows and one more.  A games console is not among the base
    patterns, so its series is its typical usage, 10 Mbps, all day. *)
Definition five_devices : list V18.device_row :=
  V18.default_device_config ++
  [ {| V18.device := "console"; V18.display_name := "Console";
       V18.color := "#9B59B6"; V18.line_style := "-";
       V18.wifi_capability := "WiFi 6";
       V18.max_bandwidth_mbps := 100; V18.typical_usage_mbps := 10;
       V18.power_mode := "high"; V18.preferred_band := "5GHz";
       V18.device_count := 1; V18.enabled := true |} ].

(** The file a user gets who exports the default configuration and adds a
    line for the console, a file system that holds it, and a parser that
    reads it as those rows.  (What pandas makes of any other text is not
    needed.) *)
Definition five_devices_text : string :=
  "device,display_name,color,line_style,wifi_capability,max_bandwidth_mbps,typical_usage_mbps,power_mode,preferred_band,device_count,enabled"
  +:+ nl +:+ "laptop,Laptop,#4ECDC4,-,WiFi 6E,100,15.0,high,6GHz,1,True"
  +:+ nl +:+ "smartphone,Smartphone,#FF6B6B,-,WiFi 6E,50,8.0,medium,5GHz,1,True"
  +:+ nl +:+ "tablet,Tablet,#45B7D1,-,WiFi 6,40,5.0,medium,5GHz,1,True"
  +:+ nl +:+ "smartwatch,Smartwatch,#FFA07A,--,WiFi 4,5,0.2,low,2.4GHz,1,True"
  +:+ nl +:+ "console,Console,#9B59B6,-,WiFi 6,100,10.0,high,5GHz,1,True"
  +:+ nl.

Definition five_devices_files : gmap string string :=
  {["five_devices.csv" := five_devices_text]}.

Definition read_five_devices (text : string)
    : result (list V18.device_row) :=
  if String.eqb text five_devices_text then Ok five_devices
  else Raise (ParserError "another file").

(** A file with the header line alone, which parses to no rows. *)
Definition no_devices_text : string :=
  "device,display_name,color,line_style,wifi_capability,max_bandwidth_mbps,typical_usage_mbps,power_mode,preferred_band,device_count,enabled"
  +:+ nl.

Definition no_devices_files : gmap string string :=
  {["no_devices.csv" := no_devices_text]}.

Definition read_no_devices (text : string) : result (list V18.device_row) :=
  if String.eqb text no_devices_text then Ok []
  else Raise (ParserError "another file").

(** * Proofs *)

(** ** Results *)

Lemma bind_ok {A B : Type} (m : result A) (f : A -> result B) (b : B) :
  (m ≫= f) = Ok b -> exists a, m = Ok a /\ f a = Ok b.
Proof. destruct m as [a|e]; [eauto | discriminate]. Qed.

(** ** Dictionaries *)

Lemma dict_get_set_eq {V : Type} (d : dict V) (k : string) (v : V) :
  dict_get (dict_set d k v) k = Some v.
Proof.
  induction d as [|[k' v'] d IH]; simpl.
  - by rewrite String.eqb_refl.
  - destruct (String.eqb k' k) eqn:E; simpl; rewrite E; [done | exact IH].
Qed.

Lemma dict_get_set_ne {V : Type} (d : dict V) (k k' : string) (v : V) :
  k <> k' -> dict_get (dict_set d k v) k' = dict_get d k'.
Proof.
  intros Hne. induction d as [|[k0 v0] d IH]; simpl.
  - destruct (String.eqb k k') eqn:E; [|done].
    apply String.eqb_eq in E. contradiction.
  - destruct (String.eqb k0 k) eqn:E; simpl.
    + apply String.eqb_eq in E. subst k0.
      destruct (String.eqb k k') eqn:E'; [|done].
      apply String.eqb_eq in E'. contradiction.
    + by rewrite IH.
Qed.

(** ** Arrays *)

Lemma np_getitem_ok (a : ndarray) (i : nat) (x : Q) :
  np_getitem a i = Ok x <-> a !! i = Some x.
Proof.
  unfold np_getitem. destruct (a !! i); split; intros H; congruence.
Qed.

Lemma subscript2_ok (d : dict ndarray) (k : string) (i : nat) (x : Q) :
  subscript2 d k i = Ok x <->
  exists a, dict_get d k = Some a /\ a !! i = Some x.
Proof.
  unfold subscript2, dict_getitem. split.
  - destruct (dict_get d k) as [a|]; simpl; [|discriminate].
    intros H%np_getitem_ok. eauto.
  - intros (a & -> & H). simpl. by apply np_getitem_ok.
Qed.

Lemma covers_day_subscript (d : dict ndarray) (k : string) (i : nat) :
  covers_day d k -> (i < 48)%nat -> exists x, subscript2 d k i = Ok x.
Proof.
  intros (a & Ha & Hlen) Hi.
  destruct (lookup_lt_is_Some_2 a i) as [x Hx]; [lia|].
  exists x. apply subscript2_ok. eauto.
Qed.

Lemma reading_ok (d : dict ndarray) (k : string) (i : nat) (x : Q) :
  subscript2 d k i = Ok x -> reading d k i = x.
Proof. unfold reading. by intros ->. Qed.

(** ** In-place updates of one band *)

Lemma bind_Ok {A B : Type} (a : A) (f : A -> result B) : (Ok a ≫= f) = f a.
Proof. reflexivity. Qed.

Lemma band_key_inj (b b' : band) : band_key b = band_key b' -> b = b'.
Proof. destruct b, b'; simpl; congruence. Qed.

Lemma update_at_step (op : Q -> Q -> Q) (d : dict ndarray) (k : string)
    (i : nat) (x v : Q) :
  subscript2 d k i = Ok x ->
  exists a, dict_get d k = Some a /\ a !! i = Some x /\
    subscript2 (dict_set d k (<[i := op x v]> a)) k i = Ok (op x v) /\
    (forall k' j, k' <> k ->
       subscript2 (dict_set d k (<[i := op x v]> a)) k' j = subscript2 d k' j) /\
    (forall j, j <> i ->
       subscript2 (dict_set d k (<[i := op x v]> a)) k j = subscript2 d k j).
Proof.
  intros (a & Ha & Hx)%subscript2_ok. exists a. split; [done|]. split; [done|].
  split; [|split].
  - apply subscript2_ok. exists (<[i := op x v]> a).
    rewrite dict_get_set_eq. split; [done|].
    apply list_lookup_insert_eq. by eapply lookup_lt_Some.
  - intros k' j Hk. unfold subscript2, dict_getitem.
    by rewrite dict_get_set_ne.
  - intros j Hj. unfold subscript2, dict_getitem.
    rewrite dict_get_set_eq, Ha. rewrite !bind_Ok. unfold np_getitem.
    by rewrite list_lookup_insert_ne.
Qed.

Lemma state_at_equiv (d : dict ndarray) (i : nat) (x y : band -> Q) :
  state_at d i x -> (forall b, x b == y b) -> state_at d i y.
Proof.
  intros H E b. destruct (H b) as (v & Hv & Hx).
  exists v. split; [done|]. by rewrite Hx.
Qed.

Lemma frame_refl (d : dict ndarray) (i : nat) : frame d d i.
Proof. by intros k j _. Qed.

Lemma frame_trans (d1 d2 d3 : dict ndarray) (i : nat) :
  frame d1 d2 i -> frame d2 d3 i -> frame d1 d3 i.
Proof. intros H12 H23 k j Hj. by rewrite H23, H12. Qed.

Lemma iadd_band (d : dict ndarray) (target : band) (i : nat) (v : Q)
    (x : band -> Q) :
  state_at d i x ->
  exists d', iadd_at d (band_key target) i (Ok v) = Ok d' /\
    state_at d' i (fun b => x b + share b target v) /\ frame d d' i.
Proof.
  intros Hst. destruct (Hst target) as (y & Hy & Ey).
  destruct (update_at_step Qplus d (band_key target) i y v Hy)
    as (a & Ha & Hi & Hsame & Hother & Hframe).
  exists (dict_set d (band_key target) (<[i := y + v]> a)). split; [|split].
  - unfold iadd_at, dict_getitem. rewrite Ha. simpl.
    unfold np_getitem. by rewrite Hi.
  - intros b. unfold share. destruct (decide (b = target)) as [->|Hne].
    + exists (y + v). split; [done|]. by rewrite Ey.
    + destruct (Hst b) as (z & Hz & Ez). exists z. split.
      * rewrite Hother; [done|]. intros E. by apply band_key_inj in E.
      * rewrite Ez. ring.
  - intros k j Hj. destruct (decide (k = band_key target)) as [->|Hk].
    + by apply Hframe.
    + by apply Hother.
Qed.

Lemma isub_band (d : dict ndarray) (target : band) (i : nat) (v : Q)
    (x : band -> Q) :
  state_at d i x ->
  exists d', isub_at d (band_key target) i (Ok v) = Ok d' /\
    state_at d' i (fun b => x b - share b target v) /\ frame d d' i.
Proof.
  intros Hst. destruct (Hst target) as (y & Hy & Ey).
  destruct (update_at_step Qminus d (band_key target) i y v Hy)
    as (a & Ha & Hi & Hsame & Hother & Hframe).
  exists (dict_set d (band_key target) (<[i := y - v]> a)). split; [|split].
  - unfold isub_at, dict_getitem. rewrite Ha. simpl.
    unfold np_getitem. by rewrite Hi.
  - intros b. unfold share. destruct (decide (b = target)) as [->|Hne].
    + exists (y - v). split; [done|]. by rewrite Ey.
    + destruct (Hst b) as (z & Hz & Ez). exists z. split.
      * rewrite Hother; [done|]. intros E. by apply band_key_inj in E.
      * rewrite Ez. ring.
  - intros k j Hj. destruct (decide (k = band_key target)) as [->|Hk].
    + by apply Hframe.
    + by apply Hother.
Qed.

(** ** The loop over the day *)

Lemma for_each_seq_inv {S : Type} (Inv : nat -> S -> Prop)
    (body : nat -> S -> result S) (len start : nat) (s : S) :
  Inv start s ->
  (forall i s, (start <= i < start + len)%nat -> Inv i s ->
     exists s', body i s = Ok s' /\ Inv (Datatypes.S i) s') ->
  exists s', for_each (seq start len) body s = Ok s' /\ Inv (start + len)%nat s'.
Proof.
  revert start s. induction len as [|len IH]; intros start s H0 Hstep.
  - exists s. rewrite Nat.add_0_r. by split.
  - destruct (Hstep start s) as (s1 & E1 & H1); [lia|done|].
    destruct (IH (Datatypes.S start) s1) as (s2 & E2 & H2); [done| |].
    + intros i s' Hi. apply Hstep. lia.
    + exists s2. simpl. rewrite E1, bind_Ok.
      replace (start + Datatypes.S len)%nat with (Datatypes.S start + len)%nat by lia.
      by split.
Qed.

Lemma for_each_range_inv {S : Type} (Inv : nat -> S -> Prop)
    (body : nat -> S -> result S) (n : nat) (s : S) :
  Inv 0%nat s ->
  (forall i s, (i < n)%nat -> Inv i s ->
     exists s', body i s = Ok s' /\ Inv (Datatypes.S i) s') ->
  exists s', for_each (range n) body s = Ok s' /\ Inv n s'.
Proof.
  intros H0 Hstep.
  apply (for_each_seq_inv Inv body n 0 s H0).
  intros i s' Hi. apply Hstep. lia.
Qed.

(** A fresh table is zero everywhere. *)
Lemma filled_zeros (f : band -> nat -> Q) :
  filled f 0
    [("2.4GHz"%string, np_zeros 48); ("5GHz"%string, np_zeros 48);
     ("6GHz"%string, np_zeros 48)].
Proof.
  intros b j Hj. exists 0. split; [|done].
  apply subscript2_ok. exists (np_zeros 48). split.
  - by destruct b.
  - unfold np_zeros. by apply lookup_replicate_2.
Qed.

(** One iteration that adds [f b i] at slot [i] and leaves the other slots
    alone extends the filled part of the table by one slot. *)
Lemma filled_step (f : band -> nat -> Q) (i : nat) (d d' : dict ndarray) :
  (i < 48)%nat -> filled f i d ->
  state_at d' i (fun b => 0 + f b i) -> frame d d' i ->
  filled f (Datatypes.S i) d'.
Proof.
  intros Hi Hd Hst Hfr b j Hj.
  destruct (decide (j = i)) as [->|Hne].
  - destruct (Hst b) as (y & Hy & Ey). exists y. split; [done|].
    rewrite decide_True by lia. rewrite Ey. ring.
  - destruct (Hd b j Hj) as (y & Hy & Ey). exists y. split.
    + by rewrite Hfr.
    + rewrite Ey. destruct (decide (j < i)%nat), (decide (j < Datatypes.S i)%nat);
        try reflexivity; lia.
Qed.

Lemma filled_state_at (f : band -> nat -> Q) (i : nat) (d : dict ndarray) :
  (i < 48)%nat -> filled f i d -> state_at d i (fun _ => 0).
Proof.
  intros Hi Hd b. destruct (Hd b i Hi) as (y & Hy & Ey).
  exists y. split; [done|]. by rewrite decide_False in Ey by lia.
Qed.

(** ** The slot rule of v8 *)

Lemma Qle_bool_false (x y : Q) : Qle_bool x y = false -> y < x.
Proof.
  intros H. apply Qnot_le_lt. intros Hle.
  apply Qle_bool_iff in Hle. congruence.
Qed.

Ltac band_literals :=
  change "2.4GHz"%string with (band_key GHz2_4);
  change "5GHz"%string with (band_key GHz5);
  change "6GHz"%string with (band_key GHz6).

(** Run the next [+=] or [-=] on a band, keeping the slot state [S] and
    the frame [F] up to date. *)
Ltac band_step S F :=
  lazymatch goal with
  | |- context [iadd_at ?d (band_key ?t) ?i (Ok ?v)] =>
      let d' := fresh "d" in
      let E := fresh "E" in
      let S' := fresh "S" in
      let F' := fresh "F" in
      destruct (iadd_band d t i v _ S) as (d' & E & S' & F');
      rewrite E, ?bind_Ok; cbv beta;
      pose proof (frame_trans _ _ _ i F F') as F''; clear F F' E; clear S;
      rename S' into S; rename F'' into F
  | |- context [isub_at ?d (band_key ?t) ?i (Ok ?v)] =>
      let d' := fresh "d" in
      let E := fresh "E" in
      let S' := fresh "S" in
      let F' := fresh "F" in
      destruct (isub_band d t i v _ S) as (d' & E & S' & F');
      rewrite E, ?bind_Ok; cbv beta;
      pose proof (frame_trans _ _ _ i F F') as F''; clear F F' E; clear S;
      rename S' into S; rename F'' into F
  end.

Lemma wifi_band_slot_v8 (bandwidth_data d : dict ndarray) (i : nat)
    (x : band -> Q) :
  well_formed bandwidth_data -> (i < 48)%nat -> state_at d i x ->
  exists d', V8.wifi_band_slot bandwidth_data i d = Ok d' /\
    state_at d' i (fun b => x b + table_v8 bandwidth_data b i) /\
    frame d d' i.
Proof.
  intros (Hw & Hp & Hl & Ht) Hi S.
  destruct (covers_day_subscript _ _ i Hw Hi) as [w Ew].
  destruct (covers_day_subscript _ _ i Hp Hi) as [p Ep].
  destruct (covers_day_subscript _ _ i Hl Hi) as [l El].
  destruct (covers_day_subscript _ _ i Ht Hi) as [t Et].
  pose proof (frame_refl d i) as F.
  unfold V8.wifi_band_slot. rewrite Ew, Ep, El, Et.
  fold (gym_hour i).
  band_literals.
  band_step S F.
  unfold Qgtb.
  destruct (Qle_bool p 8) eqn:Cp; cbn [negb];
    band_step S F;
    (destruct (Qle_bool l 15) eqn:Cl15; cbn [negb];
       [destruct (Qle_bool l 5) eqn:Cl5; cbn [negb]|]);
    band_step S F;
    destruct (Qle_bool t 3) eqn:Ct; cbn [negb];
    band_step S F;
    destruct (gym_hour i) eqn:Cg;
    try (band_step S F; band_step S F).
  all: eexists; split; [reflexivity|]; split; [|exact F].
  all: eapply state_at_equiv; [exact S|].
  all: intros b; unfold table_v8, phone_band, laptop_band, tablet_band, Qgtb.
  all: rewrite (reading_ok _ _ _ _ Ew), (reading_ok _ _ _ _ Ep),
         (reading_ok _ _ _ _ El), (reading_ok _ _ _ _ Et).
  all: rewrite ?Cp, ?Cl15, ?Cl5, ?Ct, ?Cg; cbn [negb].
  all: destruct b; unfold share; simpl; ring.
Qed.

(** The v8 band table exists and is the sum of shares at every entry. *)
Lemma generate_wifi_band_data_v8 (bandwidth_data : dict ndarray) :
  well_formed bandwidth_data ->
  exists wifi, V8._generate_wifi_band_data bandwidth_data = Ok wifi /\
    filled (table_v8 bandwidth_data) 48 wifi.
Proof.
  intros Hwf. unfold V8._generate_wifi_band_data.
  apply for_each_range_inv; [apply filled_zeros|].
  intros i d Hi Hd.
  destruct (wifi_band_slot_v8 bandwidth_data d i (fun _ => 0) Hwf Hi)
    as (d' & E & S & F); [by eapply filled_state_at|].
  exists d'. split; [done|]. by eapply filled_step.
Qed.

(** ** The slot rule of v18 *)

Lemma wifi_band_device_v18 (bandwidth_data d : dict ndarray) (i : nat)
    (row : V18.device_row) (x : band -> Q) :
  (V18.enabled row = true -> covers_day bandwidth_data (V18.device row)) ->
  (i < 48)%nat -> state_at d i x ->
  exists d', V18.wifi_band_device bandwidth_data i row d = Ok d' /\
    state_at d' i (fun b => x b + table_v18 [row] bandwidth_data b i) /\
    frame d d' i.
Proof.
  intros Hcov Hi S. pose proof (frame_refl d i) as F.
  unfold V18.wifi_band_device, table_v18, row_band.
  destruct (V18.enabled row) eqn:En; cbn [negb].
  - destruct (covers_day_subscript _ _ i (Hcov eq_refl) Hi) as [bw Ebw].
    rewrite Ebw, bind_Ok, (reading_ok _ _ _ _ Ebw). cbv beta zeta.
    unfold laptop_band, tablet_band, Qgtb.
    destruct (String.eqb (V18.preferred_band row) "6GHz"
              && String.eqb (V18.wifi_capability row) "WiFi 6E");
      [destruct (Qle_bool bw 15); cbn [negb];
         [destruct (Qle_bool bw 5); cbn [negb]|]
      |destruct (String.eqb (V18.preferred_band row) "5GHz"
                 || String.eqb (V18.preferred_band row) "6GHz");
         [destruct (Qle_bool bw 3); cbn [negb]|]].
    all: band_literals; band_step S F.
    all: eexists; split; [reflexivity|]; split; [|exact F].
    all: eapply state_at_equiv; [exact S|].
    all: intros b; cbv beta; ring.
  - exists d. split; [done|]. split; [|done].
    eapply state_at_equiv; [exact S|]. intros b. cbv beta. ring.
Qed.

Lemma wifi_band_devices_v18 (device_config : list V18.device_row)
    (bandwidth_data d : dict ndarray) (i : nat) (x : band -> Q) :
  rows_covered device_config bandwidth_data ->
  (i < 48)%nat -> state_at d i x ->
  exists d',
    for_each device_config (V18.wifi_band_device bandwidth_data i) d = Ok d' /\
    state_at d' i (fun b => x b + table_v18 device_config bandwidth_data b i) /\
    frame d d' i.
Proof.
  intros Hcov Hi. revert d x.
  induction Hcov as [|row rows Hrow Hrows IH]; intros d x S.
  - exists d. split; [done|]. split; [|apply frame_refl].
    eapply state_at_equiv; [exact S|]. intros b. simpl. ring.
  - destruct (wifi_band_device_v18 bandwidth_data d i row x Hrow Hi S)
      as (d1 & E1 & S1 & F1).
    destruct (IH d1 _ S1) as (d2 & E2 & S2 & F2).
    exists d2. split; [|split].
    + simpl. by rewrite E1, bind_Ok.
    + eapply state_at_equiv; [exact S2|]. intros b.
      cbn [table_v18]. ring.
    + by eapply frame_trans.
Qed.

(** The v18 band table exists and is the sum of shares at every entry,
    for any configuration whose enabled devices have a series. *)
Lemma generate_wifi_band_data_v18 (device_config : list V18.device_row)
    (bandwidth_data : dict ndarray) :
  rows_covered device_config bandwidth_data ->
  exists wifi,
    V18._generate_wifi_band_data device_config bandwidth_data = Ok wifi /\
    filled (table_v18 device_config bandwidth_data) 48 wifi.
Proof.
  intros Hcov. unfold V18._generate_wifi_band_data.
  apply for_each_range_inv; [apply filled_zeros|].
  intros i d Hi Hd.
  destruct (wifi_band_devices_v18 device_config bandwidth_data d i
              (fun _ => 0) Hcov Hi)
    as (d' & E & S & F); [by eapply filled_state_at|].
  exists d'. split; [done|]. by eapply filled_step.
Qed.

(** ** Shares *)

Lemma share_total (target : band) (x : Q) :
  share GHz2_4 target x + share GHz5 target x + share GHz6 target x == x.
Proof. destruct target; unfold share; simpl; ring. Qed.

Lemma share_nonneg (b target : band) (x : Q) : 0 <= x -> 0 <= share b target x.
Proof. intros H. unfold share. destruct (decide (b = target)); [done|lra]. Qed.

Lemma table_v8_total (bandwidth_data : dict ndarray) (i : nat) :
  table_v8 bandwidth_data GHz2_4 i + table_v8 bandwidth_data GHz5 i
  + table_v8 bandwidth_data GHz6 i == total_at bandwidth_data i.
Proof.
  unfold table_v8, total_at.
  set (w := reading bandwidth_data "smartwatch" i).
  set (p := reading bandwidth_data "smartphone" i).
  set (l := reading bandwidth_data "laptop" i).
  set (t := reading bandwidth_data "tablet" i).
  pose proof (share_total GHz2_4 w). pose proof (share_total (phone_band i p) p).
  pose proof (share_total (laptop_band l) l).
  pose proof (share_total (tablet_band t) t). lra.
Qed.

Lemma table_v18_default (bandwidth_data : dict ndarray) (b : band) (i : nat) :
  table_v18 V18.default_device_config bandwidth_data b i =
  share b (laptop_band (reading bandwidth_data "laptop" i))
    (reading bandwidth_data "laptop" i)
  + (share b (tablet_band (reading bandwidth_data "smartphone" i))
       (reading bandwidth_data "smartphone" i)
     + (share b (tablet_band (reading bandwidth_data "tablet" i))
          (reading bandwidth_data "tablet" i)
        + (share b GHz2_4 (reading bandwidth_data "smartwatch" i) + 0))).
Proof. reflexivity. Qed.

Lemma table_v18_default_total (bandwidth_data : dict ndarray) (i : nat) :
  table_v18 V18.default_device_config bandwidth_data GHz2_4 i
  + table_v18 V18.default_device_config bandwidth_data GHz5 i
  + table_v18 V18.default_device_config bandwidth_data GHz6 i
  == total_at bandwidth_data i.
Proof.
  rewrite !table_v18_default. unfold total_at.
  set (w := reading bandwidth_data "smartwatch" i).
  set (p := reading bandwidth_data "smartphone" i).
  set (l := reading bandwidth_data "laptop" i).
  set (t := reading bandwidth_data "tablet" i).
  pose proof (share_total GHz2_4 w). pose proof (share_total (tablet_band p) p).
  pose proof (share_total (laptop_band l) l).
  pose proof (share_total (tablet_band t) t). lra.
Qed.

(** ** Sums of bands and of devices *)

Lemma band_sum_filled (f : band -> nat -> Q) (wifi : dict ndarray) (i : nat) :
  filled f 48 wifi -> (i < 48)%nat ->
  exists s, band_sum wifi i = Ok s /\ s == f GHz2_4 i + f GHz5 i + f GHz6 i.
Proof.
  intros Hf Hi.
  destruct (Hf GHz2_4 i Hi) as (y1 & E1 & H1).
  destruct (Hf GHz5 i Hi) as (y2 & E2 & H2).
  destruct (Hf GHz6 i Hi) as (y3 & E3 & H3).
  rewrite decide_True in H1, H2, H3 by done.
  exists (y1 + y2 + y3). split.
  - unfold band_sum. simpl in E1, E2, E3. by rewrite E1, E2, E3.
  - by rewrite H1, H2, H3.
Qed.

Lemma device_sum_total_at (bandwidth_data : dict ndarray) (i : nat) :
  well_formed bandwidth_data -> (i < 48)%nat ->
  device_sum bandwidth_data i = Ok (total_at bandwidth_data i).
Proof.
  intros (Hw & Hp & Hl & Ht) Hi.
  destruct (covers_day_subscript _ _ i Hw Hi) as [w Ew].
  destruct (covers_day_subscript _ _ i Hp Hi) as [p Ep].
  destruct (covers_day_subscript _ _ i Hl Hi) as [l El].
  destruct (covers_day_subscript _ _ i Ht Hi) as [t Et].
  unfold device_sum, total_at.
  rewrite (reading_ok _ _ _ _ Ew), (reading_ok _ _ _ _ Ep),
    (reading_ok _ _ _ _ El), (reading_ok _ _ _ _ Et).
  by rewrite El, Ep, Et, Ew.
Qed.

(** ** Sums and maxima of arrays *)

Lemma fold_left_Qplus (a : ndarray) (acc : Q) :
  fold_left Qplus a acc == acc + sum_list a.
Proof.
  revert acc. induction a as [|x a IH]; intros acc; simpl.
  - ring.
  - rewrite IH. ring.
Qed.

Lemma np_sum_sum_list (a : ndarray) : np_sum a == sum_list a.
Proof. unfold np_sum. rewrite fold_left_Qplus. ring. Qed.

Lemma sum_list_Forall2 (a b : ndarray) :
  Forall2 Qeq a b -> sum_list a == sum_list b.
Proof.
  induction 1 as [|x y a b Hxy _ IH]; simpl; [reflexivity|].
  by rewrite Hxy, IH.
Qed.

Lemma fold_left_max_spec (a : ndarray) (x m : Q) :
  fold_left (fun m y => if y >? m then y else m) a x = m ->
  x <= m /\ Forall (fun y => y <= m) a /\ (m = x \/ m ∈ a).
Proof.
  revert x. induction a as [|y a IH]; intros x; simpl.
  - intros <-. split; [lra|]. split; [constructor | by left].
  - intros H. apply IH in H as (Hle & Hall & Hin).
    unfold Qgtb in Hle, Hin.
    destruct (Qle_bool y x) eqn:C; cbn [negb] in Hle, Hin.
    + apply Qle_bool_iff in C. split; [done|]. split.
      * constructor; [lra|done].
      * destruct Hin as [->|Hin]; [by left|right; by constructor].
    + apply Qle_bool_false in C. split; [lra|]. split.
      * by constructor.
      * right. destruct Hin as [->|Hin]; [constructor|by constructor].
Qed.

Lemma np_max_spec (a : ndarray) (m : Q) :
  np_max a = Ok m -> Forall (fun y => y <= m) a /\ m ∈ a.
Proof.
  destruct a as [|x a]; simpl; [discriminate|].
  intros [= H]. apply fold_left_max_spec in H as (Hle & Hall & Hin).
  split; [by constructor|].
  destruct Hin as [->|Hin]; [constructor|by constructor].
Qed.

(** ** Total bandwidth *)

Lemma np_iadd_same_length (total device : ndarray) :
  length device = length total ->
  np_iadd total device = Ok (zip_with Qplus total device).
Proof. intros H. unfold np_iadd. by rewrite H, Nat.eqb_refl. Qed.

Lemma sum_list_zip_with (a b : ndarray) :
  length a = length b ->
  sum_list (zip_with Qplus a b) == sum_list a + sum_list b.
Proof.
  revert b. induction a as [|x a IH]; intros [|y b] Hlen; simpl in *;
    try discriminate; [ring|].
  rewrite IH by lia. ring.
Qed.

Lemma sum_list_zeros (n : nat) : sum_list (np_zeros n) == 0.
Proof.
  unfold np_zeros. induction n as [|n IH]; simpl; [reflexivity|].
  rewrite IH. ring.
Qed.

(** The accumulation loop of [get_total_bandwidth]. *)
Lemma total_loop (vals : list ndarray) (acc : ndarray) :
  Forall (fun a : ndarray => length a = length acc) vals ->
  exists total,
    for_each vals (fun device total => np_iadd total device) acc = Ok total /\
    length total = length acc /\
    (forall i x, acc !! i = Some x ->
       exists v, total !! i = Some v /\
         v == x + sum_list (map (fun a : ndarray => nth i a 0) vals)) /\
    sum_list total == sum_list acc + sum_list (map sum_list vals).
Proof.
  revert acc. induction vals as [|a vals IH]; intros acc Hlen.
  - exists acc. split; [done|]. split; [done|]. split.
    + intros i x Hx. exists x. split; [done|]. simpl. ring.
    + simpl. ring.
  - apply Forall_cons in Hlen as [Ha Hvals].
    destruct (IH (zip_with Qplus acc a)) as (total & E & Hl & Hpt & Hsum).
    { rewrite length_zip_with. eapply Forall_impl; [exact Hvals|].
      intros b Hb. simpl in Hb. lia. }
    exists total. split; [|split; [|split]].
    + simpl. by rewrite np_iadd_same_length, bind_Ok.
    + rewrite Hl, length_zip_with. lia.
    + intros i x Hx.
      destruct (lookup_lt_is_Some_2 a i) as [y Hy].
      { rewrite Ha. by eapply lookup_lt_Some. }
      destruct (Hpt i (x + y)) as (v & Hv & Ev).
      { rewrite lookup_zip_with, Hx. simpl. by rewrite Hy. }
      exists v. split; [done|]. rewrite Ev. simpl.
      rewrite (nth_lookup_Some _ _ 0 _ Hy). ring.
    + rewrite Hsum, sum_list_zip_with by done. simpl. ring.
Qed.

Lemma total_over_spec (hours : ndarray) (bandwidth_data : dict ndarray) :
  Forall (fun a : ndarray => length a = length hours)
         (dict_values bandwidth_data) ->
  exists total,
    total_over hours bandwidth_data = Ok total /\
    length total = length hours /\
    (forall i, (i < length hours)%nat ->
       exists v, total !! i = Some v /\
         v == sum_list (map (fun a : ndarray => nth i a 0)
                            (dict_values bandwidth_data))) /\
    sum_list total == sum_list (map sum_list (dict_values bandwidth_data)).
Proof.
  intros Hlen. unfold total_over, np_zeros_like.
  destruct (total_loop (dict_values bandwidth_data) (np_zeros (length hours)))
    as (total & E & Hl & Hpt & Hsum).
  { unfold np_zeros. by rewrite length_replicate. }
  unfold np_zeros in Hl. rewrite length_replicate in Hl.
  exists total. split; [done|]. split; [done|]. split.
  - intros i Hi. destruct (Hpt i 0) as (v & Hv & Ev).
    { unfold np_zeros. by apply lookup_replicate_2. }
    exists v. split; [done|]. rewrite Ev. ring.
  - rewrite Hsum, sum_list_zeros. ring.
Qed.

(** ** Usage tables and percentages *)

Lemma usage_table_spec (total : ndarray) (series : dict ndarray)
    (table : dict usage_stats) :
  usage_table total series = Ok table ->
  dict_keys table = dict_keys series /\
  percentages table =
    map (fun a : ndarray => (np_sum a / np_sum total) * 100) (dict_values series).
Proof.
  revert table. induction series as [|[name data] rest IH]; intros table; simpl.
  - by intros [= <-].
  - intros H. apply bind_ok in H as (u & Hu & H).
    apply bind_ok in H as (us & Hus & H). injection H as <-.
    destruct (IH us Hus) as (Hk & Hp).
    unfold usage_of in Hu. apply bind_ok in Hu as (peak & _ & Hu).
    injection Hu as <-.
    unfold dict_keys, percentages, dict_values in *. simpl.
    split; [by f_equal|]. by f_equal.
Qed.

Lemma sum_list_scaled (c : Q) (sums : list Q) :
  sum_list (map (fun s => (s / c) * 100) sums) == (sum_list sums / c) * 100.
Proof.
  induction sums as [|s sums IH]; simpl.
  - unfold Qdiv. ring.
  - rewrite IH. unfold Qdiv. ring.
Qed.

Lemma sum_list_map_np_sum (vals : list ndarray) :
  sum_list (map np_sum vals) == sum_list (map sum_list vals).
Proof.
  induction vals as [|a vals IH]; simpl; [reflexivity|].
  by rewrite IH, np_sum_sum_list.
Qed.

(** The percentages of the series that make up the total add up to 100,
    as long as the grand total is not zero. *)
Lemma percentages_sum (hours total : ndarray) (bandwidth_data : dict ndarray)
    (table : dict usage_stats) :
  Forall (fun a : ndarray => length a = length hours)
         (dict_values bandwidth_data) ->
  total_over hours bandwidth_data = Ok total ->
  usage_table total bandwidth_data = Ok table ->
  ~ np_sum total == 0 ->
  sum_list (percentages table) == 100.
Proof.
  intros Hlen Htot Htab Hnz.
  destruct (total_over_spec hours bandwidth_data Hlen)
    as (total' & E & _ & _ & Hsum).
  rewrite Htot in E. injection E as <-.
  destruct (usage_table_spec _ _ _ Htab) as (_ & ->).
  rewrite <- (map_map np_sum (fun s => (s / np_sum total) * 100)).
  rewrite sum_list_scaled, sum_list_map_np_sum, <- Hsum, <- np_sum_sum_list.
  field. exact Hnz.
Qed.

(** ** Taking one device out *)

Lemma covers_day_without (bandwidth_data : dict ndarray) (name k : string) :
  covers_day bandwidth_data k -> covers_day (without bandwidth_data name) k.
Proof.
  intros (a & Ha & Hlen). unfold covers_day, without.
  destruct (decide (name = k)) as [->|Hne].
  - exists (np_zeros 48). rewrite dict_get_set_eq. split; [done|].
    unfold np_zeros. by rewrite length_replicate.
  - exists a. by rewrite dict_get_set_ne.
Qed.

Lemma well_formed_without (bandwidth_data : dict ndarray) (name : string) :
  well_formed bandwidth_data -> well_formed (without bandwidth_data name).
Proof.
  intros (Hw & Hp & Hl & Ht). repeat split; by apply covers_day_without.
Qed.

Lemma rows_covered_without (device_config : list V18.device_row)
    (bandwidth_data : dict ndarray) (name : string) :
  rows_covered device_config bandwidth_data ->
  rows_covered device_config (without bandwidth_data name).
Proof.
  unfold rows_covered. intros H. eapply Forall_impl; [exact H|].
  intros row Hrow En. by apply covers_day_without, Hrow.
Qed.

Lemma reading_without_same (bandwidth_data : dict ndarray) (name : string)
    (i : nat) :
  reading (without bandwidth_data name) name i == 0.
Proof.
  unfold reading, without, subscript2, dict_getitem.
  rewrite dict_get_set_eq, bind_Ok. unfold np_getitem, np_zeros.
  destruct (replicate 48 0 !! i) as [x|] eqn:E; [|reflexivity].
  apply lookup_replicate in E as [-> _]. reflexivity.
Qed.

Lemma reading_without_other (bandwidth_data : dict ndarray) (name k : string)
    (i : nat) :
  name <> k -> reading (without bandwidth_data name) k i = reading bandwidth_data k i.
Proof.
  intros Hne. unfold reading, without, subscript2, dict_getitem.
  by rewrite dict_get_set_ne.
Qed.

Lemma adds_of_filled (table : dict ndarray -> result (dict ndarray))
    (f f0 : band -> nat -> Q) (bandwidth_data t t0 : dict ndarray)
    (name : string) (b : band) (i : nat) :
  (i < 48)%nat ->
  table bandwidth_data = Ok t -> filled f 48 t ->
  table (without bandwidth_data name) = Ok t0 -> filled f0 48 t0 ->
  adds table bandwidth_data name b i (f b i - f0 b i).
Proof.
  intros Hi Et Hf Et0 Hf0.
  destruct (Hf b i Hi) as (v & Ev & Hv). destruct (Hf0 b i Hi) as (v0 & Ev0 & Hv0).
  rewrite decide_True in Hv, Hv0 by done.
  exists t, t0, v, v0. repeat split; try done. by rewrite Hv, Hv0.
Qed.

Lemma adds_equiv (table : dict ndarray -> result (dict ndarray))
    (bandwidth_data : dict ndarray) (name : string) (b : band) (i : nat)
    (x y : Q) :
  x == y -> adds table bandwidth_data name b i x ->
  adds table bandwidth_data name b i y.
Proof.
  intros Hxy (t & t0 & v & v0 & Et & Et0 & Ev & Ev0 & Hd).
  exists t, t0, v, v0. repeat split; try done. by rewrite Hd.
Qed.

(** Two computations of what a device adds agree. *)
Lemma adds_unique (table : dict ndarray -> result (dict ndarray))
    (bandwidth_data : dict ndarray) (name : string) (b : band) (i : nat)
    (x y : Q) :
  adds table bandwidth_data name b i x ->
  adds table bandwidth_data name b i y -> x == y.
Proof.
  intros (t & t0 & v & v0 & Et & Et0 & Ev & Ev0 & Hd)
         (t' & t0' & v' & v0' & Et' & Et0' & Ev' & Ev0' & Hd').
  rewrite Et in Et'. injection Et' as <-.
  rewrite Et0 in Et0'. injection Et0' as <-.
  rewrite Ev in Ev'. injection Ev' as <-.
  rewrite Ev0 in Ev0'. injection Ev0' as <-.
  by rewrite <- Hd, <- Hd'.
Qed.

Lemma adds_v8 (bandwidth_data : dict ndarray) (name : string) (b : band)
    (i : nat) :
  well_formed bandwidth_data -> (i < 48)%nat ->
  adds V8._generate_wifi_band_data bandwidth_data name b i
    (table_v8 bandwidth_data b i - table_v8 (without bandwidth_data name) b i).
Proof.
  intros Hwf Hi.
  destruct (generate_wifi_band_data_v8 _ Hwf) as (t & Et & Hf).
  destruct (generate_wifi_band_data_v8 _ (well_formed_without _ name Hwf))
    as (t0 & Et0 & Hf0).
  by eapply adds_of_filled.
Qed.

Lemma adds_v18 (device_config : list V18.device_row)
    (bandwidth_data : dict ndarray) (name : string) (b : band) (i : nat) :
  rows_covered device_config bandwidth_data -> (i < 48)%nat ->
  adds (V18._generate_wifi_band_data device_config) bandwidth_data name b i
    (table_v18 device_config bandwidth_data b i
     - table_v18 device_config (without bandwidth_data name) b i).
Proof.
  intros Hcov Hi.
  destruct (generate_wifi_band_data_v18 _ _ Hcov) as (t & Et & Hf).
  destruct (generate_wifi_band_data_v18 _ _
              (rows_covered_without _ _ name Hcov)) as (t0 & Et0 & Hf0).
  by eapply adds_of_filled.
Qed.

(** What the laptop adds in v8 and v13. *)
Lemma laptop_share_v8 (bandwidth_data : dict ndarray) (b : band) (i : nat) :
  table_v8 bandwidth_data b i - table_v8 (without bandwidth_data "laptop") b i
  == share b (laptop_band (reading bandwidth_data "laptop" i))
       (reading bandwidth_data "laptop" i).
Proof.
  unfold table_v8. cbv zeta.
  rewrite (reading_without_other _ "laptop" "smartwatch"),
    (reading_without_other _ "laptop" "smartphone"),
    (reading_without_other _ "laptop" "tablet") by done.
  pose proof (reading_without_same bandwidth_data "laptop" i) as H0.
  set (l0 := reading (without bandwidth_data "laptop") "laptop" i) in *.
  assert (share b (laptop_band l0) l0 == 0) as ->.
  { unfold share. destruct (decide _); [done|reflexivity]. }
  ring.
Qed.

(** What the smartphone adds in v8 and v13. *)
Lemma phone_share_v8 (bandwidth_data : dict ndarray) (b : band) (i : nat) :
  table_v8 bandwidth_data b i - table_v8 (without bandwidth_data "smartphone") b i
  == share b (phone_band i (reading bandwidth_data "smartphone" i))
       (reading bandwidth_data "smartphone" i).
Proof.
  unfold table_v8. cbv zeta.
  rewrite (reading_without_other _ "smartphone" "smartwatch"),
    (reading_without_other _ "smartphone" "laptop"),
    (reading_without_other _ "smartphone" "tablet") by done.
  pose proof (reading_without_same bandwidth_data "smartphone" i) as H0.
  set (p0 := reading (without bandwidth_data "smartphone") "smartphone" i) in *.
  assert (share b (phone_band i p0) p0 == 0) as ->.
  { unfold share. destruct (decide _); [done|reflexivity]. }
  ring.
Qed.

(** What the laptop adds in v18 under the default configuration. *)
Lemma laptop_share_v18 (bandwidth_data : dict ndarray) (b : band) (i : nat) :
  table_v18 V18.default_device_config bandwidth_data b i
  - table_v18 V18.default_device_config (without bandwidth_data "laptop") b i
  == share b (laptop_band (reading bandwidth_data "laptop" i))
       (reading bandwidth_data "laptop" i).
Proof.
  rewrite !table_v18_default.
  rewrite (reading_without_other _ "laptop" "smartwatch"),
    (reading_without_other _ "laptop" "smartphone"),
    (reading_without_other _ "laptop" "tablet") by done.
  pose proof (reading_without_same bandwidth_data "laptop" i) as H0.
  set (l0 := reading (without bandwidth_data "laptop") "laptop" i) in *.
  assert (share b (laptop_band l0) l0 == 0) as ->.
  { unfold share. destruct (decide _); [done|reflexivity]. }
  ring.
Qed.

(** ** Thresholds *)

Lemma Qgtb_true (x y : Q) : y < x -> (x >? y) = true.
Proof.
  intros H. unfold Qgtb. destruct (Qle_bool x y) eqn:C; [|done].
  apply Qle_bool_iff in C. lra.
Qed.

Lemma Qgtb_false (x y : Q) : x <= y -> (x >? y) = false.
Proof.
  intros H. unfold Qgtb. apply Qle_bool_iff in H. by rewrite H.
Qed.

Lemma gym_hour_slots (i : nat) : gym_hour i = true <-> i = 30%nat \/ i = 31%nat.
Proof.
  unfold gym_hour, Qltb. cbv zeta.
  set (q := inject_Z (Z.of_nat i)).
  assert (Hq : q / 2.0 == q * (1 # 2)) by (field; discriminate).
  rewrite andb_true_iff, negb_true_iff, Qle_bool_iff.
  split.
  - intros [Hlo Hhi]. apply Qle_bool_false in Hhi.
    rewrite Hq in Hlo, Hhi.
    assert (H1 : inject_Z 30 <= q) by (change (inject_Z 30) with 30; lra).
    assert (H2 : q < inject_Z 32) by (change (inject_Z 32) with 32; lra).
    unfold q in H1, H2. rewrite <- Zle_Qle in H1. rewrite <- Zlt_Qlt in H2. lia.
  - intros [-> | ->]; vm_compute; split; congruence.
Qed.

Lemma gym_hour_not (i : nat) : i <> 30%nat -> i <> 31%nat -> gym_hour i = false.
Proof.
  intros H30 H31. destruct (gym_hour i) eqn:E; [|done].
  apply gym_hour_slots in E. lia.
Qed.

(** ** The threshold rules, for any well-formed data *)

Lemma laptop_rule_v8 (bandwidth_data : dict ndarray) (i : nat) :
  well_formed bandwidth_data -> (i < 48)%nat ->
  laptop_rule V8._generate_wifi_band_data bandwidth_data i.
Proof.
  intros Hwf Hi. pose proof Hwf as (_ & _ & Hl & _).
  destruct (covers_day_subscript _ _ i Hl Hi) as [l El].
  exists l. split; [done|].
  assert (Hadd : forall target, laptop_band l = target ->
            added_to V8._generate_wifi_band_data bandwidth_data "laptop" target i l).
  { intros target <- b. eapply adds_equiv; [|by apply adds_v8].
    by rewrite laptop_share_v8, (reading_ok _ _ _ _ El). }
  unfold laptop_band in Hadd.
  split; [|split]; intros H; apply Hadd.
  - by rewrite Qgtb_true.
  - destruct H. by rewrite Qgtb_false, Qgtb_true.
  - rewrite !Qgtb_false; [done|lra..].
Qed.

Lemma smartphone_rule_v8 (bandwidth_data : dict ndarray) (i : nat) :
  well_formed bandwidth_data -> (i < 48)%nat ->
  smartphone_rule V8._generate_wifi_band_data bandwidth_data i.
Proof.
  intros Hwf Hi. pose proof Hwf as (_ & Hp & _ & _).
  destruct (covers_day_subscript _ _ i Hp Hi) as [p Ep].
  exists p. split; [done|].
  assert (Hadd : forall target, phone_band i p = target ->
            added_to V8._generate_wifi_band_data bandwidth_data "smartphone" target i p).
  { intros target <- b. eapply adds_equiv; [|by apply adds_v8].
    by rewrite phone_share_v8, (reading_ok _ _ _ _ Ep). }
  unfold phone_band in Hadd.
  split; [|split]; intros H; apply Hadd.
  - by rewrite Qgtb_true.
  - destruct H as (H8 & H30 & H31). by rewrite Qgtb_false, gym_hour_not.
  - destruct H as (H8 & Hgym). apply gym_hour_slots in Hgym.
    by rewrite Qgtb_false, Hgym.
Qed.

Lemma laptop_rule_v18 (bandwidth_data : dict ndarray) (i : nat) :
  rows_covered V18.default_device_config bandwidth_data -> (i < 48)%nat ->
  laptop_rule (V18._generate_wifi_band_data V18.default_device_config)
    bandwidth_data i.
Proof.
  intros Hcov Hi.
  assert (Hl : covers_day bandwidth_data "laptop").
  { apply Forall_cons in Hcov as [H _]. by apply H. }
  destruct (covers_day_subscript _ _ i Hl Hi) as [l El].
  exists l. split; [done|].
  assert (Hadd : forall target, laptop_band l = target ->
            added_to (V18._generate_wifi_band_data V18.default_device_config)
              bandwidth_data "laptop" target i l).
  { intros target <- b. eapply adds_equiv; [|by apply adds_v18].
    by rewrite laptop_share_v18, (reading_ok _ _ _ _ El). }
  unfold laptop_band in Hadd.
  split; [|split]; intros H; apply Hadd.
  - by rewrite Qgtb_true.
  - destruct H. by rewrite Qgtb_false, Qgtb_true.
  - rewrite !Qgtb_false; [done|lra..].
Qed.

(** ** Dictionaries of exactly four 48-slot series *)

Lemma four_series_well_formed (bandwidth_data : dict ndarray) :
  four_series bandwidth_data -> well_formed bandwidth_data.
Proof.
  intros (l & p & t & w & Hl & Hp & Ht & Hw & _ & Ll & Lp & Lt & Lw).
  repeat split; eexists; (split; [eassumption|lia]).
Qed.

Lemma sum_list_Permutation (a b : list Q) : a ≡ₚ b -> sum_list a == sum_list b.
Proof.
  induction 1 as [|x a b _ IH|x y a|a b c _ IH1 _ IH2]; simpl.
  - reflexivity.
  - by rewrite IH.
  - ring.
  - by rewrite IH1.
Qed.

Lemma reading_nth (d : dict ndarray) (k : string) (a : ndarray) (i : nat) :
  dict_get d k = Some a -> reading d k i = nth i a 0.
Proof.
  intros H. unfold reading, subscript2, dict_getitem. rewrite H, bind_Ok.
  unfold np_getitem. rewrite nth_lookup. by destruct (a !! i).
Qed.

Lemma pointwise_Forall2 (total : ndarray) (f : nat -> Q) (n : nat) :
  length total = n ->
  (forall i, (i < n)%nat -> exists v, total !! i = Some v /\ v == f i) ->
  Forall2 Qeq total (map f (seq 0 n)).
Proof.
  intros Hlen Hpt. apply Forall2_same_length_lookup_2.
  - by rewrite length_map, length_seq.
  - intros i x y Hx Hy.
    assert (Hi : (i < n)%nat) by (rewrite <- Hlen; by eapply lookup_lt_Some).
    destruct (Hpt i Hi) as (v & Hv & Ev).
    rewrite Hx in Hv. injection Hv as <-.
    rewrite list_lookup_fmap, lookup_seq_lt in Hy by done.
    injection Hy as <-. exact Ev.
Qed.

(** The total of four 48-slot series, slot by slot and summed. *)
Lemma total_over_four (hours : ndarray) (bandwidth_data : dict ndarray) :
  length hours = 48%nat -> four_series bandwidth_data ->
  exists total,
    total_over hours bandwidth_data = Ok total /\
    length total = 48%nat /\
    (forall i, (i < 48)%nat ->
       exists v, total !! i = Some v /\ v == total_at bandwidth_data i) /\
    np_sum total == sum_over_slots 48 (total_at bandwidth_data).
Proof.
  intros Hh (l & p & t & w & Hl & Hp & Ht & Hw & Hperm & Ll & Lp & Lt & Lw).
  destruct (total_over_spec hours bandwidth_data)
    as (total & E & Hlen & Hpt & _).
  { rewrite Hperm, Hh. by repeat constructor. }
  rewrite Hh in Hlen, Hpt.
  assert (Hpt' : forall i, (i < 48)%nat ->
            exists v, total !! i = Some v /\ v == total_at bandwidth_data i).
  { intros i Hi. destruct (Hpt i Hi) as (v & Hv & Ev).
    exists v. split; [done|]. rewrite Ev.
    rewrite (sum_list_Permutation _ (map (fun a : ndarray => nth i a 0) [l; p; t; w]))
      by (by apply Permutation_map).
    unfold total_at.
    rewrite (reading_nth _ _ _ _ Hl), (reading_nth _ _ _ _ Hp),
      (reading_nth _ _ _ _ Ht), (reading_nth _ _ _ _ Hw).
    simpl. ring. }
  exists total. split; [done|]. split; [done|]. split; [done|].
  rewrite np_sum_sum_list. unfold sum_over_slots.
  apply sum_list_Forall2. by apply pointwise_Forall2.
Qed.

(** ** The aggregates of [get_statistics] *)

Lemma maximum_of_total (f : nat -> Q) (total : ndarray) (peak : Q) :
  length total = 48%nat ->
  (forall i, (i < 48)%nat -> exists v, total !! i = Some v /\ v == f i) ->
  np_max total = Ok peak ->
  maximum_over_slots 48 f peak.
Proof.
  intros Hlen Hpt Hmax. apply np_max_spec in Hmax as (Hall & Hin). split.
  - intros i Hi. destruct (Hpt i Hi) as (v & Hv & Ev).
    rewrite <- Ev. rewrite Forall_forall in Hall. apply Hall.
    by eapply list_elem_of_lookup_2.
  - apply list_elem_of_lookup in Hin as (i & Hi).
    assert (Hi' : (i < 48)%nat) by (rewrite <- Hlen; by eapply lookup_lt_Some).
    exists i. split; [done|].
    destruct (Hpt i Hi') as (v & Hv & Ev). rewrite Hi in Hv.
    injection Hv as <-. exact Ev.
Qed.

Lemma aggregates_of_total (hours total : ndarray) (bandwidth_data : dict ndarray)
    (peak : Q) :
  length hours = 48%nat -> four_series bandwidth_data ->
  total_over hours bandwidth_data = Ok total ->
  np_max total = Ok peak ->
  stated_aggregates bandwidth_data peak (np_mean total)
    (np_sum total * 0.5 * 3600 / (8 * 1024)).
Proof.
  intros Hh H4 Htot Hmax.
  destruct (total_over_four hours bandwidth_data Hh H4)
    as (total' & E & Hlen & Hpt & Hsum).
  rewrite Htot in E. injection E as <-.
  split; [|split].
  - by eapply maximum_of_total.
  - unfold np_mean. rewrite Hlen, Hsum. reflexivity.
  - rewrite Hsum. field.
Qed.

(** ** The four programs as they start *)

Ltac four_series_by_evaluation :=
  do 4 eexists;
  repeat lazymatch goal with |- _ /\ _ => split end;
  first [reflexivity | apply perm_swap].

Lemma hours_48 : length (np_arange 0 24 0.5) = 48%nat.
Proof. reflexivity. Qed.

Lemma four_series_baseline : four_series Baseline._generate_bandwidth_data.
Proof. four_series_by_evaluation. Qed.

Lemma four_series_v8 : four_series V8._generate_bandwidth_data.
Proof. four_series_by_evaluation. Qed.

Lemma four_series_v13 : four_series V13._generate_bandwidth_data.
Proof. four_series_by_evaluation. Qed.

Lemma init_v8 (m : V8.model) :
  V8.__init__ = Ok m ->
  V8.hours m = np_arange 0 24 0.5 /\
  V8.bandwidth_data m = V8._generate_bandwidth_data /\
  V8._generate_wifi_band_data V8._generate_bandwidth_data
    = Ok (V8.wifi_band_data m).
Proof.
  unfold V8.__init__. cbv zeta.
  intros (wifi & E & [= <-])%bind_ok.
  cbn [V8.hours V8.bandwidth_data V8.wifi_band_data].
  split; [reflexivity|]. split; [reflexivity|exact E].
Qed.

Lemma init_v13 (m : V13.model) :
  V13.__init__ = Ok m ->
  V13.hours m = np_arange 0 24 0.5 /\
  V13.bandwidth_data m = V13._generate_bandwidth_data /\
  V13._generate_wifi_band_data V13._generate_bandwidth_data
    = Ok (V13.wifi_band_data m).
Proof.
  unfold V13.__init__. cbv zeta.
  intros (wifi & E & [= <-])%bind_ok.
  cbn [V13.hours V13.bandwidth_data V13.wifi_band_data].
  split; [reflexivity|]. split; [reflexivity|exact E].
Qed.

Lemma init_v18 (m : V18.model) :
  V18.__init__ = Ok m ->
  V18.hours m = np_arange 0 24 0.5 /\
  V18.device_config m = V18.default_device_config /\
  V18._generate_bandwidth_data V18.default_device_config
    = Ok (V18.bandwidth_data m) /\
  V18._generate_wifi_band_data V18.default_device_config (V18.bandwidth_data m)
    = Ok (V18.wifi_band_data m).
Proof.
  unfold V18.__init__. cbv zeta.
  intros (data & E1 & H)%bind_ok.
  apply bind_ok in H as (wifi & E2 & H).
  apply bind_ok in H as (df & E3 & [= <-]).
  cbn [V18.hours V18.device_config V18.bandwidth_data V18.wifi_band_data].
  split; [reflexivity|]. split; [reflexivity|]. split; [exact E1|exact E2].
Qed.

(** v13 repeats the text of v8. *)
Lemma v13_is_v8 :
  V13._generate_bandwidth_data = V8._generate_bandwidth_data /\
  V13._generate_wifi_band_data = V8._generate_wifi_band_data.
Proof. split; reflexivity. Qed.

(** Under the default configuration v18 scales by one and clips nothing. *)
Lemma default_data_v18 :
  V18._generate_bandwidth_data V18.default_device_config
  = Ok (map (fun name : string =>
               (name, default [] (dict_get V18.base_patterns name)))
            device_names).
Proof. vm_compute. reflexivity. Qed.

Lemma four_series_v18 (data : dict ndarray) :
  V18._generate_bandwidth_data V18.default_device_config = Ok data ->
  four_series data.
Proof.
  rewrite default_data_v18. intros [= <-]. four_series_by_evaluation.
Qed.

Lemma rows_covered_default (data : dict ndarray) :
  four_series data -> rows_covered V18.default_device_config data.
Proof.
  intros (Hw & Hp & Hl & Ht)%four_series_well_formed.
  unfold rows_covered, V18.default_device_config.
  repeat constructor; by intros _.
Qed.

(** The series of v18 are those of v8, key by key. *)
Lemma same_data_v18_v8 (data : dict ndarray) (i : nat) :
  V18._generate_bandwidth_data V18.default_device_config = Ok data ->
  reading data "laptop" i = reading V8._generate_bandwidth_data "laptop" i /\
  reading data "smartphone" i = reading V8._generate_bandwidth_data "smartphone" i /\
  reading data "tablet" i = reading V8._generate_bandwidth_data "tablet" i /\
  reading data "smartwatch" i = reading V8._generate_bandwidth_data "smartwatch" i.
Proof.
  rewrite default_data_v18. intros [= <-]. repeat split; reflexivity.
Qed.

Lemma started_v8 : exists m, V8.__init__ = Ok m.
Proof.
  destruct (generate_wifi_band_data_v8 _ (four_series_well_formed _ four_series_v8))
    as (wifi & E & _).
  unfold V8.__init__. cbv zeta. rewrite E. eauto.
Qed.

Lemma started_v13 : exists m, V13.__init__ = Ok m.
Proof.
  destruct (generate_wifi_band_data_v8 _ (four_series_well_formed _ four_series_v13))
    as (wifi & E & _).
  unfold V13.__init__. cbv zeta.
  change V13._generate_wifi_band_data with V8._generate_wifi_band_data.
  rewrite E. eauto.
Qed.

Lemma started_v18 : exists m, V18.__init__ = Ok m.
Proof. vm_compute. eauto. Qed.

(** The band table of each version, entry by entry. *)
Lemma filled_v8 (m : V8.model) :
  V8.__init__ = Ok m ->
  filled (table_v8 (V8.bandwidth_data m)) 48 (V8.wifi_band_data m).
Proof.
  intros (_ & -> & Hw)%init_v8.
  destruct (generate_wifi_band_data_v8 _ (four_series_well_formed _ four_series_v8))
    as (wifi & E & Hf).
  rewrite Hw in E. by injection E as <-.
Qed.

Lemma filled_v13 (m : V13.model) :
  V13.__init__ = Ok m ->
  filled (table_v8 (V13.bandwidth_data m)) 48 (V13.wifi_band_data m).
Proof.
  intros (_ & -> & Hw)%init_v13.
  destruct (generate_wifi_band_data_v8 _ (four_series_well_formed _ four_series_v13))
    as (wifi & E & Hf).
  change V8._generate_wifi_band_data with V13._generate_wifi_band_data in E.
  rewrite Hw in E. by injection E as <-.
Qed.

Lemma filled_v18 (m : V18.model) :
  V18.__init__ = Ok m ->
  filled (table_v18 V18.default_device_config (V18.bandwidth_data m)) 48
    (V18.wifi_band_data m).
Proof.
  intros (_ & _ & Hd & Hw)%init_v18.
  destruct (generate_wifi_band_data_v18 _ _
              (rows_covered_default _ (four_series_v18 _ Hd)))
    as (wifi & E & Hf).
  rewrite Hw in E. by injection E as <-.
Qed.

(** ** Worked slots

    A few entries traced by hand through the source and checked by
    evaluation: midnight, and 15:00 in the gym hour, where the smartphone
    uses 3 Mbps, the laptop 8, the tablet 1.5 and the smartwatch 0.25. *)

Example v8_bands_at_midnight :
  exists m, V8.__init__ = Ok m /\
    reading (V8.wifi_band_data m) "2.4GHz" 0 == 1.01 /\
    reading (V8.wifi_band_data m) "5GHz" 0 == 1 /\
    reading (V8.wifi_band_data m) "6GHz" 0 == 20.
Proof.
  eexists. split; [vm_compute; reflexivity|].
  repeat split; vm_compute; reflexivity.
Qed.

Example v8_bands_at_15h :
  exists m, V8.__init__ = Ok m /\
    reading (V8.wifi_band_data m) "2.4GHz" 30 == 4.75 /\
    reading (V8.wifi_band_data m) "5GHz" 30 == 8 /\
    reading (V8.wifi_band_data m) "6GHz" 30 == 0.
Proof.
  eexists. split; [vm_compute; reflexivity|].
  repeat split; vm_compute; reflexivity.
Qed.

Example v18_bands_at_midnight :
  exists m, V18.__init__ = Ok m /\
    reading (V18.wifi_band_data m) "2.4GHz" 0 == 2.01 /\
    reading (V18.wifi_band_data m) "5GHz" 0 == 0 /\
    reading (V18.wifi_band_data m) "6GHz" 0 == 20.
Proof.
  eexists. split; [vm_compute; reflexivity|].
  repeat split; vm_compute; reflexivity.
Qed.

Example v18_bands_at_15h :
  exists m, V18.__init__ = Ok m /\
    reading (V18.wifi_band_data m) "2.4GHz" 30 == 4.75 /\
    reading (V18.wifi_band_data m) "5GHz" 30 == 8 /\
    reading (V18.wifi_band_data m) "6GHz" 30 == 0.
Proof.
  eexists. split; [vm_compute; reflexivity|].
  repeat split; vm_compute; reflexivity.
Qed.

Example v8_peak :
  exists m st, V8.__init__ = Ok m /\ V8.get_statistics m = Ok st /\
    V8.peak_bandwidth st == 44.1 /\ V8.peak_time st == 19.5 /\
    V8.average_bandwidth st == 880.63 / 48.
Proof.
  do 2 eexists. split; [vm_compute; reflexivity|].
  split; [vm_compute; reflexivity|].
  repeat split; vm_compute; reflexivity.
Qed.

(** ** Conservation *)

Lemma conserves_of_filled (f : band -> nat -> Q) (wifi bandwidth_data : dict ndarray)
    (hours : ndarray) (i : nat) :
  filled f 48 wifi ->
  f GHz2_4 i + f GHz5 i + f GHz6 i == total_at bandwidth_data i ->
  four_series bandwidth_data -> length hours = 48%nat -> (i < 48)%nat ->
  conserves wifi bandwidth_data (total_over hours bandwidth_data) i.
Proof.
  intros Hf Hsum H4 Hh Hi.
  destruct (band_sum_filled f wifi i Hf Hi) as (s & Es & Hs).
  destruct (total_over_four hours bandwidth_data Hh H4)
    as (total & Et & _ & Hpt & _).
  destruct (Hpt i Hi) as (v & Ev & Hv).
  exists s, (total_at bandwidth_data i), v. split; [done|]. split.
  - apply device_sum_total_at; [by apply four_series_well_formed|done].
  - split.
    + rewrite Et, bind_Ok. by apply np_getitem_ok.
    + split; [by rewrite Hs|by rewrite Hv].
Qed.

(** C1, as amended.  Band allocation conserves total bandwidth in exact
    (rational) arithmetic: in v8, v13 and v18 (default device
    configuration), at every slot [i] of the 48 the three band values add
    up to the sum of the four device bandwidths, which is also entry [i]
    of [get_total_bandwidth()]. *)
Theorem band_allocation_conserves_total (i : nat) :
  (i < 48)%nat ->
  (exists m, V8.__init__ = Ok m /\
     conserves (V8.wifi_band_data m) (V8.bandwidth_data m)
       (V8.get_total_bandwidth m) i) /\
  (exists m, V13.__init__ = Ok m /\
     conserves (V13.wifi_band_data m) (V13.bandwidth_data m)
       (V13.get_total_bandwidth m) i) /\
  (exists m, V18.__init__ = Ok m /\
     conserves (V18.wifi_band_data m) (V18.bandwidth_data m)
       (V18.get_total_bandwidth m) i).
Proof.
  intros Hi. split; [|split].
  - destruct started_v8 as [m Em]. exists m. split; [done|].
    pose proof (filled_v8 m Em) as Hf.
    destruct (init_v8 m Em) as (Hh & Hbd & _).
    unfold V8.get_total_bandwidth. rewrite Hh. rewrite Hbd in *.
    apply (conserves_of_filled (table_v8 V8._generate_bandwidth_data));
      [done|apply table_v8_total|apply four_series_v8|apply hours_48|done].
  - destruct started_v13 as [m Em]. exists m. split; [done|].
    pose proof (filled_v13 m Em) as Hf.
    destruct (init_v13 m Em) as (Hh & Hbd & _).
    unfold V13.get_total_bandwidth. rewrite Hh. rewrite Hbd in *.
    apply (conserves_of_filled (table_v8 V13._generate_bandwidth_data));
      [done|apply table_v8_total|apply four_series_v13|apply hours_48|done].
  - destruct started_v18 as [m Em]. exists m. split; [done|].
    pose proof (filled_v18 m Em) as Hf.
    destruct (init_v18 m Em) as (Hh & _ & Hbd & _).
    unfold V18.get_total_bandwidth. rewrite Hh.
    apply (conserves_of_filled
             (table_v18 V18.default_device_config (V18.bandwidth_data m)));
      [done|apply table_v18_default_total|by apply four_series_v18
      |apply hours_48|done].
Qed.

Lemma band_allocation_conserves_total_in_gym_hour :
  (30 < 48)%nat /\
  ((exists m, V8.__init__ = Ok m /\
      conserves (V8.wifi_band_data m) (V8.bandwidth_data m)
        (V8.get_total_bandwidth m) 30) /\
   (exists m, V13.__init__ = Ok m /\
      conserves (V13.wifi_band_data m) (V13.bandwidth_data m)
        (V13.get_total_bandwidth m) 30) /\
   (exists m, V18.__init__ = Ok m /\
      conserves (V18.wifi_band_data m) (V18.bandwidth_data m)
        (V18.get_total_bandwidth m) 30)).
Proof.
  split; [lia | apply (band_allocation_conserves_total 30); lia].
Defined.

(** ** Conservation in the arithmetic of the program

    In binary64 the band table and the total are accumulated in different
    orders, and the two sides of the conservation property need not be
    equal to the last place. *)

(** C1 as stated fails at midnight in v8 once the sums are taken as the
    program takes them, in binary64.  The table holds 1.01, 1 and 20 Mbps
    there (smartwatch and tablet on 2.4GHz, the smartphone on 5GHz, the
    laptop on 6GHz); added from left to right they give
    22.009999999999998.  The four device series add up to 22.01, in the
    order laptop, smartphone, tablet, smartwatch and in the order of
    [get_total_bandwidth] alike.
    The two numbers are one unit in the last place apart, [2 ^ -48].  The
    same happens at the slots 1, 6, 22, 33 and 47 and at no other. *)
Lemma band_sum_is_rounded_at_midnight :
  exists (m : Binary64.V8.model) (total : Binary64.ndarray),
    Binary64.V8.__init__ = Ok m /\
    Binary64.V8.get_total_bandwidth m = Ok total /\
    Binary64.band_sum (Binary64.V8.wifi_band_data m) 0
    = Ok 22.009999999999998%float /\
    Binary64.device_sum (Binary64.V8.bandwidth_data m) 0 = Ok 22.01%float /\
    total !! 0%nat = Some 22.01%float /\
    Binary64.to_Q 22.01 - Binary64.to_Q 22.009999999999998 == 2 ^ (-48) /\
    conserves_in_binary64 (Binary64.V8.wifi_band_data m)
      (Binary64.V8.bandwidth_data m) (Ok total) 0 = false /\
    filter
      (fun i => conserves_in_binary64 (Binary64.V8.wifi_band_data m)
                  (Binary64.V8.bandwidth_data m) (Ok total) i = false)
      (seq 0 48)
    = [0; 1; 6; 22; 33; 47]%nat.
Proof.
  do 2 eexists. split; [vm_compute; reflexivity|].
  split; [vm_compute; reflexivity|].
  split; [vm_compute; reflexivity|]. split; [vm_compute; reflexivity|].
  split; [vm_compute; reflexivity|]. split; [vm_compute; reflexivity|].
  split; [vm_compute; reflexivity|]. vm_compute. reflexivity.
Qed.

(** ** The laptop rule *)

(** C2.  Laptop threshold rule: in v8, v13 and v18 (default configuration),
    at every slot the whole laptop bandwidth of the slot is added to 6GHz
    when it exceeds 15, to 5GHz when it is above 5 and at most 15, and to
    2.4GHz when it is at most 5. *)
Theorem laptop_threshold_rule (i : nat) :
  (i < 48)%nat ->
  (exists m, V8.__init__ = Ok m /\
     laptop_rule V8._generate_wifi_band_data (V8.bandwidth_data m) i) /\
  (exists m, V13.__init__ = Ok m /\
     laptop_rule V13._generate_wifi_band_data (V13.bandwidth_data m) i) /\
  (exists m, V18.__init__ = Ok m /\
     laptop_rule (V18._generate_wifi_band_data (V18.device_config m))
       (V18.bandwidth_data m) i).
Proof.
  intros Hi. split; [|split].
  - destruct started_v8 as [m Em]. exists m. split; [done|].
    destruct (init_v8 m Em) as (_ & -> & _).
    apply laptop_rule_v8; [apply four_series_well_formed, four_series_v8|done].
  - destruct started_v13 as [m Em]. exists m. split; [done|].
    destruct (init_v13 m Em) as (_ & -> & _).
    change V13._generate_wifi_band_data with V8._generate_wifi_band_data.
    apply laptop_rule_v8; [apply four_series_well_formed, four_series_v13|done].
  - destruct started_v18 as [m Em]. exists m. split; [done|].
    destruct (init_v18 m Em) as (_ & -> & Hbd & _).
    apply laptop_rule_v18; [|done].
    by apply rows_covered_default, four_series_v18.
Qed.

Lemma laptop_threshold_rule_at_midnight :
  (0 < 48)%nat /\
  ((exists m, V8.__init__ = Ok m /\
      laptop_rule V8._generate_wifi_band_data (V8.bandwidth_data m) 0) /\
   (exists m, V13.__init__ = Ok m /\
      laptop_rule V13._generate_wifi_band_data (V13.bandwidth_data m) 0) /\
   (exists m, V18.__init__ = Ok m /\
      laptop_rule (V18._generate_wifi_band_data (V18.device_config m))
        (V18.bandwidth_data m) 0)).
Proof.
  split; [lia | apply (laptop_threshold_rule 0); lia].
Defined.

(** ** The smartphone rule *)

(** Where the smartphone's bandwidth is in the finished table, taken as
    the difference the smartphone series makes to it.  In v8 and v13 it is
    on 6GHz when it exceeds 8 and on 5GHz when it is at most 8, except in
    the gym-hour slots 30 and 31 (15:00 and 15:30), where the block at the
    end of the loop body has moved it from 5GHz to 2.4GHz. *)
Lemma smartphone_share_of_the_finished_table (i : nat) :
  (i < 48)%nat ->
  (exists m, V8.__init__ = Ok m /\
     smartphone_rule V8._generate_wifi_band_data (V8.bandwidth_data m) i) /\
  (exists m, V13.__init__ = Ok m /\
     smartphone_rule V13._generate_wifi_band_data (V13.bandwidth_data m) i).
Proof.
  intros Hi. split.
  - destruct started_v8 as [m Em]. exists m. split; [done|].
    destruct (init_v8 m Em) as (_ & -> & _).
    apply smartphone_rule_v8; [apply four_series_well_formed, four_series_v8|done].
  - destruct started_v13 as [m Em]. exists m. split; [done|].
    destruct (init_v13 m Em) as (_ & -> & _).
    change V13._generate_wifi_band_data with V8._generate_wifi_band_data.
    apply smartphone_rule_v8; [apply four_series_well_formed, four_series_v13|done].
Qed.

(** The loop body is its statements run in turn. *)
Lemma slot_statements_v8 (bandwidth_data : dict ndarray) (i : nat)
    (band_data : dict ndarray) :
  V8.wifi_band_slot bandwidth_data i band_data
  = (band_data ← V8.smartwatch_statement bandwidth_data i band_data;
     phone_bw ← subscript2 bandwidth_data "smartphone" i;
     band_data ← V8.smartphone_statement phone_bw i band_data;
     V8.after_smartphone bandwidth_data i phone_bw band_data).
Proof. reflexivity. Qed.

Lemma slot_statements_v13 (bandwidth_data : dict ndarray) (i : nat)
    (band_data : dict ndarray) :
  V13.wifi_band_slot bandwidth_data i band_data
  = (band_data ← V13.smartwatch_statement bandwidth_data i band_data;
     phone_bw ← subscript2 bandwidth_data "smartphone" i;
     band_data ← V13.smartphone_statement phone_bw i band_data;
     V13.after_smartphone bandwidth_data i phone_bw band_data).
Proof. reflexivity. Qed.

(** One [+=] on an entry that exists. *)
Lemma iadd_at_adds (d : dict ndarray) (b : band) (i : nat) (x : Q) :
  (exists v, subscript2 d (band_key b) i = Ok v) ->
  exists d', iadd_at d (band_key b) i (Ok x) = Ok d' /\ adds_to_entry d d' b i x.
Proof.
  intros [v Hv].
  destruct (update_at_step Qplus d (band_key b) i v x Hv)
    as (a & Ha & Hi & Hsame & Hother & Hframe).
  exists (dict_set d (band_key b) (<[i := v + x]> a)). split.
  - unfold iadd_at, dict_getitem. rewrite Ha. cbn. unfold np_getitem.
    by rewrite Hi.
  - split; [by exists v|].
    intros k j Hkj. destruct (decide (k = band_key b)) as [->|Hk].
    + apply Hframe. by destruct Hkj.
    + by apply Hother.
Qed.

Lemma smartphone_statement_v8 (bandwidth_data : dict ndarray) (i : nat) :
  well_formed bandwidth_data -> (i < 48)%nat ->
  smartphone_statement_rule V8.wifi_band_slot V8.smartwatch_statement
    V8.smartphone_statement V8.after_smartphone bandwidth_data i.
Proof.
  intros Hwf Hi.
  destruct (for_each_range_inv (fun n t => filled (table_v8 bandwidth_data) n t)
              (V8.wifi_band_slot bandwidth_data) i fresh_bands)
    as (start & Estart & Hfilled).
  { apply filled_zeros. }
  { intros j d Hj Hd.
    destruct (wifi_band_slot_v8 bandwidth_data d j (fun _ => 0) Hwf)
      as (d' & E & S & F); [lia|eapply filled_state_at; [lia|exact Hd]|].
    exists d'. split; [exact E|].
    eapply filled_step; [lia|exact Hd|exact S|exact F]. }
  pose proof (filled_state_at _ _ _ Hi Hfilled) as S0.
  destruct (wifi_band_slot_v8 bandwidth_data start i (fun _ => 0) Hwf Hi S0)
    as (finish & Efinish & _ & _).
  pose proof Efinish as Echain. rewrite slot_statements_v8 in Echain.
  apply bind_ok in Echain as (before & Ebefore & Echain).
  apply bind_ok in Echain as (p & Ep & Echain).
  apply bind_ok in Echain as (after & Eafter & Erest).
  exists start, before, after, finish, p.
  split; [exact Estart|]. split; [exact Ebefore|]. split; [exact Ep|].
  split; [exact Eafter|]. split; [exact Erest|]. split; [exact Efinish|].
  assert (Hentry : forall b, exists v, subscript2 before (band_key b) i = Ok v).
  { destruct (iadd_band start GHz2_4 i (reading bandwidth_data "smartwatch" i) _ S0)
      as (d' & E' & S' & _).
    unfold V8.smartwatch_statement in Ebefore.
    destruct Hwf as (Hw & _).
    destruct (covers_day_subscript _ _ i Hw Hi) as [w Ew].
    rewrite Ew in Ebefore. rewrite (reading_ok _ _ _ _ Ew) in E'.
    change "2.4GHz"%string with (band_key GHz2_4) in Ebefore.
    rewrite Ebefore in E'. injection E' as <-.
    intros b. destruct (S' b) as (y & Hy & _). by exists y. }
  unfold V8.smartphone_statement, Qgtb in Eafter.
  split.
  - intros H8. destruct (Qle_bool p 8) eqn:C; cbn [negb] in Eafter.
    { apply Qle_bool_iff in C. lra. }
    destruct (iadd_at_adds before GHz6 i p (Hentry GHz6)) as (d' & E' & Hadds).
    change (band_key GHz6) with "6GHz"%string in E'.
    rewrite Eafter in E'. by injection E' as <-.
  - intros H8. destruct (Qle_bool p 8) eqn:C; cbn [negb] in Eafter.
    2:{ apply Qle_bool_false in C. lra. }
    destruct (iadd_at_adds before GHz5 i p (Hentry GHz5)) as (d' & E' & Hadds).
    change (band_key GHz5) with "5GHz"%string in E'.
    rewrite Eafter in E'. by injection E' as <-.
Qed.

(** C3.  Smartphone threshold rule: in v8 and v13, in every iteration of
    the loop over the 48 slots the smartphone statement runs and adds the
    smartphone's bandwidth of the slot to the 6GHz entry of the slot when
    it exceeds 8 Mbps, and to the 5GHz entry otherwise.  It changes no
    other entry.  (What the end of the iteration does with a bandwidth
    that went to 5GHz in the gym hour is the matter of the lemma on the
    finished table above.) *)
Theorem smartphone_is_added_by_threshold (i : nat) :
  (i < 48)%nat ->
  (exists m, V8.__init__ = Ok m /\
     smartphone_statement_rule V8.wifi_band_slot V8.smartwatch_statement
       V8.smartphone_statement V8.after_smartphone (V8.bandwidth_data m) i) /\
  (exists m, V13.__init__ = Ok m /\
     smartphone_statement_rule V13.wifi_band_slot V13.smartwatch_statement
       V13.smartphone_statement V13.after_smartphone (V13.bandwidth_data m) i).
Proof.
  intros Hi. split.
  - destruct started_v8 as [m Em]. exists m. split; [exact Em|].
    destruct (init_v8 m Em) as (_ & -> & _).
    apply smartphone_statement_v8;
      [apply four_series_well_formed, four_series_v8|exact Hi].
  - destruct started_v13 as [m Em]. exists m. split; [exact Em|].
    destruct (init_v13 m Em) as (_ & -> & _).
    change V13.wifi_band_slot with V8.wifi_band_slot.
    change V13.smartwatch_statement with V8.smartwatch_statement.
    change V13.smartphone_statement with V8.smartphone_statement.
    change V13.after_smartphone with V8.after_smartphone.
    apply smartphone_statement_v8;
      [apply four_series_well_formed, four_series_v13|exact Hi].
Qed.

Lemma smartphone_is_added_by_threshold_at_15h :
  (30 < 48)%nat /\
  ((exists m, V8.__init__ = Ok m /\
      smartphone_statement_rule V8.wifi_band_slot V8.smartwatch_statement
        V8.smartphone_statement V8.after_smartphone (V8.bandwidth_data m) 30) /\
   (exists m, V13.__init__ = Ok m /\
      smartphone_statement_rule V13.wifi_band_slot V13.smartwatch_statement
        V13.smartphone_statement V13.after_smartphone
        (V13.bandwidth_data m) 30)).
Proof.
  split; [lia | apply (smartphone_is_added_by_threshold 30); lia].
Defined.

(** At 15:00 in v8 the statement at work: the smartphone uses 3 Mbps, which
    goes to 5GHz; the gym-hour block at the end of the same iteration takes
    it off again, so the finished table has 8 Mbps on 5GHz there, the
    laptop's alone. *)
Example smartphone_statement_at_15h :
  exists start before after finish,
    for_each (range 30) (V8.wifi_band_slot V8._generate_bandwidth_data)
      fresh_bands = Ok start /\
    V8.smartwatch_statement V8._generate_bandwidth_data 30 start = Ok before /\
    V8.smartphone_statement 3 30 before = Ok after /\
    V8.after_smartphone V8._generate_bandwidth_data 30 3 after = Ok finish /\
    subscript2 before "5GHz" 30 = Ok 0 /\
    subscript2 after "5GHz" 30 = Ok (0 + 3) /\
    exists y, subscript2 finish "5GHz" 30 = Ok y /\ y == 8.
Proof.
  do 4 eexists. split; [vm_compute; reflexivity|].
  split; [vm_compute; reflexivity|]. split; [vm_compute; reflexivity|].
  split; [vm_compute; reflexivity|]. split; [vm_compute; reflexivity|].
  split; [vm_compute; reflexivity|]. eexists. split; vm_compute; reflexivity.
Qed.

(** ** The three band tables side by side *)

Lemma same_entry_of_filled (f1 f2 : band -> nat -> Q) (t1 t2 : dict ndarray)
    (b : band) (i : nat) :
  filled f1 48 t1 -> filled f2 48 t2 -> (i < 48)%nat ->
  f1 b i == f2 b i -> same_entry t1 t2 b i.
Proof.
  intros H1 H2 Hi Hf.
  destruct (H1 b i Hi) as (v1 & E1 & Hv1). destruct (H2 b i Hi) as (v2 & E2 & Hv2).
  rewrite decide_True in Hv1, Hv2 by done.
  exists v1, v2. repeat split; try done. by rewrite Hv1, Hv2.
Qed.

Lemma same_entry_besides_of_filled (f1 f2 : band -> nat -> Q)
    (t1 t2 : dict ndarray) (b : band) (i : nat) (s1 s2 : Q) :
  filled f1 48 t1 -> filled f2 48 t2 -> (i < 48)%nat ->
  f1 b i - s1 == f2 b i - s2 -> same_entry_besides t1 t2 b i s1 s2.
Proof.
  intros H1 H2 Hi Hf.
  destruct (H1 b i Hi) as (v1 & E1 & Hv1). destruct (H2 b i Hi) as (v2 & E2 & Hv2).
  rewrite decide_True in Hv1, Hv2 by done.
  exists v1, v2. repeat split; try done. by rewrite Hv1, Hv2.
Qed.

(** The v18 table and the v8 table differ by the smartphone's share only. *)
Lemma table_v18_v8 (data18 data8 : dict ndarray) (b : band) (i : nat) :
  reading data18 "laptop" i = reading data8 "laptop" i ->
  reading data18 "smartphone" i = reading data8 "smartphone" i ->
  reading data18 "tablet" i = reading data8 "tablet" i ->
  reading data18 "smartwatch" i = reading data8 "smartwatch" i ->
  table_v18 V18.default_device_config data18 b i
  - share b (tablet_band (reading data8 "smartphone" i))
      (reading data8 "smartphone" i)
  == table_v8 data8 b i
     - share b (phone_band i (reading data8 "smartphone" i))
         (reading data8 "smartphone" i).
Proof.
  intros Hl Hp Ht Hw. rewrite table_v18_default, Hl, Hp, Ht, Hw.
  unfold table_v8. cbv zeta. ring.
Qed.

(** C4, as amended.  v8 and v13 produce the same band table, entry by
    entry.  v18 under its default configuration agrees with them apart
    from the smartphone: in exact (rational) arithmetic, once the
    smartphone's share is taken out of each entry (placed by v18 on 5GHz
    above 3 Mbps and on 2.4GHz otherwise, and by v8 on 6GHz above 8 Mbps,
    else on 5GHz, or on 2.4GHz in the gym hour), the entries are equal; so
    the tables agree at every slot where both rules pick the same band for
    the smartphone. *)
Theorem band_tables_across_versions (b : band) (i : nat) :
  (i < 48)%nat ->
  exists m8 m13 m18,
    V8.__init__ = Ok m8 /\ V13.__init__ = Ok m13 /\ V18.__init__ = Ok m18 /\
    same_entry (V8.wifi_band_data m8) (V13.wifi_band_data m13) b i /\
    (let p := reading (V8.bandwidth_data m8) "smartphone" i in
     same_entry_besides (V18.wifi_band_data m18) (V8.wifi_band_data m8) b i
       (share b (tablet_band p) p) (share b (phone_band i p) p) /\
     (tablet_band p = phone_band i p ->
      same_entry (V18.wifi_band_data m18) (V8.wifi_band_data m8) b i)).
Proof.
  intros Hi.
  destruct started_v8 as [m8 E8]. destruct started_v13 as [m13 E13].
  destruct started_v18 as [m18 E18]. exists m8, m13, m18.
  pose proof (filled_v8 m8 E8) as F8. pose proof (filled_v13 m13 E13) as F13.
  pose proof (filled_v18 m18 E18) as F18.
  destruct (init_v8 m8 E8) as (_ & B8 & _).
  destruct (init_v13 m13 E13) as (_ & B13 & _).
  destruct (init_v18 m18 E18) as (_ & _ & B18 & _).
  destruct (same_data_v18_v8 _ i B18) as (Hl & Hp & Ht & Hw).
  rewrite B8 in F8. rewrite B13 in F13.
  pose proof (table_v18_v8 _ _ b i Hl Hp Ht Hw) as Hrel.
  split; [exact E8|]. split; [exact E13|]. split; [exact E18|]. split.
  - apply (same_entry_of_filled _ _ _ _ b i F8 F13 Hi). reflexivity.
  - cbv zeta. rewrite B8. split.
    + exact (same_entry_besides_of_filled _ _ _ _ b i _ _ F18 F8 Hi Hrel).
    + intros Hsame. apply (same_entry_of_filled _ _ _ _ b i F18 F8 Hi).
      rewrite Hsame in Hrel. lra.
Qed.

Lemma band_tables_across_versions_at_15h :
  (30 < 48)%nat /\
  exists m8 m13 m18,
    V8.__init__ = Ok m8 /\ V13.__init__ = Ok m13 /\ V18.__init__ = Ok m18 /\
    same_entry (V8.wifi_band_data m8) (V13.wifi_band_data m13) GHz5 30 /\
    (let p := reading (V8.bandwidth_data m8) "smartphone" 30 in
     same_entry_besides (V18.wifi_band_data m18) (V8.wifi_band_data m8) GHz5 30
       (share GHz5 (tablet_band p) p) (share GHz5 (phone_band 30 p) p) /\
     (tablet_band p = phone_band 30 p ->
      same_entry (V18.wifi_band_data m18) (V8.wifi_band_data m8) GHz5 30)).
Proof.
  split; [lia | apply (band_tables_across_versions GHz5 30); lia].
Defined.

(** C4 as stated fails at midnight on 2.4GHz: v8 holds 1.01 Mbps there
    (smartwatch and tablet) and v18 holds 2.01 (the smartphone as well). *)
Lemma band_tables_differ_at_midnight :
  exists m8 m18,
    V8.__init__ = Ok m8 /\ V18.__init__ = Ok m18 /\
    ~ same_entry (V8.wifi_band_data m8) (V18.wifi_band_data m18) GHz2_4 0.
Proof.
  destruct started_v8 as [m8 E8]. destruct started_v18 as [m18 E18].
  exists m8, m18. split; [done|]. split; [done|].
  pose proof (filled_v8 m8 E8 GHz2_4 0%nat) as (v8 & Ev8 & Hv8); [lia|].
  pose proof (filled_v18 m18 E18 GHz2_4 0%nat) as (v18 & Ev18 & Hv18); [lia|].
  destruct (init_v8 m8 E8) as (_ & B8 & _).
  destruct (init_v18 m18 E18) as (_ & _ & B18 & _).
  rewrite B8 in Hv8. rewrite default_data_v18 in B18. injection B18 as B18.
  rewrite <- B18 in Hv18.
  intros (x & y & Ex & Ey & Hxy).
  rewrite Ev8 in Ex. injection Ex as <-. rewrite Ev18 in Ey. injection Ey as <-.
  rewrite Hv8, Hv18 in Hxy. vm_compute in Hxy. discriminate.
Qed.

(** ** Non-negative bands *)

Lemma reading_nonneg (d : dict ndarray) (k : string) (i : nat) :
  Forall (Forall (fun x => 0 <= x)) (dict_values d) -> 0 <= reading d k i.
Proof.
  intros Hall. unfold reading.
  destruct (subscript2 d k i) as [x|] eqn:E; [|lra].
  apply subscript2_ok in E as (a & Ha & Hx).
  assert (Hin : a ∈ dict_values d).
  { unfold dict_values. clear Hx Hall.
    induction d as [|[k' a'] d IH]; simpl in *; [discriminate|].
    destruct (String.eqb k' k); [injection Ha as ->; constructor|].
    constructor. by apply IH. }
  rewrite Forall_forall in Hall. specialize (Hall a Hin).
  rewrite Forall_forall in Hall. apply Hall. by eapply list_elem_of_lookup_2.
Qed.

(** Every entry of the v8 table is a sum of shares of non-negative
    bandwidths; the gym-hour move only changes which band gets the
    smartphone's share. *)
Lemma table_v8_nonneg (bandwidth_data : dict ndarray) (b : band) (i : nat) :
  Forall (Forall (fun x => 0 <= x)) (dict_values bandwidth_data) ->
  0 <= table_v8 bandwidth_data b i.
Proof.
  intros Hall. unfold table_v8. cbv zeta.
  pose proof (share_nonneg b GHz2_4 _ (reading_nonneg _ "smartwatch" i Hall)).
  pose proof (share_nonneg b (phone_band i (reading bandwidth_data "smartphone" i))
                _ (reading_nonneg _ "smartphone" i Hall)).
  pose proof (share_nonneg b (laptop_band (reading bandwidth_data "laptop" i))
                _ (reading_nonneg _ "laptop" i Hall)).
  pose proof (share_nonneg b (tablet_band (reading bandwidth_data "tablet" i))
                _ (reading_nonneg _ "tablet" i Hall)).
  lra.
Qed.

Lemma nonneg_data_v8 :
  Forall (Forall (fun x => 0 <= x)) (dict_values V8._generate_bandwidth_data).
Proof. repeat constructor; discriminate. Qed.

Lemma nonneg_data_v13 :
  Forall (Forall (fun x => 0 <= x)) (dict_values V13._generate_bandwidth_data).
Proof. repeat constructor; discriminate. Qed.

(** C8.  Band values are never negative: in v8 and v13 every entry of
    every band series produced by [_generate_wifi_band_data] is at least 0,
    the 5GHz entries of the gym hour included. *)
Theorem band_values_never_negative (b : band) (i : nat) :
  (i < 48)%nat ->
  (exists m v, V8.__init__ = Ok m /\
     subscript2 (V8.wifi_band_data m) (band_key b) i = Ok v /\ 0 <= v) /\
  (exists m v, V13.__init__ = Ok m /\
     subscript2 (V13.wifi_band_data m) (band_key b) i = Ok v /\ 0 <= v).
Proof.
  intros Hi. split.
  - destruct started_v8 as [m Em].
    destruct (filled_v8 m Em b i Hi) as (v & Ev & Hv).
    destruct (init_v8 m Em) as (_ & B & _).
    rewrite decide_True, B in Hv by exact Hi.
    exists m, v. split; [exact Em|]. split; [exact Ev|].
    rewrite Hv. apply table_v8_nonneg, nonneg_data_v8.
  - destruct started_v13 as [m Em].
    destruct (filled_v13 m Em b i Hi) as (v & Ev & Hv).
    destruct (init_v13 m Em) as (_ & B & _).
    rewrite decide_True, B in Hv by exact Hi.
    exists m, v. split; [exact Em|]. split; [exact Ev|].
    rewrite Hv. apply table_v8_nonneg, nonneg_data_v13.
Qed.

Lemma band_values_never_negative_5GHz_in_gym_hour :
  (30 < 48)%nat /\
  ((exists m v, V8.__init__ = Ok m /\
      subscript2 (V8.wifi_band_data m) (band_key GHz5) 30 = Ok v /\ 0 <= v) /\
   (exists m v, V13.__init__ = Ok m /\
      subscript2 (V13.wifi_band_data m) (band_key GHz5) 30 = Ok v /\ 0 <= v)).
Proof.
  split; [lia | apply (band_values_never_negative GHz5 30); lia].
Defined.

(** ** Summary statistics *)

Lemma four_series_lengths (bandwidth_data : dict ndarray) (hours : ndarray) :
  length hours = 48%nat -> four_series bandwidth_data ->
  Forall (fun a : ndarray => length a = length hours) (dict_values bandwidth_data).
Proof.
  intros Hh (l & p & t & w & _ & _ & _ & _ & Hperm & Ll & Lp & Lt & Lw).
  rewrite Hperm, Hh. by repeat constructor.
Qed.

Lemma get_statistics_baseline (m : Baseline.model) (st : Baseline.statistics) :
  Baseline.get_statistics m = Ok st ->
  exists total,
    total_over (Baseline.hours m) (Baseline.bandwidth_data m) = Ok total /\
    np_max total = Ok (Baseline.peak_bandwidth st) /\
    Baseline.average_bandwidth st = np_mean total /\
    Baseline.total_daily_data_gb st = np_sum total * 0.5 * 3600 / (8 * 1024) /\
    usage_table total (Baseline.bandwidth_data m)
      = Ok (Baseline.device_contributions st).
Proof.
  unfold Baseline.get_statistics, Baseline.get_total_bandwidth.
  intros (total & Et & H)%bind_ok. apply bind_ok in H as (peak & Ep & H).
  apply bind_ok in H as (k & Ek & H). apply bind_ok in H as (time & Eh & H).
  apply bind_ok in H as (devices & Ed & [= <-]).
  exists total. cbn. by rewrite Ep, Ed.
Qed.

Lemma get_statistics_v8 (m : V8.model) (st : V8.statistics) :
  V8.get_statistics m = Ok st ->
  exists total,
    total_over (V8.hours m) (V8.bandwidth_data m) = Ok total /\
    np_max total = Ok (V8.peak_bandwidth st) /\
    V8.average_bandwidth st = np_mean total /\
    V8.total_daily_data_gb st = np_sum total * 0.5 * 3600 / (8 * 1024) /\
    usage_table total (V8.bandwidth_data m) = Ok (V8.device_contributions st).
Proof.
  unfold V8.get_statistics, V8.get_total_bandwidth.
  intros (total & Et & H)%bind_ok. apply bind_ok in H as (peak & Ep & H).
  apply bind_ok in H as (k & Ek & H). apply bind_ok in H as (time & Eh & H).
  apply bind_ok in H as (devices & Ed & H).
  apply bind_ok in H as (bands & Eb & [= <-]).
  exists total. cbn. by rewrite Ep, Ed.
Qed.

Lemma get_statistics_v13 (m : V13.model) (st : V13.statistics) :
  V13.get_statistics m = Ok st ->
  exists total,
    total_over (V13.hours m) (V13.bandwidth_data m) = Ok total /\
    np_max total = Ok (V13.peak_bandwidth st) /\
    V13.average_bandwidth st = np_mean total /\
    V13.total_daily_data_gb st = np_sum total * 0.5 * 3600 / (8 * 1024) /\
    usage_table total (V13.bandwidth_data m) = Ok (V13.device_contributions st).
Proof.
  unfold V13.get_statistics, V13.get_total_bandwidth.
  intros (total & Et & H)%bind_ok. apply bind_ok in H as (peak & Ep & H).
  apply bind_ok in H as (k & Ek & H). apply bind_ok in H as (time & Eh & H).
  apply bind_ok in H as (devices & Ed & H).
  apply bind_ok in H as (bands & Eb & [= <-]).
  exists total. cbn. by rewrite Ep, Ed.
Qed.

Lemma get_statistics_v18 (m : V18.model) (st : V18.statistics) :
  V18.get_statistics m = Ok st ->
  exists total,
    total_over (V18.hours m) (V18.bandwidth_data m) = Ok total /\
    np_max total = Ok (V18.peak_bandwidth st) /\
    V18.average_bandwidth st = np_mean total /\
    V18.total_daily_data_gb st = np_sum total * 0.5 * 3600 / (8 * 1024) /\
    usage_table total (V18.bandwidth_data m) = Ok (V18.device_contributions st).
Proof.
  unfold V18.get_statistics, V18.get_total_bandwidth.
  intros (total & Et & H)%bind_ok. apply bind_ok in H as (peak & Ep & H).
  apply bind_ok in H as (k & Ek & H). apply bind_ok in H as (time & Eh & H).
  apply bind_ok in H as (devices & Ed & H).
  apply bind_ok in H as (bands & Eb & [= <-]).
  exists total. cbn. by rewrite Ep, Ed.
Qed.

(** The statistics exist: the programs are run. *)
Lemma statistics_baseline :
  exists st, Baseline.get_statistics Baseline.__init__ = Ok st.
Proof. eexists. vm_compute. reflexivity. Qed.

Lemma statistics_v8 :
  exists m st, V8.__init__ = Ok m /\ V8.get_statistics m = Ok st.
Proof. do 2 eexists. split; vm_compute; reflexivity. Qed.

Lemma statistics_v13 :
  exists m st, V13.__init__ = Ok m /\ V13.get_statistics m = Ok st.
Proof. do 2 eexists. split; vm_compute; reflexivity. Qed.

Lemma statistics_v18 :
  exists m st, V18.__init__ = Ok m /\ V18.get_statistics m = Ok st.
Proof. do 2 eexists. split; vm_compute; reflexivity. Qed.

(** The statistics of the model each version constructs (v18 with its
    default configuration): [peak_bandwidth] is the maximum over the 48
    slots of the total bandwidth, [average_bandwidth] its sum divided by
    48 and [total_daily_data_gb] that sum times [0.5 * 3600] over
    [8 * 1024], the total at a slot being the sum of the four device
    series there. *)
Lemma summary_statistics_at_start :
  (exists st,
     Baseline.get_statistics Baseline.__init__ = Ok st /\
     stated_aggregates (Baseline.bandwidth_data Baseline.__init__)
       (Baseline.peak_bandwidth st) (Baseline.average_bandwidth st)
       (Baseline.total_daily_data_gb st)) /\
  (exists m st,
     V8.__init__ = Ok m /\ V8.get_statistics m = Ok st /\
     stated_aggregates (V8.bandwidth_data m)
       (V8.peak_bandwidth st) (V8.average_bandwidth st)
       (V8.total_daily_data_gb st)) /\
  (exists m st,
     V13.__init__ = Ok m /\ V13.get_statistics m = Ok st /\
     stated_aggregates (V13.bandwidth_data m)
       (V13.peak_bandwidth st) (V13.average_bandwidth st)
       (V13.total_daily_data_gb st)) /\
  (exists m st,
     V18.__init__ = Ok m /\ V18.get_statistics m = Ok st /\
     stated_aggregates (V18.bandwidth_data m)
       (V18.peak_bandwidth st) (V18.average_bandwidth st)
       (V18.total_daily_data_gb st)).
Proof.
  split; [|split; [|split]].
  - destruct statistics_baseline as [st Est]. exists st. split; [exact Est|].
    destruct (get_statistics_baseline _ _ Est) as (total & Et & Ep & -> & -> & _).
    exact (aggregates_of_total _ _ _ _ hours_48 four_series_baseline Et Ep).
  - destruct statistics_v8 as (m & st & Em & Est). exists m, st.
    split; [exact Em|]. split; [exact Est|].
    destruct (get_statistics_v8 _ _ Est) as (total & Et & Ep & -> & -> & _).
    destruct (init_v8 m Em) as (Hh & Hbd & _). rewrite Hh, Hbd in *.
    exact (aggregates_of_total _ _ _ _ hours_48 four_series_v8 Et Ep).
  - destruct statistics_v13 as (m & st & Em & Est). exists m, st.
    split; [exact Em|]. split; [exact Est|].
    destruct (get_statistics_v13 _ _ Est) as (total & Et & Ep & -> & -> & _).
    destruct (init_v13 m Em) as (Hh & Hbd & _). rewrite Hh, Hbd in *.
    exact (aggregates_of_total _ _ _ _ hours_48 four_series_v13 Et Ep).
  - destruct statistics_v18 as (m & st & Em & Est). exists m, st.
    split; [exact Em|]. split; [exact Est|].
    destruct (get_statistics_v18 _ _ Est) as (total & Et & Ep & -> & -> & _).
    destruct (init_v18 m Em) as (Hh & _ & Hbd & _). rewrite Hh in *.
    exact (aggregates_of_total _ _ _ _ hours_48 (four_series_v18 _ Hbd) Et Ep).
Qed.

(** ** Device contributions *)

Lemma contributions_partition (hours total : ndarray)
    (bandwidth_data : dict ndarray) (table : dict usage_stats) :
  length hours = 48%nat -> four_series bandwidth_data ->
  ~ sum_over_slots 48 (total_at bandwidth_data) == 0 ->
  total_over hours bandwidth_data = Ok total ->
  usage_table total bandwidth_data = Ok table ->
  dict_keys table = dict_keys bandwidth_data /\
  sum_list (percentages table) == 100.
Proof.
  intros Hh H4 Hnz Et Eu. split; [by apply usage_table_spec in Eu as [? _]|].
  apply (percentages_sum hours total bandwidth_data table);
    [by apply four_series_lengths|exact Et|exact Eu|].
  destruct (total_over_four hours bandwidth_data Hh H4)
    as (total' & E & _ & _ & Hsum).
  rewrite Et in E. injection E as <-. by rewrite Hsum.
Qed.

Lemma total_nonzero_baseline :
  ~ sum_over_slots 48 (total_at Baseline._generate_bandwidth_data) == 0.
Proof. vm_compute. discriminate. Qed.

Lemma total_nonzero_v8 :
  ~ sum_over_slots 48 (total_at V8._generate_bandwidth_data) == 0.
Proof. vm_compute. discriminate. Qed.

Lemma total_nonzero_v13 :
  ~ sum_over_slots 48 (total_at V13._generate_bandwidth_data) == 0.
Proof. vm_compute. discriminate. Qed.

Lemma total_nonzero_v18 (data : dict ndarray) :
  V18._generate_bandwidth_data V18.default_device_config = Ok data ->
  ~ sum_over_slots 48 (total_at data) == 0.
Proof.
  rewrite default_data_v18. intros [= <-]. vm_compute. discriminate.
Qed.

Lemma keys_v18 (data : dict ndarray) :
  V18._generate_bandwidth_data V18.default_device_config = Ok data ->
  dict_keys data = device_names.
Proof. rewrite default_data_v18. by intros [= <-]. Qed.

(** In the model each version constructs (v18 with its default
    configuration) the four [percentage_of_total] values of
    [get_statistics()['device_contributions']] add up to 100 in exact
    arithmetic. *)
Lemma device_percentages_at_start :
  (exists st,
     Baseline.get_statistics Baseline.__init__ = Ok st /\
     dict_keys (Baseline.device_contributions st) ≡ₚ device_names /\
     sum_list (percentages (Baseline.device_contributions st)) == 100) /\
  (exists m st,
     V8.__init__ = Ok m /\ V8.get_statistics m = Ok st /\
     dict_keys (V8.device_contributions st) ≡ₚ device_names /\
     sum_list (percentages (V8.device_contributions st)) == 100) /\
  (exists m st,
     V13.__init__ = Ok m /\ V13.get_statistics m = Ok st /\
     dict_keys (V13.device_contributions st) ≡ₚ device_names /\
     sum_list (percentages (V13.device_contributions st)) == 100) /\
  (exists m st,
     V18.__init__ = Ok m /\ V18.get_statistics m = Ok st /\
     dict_keys (V18.device_contributions st) ≡ₚ device_names /\
     sum_list (percentages (V18.device_contributions st)) == 100).
Proof.
  split; [|split; [|split]].
  - destruct statistics_baseline as [st Est]. exists st. split; [exact Est|].
    destruct (get_statistics_baseline _ _ Est) as (total & Et & _ & _ & _ & Eu).
    destruct (contributions_partition _ _ _ _ hours_48 four_series_baseline
                total_nonzero_baseline Et Eu) as (-> & Hsum).
    split; [apply perm_swap|exact Hsum].
  - destruct statistics_v8 as (m & st & Em & Est). exists m, st.
    split; [exact Em|]. split; [exact Est|].
    destruct (get_statistics_v8 _ _ Est) as (total & Et & _ & _ & _ & Eu).
    destruct (init_v8 m Em) as (Hh & Hbd & _). rewrite Hh, Hbd in *.
    destruct (contributions_partition _ _ _ _ hours_48 four_series_v8
                total_nonzero_v8 Et Eu) as (-> & Hsum).
    split; [apply perm_swap|exact Hsum].
  - destruct statistics_v13 as (m & st & Em & Est). exists m, st.
    split; [exact Em|]. split; [exact Est|].
    destruct (get_statistics_v13 _ _ Est) as (total & Et & _ & _ & _ & Eu).
    destruct (init_v13 m Em) as (Hh & Hbd & _). rewrite Hh, Hbd in *.
    destruct (contributions_partition _ _ _ _ hours_48 four_series_v13
                total_nonzero_v13 Et Eu) as (-> & Hsum).
    split; [apply perm_swap|exact Hsum].
  - destruct statistics_v18 as (m & st & Em & Est). exists m, st.
    split; [exact Em|]. split; [exact Est|].
    destruct (get_statistics_v18 _ _ Est) as (total & Et & _ & _ & _ & Eu).
    destruct (init_v18 m Em) as (Hh & _ & Hbd & _). rewrite Hh in *.
    destruct (contributions_partition _ _ _ _ hours_48 (four_series_v18 _ Hbd)
                (total_nonzero_v18 _ Hbd) Et Eu) as (-> & Hsum).
    split; [by rewrite (keys_v18 _ Hbd)|exact Hsum].
Qed.

(** ** The shape of the data *)

Lemma day_axis_arange : day_axis (np_arange 0 24 0.5).
Proof.
  split; [reflexivity|].
  assert (np_arange 0 24 0.5 = half_hours) as -> by (vm_compute; reflexivity).
  apply Forall2_same_length_lookup_2; [reflexivity|].
  intros i x y Hx Hy. rewrite Hx in Hy. by injection Hy as <-.
Qed.

Ltac day_table_by_evaluation :=
  split; [first [reflexivity | apply perm_swap] | repeat constructor].

Lemma band_table_shape (wifi : dict ndarray) :
  V8._generate_wifi_band_data V8._generate_bandwidth_data = Ok wifi ->
  day_table band_names wifi.
Proof.
  intros E. vm_compute in E. injection E as <-. day_table_by_evaluation.
Qed.

Lemma band_table_shape_v18 (data wifi : dict ndarray) :
  V18._generate_bandwidth_data V18.default_device_config = Ok data ->
  V18._generate_wifi_band_data V18.default_device_config data = Ok wifi ->
  day_table band_names wifi.
Proof.
  rewrite default_data_v18. intros [= <-] E.
  vm_compute in E. injection E as <-. day_table_by_evaluation.
Qed.

(** In the model each version constructs (v18 with its default
    configuration) the time axis is the 48 points 0.0, 0.5, ..., 23.5,
    [bandwidth_data] has exactly the keys laptop, smartphone, tablet and
    smartwatch, each with a 48-element series, and where there is a
    [wifi_band_data] it has exactly the keys 2.4GHz, 5GHz and 6GHz, each
    with a 48-element series. *)
Lemma fixed_day_at_start :
  (day_axis (Baseline.hours Baseline.__init__) /\
   day_table device_names (Baseline.bandwidth_data Baseline.__init__)) /\
  (exists m, V8.__init__ = Ok m /\
     day_axis (V8.hours m) /\
     day_table device_names (V8.bandwidth_data m) /\
     day_table band_names (V8.wifi_band_data m)) /\
  (exists m, V13.__init__ = Ok m /\
     day_axis (V13.hours m) /\
     day_table device_names (V13.bandwidth_data m) /\
     day_table band_names (V13.wifi_band_data m)) /\
  (exists m, V18.__init__ = Ok m /\
     day_axis (V18.hours m) /\
     day_table device_names (V18.bandwidth_data m) /\
     day_table band_names (V18.wifi_band_data m)).
Proof.
  split; [|split; [|split]].
  - split; [apply day_axis_arange|day_table_by_evaluation].
  - destruct started_v8 as [m Em]. exists m. split; [exact Em|].
    destruct (init_v8 m Em) as (-> & -> & Hw).
    split; [apply day_axis_arange|]. split; [day_table_by_evaluation|].
    by apply band_table_shape.
  - destruct started_v13 as [m Em]. exists m. split; [exact Em|].
    destruct (init_v13 m Em) as (-> & -> & Hw).
    split; [apply day_axis_arange|]. split; [day_table_by_evaluation|].
    by apply band_table_shape.
  - destruct started_v18 as [m Em]. exists m. split; [exact Em|].
    destruct (init_v18 m Em) as (-> & _ & Hd & Hw).
    split; [apply day_axis_arange|]. split.
    + rewrite default_data_v18 in Hd. injection Hd as <-.
      day_table_by_evaluation.
    + by eapply band_table_shape_v18.
Qed.

(** ** Importing a device configuration *)

(** C7.  File-not-found on import is atomic: in v18,
    [import_device_config] on a file name that does not exist raises
    [FileNotFoundError] and leaves the whole model ([device_config],
    [bandwidth_data], [wifi_band_data], [timeseries_df]) as it was. *)
Theorem import_missing_file_is_atomic
    (parse_device_csv : string -> result (list V18.device_row))
    (files : gmap string string) (filename : string) (self : V18.model) :
  files !! filename = None ->
  V18.import_device_config parse_device_csv files filename self
  = (Raise (FileNotFoundError filename), self).
Proof.
  intros Hmissing.
  unfold V18.import_device_config, V18.pd_read_csv. by rewrite Hmissing.
Qed.

Lemma import_missing_file_is_atomic_at_start :
  exists m, V18.__init__ = Ok m /\
    ({["scenario_a_devices.csv" := "device,enabled"]} : gmap string string)
      !! "device_config.csv" = None /\
    V18.import_device_config (fun _ => Ok V18.default_device_config)
      {["scenario_a_devices.csv" := "device,enabled"]} "device_config.csv" m
    = (Raise (FileNotFoundError "device_config.csv"), m).
Proof.
  destruct started_v18 as [m Em]. exists m. split; [exact Em|].
  split; [reflexivity|].
  apply (import_missing_file_is_atomic (fun _ => Ok V18.default_device_config)
           {["scenario_a_devices.csv" := "device,enabled"]}
           "device_config.csv" m).
  reflexivity.
Defined.

(** ** Disabling a device *)

(** C10, the code at a failing input.  With the smartphone disabled in the
    default configuration, [_generate_bandwidth_data] leaves the smartphone
    without a series and overwrites the laptop's series with zeros; with
    the laptop (the first row) disabled it raises [UnboundLocalError].  The
    menu entry that toggles a device takes the same path. *)
Theorem disabling_a_device_hits_its_predecessor :
  (exists before after,
     V18._generate_bandwidth_data V18.default_device_config = Ok before /\
     V18._generate_bandwidth_data
       (V18.set_at_enabled V18.default_device_config 1 false) = Ok after /\
     dict_get after "smartphone" = None /\
     dict_get after "laptop" = Some (np_zeros 48) /\
     dict_get before "laptop" <> Some (np_zeros 48) /\
     dict_get after "tablet" = dict_get before "tablet" /\
     dict_get after "smartwatch" = dict_get before "smartwatch") /\
  V18._generate_bandwidth_data
    (V18.set_at_enabled V18.default_device_config 0 false)
  = Raise (UnboundLocalError "device_name") /\
  (exists m m',
     V18.__init__ = Ok m /\
     V18.enable_disable_device_menu 2 m = (Ok (), m') /\
     map V18.enabled (V18.device_config m') = [true; false; true; true] /\
     dict_get (V18.bandwidth_data m') "smartphone" = None /\
     dict_get (V18.bandwidth_data m') "laptop" = Some (np_zeros 48)).
Proof.
  split; [|split].
  - do 2 eexists. split; [vm_compute; reflexivity|].
    split; [vm_compute; reflexivity|].
    repeat split; try reflexivity. vm_compute. discriminate.
  - vm_compute. reflexivity.
  - do 2 eexists. split; [vm_compute; reflexivity|].
    split; [vm_compute; reflexivity|]. repeat split; reflexivity.
Qed.

(** * Further properties of the code *)

(** ** v18: generating the device series *)

Lemma clip1_bounds (hi x : Q) : 0 <= hi -> 0 <= clip1 0 hi x <= hi.
Proof.
  intros Hhi. unfold clip1, Qgtb.
  destruct (Qle_bool 0 x) eqn:C0; cbn [negb].
  - apply Qle_bool_iff in C0.
    destruct (Qle_bool x hi) eqn:C1; cbn [negb].
    + apply Qle_bool_iff in C1. lra.
    + lra.
  - destruct (Qle_bool 0 hi) eqn:C1; cbn [negb]; lra.
Qed.

Lemma base_patterns_length (name : string) (a : ndarray) :
  dict_get V18.base_patterns name = Some a -> length a = 48%nat.
Proof.
  unfold V18.base_patterns. cbn [dict_get].
  repeat (destruct (String.eqb _ name); [by intros [= <-]|]).
  discriminate.
Qed.

Lemma row_series_length (row : V18.device_row) : length (row_series row) = 48%nat.
Proof.
  unfold row_series, np_clip, np_scale. rewrite !length_map.
  destruct (dict_get V18.base_patterns (V18.device row)) as [a|] eqn:E;
    cbn [default].
  - by eapply base_patterns_length.
  - unfold np_ones. by rewrite length_map, length_replicate.
Qed.

Lemma row_series_bounds (row : V18.device_row) :
  0 <= V18.max_bandwidth_mbps row ->
  Forall (fun x => 0 <= x <= V18.max_bandwidth_mbps row) (row_series row).
Proof.
  intros Hmax. unfold row_series, np_clip. apply Forall_forall.
  intros x (y & -> & _)%list_elem_of_fmap. by apply clip1_bounds.
Qed.

Lemma bandwidth_row_enabled (row : V18.device_row) (data : dict ndarray)
    (name : option string) :
  V18.enabled row = true ->
  V18.bandwidth_row row (data, name)
  = Ok (dict_set data (V18.device row) (row_series row), Some (V18.device row)).
Proof. intros En. unfold V18.bandwidth_row. by rewrite En. Qed.

Lemma bandwidth_row_disabled (row : V18.device_row) (data : dict ndarray)
    (name : string) :
  V18.enabled row = false ->
  V18.bandwidth_row row (data, Some name)
  = Ok (dict_set data name (np_zeros 48), Some name).
Proof. intros En. unfold V18.bandwidth_row. by rewrite En. Qed.

(** Once [device_name] is bound the loop cannot raise. *)
Lemma bandwidth_rows_bound (rows : list V18.device_row) (data : dict ndarray)
    (name : string) :
  exists data' name',
    for_each rows V18.bandwidth_row (data, Some name) = Ok (data', Some name').
Proof.
  revert data name. induction rows as [|row rows IH]; intros data name.
  - by exists data, name.
  - cbn [for_each]. destruct (V18.enabled row) eqn:En.
    + rewrite bandwidth_row_enabled by done. apply IH.
    + rewrite bandwidth_row_disabled by done. apply IH.
Qed.

Lemma dict_get_set_cases {V : Type} (d : dict V) (k k' : string) (v a : V) :
  dict_get (dict_set d k v) k' = Some a ->
  (k' = k /\ a = v) \/ (k' <> k /\ dict_get d k' = Some a).
Proof.
  destruct (decide (k = k')) as [<-|Hne].
  - rewrite dict_get_set_eq. intros [= <-]. by left.
  - rewrite dict_get_set_ne by done. intros H. right. split; [congruence|done].
Qed.

Lemma zeros_bounds (hi : Q) :
  0 <= hi -> Forall (fun x => 0 <= x <= hi) (np_zeros 48).
Proof.
  intros H. apply Forall_forall. intros x Hx.
  unfold np_zeros in Hx. apply elem_of_replicate in Hx as [-> _]. lra.
Qed.

Lemma bandwidth_rows_within (all rows : list V18.device_row)
    (data data' : dict ndarray) (name : string) (name' : option string) :
  rows ⊆ all -> series_within all data ->
  (exists row, row ∈ all /\ V18.enabled row = true /\ V18.device row = name) ->
  for_each rows V18.bandwidth_row (data, Some name) = Ok (data', name') ->
  series_within all data'.
Proof.
  revert data name. induction rows as [|row rows IH]; intros data name Hsub Hin Hname.
  - by intros [= <- _].
  - cbn [for_each]. assert (Hrow : row ∈ all) by (apply Hsub; constructor).
    assert (Hsub' : rows ⊆ all) by (intros r Hr; apply Hsub; by constructor).
    destruct (V18.enabled row) eqn:En.
    + rewrite bandwidth_row_enabled, bind_Ok by done.
      apply IH; [done| |by exists row].
      intros k a [[-> ->]|[_ Hk]]%dict_get_set_cases; [|by apply Hin].
      split; [apply row_series_length|]. exists row.
      split; [done|]. split; [done|]. split; [done|]. apply row_series_bounds.
    + rewrite bandwidth_row_disabled, bind_Ok by done.
      apply IH; [done| |done].
      intros k a [[-> ->]|[_ Hk]]%dict_get_set_cases; [|by apply Hin].
      split; [unfold np_zeros; by rewrite length_replicate|].
      destruct Hname as (r & Hr & Er & Dr). exists r.
      split; [done|]. split; [done|]. split; [done|]. apply zeros_bounds.
Qed.

Lemma covers_day_set (d : dict ndarray) (k k' : string) (v : ndarray) :
  (48 <= length v)%nat -> covers_day d k' -> covers_day (dict_set d k v) k'.
Proof.
  intros Hv (a & Ha & Hlen). destruct (decide (k = k')) as [<-|Hne].
  - exists v. by rewrite dict_get_set_eq.
  - exists a. by rewrite dict_get_set_ne.
Qed.

Lemma covers_day_set_same (d : dict ndarray) (k : string) (v : ndarray) :
  (48 <= length v)%nat -> covers_day (dict_set d k v) k.
Proof. intros Hv. exists v. by rewrite dict_get_set_eq. Qed.

Lemma bandwidth_rows_cover (rows : list V18.device_row)
    (data data' : dict ndarray) (name : string) (name' : option string) :
  for_each rows V18.bandwidth_row (data, Some name) = Ok (data', name') ->
  (forall k, covers_day data k -> covers_day data' k) /\
  rows_covered rows data'.
Proof.
  revert data name. induction rows as [|row rows IH]; intros data name.
  - intros [= <- _]. split; [done|constructor].
  - cbn [for_each]. destruct (V18.enabled row) eqn:En.
    + rewrite bandwidth_row_enabled, bind_Ok by done.
      intros (Hkeep & Hcov)%IH. split.
      * intros k Hk. apply Hkeep, covers_day_set; [|done].
        by rewrite row_series_length.
      * constructor; [|done]. intros _. apply Hkeep, covers_day_set_same.
        by rewrite row_series_length.
    + rewrite bandwidth_row_disabled, bind_Ok by done.
      intros (Hkeep & Hcov)%IH. split.
      * intros k Hk. apply Hkeep, covers_day_set; [|done].
        unfold np_zeros. by rewrite length_replicate.
      * constructor; [|done]. intros En'. congruence.
Qed.

Lemma generate_bandwidth_data_ok (device_config : list V18.device_row)
    (data : dict ndarray) :
  V18._generate_bandwidth_data device_config = Ok data ->
  rows_covered device_config data /\ series_within device_config data.
Proof.
  unfold V18._generate_bandwidth_data.
  intros ([data' name'] & E & [= <-])%bind_ok. cbn [fst].
  destruct device_config as [|row rows].
  - injection E as <- _. split; [constructor|]. intros k a. discriminate.
  - cbn [for_each] in E. destruct (V18.enabled row) eqn:En.
    + rewrite bandwidth_row_enabled, bind_Ok in E by done. split.
      * destruct (bandwidth_rows_cover _ _ _ _ _ E) as (Hkeep & Hcov).
        constructor; [|done]. intros _. apply Hkeep, covers_day_set_same.
        by rewrite row_series_length.
      * eapply (bandwidth_rows_within (row :: rows) rows); [| | |exact E].
        -- intros r Hr. by constructor.
        -- intros k a [[-> ->]|[_ Hk]]%dict_get_set_cases; [|discriminate].
           split; [apply row_series_length|]. exists row.
           split; [constructor|]. split; [done|]. split; [done|].
           apply row_series_bounds.
        -- exists row. split; [constructor|done].
    + unfold V18.bandwidth_row in E. rewrite En in E. discriminate.
Qed.

Lemma generate_bandwidth_data_first_disabled (row : V18.device_row)
    (rest : list V18.device_row) :
  V18.enabled row = false ->
  V18._generate_bandwidth_data (row :: rest)
  = Raise (UnboundLocalError "device_name").
Proof.
  intros En. unfold V18._generate_bandwidth_data. cbn [for_each].
  unfold V18.bandwidth_row. by rewrite En.
Qed.

Lemma generate_bandwidth_data_returns (device_config : list V18.device_row) :
  (forall row rest, device_config = row :: rest -> V18.enabled row = true) ->
  exists data, V18._generate_bandwidth_data device_config = Ok data.
Proof.
  intros Hfirst. unfold V18._generate_bandwidth_data.
  destruct device_config as [|row rows]; [by eexists|].
  cbn [for_each]. rewrite bandwidth_row_enabled, bind_Ok by by eapply Hfirst.
  destruct (bandwidth_rows_bound rows
              (dict_set [] (V18.device row) (row_series row)) (V18.device row))
    as (data' & name' & ->).
  by eexists.
Qed.

(** X1.  [_generate_bandwidth_data] of v18 raises exactly when the first
    row of the configuration is disabled, and the exception is then
    [UnboundLocalError] for [device_name]; on every other configuration,
    the empty one included, it returns a mapping. *)
Theorem generate_bandwidth_data_raises_iff_first_row_disabled
    (device_config : list V18.device_row) (e : exn) :
  V18._generate_bandwidth_data device_config = Raise e <->
  e = UnboundLocalError "device_name" /\
  exists row rest, device_config = row :: rest /\ V18.enabled row = false.
Proof.
  split.
  - intros E. destruct device_config as [|row rows]; [discriminate|].
    destruct (V18.enabled row) eqn:En.
    + destruct (generate_bandwidth_data_returns (row :: rows)) as (data & E').
      { by intros r rs [= <- <-]. }
      congruence.
    + rewrite generate_bandwidth_data_first_disabled in E by done.
      injection E as <-. split; [done|]. by exists row, rows.
  - intros (-> & row & rest & -> & En).
    by apply generate_bandwidth_data_first_disabled.
Qed.

(** X2.  Whatever [_generate_bandwidth_data] of v18 returns, every series
    has 48 entries and is stored under the device name of an enabled row of
    the configuration; when that row's [max_bandwidth_mbps] is not
    negative, every entry lies between 0 and it. *)
Theorem generated_series_are_clipped (device_config : list V18.device_row)
    (data : dict ndarray) (k : string) (a : ndarray) :
  V18._generate_bandwidth_data device_config = Ok data ->
  dict_get data k = Some a ->
  length a = 48%nat /\
  exists row : V18.device_row,
    row ∈ device_config /\ V18.enabled row = true /\ V18.device row = k /\
    (0 <= V18.max_bandwidth_mbps row ->
     Forall (fun x => 0 <= x <= V18.max_bandwidth_mbps row) a).
Proof.
  intros (_ & Hin)%generate_bandwidth_data_ok Hk. by apply Hin.
Qed.

(** *** A disabled row and the row before it *)

Lemma for_each_app {A S : Type} (body : A -> S -> result S) (xs ys : list A)
    (s : S) :
  for_each (xs ++ ys) body s = (s' ← for_each xs body s; for_each ys body s').
Proof.
  revert s. induction xs as [|x xs IH]; intros s; cbn [for_each app]; [done|].
  destruct (body x s) as [s1|e]; cbn; [apply IH|done].
Qed.

(** The loop binds [device_name] in its first enabled row and never
    unbinds it. *)
Lemma bandwidth_rows_bind (rows : list V18.device_row)
    (st st' : dict ndarray * option string) :
  for_each rows V18.bandwidth_row st = Ok st' ->
  (exists row, row ∈ rows /\ V18.enabled row = true) \/ is_Some st.2 ->
  is_Some st'.2.
Proof.
  revert st. induction rows as [|row rows IH]; intros [data name].
  - intros [= <-] [(row & Hrow & _)|H]; [by apply elem_of_nil in Hrow|done].
  - cbn [for_each]. intros (st1 & E1 & E)%bind_ok H.
    apply (IH st1 E). right. unfold V18.bandwidth_row in E1.
    destruct (V18.enabled row); [by injection E1 as <-|].
    destruct name; [by injection E1 as <-|discriminate].
Qed.

(** A series of zeros stays as it is while no enabled row bears its
    name. *)
Lemma zeros_stay (rows : list V18.device_row) (data data' : dict ndarray)
    (name : string) (name' : option string) (k : string) :
  dict_get data k = Some (np_zeros 48) ->
  (forall row, row ∈ rows -> V18.enabled row = true -> V18.device row <> k) ->
  for_each rows V18.bandwidth_row (data, Some name) = Ok (data', name') ->
  dict_get data' k = Some (np_zeros 48).
Proof.
  revert data name. induction rows as [|row rows IH]; intros data name Hk Hrows.
  - by intros [= <- _].
  - cbn [for_each]. destruct (V18.enabled row) eqn:En.
    + rewrite bandwidth_row_enabled, bind_Ok by done.
      apply IH; [|intros r Hr; apply Hrows; by constructor].
      rewrite dict_get_set_ne; [done|]. apply Hrows; [constructor|done].
    + rewrite bandwidth_row_disabled, bind_Ok by done.
      apply IH; [|intros r Hr; apply Hrows; by constructor].
      destruct (decide (name = k)) as [->|Hne].
      * by rewrite dict_get_set_eq.
      * by rewrite dict_get_set_ne.
Qed.

Lemma NoDup_device_names (rows : list V18.device_row) (r1 r2 : V18.device_row)
    (i j : nat) :
  NoDup (map V18.device rows) ->
  rows !! i = Some r1 -> rows !! j = Some r2 ->
  V18.device r1 = V18.device r2 -> i = j.
Proof.
  intros Hnd H1 H2 Heq.
  apply (NoDup_lookup (map V18.device rows) i j (V18.device r1)); [done| |].
  - by rewrite list_lookup_fmap, H1.
  - by rewrite list_lookup_fmap, H2, Heq.
Qed.

(** A series stays as it is while [device_name] is another name and no
    enabled row bears its name. *)
Lemma series_stays (rows : list V18.device_row) (data data' : dict ndarray)
    (name : string) (name' : option string) (k : string) (a : ndarray) :
  dict_get data k = Some a ->
  name <> k ->
  (forall row, row ∈ rows -> V18.enabled row = true -> V18.device row <> k) ->
  for_each rows V18.bandwidth_row (data, Some name) = Ok (data', name') ->
  dict_get data' k = Some a.
Proof.
  revert data name. induction rows as [|row rows IH]; intros data name Hk Hn Hrows.
  - by intros [= <- _].
  - cbn [for_each].
    assert (Hrest : forall r, r ∈ rows -> V18.enabled r = true -> V18.device r <> k)
      by (intros r Hr; apply Hrows; by constructor).
    destruct (V18.enabled row) eqn:En.
    + rewrite bandwidth_row_enabled, bind_Ok by done.
      assert (Hd : V18.device row <> k) by (apply Hrows; [constructor|done]).
      apply IH; [|done|done]. by rewrite dict_get_set_ne.
    + rewrite bandwidth_row_disabled, bind_Ok by done.
      apply IH; [|done|done]. by rewrite dict_get_set_ne.
Qed.

(** X3.  In v18, for a configuration with pairwise distinct device
    names on which [_generate_bandwidth_data] returns, an enabled row that
    is the last row or is followed by an enabled row has in the returned
    mapping, under its device name, a series of 48 entries: entry [i] is
    the [i]-th value of the device's base pattern (of 48 times
    [typical_usage_mbps] for a device without a pattern) times
    [device_count], clipped to between 0 and [max_bandwidth_mbps]. *)
Theorem enabled_row_gets_its_clipped_pattern
    (before after : list V18.device_row) (row : V18.device_row)
    (data : dict ndarray) :
  NoDup (map V18.device (before ++ row :: after)) ->
  V18.enabled row = true ->
  (forall next rest, after = next :: rest -> V18.enabled next = true) ->
  V18._generate_bandwidth_data (before ++ row :: after) = Ok data ->
  dict_get data (V18.device row) = Some (row_series row) /\
  length (row_series row) = 48%nat /\
  forall i x,
    default (np_scale (np_ones 48) (V18.typical_usage_mbps row))
            (dict_get V18.base_patterns (V18.device row)) !! i = Some x ->
    row_series row !! i
    = Some (clip1 0 (V18.max_bandwidth_mbps row)
              (x * inject_Z (V18.device_count row))).
Proof.
  intros Hnd Hrow Hnext E.
  set (cfg := before ++ row :: after) in *.
  assert (Hr : cfg !! length before = Some row)
    by (unfold cfg; by rewrite lookup_app_r, Nat.sub_diag by lia).
  assert (Hother : forall r j, after !! j = Some r ->
                               V18.device r <> V18.device row).
  { intros r j Hj Hd.
    assert (Hj' : cfg !! (length before + 1 + j)%nat = Some r).
    { unfold cfg. rewrite lookup_app_r by lia.
      replace (length before + 1 + j - length before)%nat with (S j) by lia.
      exact Hj. }
    pose proof (NoDup_device_names cfg r row _ _ Hnd Hj' Hr Hd). lia. }
  split; [|split].
  - unfold V18._generate_bandwidth_data in E.
    apply bind_ok in E as ([data' name'] & E & [= <-]). cbn [fst].
    unfold cfg in E. rewrite for_each_app in E.
    apply bind_ok in E as ([data1 name1] & _ & E).
    cbn [for_each] in E.
    rewrite bandwidth_row_enabled, bind_Ok in E by done.
    destruct after as [|next rest].
    + injection E as <- _. by rewrite dict_get_set_eq.
    + cbn [for_each] in E.
      rewrite bandwidth_row_enabled, bind_Ok in E by by eapply Hnext.
      assert (Hd : V18.device next <> V18.device row)
        by (by apply (Hother next 0%nat)).
      apply (series_stays rest _ _ _ _ (V18.device row) (row_series row)) in E;
        [done| |done|].
      * by rewrite dict_get_set_ne, dict_get_set_eq.
      * intros r Hin _. apply list_elem_of_lookup in Hin as (j & Hj).
        by apply (Hother r (S j)).
  - apply row_series_length.
  - intros i x Hx. unfold row_series, np_clip. rewrite list_lookup_fmap.
    unfold np_scale at 1. by rewrite list_lookup_fmap, Hx.
Qed.

(** X4.  In v18, for a configuration with pairwise distinct device
    names on which [_generate_bandwidth_data] returns: when a disabled row
    comes right after an enabled one, the returned mapping holds 48 zeros
    under the name of the enabled row before it and no series at all
    under the name of the disabled row. *)
Theorem disabled_row_zeroes_the_row_before
    (before after : list V18.device_row) (prev row : V18.device_row)
    (data : dict ndarray) :
  NoDup (map V18.device (before ++ prev :: row :: after)) ->
  V18.enabled prev = true ->
  V18.enabled row = false ->
  V18._generate_bandwidth_data (before ++ prev :: row :: after) = Ok data ->
  dict_get data (V18.device prev) = Some (np_zeros 48) /\
  dict_get data (V18.device row) = None.
Proof.
  intros Hnd Hprev Hrow E.
  set (cfg := before ++ prev :: row :: after) in *.
  assert (Hp : cfg !! length before = Some prev)
    by (unfold cfg; by rewrite lookup_app_r, Nat.sub_diag by lia).
  assert (Hr : cfg !! S (length before) = Some row).
  { unfold cfg. rewrite lookup_app_r by lia.
    by replace (S (length before) - length before)%nat with 1%nat by lia. }
  split.
  - unfold V18._generate_bandwidth_data in E.
    apply bind_ok in E as ([data' name'] & E & [= <-]). cbn [fst].
    unfold cfg in E. rewrite for_each_app in E.
    apply bind_ok in E as ([data1 name1] & _ & E).
    cbn [for_each] in E.
    rewrite bandwidth_row_enabled, bind_Ok in E by done.
    rewrite bandwidth_row_disabled, bind_Ok in E by done.
    apply (zeros_stay after _ _ _ _ _ (dict_get_set_eq _ _ _)) in E; [done|].
    intros r Hin En Hd.
    apply list_elem_of_lookup in Hin as (j & Hj).
    assert (Hj' : cfg !! (length before + 2 + j)%nat = Some r).
    { unfold cfg. rewrite lookup_app_r by lia.
      replace (length before + 2 + j - length before)%nat with (S (S j)) by lia.
      exact Hj. }
    pose proof (NoDup_device_names cfg r prev _ _ Hnd Hj' Hp Hd). lia.
  - destruct (dict_get data (V18.device row)) as [a|] eqn:Ea; [|done].
    exfalso.
    destruct (generate_bandwidth_data_ok _ _ E) as (_ & Hin).
    destruct (Hin _ _ Ea) as (_ & r & Hr' & En & Hd & _).
    apply list_elem_of_lookup in Hr' as (j & Hj).
    pose proof (NoDup_device_names cfg r row _ _ Hnd Hj Hr Hd) as ->.
    congruence.
Qed.

(** ** Keys and lengths of the band table *)

Lemma shape_dict_set (d : dict ndarray) (k : string) (a a' : ndarray) :
  dict_get d k = Some a -> length a' = length a ->
  shape (dict_set d k a') = shape d.
Proof.
  unfold shape. intros Hk Hlen.
  induction d as [|[k0 a0] d IH]; cbn [dict_get dict_set map] in *; [discriminate|].
  destruct (String.eqb k0 k) eqn:E; cbn [map fst snd].
  - injection Hk as ->. by rewrite Hlen.
  - by rewrite IH.
Qed.

Lemma update_at_shape (op : Q -> Q -> Q) (d d' : dict ndarray) (k : string)
    (i : nat) (rhs : result Q) :
  (a ← dict_getitem d k; x ← np_getitem a i; v ← rhs;
   mret (dict_set d k (<[i := op x v]> a))) = Ok d' ->
  shape d' = shape d.
Proof.
  intros (a & Ea & H)%bind_ok. apply bind_ok in H as (x & Ex & H).
  apply bind_ok in H as (v & Ev & [= <-]).
  unfold dict_getitem in Ea. destruct (dict_get d k) as [a0|] eqn:Ek; [|discriminate].
  injection Ea as ->. apply (shape_dict_set d k a); [done|].
  by rewrite length_insert.
Qed.

Lemma iadd_at_shape (d d' : dict ndarray) (k : string) (i : nat) (rhs : result Q) :
  iadd_at d k i rhs = Ok d' -> shape d' = shape d.
Proof. apply (update_at_shape Qplus). Qed.

Lemma isub_at_shape (d d' : dict ndarray) (k : string) (i : nat) (rhs : result Q) :
  isub_at d k i rhs = Ok d' -> shape d' = shape d.
Proof. apply (update_at_shape Qminus). Qed.

Lemma for_each_preserves {A S T : Type} (f : S -> T)
    (body : A -> S -> result S) (xs : list A) (s s' : S) :
  (forall x s s', body x s = Ok s' -> f s' = f s) ->
  for_each xs body s = Ok s' -> f s' = f s.
Proof.
  intros Hbody. revert s. induction xs as [|x xs IH]; intros s; cbn [for_each].
  - by intros [= <-].
  - intros (s1 & E1 & E)%bind_ok. rewrite (IH _ E). by eapply Hbody.
Qed.

Lemma wifi_band_device_shape (bandwidth_data d d' : dict ndarray) (i : nat)
    (row : V18.device_row) :
  V18.wifi_band_device bandwidth_data i row d = Ok d' -> shape d' = shape d.
Proof.
  unfold V18.wifi_band_device.
  destruct (negb (V18.enabled row)); [by intros [= <-]|].
  intros (bw & _ & H)%bind_ok. cbv zeta in H.
  repeat match type of H with
         | (if ?c then _ else _) = _ => destruct c
         end; by apply iadd_at_shape in H.
Qed.

Lemma generate_wifi_band_data_v18_shape (device_config : list V18.device_row)
    (bandwidth_data wifi : dict ndarray) :
  V18._generate_wifi_band_data device_config bandwidth_data = Ok wifi ->
  shape wifi = band_shape.
Proof.
  unfold V18._generate_wifi_band_data. cbv zeta. intros H.
  apply (for_each_preserves shape) in H; [exact H|].
  intros i s s' Hs. apply (for_each_preserves shape) in Hs; [exact Hs|].
  intros row t t'. apply wifi_band_device_shape.
Qed.

Lemma wifi_band_slot_v8_shape (bandwidth_data d d' : dict ndarray) (i : nat) :
  V8.wifi_band_slot bandwidth_data i d = Ok d' -> shape d' = shape d.
Proof.
  unfold V8.wifi_band_slot. cbv zeta.
  intros (d1 & E1%iadd_at_shape & H)%bind_ok.
  apply bind_ok in H as (p & _ & H).
  apply bind_ok in H as (d2 & E2 & H).
  assert (S2 : shape d2 = shape d1).
  { destruct (p >? 8); by apply iadd_at_shape in E2. }
  apply bind_ok in H as (l & _ & H).
  apply bind_ok in H as (d3 & E3 & H).
  assert (S3 : shape d3 = shape d2).
  { destruct (l >? 15); [|destruct (l >? 5)]; by apply iadd_at_shape in E3. }
  apply bind_ok in H as (t & _ & H).
  apply bind_ok in H as (d4 & E4 & H).
  assert (S4 : shape d4 = shape d3).
  { destruct (t >? 3); by apply iadd_at_shape in E4. }
  assert (S5 : shape d' = shape d4).
  { destruct (_ && _); [destruct (p <=? 8)|].
    - apply bind_ok in H as (d5 & E5%isub_at_shape & E6%iadd_at_shape). congruence.
    - by injection H as <-.
    - by injection H as <-. }
  congruence.
Qed.

Lemma generate_wifi_band_data_v8_shape (bandwidth_data wifi : dict ndarray) :
  V8._generate_wifi_band_data bandwidth_data = Ok wifi -> shape wifi = band_shape.
Proof.
  unfold V8._generate_wifi_band_data. cbv zeta. intros H.
  apply (for_each_preserves shape) in H; [exact H|].
  intros i s s'. apply wifi_band_slot_v8_shape.
Qed.

(** A table of that shape is three 48-slot series under the band keys. *)
Lemma band_shape_inv (wifi : dict ndarray) :
  shape wifi = band_shape ->
  exists a b c : ndarray,
    wifi = [("2.4GHz"%string, a); ("5GHz"%string, b); ("6GHz"%string, c)] /\
    length a = 48%nat /\ length b = 48%nat /\ length c = 48%nat.
Proof.
  unfold shape, band_shape. intros H.
  destruct wifi as [|[k1 a] [|[k2 b] [|[k3 c] [|? ?]]]]; try discriminate.
  cbn in H. injection H as -> Ha -> Hb -> Hc. by exists a, b, c.
Qed.

(** ** v18: conservation for any configuration *)

Lemma table_v18_total (device_config : list V18.device_row)
    (bandwidth_data : dict ndarray) (i : nat) :
  table_v18 device_config bandwidth_data GHz2_4 i
  + table_v18 device_config bandwidth_data GHz5 i
  + table_v18 device_config bandwidth_data GHz6 i
  == enabled_sum device_config bandwidth_data i.
Proof.
  induction device_config as [|row rows IH]; cbn [table_v18 enabled_sum]; [ring|].
  rewrite <- IH. destruct (V18.enabled row); [|ring]. cbv zeta.
  pose proof (share_total
                (row_band row (reading bandwidth_data (V18.device row) i))
                (reading bandwidth_data (V18.device row) i)). lra.
Qed.

Lemma laptop_band_6GHz (bw : Q) : laptop_band bw = GHz6 -> 15 < bw.
Proof.
  unfold laptop_band, Qgtb. destruct (Qle_bool bw 15) eqn:C; cbn [negb].
  - destruct (negb _); discriminate.
  - intros _. by apply Qle_bool_false.
Qed.

Lemma row_band_6GHz (row : V18.device_row) (bw : Q) :
  row_band row bw = GHz6 ->
  V18.preferred_band row = "6GHz"%string /\
  V18.wifi_capability row = "WiFi 6E"%string /\ 15 < bw.
Proof.
  unfold row_band.
  destruct (String.eqb (V18.preferred_band row) "6GHz") eqn:E1;
    destruct (String.eqb (V18.wifi_capability row) "WiFi 6E") eqn:E2;
    cbn [andb orb].
  - intros H%laptop_band_6GHz. apply String.eqb_eq in E1, E2. done.
  - unfold tablet_band. destruct (String.eqb _ "5GHz"), (_ >? 3); discriminate.
  - unfold tablet_band.
    destruct (String.eqb _ "5GHz"); cbn [orb]; [destruct (_ >? 3)|]; discriminate.
  - unfold tablet_band.
    destruct (String.eqb _ "5GHz"); cbn [orb]; [destruct (_ >? 3)|]; discriminate.
Qed.

Lemma table_v18_6GHz_idle (device_config : list V18.device_row)
    (bandwidth_data : dict ndarray) (i : nat) :
  ~ reaches_6GHz device_config bandwidth_data i ->
  table_v18 device_config bandwidth_data GHz6 i == 0.
Proof.
  induction device_config as [|row rows IH]; intros Hno; cbn [table_v18];
    [reflexivity|].
  rewrite IH.
  - destruct (V18.enabled row) eqn:En; [|ring]. cbv zeta. unfold share.
    destruct (decide (GHz6 = row_band row _)) as [E|_]; [|ring].
    exfalso. apply Hno. symmetry in E.
    apply row_band_6GHz in E as (E1 & E2 & E3).
    exists row. split; [constructor|done].
  - intros (r & Hr & H). apply Hno. exists r. split; [by constructor|done].
Qed.

(** ** v18: the two generators in sequence *)

Lemma generate_wifi_band_data_v18_total
    (device_config : list V18.device_row) (bandwidth_data : dict ndarray) :
  rows_covered device_config bandwidth_data ->
  exists wifi,
    V18._generate_wifi_band_data device_config bandwidth_data = Ok wifi /\
    shape wifi = band_shape /\
    forall i, (i < 48)%nat ->
      exists s, band_sum wifi i = Ok s /\
                s == enabled_sum device_config bandwidth_data i.
Proof.
  intros Hcov.
  destruct (generate_wifi_band_data_v18 _ _ Hcov) as (wifi & E & F).
  exists wifi. split; [done|]. split; [by eapply generate_wifi_band_data_v18_shape|].
  intros i Hi. destruct (band_sum_filled _ _ _ F Hi) as (s & Es & Hs).
  exists s. split; [done|]. by rewrite Hs, table_v18_total.
Qed.

(** X5.  In v18, for any configuration and any bandwidth data that holds
    a series of at least 48 entries for every enabled row, the 6GHz entry
    of slot [i] of the table [_generate_wifi_band_data] returns is 0
    unless some enabled row prefers 6GHz, has the capability WiFi 6E and
    uses more than 15 Mbps at slot [i]. *)
Theorem six_GHz_needs_a_6E_row_above_15
    (device_config : list V18.device_row) (bandwidth_data wifi : dict ndarray)
    (i : nat) :
  rows_covered device_config bandwidth_data ->
  V18._generate_wifi_band_data device_config bandwidth_data = Ok wifi ->
  (i < 48)%nat ->
  ~ reaches_6GHz device_config bandwidth_data i ->
  exists y, subscript2 wifi "6GHz" i = Ok y /\ y == 0.
Proof.
  intros Hcov E Hi Hno.
  destruct (generate_wifi_band_data_v18 _ _ Hcov) as (wifi' & E' & F).
  rewrite E in E'. injection E' as <-.
  destruct (F GHz6 i Hi) as (y & Ey & Hy). cbn [band_key] in Ey.
  exists y. split; [done|].
  rewrite decide_True in Hy by done. by rewrite Hy, table_v18_6GHz_idle.
Qed.

(** X6.  In v18, whenever [_generate_bandwidth_data] returns a mapping
    for a configuration, [_generate_wifi_band_data] on that configuration
    and mapping returns as well (no [KeyError], no [IndexError]), and its
    table has the keys 2.4GHz, 5GHz and 6GHz, in this order, with 48
    entries each. *)
Theorem band_generation_follows_bandwidth_generation
    (device_config : list V18.device_row) (bandwidth_data : dict ndarray) :
  V18._generate_bandwidth_data device_config = Ok bandwidth_data ->
  exists wifi,
    V18._generate_wifi_band_data device_config bandwidth_data = Ok wifi /\
    shape wifi = band_shape.
Proof.
  intros [Hcov _]%generate_bandwidth_data_ok.
  destruct (generate_wifi_band_data_v18_total _ _ Hcov) as (wifi & E & S & _).
  by exists wifi.
Qed.

(** ** v18: the time-series table *)

Lemma zip_with_Qplus_lookup (a b : list Q) (i : nat) (x y : Q) :
  a !! i = Some x -> b !! i = Some y ->
  zip_with Qplus a b !! i = Some (x + y).
Proof. intros Ha Hb. by rewrite lookup_zip_with, Ha, Hb. Qed.

Lemma series_or_zeros_length (data : dict ndarray) (k : string) :
  (forall k a, dict_get data k = Some a -> length a = 48%nat) ->
  length (default (np_zeros 48) (dict_get data k)) = 48%nat.
Proof.
  intros H. destruct (dict_get data k) as [a|] eqn:E; cbn [default].
  - by eapply H.
  - unfold np_zeros. by rewrite length_replicate.
Qed.

Lemma reading_default (data : dict ndarray) (k : string) (i : nat) :
  (i < 48)%nat ->
  (forall k a, dict_get data k = Some a -> length a = 48%nat) ->
  default (np_zeros 48) (dict_get data k) !! i = Some (reading data k i) \/
  (default (np_zeros 48) (dict_get data k) !! i = Some 0 /\ reading data k i = 0).
Proof.
  intros Hi H. unfold reading, subscript2, dict_getitem.
  destruct (dict_get data k) as [a|] eqn:E; cbn [default].
  - left. rewrite bind_Ok. unfold np_getitem.
    destruct (a !! i) as [x|] eqn:Ex; [done|].
    apply lookup_ge_None in Ex. rewrite (H _ _ E) in Ex. lia.
  - right. split; [|done]. unfold np_zeros. by apply lookup_replicate_2.
Qed.

Lemma series_or_zeros_lookup (data : dict ndarray) (k : string) (i : nat) :
  (i < 48)%nat ->
  (forall k a, dict_get data k = Some a -> length a = 48%nat) ->
  exists x, default (np_zeros 48) (dict_get data k) !! i = Some x /\
            x == reading data k i.
Proof.
  intros Hi H. destruct (reading_default data k i Hi H) as [E|[E R]].
  - by eexists.
  - exists 0. by rewrite R.
Qed.

Lemma df_setitem_ok (n : nat) (df : dict ndarray) (name : string) (v : ndarray) :
  length v = n -> V18.df_setitem n df name v = Ok (dict_set df name v).
Proof. intros <-. unfold V18.df_setitem. by rewrite Nat.eqb_refl. Qed.

Lemma zip_with_Qplus_length (a b : list Q) (n : nat) :
  length a = n -> length b = n -> length (zip_with Qplus a b) = n.
Proof. intros Ha Hb. rewrite length_zip_with. lia. Qed.

Lemma lookup_zeros (n i : nat) : (i < n)%nat -> np_zeros n !! i = Some 0.
Proof. intros Hi. unfold np_zeros. by apply lookup_replicate_2. Qed.

Lemma lookup_in_range (a : list Q) (n i : nat) :
  length a = n -> (i < n)%nat -> exists x, a !! i = Some x.
Proof.
  intros Ha Hi. destruct (a !! i) as [x|] eqn:E; [by eexists|].
  apply lookup_ge_None in E. lia.
Qed.

Lemma create_timeseries_dataframe_columns (hours : ndarray)
    (bandwidth_data : dict ndarray) (a b c : ndarray) :
  length hours = 48%nat ->
  (forall k a, dict_get bandwidth_data k = Some a -> length a = 48%nat) ->
  length a = 48%nat -> length b = 48%nat -> length c = 48%nat ->
  let l := default (np_zeros 48) (dict_get bandwidth_data "laptop") in
  let p := default (np_zeros 48) (dict_get bandwidth_data "smartphone") in
  let t := default (np_zeros 48) (dict_get bandwidth_data "tablet") in
  let w := default (np_zeros 48) (dict_get bandwidth_data "smartwatch") in
  V18._create_timeseries_dataframe hours bandwidth_data
    [("2.4GHz"%string, a); ("5GHz"%string, b); ("6GHz"%string, c)]
  = Ok [ ("hour_decimal"%string, hours);
         ("laptop_mbps"%string, l); ("smartphone_mbps"%string, p);
         ("tablet_mbps"%string, t); ("smartwatch_mbps"%string, w);
         ("band_2.4GHz"%string, a); ("band_5GHz"%string, b);
         ("band_6GHz"%string, c);
         ("total_mbps"%string,
          zip_with Qplus
            (zip_with Qplus
               (zip_with Qplus (zip_with Qplus (np_zeros 48) l) p) t) w);
         ("total_band_mbps"%string,
          zip_with Qplus (zip_with Qplus (zip_with Qplus (np_zeros 48) a) b) c) ].
Proof.
  intros Hh Hlen Ha Hb Hc l p t w.
  unfold V18._create_timeseries_dataframe. rewrite Hh. cbv zeta.
  pose proof (series_or_zeros_length bandwidth_data "laptop" Hlen) as Ll.
  pose proof (series_or_zeros_length bandwidth_data "smartphone" Hlen) as Lp.
  pose proof (series_or_zeros_length bandwidth_data "tablet" Hlen) as Lt.
  pose proof (series_or_zeros_length bandwidth_data "smartwatch" Hlen) as Lw.
  cbn [V18.device_columns V18.band_columns for_each map].
  fold l p t w. fold l in Ll. fold p in Lp. fold t in Lt. fold w in Lw.
  clearbody l p t w.
  rewrite (df_setitem_ok 48 _ _ l Ll), bind_Ok.
  rewrite (df_setitem_ok 48 _ _ p Lp), bind_Ok.
  rewrite (df_setitem_ok 48 _ _ t Lt), bind_Ok.
  rewrite (df_setitem_ok 48 _ _ w Lw), !bind_Ok.
  change (dict_getitem _ "2.4GHz") with (Ok a : result ndarray).
  rewrite bind_Ok, (df_setitem_ok 48 _ _ a Ha), bind_Ok.
  change (dict_getitem _ "5GHz") with (Ok b : result ndarray).
  rewrite bind_Ok, (df_setitem_ok 48 _ _ b Hb), bind_Ok.
  change (dict_getitem _ "6GHz") with (Ok c : result ndarray).
  rewrite bind_Ok, (df_setitem_ok 48 _ _ c Hc), !bind_Ok.
  set (total :=
         zip_with Qplus
           (zip_with Qplus (zip_with Qplus (zip_with Qplus (np_zeros 48) l) p) t) w).
  set (total_band :=
         zip_with Qplus (zip_with Qplus (zip_with Qplus (np_zeros 48) a) b) c).
  assert (Ltot : length total = 48%nat).
  { unfold total. repeat apply zip_with_Qplus_length; try done. }
  assert (Lband : length total_band = 48%nat).
  { unfold total_band. repeat apply zip_with_Qplus_length; try done. }
  match goal with
  | |- context [V18.df_row_sum 48 ?df ?cols] =>
      change (V18.df_row_sum 48 df cols) with (Ok total : result ndarray)
  end.
  rewrite bind_Ok, (df_setitem_ok 48 _ _ total Ltot), bind_Ok.
  match goal with
  | |- context [V18.df_row_sum 48 ?df ?cols] =>
      change (V18.df_row_sum 48 df cols) with (Ok total_band : result ndarray)
  end.
  rewrite bind_Ok, (df_setitem_ok 48 _ _ total_band Lband).
  reflexivity.
Qed.

Lemma create_timeseries_dataframe_returns (hours : ndarray)
    (bandwidth_data wifi_band_data : dict ndarray) :
  length hours = 48%nat ->
  (forall k a, dict_get bandwidth_data k = Some a -> length a = 48%nat) ->
  shape wifi_band_data = band_shape ->
  exists df,
    V18._create_timeseries_dataframe hours bandwidth_data wifi_band_data = Ok df.
Proof.
  intros Hh Hlen (a & b & c & -> & Ha & Hb & Hc)%band_shape_inv.
  rewrite (create_timeseries_dataframe_columns hours bandwidth_data a b c)
    by done.
  by eexists.
Qed.

(** X7.  [_create_timeseries_dataframe] of v18 returns whenever [hours]
    has 48 entries, every series present in [bandwidth_data] has 48 entries
    and the band table holds the three bands with 48 entries each.  Its
    numeric columns are [hour_decimal], the four device columns, the three
    band columns, [total_mbps] and [total_band_mbps], in this order;
    [total_mbps] at slot [i] is the sum of the four device series there, a
    device missing from [bandwidth_data] counting as 0, and
    [total_band_mbps] at slot [i] is the sum of the three bands there. *)
Theorem timeseries_totals_are_row_sums (hours : ndarray)
    (bandwidth_data wifi_band_data : dict ndarray) :
  length hours = 48%nat ->
  (forall k a, dict_get bandwidth_data k = Some a -> length a = 48%nat) ->
  shape wifi_band_data = band_shape ->
  exists df,
    V18._create_timeseries_dataframe hours bandwidth_data wifi_band_data = Ok df /\
    dict_keys df =
      ["hour_decimal"; "laptop_mbps"; "smartphone_mbps"; "tablet_mbps";
       "smartwatch_mbps"; "band_2.4GHz"; "band_5GHz"; "band_6GHz";
       "total_mbps"; "total_band_mbps"]%string /\
    forall i, (i < 48)%nat ->
      (exists x, subscript2 df "total_mbps" i = Ok x /\
                 x == total_at bandwidth_data i) /\
      (exists y s, subscript2 df "total_band_mbps" i = Ok y /\
                   band_sum wifi_band_data i = Ok s /\ y == s).
Proof.
  intros Hh Hlen (a & b & c & -> & Ha & Hb & Hc)%band_shape_inv.
  rewrite (create_timeseries_dataframe_columns hours bandwidth_data a b c)
    by done.
  eexists. split; [reflexivity|]. split; [reflexivity|].
  intros i Hi.
  destruct (series_or_zeros_lookup bandwidth_data "laptop" i Hi Hlen)
    as (xl & El & Hl).
  destruct (series_or_zeros_lookup bandwidth_data "smartphone" i Hi Hlen)
    as (xp & Ep & Hp).
  destruct (series_or_zeros_lookup bandwidth_data "tablet" i Hi Hlen)
    as (xt & Et & Ht).
  destruct (series_or_zeros_lookup bandwidth_data "smartwatch" i Hi Hlen)
    as (xw & Ew & Hw).
  destruct (lookup_in_range a 48 i Ha Hi) as (xa & Exa),
    (lookup_in_range b 48 i Hb Hi) as (xb & Exb),
    (lookup_in_range c 48 i Hc Hi) as (xc & Exc).
  pose proof (lookup_zeros 48 i Hi) as E0.
  split.
  - exists (0 + xl + xp + xt + xw). split.
    + apply subscript2_ok. eexists. split; [reflexivity|].
      pose proof (zip_with_Qplus_lookup _ _ i _ _ E0 El) as E1.
      pose proof (zip_with_Qplus_lookup _ _ i _ _ E1 Ep) as E2.
      pose proof (zip_with_Qplus_lookup _ _ i _ _ E2 Et) as E3.
      exact (zip_with_Qplus_lookup _ _ i _ _ E3 Ew).
    + unfold total_at. rewrite Hl, Hp, Ht, Hw. ring.
  - exists (0 + xa + xb + xc), (xa + xb + xc). split; [|split].
    + apply subscript2_ok. eexists. split; [reflexivity|].
      pose proof (zip_with_Qplus_lookup _ _ i _ _ E0 Exa) as E1.
      pose proof (zip_with_Qplus_lookup _ _ i _ _ E1 Exb) as E2.
      exact (zip_with_Qplus_lookup _ _ i _ _ E2 Exc).
    + unfold band_sum.
      change (subscript2 _ "2.4GHz" i) with (np_getitem a i).
      change (subscript2 _ "5GHz" i) with (np_getitem b i).
      change (subscript2 _ "6GHz" i) with (np_getitem c i).
      unfold np_getitem. by rewrite Exa, Exb, Exc, !bind_Ok.
    + ring.
Qed.

(** ** v18: the three assignments after a change of configuration *)

Lemma regenerate_raises (self : V18.model) (e : exn) :
  V18._generate_bandwidth_data (V18.device_config self) = Raise e ->
  V18.regenerate self = (Raise e, self).
Proof.
  intros E. unfold V18.regenerate, mbind, V18.method_bind, V18.get_self, V18.lift.
  by rewrite E.
Qed.

Lemma regenerate_returns (self : V18.model) (data wifi df : dict ndarray) :
  V18._generate_bandwidth_data (V18.device_config self) = Ok data ->
  V18._generate_wifi_band_data (V18.device_config self) data = Ok wifi ->
  V18._create_timeseries_dataframe (V18.hours self) data wifi = Ok df ->
  V18.regenerate self
  = (Ok (), {| V18.hours := V18.hours self;
               V18.device_config := V18.device_config self;
               V18.bandwidth_data := data;
               V18.wifi_band_data := wifi;
               V18.timeseries_df := df |}).
Proof.
  intros E1 E2 E3.
  unfold V18.regenerate, mbind, V18.method_bind, V18.get_self, V18.lift.
  rewrite E1.
  cbn [V18.set_bandwidth_data V18.device_config V18.bandwidth_data V18.hours].
  rewrite E2.
  cbn [V18.set_wifi_band_data V18.device_config V18.bandwidth_data V18.hours
       V18.wifi_band_data].
  rewrite E3. reflexivity.
Qed.

Lemma regenerate_returned (self self' : V18.model) :
  V18.regenerate self = (Ok (), self') ->
  exists data wifi df,
    V18._generate_bandwidth_data (V18.device_config self) = Ok data /\
    V18._generate_wifi_band_data (V18.device_config self) data = Ok wifi /\
    V18._create_timeseries_dataframe (V18.hours self) data wifi = Ok df /\
    self' = {| V18.hours := V18.hours self;
               V18.device_config := V18.device_config self;
               V18.bandwidth_data := data;
               V18.wifi_band_data := wifi;
               V18.timeseries_df := df |}.
Proof.
  destruct (V18._generate_bandwidth_data (V18.device_config self))
    as [data|e] eqn:E1; [|rewrite (regenerate_raises _ _ E1); discriminate].
  destruct (V18._generate_wifi_band_data (V18.device_config self) data)
    as [wifi|e] eqn:E2.
  - destruct (V18._create_timeseries_dataframe (V18.hours self) data wifi)
      as [df|e] eqn:E3.
    + rewrite (regenerate_returns _ _ _ _ E1 E2 E3). intros [= <-].
      by exists data, wifi, df.
    + unfold V18.regenerate, mbind, V18.method_bind, V18.get_self, V18.lift.
      rewrite E1.
      cbn [V18.set_bandwidth_data V18.device_config V18.bandwidth_data V18.hours].
      rewrite E2.
      cbn [V18.set_wifi_band_data V18.device_config V18.bandwidth_data V18.hours
           V18.wifi_band_data].
      rewrite E3. discriminate.
  - unfold V18.regenerate, mbind, V18.method_bind, V18.get_self, V18.lift.
    rewrite E1.
    cbn [V18.set_bandwidth_data V18.device_config V18.bandwidth_data V18.hours].
    rewrite E2. discriminate.
Qed.

(** A successful regeneration reads [hours] and [device_config] only. *)
Lemma regenerate_from (self other self' : V18.model) :
  V18.hours other = V18.hours self ->
  V18.device_config other = V18.device_config self ->
  V18.regenerate self = (Ok (), self') ->
  V18.regenerate other = (Ok (), self').
Proof.
  intros Hh Hc (data & wifi & df & E1 & E2 & E3 & ->)%regenerate_returned.
  rewrite <- Hh, <- Hc in *. rewrite (regenerate_returns other data wifi df); done.
Qed.

Lemma regenerate_consistent (self self' : V18.model) :
  V18.regenerate self = (Ok (), self') -> consistent self'.
Proof.
  intros H. unfold consistent. apply (regenerate_from self); [| |done].
  - apply regenerate_returned in H as (? & ? & ? & _ & _ & _ & ->). done.
  - apply regenerate_returned in H as (? & ? & ? & _ & _ & _ & ->). done.
Qed.

Lemma series_within_length (rows : list V18.device_row) (data : dict ndarray) :
  series_within rows data ->
  forall k a, dict_get data k = Some a -> length a = 48%nat.
Proof. intros H k a Hk. by destruct (H k a Hk). Qed.

Lemma regenerate_returns_if_first_enabled (self : V18.model) :
  length (V18.hours self) = 48%nat ->
  (forall row rest, V18.device_config self = row :: rest ->
                    V18.enabled row = true) ->
  exists self',
    V18.regenerate self = (Ok (), self') /\
    V18.hours self' = V18.hours self /\
    V18.device_config self' = V18.device_config self /\
    V18._generate_bandwidth_data (V18.device_config self)
      = Ok (V18.bandwidth_data self') /\
    consistent self'.
Proof.
  intros Hh Hfirst.
  destruct (generate_bandwidth_data_returns _ Hfirst) as (data & E1).
  destruct (generate_bandwidth_data_ok _ _ E1) as (Hcov & Hin).
  destruct (generate_wifi_band_data_v18_total _ _ Hcov) as (wifi & E2 & S & _).
  destruct (create_timeseries_dataframe_returns (V18.hours self) data wifi Hh
              (series_within_length _ _ Hin) S) as (df & E3).
  pose proof (regenerate_returns self data wifi df E1 E2 E3) as R.
  eexists. split; [exact R|]. cbn [V18.hours V18.device_config V18.bandwidth_data].
  split; [done|]. split; [done|]. split; [done|].
  by eapply regenerate_consistent.
Qed.

(** ** v18: importing a configuration that parses *)

Section ParsedFile.

Variable parse_device_csv : string -> result (list V18.device_row).
Variable files : gmap string string.
Variables filename text : string.
Variable imported : list V18.device_row.
Hypothesis Hfile : files !! filename = Some text.
Hypothesis Hparse : parse_device_csv text = Ok imported.

Lemma import_device_config_parsed (self : V18.model) :
  V18.import_device_config parse_device_csv files filename self
  = V18.regenerate
      {| V18.hours := V18.hours self;
         V18.device_config := imported;
         V18.bandwidth_data := V18.bandwidth_data self;
         V18.wifi_band_data := V18.wifi_band_data self;
         V18.timeseries_df := V18.timeseries_df self |}.
Proof.
  unfold V18.import_device_config, V18.pd_read_csv.
  rewrite Hfile, Hparse.
  unfold mbind at 1 2. unfold V18.method_bind at 1 2.
  unfold V18.lift, V18.set_device_config.
  by destruct (V18.regenerate _) as [[[]|e] s].
Qed.

End ParsedFile.

(** X8.  In v18, [import_device_config] on a file that exists and parses
    to a table whose first row is disabled raises [UnboundLocalError]
    after [device_config] has been replaced: the model is left with the
    new [device_config] next to the old [bandwidth_data],
    [wifi_band_data] and [timeseries_df]. *)
Theorem import_with_first_row_disabled_keeps_old_tables
    (parse_device_csv : string -> result (list V18.device_row))
    (files : gmap string string) (filename text : string)
    (row : V18.device_row) (rest : list V18.device_row) (self : V18.model) :
  files !! filename = Some text ->
  parse_device_csv text = Ok (row :: rest) ->
  V18.enabled row = false ->
  V18.import_device_config parse_device_csv files filename self
  = (Raise (UnboundLocalError "device_name"),
     {| V18.hours := V18.hours self;
        V18.device_config := row :: rest;
        V18.bandwidth_data := V18.bandwidth_data self;
        V18.wifi_band_data := V18.wifi_band_data self;
        V18.timeseries_df := V18.timeseries_df self |}).
Proof.
  intros Hfile Hparse Hrow.
  rewrite (import_device_config_parsed _ _ _ _ _ Hfile Hparse).
  apply regenerate_raises. cbn [V18.device_config].
  by apply generate_bandwidth_data_first_disabled.
Qed.

(** X9.  In v18, [import_device_config] on a file that exists and parses
    to a table that is empty or starts with an enabled row, into a model
    with 48 hours, returns.  Afterwards [device_config] is the parsed
    table, [hours] is unchanged, [bandwidth_data] is what
    [_generate_bandwidth_data] gives for the parsed table, and the derived
    tables are those the three regenerating assignments would compute
    again. *)
Theorem import_installs_the_parsed_configuration
    (parse_device_csv : string -> result (list V18.device_row))
    (files : gmap string string) (filename text : string)
    (imported : list V18.device_row) (self : V18.model) :
  files !! filename = Some text ->
  parse_device_csv text = Ok imported ->
  length (V18.hours self) = 48%nat ->
  (forall row rest, imported = row :: rest -> V18.enabled row = true) ->
  exists self',
    V18.import_device_config parse_device_csv files filename self
    = (Ok (), self') /\
    V18.hours self' = V18.hours self /\
    V18.device_config self' = imported /\
    V18._generate_bandwidth_data imported = Ok (V18.bandwidth_data self') /\
    consistent self'.
Proof.
  intros Hfile Hparse Hh Hfirst.
  rewrite (import_device_config_parsed _ _ _ _ _ Hfile Hparse).
  apply (regenerate_returns_if_first_enabled
           {| V18.hours := V18.hours self;
              V18.device_config := imported;
              V18.bandwidth_data := V18.bandwidth_data self;
              V18.wifi_band_data := V18.wifi_band_data self;
              V18.timeseries_df := V18.timeseries_df self |}); done.
Qed.

(** ** v18: toggling a device from the menu *)

Lemma with_enabled_twice (v w : bool) (row : V18.device_row) :
  V18.with_enabled v (V18.with_enabled w row) = V18.with_enabled v row.
Proof. reflexivity. Qed.

Lemma with_enabled_same (row : V18.device_row) :
  V18.with_enabled (V18.enabled row) row = row.
Proof. by destruct row. Qed.

Lemma set_at_enabled_back (df : list V18.device_row) (idx : nat)
    (row : V18.device_row) (v : bool) :
  df !! idx = Some row ->
  V18.set_at_enabled (V18.set_at_enabled df idx v) idx (V18.enabled row) = df.
Proof.
  intros Hrow. unfold V18.set_at_enabled.
  apply list_eq. intros j.
  destruct (decide (j = idx)) as [->|Hj].
  - rewrite !list_lookup_alter, Hrow, !decide_True by done.
    simpl. f_equal. by destruct row.
  - by rewrite !list_lookup_alter_ne.
Qed.

Lemma at_enabled_in_range (df : list V18.device_row) (device_num : Z) :
  (1 <= device_num <= Z.of_nat (length df))%Z ->
  exists row, df !! Z.to_nat (device_num - 1) = Some row /\
              V18.at_enabled df (device_num - 1) = Ok (V18.enabled row).
Proof.
  intros H. unfold V18.at_enabled.
  destruct (Z.ltb_spec (device_num - 1) 0); [lia|].
  destruct (df !! Z.to_nat (device_num - 1)) as [row|] eqn:E; [by exists row|].
  apply lookup_ge_None in E. lia.
Qed.

Lemma menu_guard_in_range (n : nat) (device_num : Z) :
  (1 <= device_num <= Z.of_nat n)%Z ->
  ((device_num =? 0) || (device_num >? Z.of_nat n))%Z = false.
Proof.
  intros H. destruct (Z.eqb_spec device_num 0); [lia|].
  rewrite Z.gtb_ltb. destruct (Z.ltb_spec (Z.of_nat n) device_num); [lia|done].
Qed.

Lemma enable_disable_device_menu_in_range (device_num : Z) (self : V18.model) :
  (1 <= device_num <= Z.of_nat (length (V18.device_config self)))%Z ->
  exists row,
    V18.device_config self !! Z.to_nat (device_num - 1) = Some row /\
    V18.enable_disable_device_menu device_num self
    = V18.regenerate
        {| V18.hours := V18.hours self;
           V18.device_config :=
             V18.set_at_enabled (V18.device_config self)
               (Z.to_nat (device_num - 1)) (negb (V18.enabled row));
           V18.bandwidth_data := V18.bandwidth_data self;
           V18.wifi_band_data := V18.wifi_band_data self;
           V18.timeseries_df := V18.timeseries_df self |}.
Proof.
  intros H. destruct (at_enabled_in_range _ _ H) as (row & Hrow & E).
  exists row. split; [done|].
  unfold V18.enable_disable_device_menu.
  unfold mbind at 1. unfold V18.method_bind at 1. unfold V18.get_self at 1.
  rewrite (menu_guard_in_range _ _ H). cbv zeta.
  unfold mbind at 1 2. unfold V18.method_bind at 1 2.
  unfold V18.lift. rewrite E. unfold V18.set_device_config.
  by destruct (V18.regenerate _) as [[[]|e] s].
Qed.

(** X10.  In the enable/disable menu of v18 a device number outside
    1..len(device_config) leaves the model as it is: 0 and the numbers
    above the number of rows return, a negative number raises [KeyError]
    for the index [device_num - 1]. *)
Theorem toggling_out_of_range_changes_nothing (device_num : Z)
    (self : V18.model) :
  ~ (1 <= device_num <= Z.of_nat (length (V18.device_config self)))%Z ->
  V18.enable_disable_device_menu device_num self
  = (if (device_num <? 0)%Z then Raise (KeyError (pretty (device_num - 1)%Z))
     else Ok (), self).
Proof.
  intros H. unfold V18.enable_disable_device_menu.
  unfold mbind at 1. unfold V18.method_bind at 1. unfold V18.get_self at 1.
  destruct (Z.ltb_spec device_num 0) as [Hneg|Hpos].
  - destruct (Z.eqb_spec device_num 0); [lia|].
    rewrite Z.gtb_ltb.
    destruct (Z.ltb_spec (Z.of_nat (length (V18.device_config self))) device_num);
      [lia|].
    cbn [orb]. cbv zeta. unfold mbind at 1. unfold V18.method_bind at 1.
    unfold V18.lift, V18.at_enabled.
    destruct (Z.ltb_spec (device_num - 1) 0); [done|lia].
  - destruct (Z.eqb_spec device_num 0); [done|].
    rewrite Z.gtb_ltb.
    destruct (Z.ltb_spec (Z.of_nat (length (V18.device_config self))) device_num);
      [done|lia].
Qed.

Lemma regenerate_keeps_configuration (self : V18.model) :
  V18.hours (V18.regenerate self).2 = V18.hours self /\
  V18.device_config (V18.regenerate self).2 = V18.device_config self.
Proof.
  unfold V18.regenerate, mbind, V18.method_bind, V18.get_self, V18.lift.
  destruct (V18._generate_bandwidth_data _); [|done].
  cbn [V18.set_bandwidth_data V18.device_config V18.bandwidth_data V18.hours].
  destruct (V18._generate_wifi_band_data _ _); [|done].
  cbn [V18.set_wifi_band_data V18.device_config V18.bandwidth_data V18.hours
       V18.wifi_band_data].
  destruct (V18._create_timeseries_dataframe _ _ _); done.
Qed.

(** X11.  In v18, on a model whose derived tables are up to date, toggling
    the same device number of 1..len(device_config) twice from the
    enable/disable menu ends in exactly the model it started from, and the
    second call returns, whether the first one raised or not. *)
Theorem toggling_twice_restores_the_model (device_num : Z) (self : V18.model) :
  consistent self ->
  (1 <= device_num <= Z.of_nat (length (V18.device_config self)))%Z ->
  V18.enable_disable_device_menu device_num
    (V18.enable_disable_device_menu device_num self).2
  = (Ok (), self).
Proof.
  intros Hc H.
  destruct (enable_disable_device_menu_in_range _ _ H) as (row & Hrow & E).
  set (cfg1 := V18.set_at_enabled (V18.device_config self)
                 (Z.to_nat (device_num - 1)) (negb (V18.enabled row))) in *.
  assert (H1 : V18.hours (V18.enable_disable_device_menu device_num self).2
               = V18.hours self /\
               V18.device_config (V18.enable_disable_device_menu device_num self).2
               = cfg1).
  { rewrite E.
    exact (regenerate_keeps_configuration
             {| V18.hours := V18.hours self; V18.device_config := cfg1;
                V18.bandwidth_data := V18.bandwidth_data self;
                V18.wifi_band_data := V18.wifi_band_data self;
                V18.timeseries_df := V18.timeseries_df self |}). }
  destruct H1 as [Hh1 Hc1].
  set (s1 := (V18.enable_disable_device_menu device_num self).2) in *.
  assert (H' : (1 <= device_num <= Z.of_nat (length (V18.device_config s1)))%Z).
  { rewrite Hc1. unfold cfg1, V18.set_at_enabled. by rewrite length_alter. }
  destruct (enable_disable_device_menu_in_range _ _ H') as (row1 & Hrow1 & E1).
  rewrite E1. apply (regenerate_from self); [by cbn| |exact Hc].
  cbn [V18.device_config]. rewrite Hc1.
  rewrite Hc1 in Hrow1. unfold cfg1, V18.set_at_enabled in Hrow1.
  rewrite list_lookup_alter, Hrow, decide_True in Hrow1 by done.
  injection Hrow1 as <-.
  cbn [V18.with_enabled V18.enabled]. rewrite negb_involutive.
  by apply set_at_enabled_back.
Qed.

(** ** Statistics: the peak and where it is *)

Lemma argmax_from_spec (a pre : ndarray) (best : nat) (m : Q) :
  pre !! best = Some m ->
  (forall j x, pre !! j = Some x -> x <= m /\ ((j < best)%nat -> x < m)) ->
  (pre ++ a) !! argmax_from a (length pre) best m
  = Some (fold_left (fun m y => if y >? m then y else m) a m) /\
  forall j x, (pre ++ a) !! j = Some x ->
    x <= fold_left (fun m y => if y >? m then y else m) a m /\
    ((j < argmax_from a (length pre) best m)%nat ->
     x < fold_left (fun m y => if y >? m then y else m) a m).
Proof.
  revert pre best m. induction a as [|y a IH]; intros pre best m Hbest Hpre.
  - cbn [argmax_from fold_left]. rewrite app_nil_r. done.
  - cbn [argmax_from fold_left]. rewrite cons_middle, app_assoc.
    replace (S (length pre)) with (length (pre ++ [y]))
      by (rewrite length_app; cbn [length]; lia).
    unfold Qgtb. destruct (Qle_bool y m) eqn:C; cbn [negb].
    + apply Qle_bool_iff in C. apply IH.
      * by apply lookup_app_l_Some.
      * intros j x Hj. apply lookup_app_Some in Hj as [Hj|[Hlen Hj]].
        { by apply Hpre. }
        apply list_lookup_singleton_Some in Hj as [_ <-]. split; [done|].
        intros Hlt. apply lookup_lt_Some in Hbest. lia.
    + apply Qle_bool_false in C. apply IH.
      * by rewrite lookup_app_r, Nat.sub_diag by lia.
      * intros j x Hj. apply lookup_app_Some in Hj as [Hj|[Hlen Hj]].
        { destruct (Hpre j x Hj) as [Hle _]. split; [lra|]. intros _. lra. }
        apply list_lookup_singleton_Some in Hj as [Hj0 <-]. split; [lra|].
        intros Hlt. lia.
Qed.

Lemma np_argmax_spec (a : ndarray) :
  a <> [] ->
  exists (k : nat) (m : Q),
    np_argmax a = Ok k /\ np_max a = Ok m /\ a !! k = Some m /\
    forall j x, a !! j = Some x -> x <= m /\ ((j < k)%nat -> x < m).
Proof.
  destruct a as [|x a]; [done|]. intros _.
  destruct (argmax_from_spec a [x] 0 x) as [Hk Hall]; [done| |].
  { intros [|j] y Hy; [|done]. injection Hy as <-. split; [lra|lia]. }
  exists (argmax_from a 1 0 x), (fold_left (fun m y => if y >? m then y else m) a x).
  done.
Qed.

Lemma usage_table_returns (total : ndarray) (series : dict ndarray) :
  Forall (fun a : ndarray => a <> []) (dict_values series) ->
  exists table, usage_table total series = Ok table.
Proof.
  induction series as [|[name data] rest IH]; intros H; cbn [usage_table].
  - by eexists.
  - apply Forall_cons in H as [Hd Hr]. cbn [snd] in Hd.
    destruct (IH Hr) as (us & Eus). unfold usage_of.
    destruct data as [|x data]; [done|]. cbn [np_max].
    rewrite !bind_Ok, Eus, bind_Ok. by eexists.
Qed.

Lemma usage_table_averages (total : ndarray) (series : dict ndarray)
    (table : dict usage_stats) :
  usage_table total series = Ok table ->
  map average_mbps (dict_values table) = map np_mean (dict_values series).
Proof.
  revert table. induction series as [|[name data] rest IH]; intros table;
    cbn [usage_table].
  - by intros [= <-].
  - intros (u & Hu & H)%bind_ok. apply bind_ok in H as (us & Hus & [= <-]).
    unfold usage_of in Hu. apply bind_ok in Hu as (peak & _ & [= <-]).
    unfold dict_values in *. cbn. f_equal. by apply IH.
Qed.

Lemma sum_list_means (n : nat) (vals : list ndarray) :
  Forall (fun a : ndarray => length a = n) vals ->
  sum_list (map np_mean vals)
  == sum_list (map sum_list vals) / inject_Z (Z.of_nat n).
Proof.
  induction 1 as [|a vals Ha _ IH]; cbn [map sum_list fold_right].
  - unfold Qdiv. ring.
  - fold (sum_list (map np_mean vals)). fold (sum_list (map sum_list vals)).
    rewrite IH. unfold np_mean. rewrite Ha, np_sum_sum_list.
    unfold Qdiv. ring.
Qed.

Section Statistics18.

Variable self : V18.model.
Hypothesis Hhours : V18.hours self <> [].
Hypothesis Hdata :
  Forall (fun a : ndarray => length a = length (V18.hours self))
         (dict_values (V18.bandwidth_data self)).
Hypothesis Hbands :
  Forall (fun a : ndarray => a <> []) (dict_values (V18.wifi_band_data self)).

Lemma get_statistics_returns_v18 :
  exists total st k,
    V18.get_total_bandwidth self = Ok total /\
    length total = length (V18.hours self) /\
    sum_list total
    == sum_list (map sum_list (dict_values (V18.bandwidth_data self))) /\
    V18.get_statistics self = Ok st /\
    V18.hours self !! k = Some (V18.peak_time st) /\
    total !! k = Some (V18.peak_bandwidth st) /\
    (forall j x, total !! j = Some x ->
       x <= V18.peak_bandwidth st /\ ((j < k)%nat -> x < V18.peak_bandwidth st)) /\
    V18.average_bandwidth st = np_mean total /\
    usage_table total (V18.bandwidth_data self) = Ok (V18.device_contributions st).
Proof.
  destruct (total_over_spec _ _ Hdata) as (total & Et & Hlen & _ & Hsum).
  assert (Hne : total <> []).
  { intros ->. destruct (V18.hours self); [done|discriminate]. }
  destruct (np_argmax_spec total Hne) as (k & m & Ek & Em & Hk & Hall).
  destruct (lookup_in_range (V18.hours self) _ k eq_refl) as (time & Etime).
  { rewrite <- Hlen. by eapply lookup_lt_Some. }
  destruct (usage_table_returns total (V18.bandwidth_data self)) as (devices & Ed).
  { eapply Forall_impl; [exact Hdata|]. intros a Ha ->.
    destruct (V18.hours self); [done|discriminate]. }
  destruct (usage_table_returns total (V18.wifi_band_data self) Hbands)
    as (bands & Eb).
  exists total. eexists. exists k.
  split; [exact Et|]. split; [exact Hlen|]. split; [exact Hsum|].
  unfold V18.get_statistics. unfold V18.get_total_bandwidth in *.
  rewrite Et, bind_Ok, Em, bind_Ok, Ek, bind_Ok.
  unfold np_getitem. rewrite Etime, bind_Ok, Ed, bind_Ok, Eb, bind_Ok.
  split; [reflexivity|]. cbn [V18.peak_time V18.peak_bandwidth
    V18.average_bandwidth V18.device_contributions].
  split; [reflexivity|]. split; [exact Hk|]. split; [exact Hall|].
  split; reflexivity.
Qed.

End Statistics18.

(** X12.  [get_statistics] of v18 returns on every model whose [hours]
    are not empty, whose device series all have as many entries as [hours]
    and whose band series are not empty.  Its [peak_time] is [hours[k]]
    for the first slot [k] at which the total bandwidth reaches
    [peak_bandwidth]: every slot is at most the peak and every slot before
    [k] is strictly below it. *)
Theorem peak_time_is_the_first_slot_of_the_peak (self : V18.model) :
  V18.hours self <> [] ->
  Forall (fun a : ndarray => length a = length (V18.hours self))
         (dict_values (V18.bandwidth_data self)) ->
  Forall (fun a : ndarray => a <> []) (dict_values (V18.wifi_band_data self)) ->
  exists total st k,
    V18.get_total_bandwidth self = Ok total /\
    V18.get_statistics self = Ok st /\
    V18.hours self !! k = Some (V18.peak_time st) /\
    total !! k = Some (V18.peak_bandwidth st) /\
    forall j x, total !! j = Some x ->
      x <= V18.peak_bandwidth st /\ ((j < k)%nat -> x < V18.peak_bandwidth st).
Proof.
  intros Hh Hd Hb.
  destruct (get_statistics_returns_v18 self Hh Hd Hb)
    as (total & st & k & Et & _ & _ & Es & Ht & Hp & Hall & _).
  by exists total, st, k.
Qed.

(** X13.  On every v18 model whose [hours] are not empty, whose device
    series all have as many entries as [hours] and whose band series are
    not empty, [get_statistics] returns, [device_contributions] has the
    keys of [bandwidth_data] in the same order, and its [average_mbps]
    values add up to [average_bandwidth] in exact (rational)
    arithmetic. *)
Theorem device_averages_add_up_to_the_average (self : V18.model) :
  V18.hours self <> [] ->
  Forall (fun a : ndarray => length a = length (V18.hours self))
         (dict_values (V18.bandwidth_data self)) ->
  Forall (fun a : ndarray => a <> []) (dict_values (V18.wifi_band_data self)) ->
  exists st,
    V18.get_statistics self = Ok st /\
    dict_keys (V18.device_contributions st) = dict_keys (V18.bandwidth_data self) /\
    sum_list (map average_mbps (dict_values (V18.device_contributions st)))
    == V18.average_bandwidth st.
Proof.
  intros Hh Hd Hb.
  destruct (get_statistics_returns_v18 self Hh Hd Hb)
    as (total & st & k & Et & Hlen & Hsum & Es & _ & _ & _ & Eavg & Eu).
  exists st. split; [exact Es|].
  split; [by apply usage_table_spec in Eu as [? _]|].
  rewrite (usage_table_averages _ _ _ Eu), Eavg.
  rewrite (sum_list_means (length (V18.hours self))) by exact Hd.
  unfold np_mean. by rewrite Hlen, np_sum_sum_list, Hsum.
Qed.

(** ** Statistics: the shares of the bands *)

Lemma sum_over_slots_ext (n : nat) (f g : nat -> Q) :
  (forall i, (i < n)%nat -> f i == g i) ->
  sum_over_slots n f == sum_over_slots n g.
Proof.
  intros H. unfold sum_over_slots. apply sum_list_Forall2.
  apply Forall2_fmap, Forall_Forall2_diag, Forall_forall.
  intros i Hi%elem_of_seq. apply H. lia.
Qed.

Lemma sum_over_slots_plus (n : nat) (f g : nat -> Q) :
  sum_over_slots n (fun i => f i + g i)
  == sum_over_slots n f + sum_over_slots n g.
Proof.
  unfold sum_over_slots. induction (seq 0 n) as [|i l IH]; cbn; [ring|].
  fold (sum_list (map (fun i => f i + g i) l)).
  fold (sum_list (map f l)). fold (sum_list (map g l)). rewrite IH. ring.
Qed.

Lemma filled_band_totals (f : band -> nat -> Q) (wifi : dict ndarray) :
  filled f 48 wifi -> shape wifi = band_shape ->
  sum_list (map np_sum (dict_values wifi))
  == sum_over_slots 48 (fun i => f GHz2_4 i + f GHz5 i + f GHz6 i).
Proof.
  intros F (a & b & c & -> & Ha & Hb & Hc)%band_shape_inv.
  assert (Hcol : forall (bd : band) (col : ndarray),
            length col = 48%nat ->
            (forall j, subscript2
                         [("2.4GHz"%string, a); ("5GHz"%string, b);
                          ("6GHz"%string, c)] (band_key bd) j
                       = np_getitem col j) ->
            sum_list col == sum_over_slots 48 (f bd)).
  { intros bd col Hlen Hsub. apply sum_list_Forall2.
    apply pointwise_Forall2; [done|]. intros i Hi.
    destruct (F bd i Hi) as (y & Ey & Hy). rewrite Hsub in Ey.
    unfold np_getitem in Ey. destruct (col !! i) as [v|]; [|discriminate].
    injection Ey as ->. exists y. split; [done|].
    by rewrite decide_True in Hy by done. }
  unfold dict_values. cbn [fmap list_fmap snd map sum_list fold_right].
  rewrite !np_sum_sum_list.
  rewrite (Hcol GHz2_4 a Ha) by reflexivity.
  rewrite (Hcol GHz5 b Hb) by reflexivity.
  rewrite (Hcol GHz6 c Hc) by reflexivity.
  rewrite !sum_over_slots_plus. ring.
Qed.

Lemma band_percentages (total : ndarray) (wifi : dict ndarray)
    (table : dict usage_stats) (f : band -> nat -> Q) :
  filled f 48 wifi -> shape wifi = band_shape ->
  np_sum total == sum_over_slots 48 (fun i => f GHz2_4 i + f GHz5 i + f GHz6 i) ->
  ~ np_sum total == 0 ->
  usage_table total wifi = Ok table ->
  dict_keys table = band_names /\ sum_list (percentages table) == 100.
Proof.
  intros F S Htot Hnz Eu.
  destruct (usage_table_spec _ _ _ Eu) as (Hk & Hp). split.
  - rewrite Hk. apply band_shape_inv in S as (a & b & c & -> & _). reflexivity.
  - rewrite Hp.
    rewrite <- (map_map np_sum (fun s => (s / np_sum total) * 100)).
    rewrite sum_list_scaled, (filled_band_totals f wifi F S), <- Htot.
    field. exact Hnz.
Qed.

Lemma shape_nonempty (wifi : dict ndarray) :
  shape wifi = band_shape ->
  Forall (fun a : ndarray => a <> []) (dict_values wifi).
Proof.
  intros (a & b & c & -> & Ha & Hb & Hc)%band_shape_inv.
  unfold dict_values. cbn.
  repeat constructor; intros ->; discriminate.
Qed.

Lemma get_statistics_returns_v8 (self : V8.model) :
  length (V8.hours self) = 48%nat ->
  four_series (V8.bandwidth_data self) ->
  V8._generate_wifi_band_data (V8.bandwidth_data self)
    = Ok (V8.wifi_band_data self) ->
  exists total st,
    total_over (V8.hours self) (V8.bandwidth_data self) = Ok total /\
    V8.get_statistics self = Ok st /\
    usage_table total (V8.wifi_band_data self) = Ok (V8.wifi_band_usage st).
Proof.
  intros Hh H4 Ew.
  destruct (total_over_four _ _ Hh H4) as (total & Et & Hlen & _ & _).
  assert (Hne : total <> []) by (intros ->; discriminate).
  destruct (np_argmax_spec total Hne) as (k & m & Ek & Em & Hk & _).
  destruct (lookup_in_range (V8.hours self) 48 k Hh) as (time & Etime).
  { rewrite <- Hlen. by eapply lookup_lt_Some. }
  destruct (usage_table_returns total (V8.bandwidth_data self)) as (devices & Ed).
  { eapply Forall_impl; [exact (four_series_lengths _ _ Hh H4)|].
    intros a Ha ->. rewrite Hh in Ha. discriminate. }
  destruct (usage_table_returns total (V8.wifi_band_data self)) as (bands & Eb).
  { apply shape_nonempty. by eapply generate_wifi_band_data_v8_shape. }
  exists total. eexists. split; [exact Et|].
  unfold V8.get_statistics, V8.get_total_bandwidth.
  rewrite Et, bind_Ok, Em, bind_Ok, Ek, bind_Ok.
  unfold np_getitem. rewrite Etime, bind_Ok, Ed, bind_Ok, Eb, bind_Ok.
  split; [reflexivity|]. cbn [V8.wifi_band_usage]. reflexivity.
Qed.

(** X14.  In v8, for a model with 48 hours, exactly the four 48-slot
    device series, the band table that [_generate_wifi_band_data] computes
    from them and a total that is not zero over the day, [get_statistics]
    returns, [wifi_band_usage] has the keys 2.4GHz, 5GHz and 6GHz, and its
    three [percentage_of_total] values add up to 100 in exact (rational)
    arithmetic. *)
Theorem band_percentages_sum_to_100 (self : V8.model) :
  length (V8.hours self) = 48%nat ->
  four_series (V8.bandwidth_data self) ->
  V8._generate_wifi_band_data (V8.bandwidth_data self)
    = Ok (V8.wifi_band_data self) ->
  ~ sum_over_slots 48 (total_at (V8.bandwidth_data self)) == 0 ->
  exists st,
    V8.get_statistics self = Ok st /\
    dict_keys (V8.wifi_band_usage st) = band_names /\
    sum_list (percentages (V8.wifi_band_usage st)) == 100.
Proof.
  intros Hh H4 Ew Hnz.
  destruct (get_statistics_returns_v8 self Hh H4 Ew) as (total & st & Et & Es & Eu).
  exists st. split; [exact Es|].
  destruct (generate_wifi_band_data_v8 _ (four_series_well_formed _ H4))
    as (wifi & E & F).
  rewrite Ew in E. injection E as <-.
  destruct (total_over_four _ _ Hh H4) as (total' & Et' & _ & _ & Hsum).
  rewrite Et in Et'. injection Et' as <-.
  apply (band_percentages total (V8.wifi_band_data self) _
           (table_v8 (V8.bandwidth_data self))).
  - exact F.
  - by eapply generate_wifi_band_data_v8_shape.
  - rewrite Hsum. apply sum_over_slots_ext. intros i _.
    by rewrite table_v8_total.
  - by rewrite Hsum.
  - exact Eu.
Qed.

(** ** v18: conservation against the total, for any configuration *)

Lemma dict_keys_cons {V : Type} (k : string) (v : V) (d : dict V) :
  dict_keys ((k, v) :: d) = k :: dict_keys d.
Proof. reflexivity. Qed.

Lemma dict_values_cons {V : Type} (k : string) (v : V) (d : dict V) :
  dict_values ((k, v) :: d) = v :: dict_values d.
Proof. reflexivity. Qed.

Lemma elem_of_dict_keys_set {V : Type} (d : dict V) (k x : string) (v : V) :
  x ∈ dict_keys (dict_set d k v) <-> x = k \/ x ∈ dict_keys d.
Proof.
  induction d as [|[k0 v0] d IH]; cbn [dict_set].
  - rewrite dict_keys_cons, elem_of_cons. tauto.
  - destruct (String.eqb_spec k0 k) as [->|Hne];
      rewrite !dict_keys_cons, !elem_of_cons; tauto.
Qed.

Lemma NoDup_dict_keys_set {V : Type} (d : dict V) (k : string) (v : V) :
  NoDup (dict_keys d) -> NoDup (dict_keys (dict_set d k v)).
Proof.
  induction d as [|[k0 v0] d IH]; cbn [dict_set].
  - intros _. rewrite dict_keys_cons. apply NoDup_singleton.
  - rewrite dict_keys_cons. intros [Hk0 Hd]%NoDup_cons.
    destruct (String.eqb_spec k0 k) as [->|Hne]; rewrite dict_keys_cons.
    + by apply NoDup_cons.
    + apply NoDup_cons. split; [|by apply IH].
      rewrite elem_of_dict_keys_set. intros [->|H]; done.
Qed.

Lemma for_each_invariant {A S : Type} (P : S -> Prop)
    (body : A -> S -> result S) (xs : list A) (s s' : S) :
  (forall x s s', P s -> body x s = Ok s' -> P s') ->
  P s -> for_each xs body s = Ok s' -> P s'.
Proof.
  intros Hbody. revert s. induction xs as [|x xs IH]; intros s Hs; cbn [for_each].
  - by intros [= <-].
  - intros (s1 & E1 & E)%bind_ok. apply (IH s1); [|done]. by eapply Hbody.
Qed.

Lemma generate_bandwidth_data_NoDup (device_config : list V18.device_row)
    (data : dict ndarray) :
  V18._generate_bandwidth_data device_config = Ok data ->
  NoDup (dict_keys data).
Proof.
  unfold V18._generate_bandwidth_data.
  intros ([data' name'] & E & [= <-])%bind_ok. cbn [fst].
  apply (for_each_invariant (fun st => NoDup (dict_keys st.1))) in E; [done| |].
  - intros row [d n] [d' n'] Hd. cbn [fst] in *. unfold V18.bandwidth_row.
    destruct (V18.enabled row).
    + intros [= <- _]. by apply NoDup_dict_keys_set.
    + destruct n as [n|]; [|discriminate].
      intros [= <- _]. by apply NoDup_dict_keys_set.
  - cbn. apply NoDup_nil_2.
Qed.

Lemma dict_get_elem_of {V : Type} (d : dict V) (k : string) (v : V) :
  NoDup (dict_keys d) -> (k, v) ∈ d -> dict_get d k = Some v.
Proof.
  induction d as [|[k0 v0] d IH]; cbn [dict_get].
  - intros _ H. by apply elem_of_nil in H.
  - rewrite dict_keys_cons.
    intros [Hk0 Hd]%NoDup_cons [[= -> ->]|Hin]%elem_of_cons.
    + by rewrite String.eqb_refl.
    + destruct (String.eqb_spec k0 k) as [->|Hne]; [|by apply IH].
      exfalso. apply Hk0. unfold dict_keys. apply list_elem_of_fmap.
      by exists (k, v).
Qed.

Lemma dict_get_keys {V : Type} (d : dict V) (k : string) :
  k ∈ dict_keys d <-> exists v, dict_get d k = Some v.
Proof.
  induction d as [|[k0 v0] d IH]; cbn [dict_get].
  - split; [by intros H%elem_of_nil|by intros [? ?]].
  - rewrite dict_keys_cons, elem_of_cons.
    destruct (String.eqb_spec k0 k) as [->|Hne].
    + split; [by eexists|by left].
    + rewrite IH. split; [by intros [->|H]|by right].
Qed.

Lemma values_by_key (d d0 : dict ndarray) (i : nat) :
  (forall k a, (k, a) ∈ d -> dict_get d0 k = Some a) ->
  map (fun a : ndarray => nth i a 0) (dict_values d)
  = map (fun k => reading d0 k i) (dict_keys d).
Proof.
  induction d as [|[k a] d IH]; intros H; [done|].
  rewrite dict_keys_cons, dict_values_cons. cbn [map].
  rewrite (reading_nth d0 k a i) by (apply H; constructor).
  f_equal. apply IH. intros k' a' Hin. apply H. by constructor.
Qed.

Lemma enabled_sum_by_name (device_config : list V18.device_row)
    (bandwidth_data : dict ndarray) (i : nat) :
  enabled_sum device_config bandwidth_data i
  == sum_list (map (fun k => reading bandwidth_data k i)
                   (map V18.device (List.filter V18.enabled device_config))).
Proof.
  induction device_config as [|row rows IH]; cbn [enabled_sum List.filter];
    [reflexivity|].
  destruct (V18.enabled row); cbn [map sum_list fold_right].
  - fold (sum_list
            (map (fun k => reading bandwidth_data k i)
                 (map V18.device (List.filter V18.enabled rows)))).
    by rewrite IH.
  - rewrite IH. ring.
Qed.

Lemma elem_of_enabled_names (device_config : list V18.device_row) (k : string) :
  k ∈ map V18.device (List.filter V18.enabled device_config) <->
  exists row, row ∈ device_config /\ V18.enabled row = true /\ V18.device row = k.
Proof.
  rewrite list_elem_of_In, in_map_iff. split.
  - intros (row & <- & [Hin En]%filter_In). exists row.
    by rewrite list_elem_of_In.
  - intros (row & Hin & En & <-). exists row. split; [done|].
    apply filter_In. by rewrite <- list_elem_of_In.
Qed.

Lemma NoDup_enabled_names (device_config : list V18.device_row) :
  NoDup (map V18.device device_config) ->
  NoDup (map V18.device (List.filter V18.enabled device_config)).
Proof.
  induction device_config as [|row rows IH]; cbn [map List.filter]; [done|].
  intros [Hrow Hrows]%NoDup_cons.
  destruct (V18.enabled row); cbn [map]; [|by apply IH].
  apply NoDup_cons. split; [|by apply IH].
  intros (r & Hr & _ & Hd)%elem_of_enabled_names. apply Hrow.
  rewrite <- Hd. apply list_elem_of_In, in_map. by rewrite <- list_elem_of_In.
Qed.

Lemma generated_keys_are_enabled_names (device_config : list V18.device_row)
    (data : dict ndarray) :
  NoDup (map V18.device device_config) ->
  V18._generate_bandwidth_data device_config = Ok data ->
  dict_keys data ≡ₚ map V18.device (List.filter V18.enabled device_config).
Proof.
  intros Hnd E. destruct (generate_bandwidth_data_ok _ _ E) as (Hcov & Hin).
  apply NoDup_Permutation.
  - by eapply generate_bandwidth_data_NoDup.
  - by apply NoDup_enabled_names.
  - intros k. rewrite dict_get_keys, elem_of_enabled_names. split.
    + intros (a & Ha). destruct (Hin k a Ha) as (_ & row & Hrow & En & Hd & _).
      by exists row.
    + intros (row & Hrow & En & <-).
      unfold rows_covered in Hcov. rewrite Forall_forall in Hcov.
      destruct (Hcov row Hrow En) as (a & Ha & _). by exists a.
Qed.

Lemma generated_total (device_config : list V18.device_row)
    (hours : ndarray) (data : dict ndarray) :
  NoDup (map V18.device device_config) ->
  length hours = 48%nat ->
  V18._generate_bandwidth_data device_config = Ok data ->
  exists total,
    total_over hours data = Ok total /\
    forall i, (i < 48)%nat ->
      exists v, total !! i = Some v /\ v == enabled_sum device_config data i.
Proof.
  intros Hnd Hh E.
  pose proof (generate_bandwidth_data_NoDup _ _ E) as Hkeys.
  destruct (generate_bandwidth_data_ok _ _ E) as (Hcov & Hin).
  assert (Hget : forall k a, (k, a) ∈ data -> dict_get data k = Some a)
    by (intros k a; by apply dict_get_elem_of).
  destruct (total_over_spec hours data) as (total & Et & _ & Hpt & _).
  { apply Forall_forall. intros a Ha. unfold dict_values in Ha.
    apply list_elem_of_fmap in Ha as ([k a'] & -> & Hka). cbn [snd].
    rewrite Hh. by destruct (Hin k a' (Hget k a' Hka)). }
  exists total. split; [done|]. intros i Hi. rewrite Hh in Hpt.
  destruct (Hpt i Hi) as (v & Ev & Hv). exists v. split; [done|].
  rewrite Hv, (values_by_key data data i Hget), enabled_sum_by_name.
  apply sum_list_Permutation, Permutation_map.
  by apply generated_keys_are_enabled_names.
Qed.

Lemma generated_bands_total
    (device_config : list V18.device_row) (hours : ndarray)
    (data : dict ndarray) :
  NoDup (map V18.device device_config) ->
  length hours = 48%nat ->
  V18._generate_bandwidth_data device_config = Ok data ->
  exists wifi total,
    V18._generate_wifi_band_data device_config data = Ok wifi /\
    total_over hours data = Ok total /\
    forall i, (i < 48)%nat ->
      exists s t, band_sum wifi i = Ok s /\ total !! i = Some t /\ s == t.
Proof.
  intros Hnd Hh E.
  destruct (generate_bandwidth_data_ok _ _ E) as (Hcov & _).
  destruct (generate_wifi_band_data_v18 _ _ Hcov) as (wifi & Ew & F).
  destruct (generated_total _ hours _ Hnd Hh E) as (total & Et & Hpt).
  exists wifi, total. split; [done|]. split; [done|]. intros i Hi.
  destruct (band_sum_filled _ _ _ F Hi) as (s & Es & Hs).
  destruct (Hpt i Hi) as (t & Ht & Hv).
  exists s, t. split; [done|]. split; [done|].
  by rewrite Hs, table_v18_total, Hv.
Qed.

(** ** The v18 model as it starts *)

Lemma init_v18_data (m : V18.model) :
  V18.__init__ = Ok m ->
  V18.bandwidth_data m
  = map (fun name : string =>
           (name, default [] (dict_get V18.base_patterns name)))
        device_names.
Proof.
  intros (_ & _ & E & _)%init_v18. rewrite default_data_v18 in E.
  by injection E as <-.
Qed.

Lemma init_v18_consistent (m : V18.model) :
  V18.__init__ = Ok m -> consistent m.
Proof.
  unfold V18.__init__. cbv zeta.
  intros (data & E1 & H)%bind_ok.
  apply bind_ok in H as (wifi & E2 & H).
  apply bind_ok in H as (df & E3 & [= <-]).
  unfold consistent.
  by rewrite (regenerate_returns _ data wifi df).
Qed.

Lemma init_v18_hours (m : V18.model) :
  V18.__init__ = Ok m -> length (V18.hours m) = 48%nat.
Proof. by intros (-> & _)%init_v18. Qed.

Lemma init_v18_lengths (m : V18.model) :
  V18.__init__ = Ok m ->
  Forall (fun a : ndarray => length a = length (V18.hours m))
         (dict_values (V18.bandwidth_data m)).
Proof.
  intros Em. rewrite (init_v18_hours m Em), (init_v18_data m Em).
  by repeat constructor.
Qed.

Lemma init_v18_bands (m : V18.model) :
  V18.__init__ = Ok m ->
  Forall (fun a : ndarray => a <> []) (dict_values (V18.wifi_band_data m)).
Proof.
  intros (_ & _ & _ & E)%init_v18. apply shape_nonempty.
  by eapply generate_wifi_band_data_v18_shape.
Qed.

Lemma init_v18_names (m : V18.model) :
  V18.__init__ = Ok m -> NoDup (map V18.device (V18.device_config m)).
Proof.
  intros (_ & -> & _)%init_v18.
  apply (bool_decide_unpack _). vm_compute. exact I.
Qed.

Lemma laptop_idle_at_1h :
  ~ reaches_6GHz V18.default_device_config
      (map (fun name : string =>
              (name, default [] (dict_get V18.base_patterns name)))
           device_names) 2.
Proof.
  intros (row & Hin & _ & Hp & _ & Hbw).
  unfold V18.default_device_config in Hin.
  repeat (apply elem_of_cons in Hin as [->|Hin]); try discriminate.
  by apply elem_of_nil in Hin.
Qed.

(** In a consistent model the derived tables are those of the
    configuration. *)
Lemma consistent_tables (self : V18.model) :
  consistent self ->
  V18._generate_bandwidth_data (V18.device_config self)
    = Ok (V18.bandwidth_data self) /\
  V18._generate_wifi_band_data (V18.device_config self) (V18.bandwidth_data self)
    = Ok (V18.wifi_band_data self) /\
  V18._create_timeseries_dataframe (V18.hours self) (V18.bandwidth_data self)
    (V18.wifi_band_data self) = Ok (V18.timeseries_df self).
Proof.
  intros (data & wifi & df & E1 & E2 & E3 & Eq)%regenerate_returned.
  rewrite Eq at 2 4 5 7 8 9. cbn [V18.bandwidth_data V18.wifi_band_data
                                 V18.timeseries_df]. done.
Qed.

(** X15.  In v18, for any model whose derived tables are up to date,
    whose configuration has pairwise distinct device names and whose
    [hours] has 48 entries, the three band values of every slot add up to
    the total bandwidth of the slot in exact (rational) arithmetic,
    whichever devices are enabled. *)
Theorem consistent_model_conserves_total (self : V18.model) :
  consistent self ->
  NoDup (map V18.device (V18.device_config self)) ->
  length (V18.hours self) = 48%nat ->
  exists total,
    V18.get_total_bandwidth self = Ok total /\
    forall i, (i < 48)%nat ->
      exists s t, band_sum (V18.wifi_band_data self) i = Ok s /\
                  total !! i = Some t /\ s == t.
Proof.
  intros (E1 & E2 & _)%consistent_tables Hnd Hh.
  destruct (generated_bands_total _ (V18.hours self) _ Hnd Hh E1)
    as (wifi & total & Ew & Et & H).
  rewrite E2 in Ew. injection Ew as <-. by exists total.
Qed.

(** ** Baseline: the peak markers *)

Lemma comprehension_spec {A B : Type} (P : B -> Prop) (f : A -> result B)
    (xs : list A) :
  Forall (fun x => exists y, f x = Ok y /\ P y) xs ->
  exists ys, comprehension f xs = Ok ys /\ length ys = length xs /\ Forall P ys.
Proof.
  induction 1 as [|x xs (y & Ey & Hy) _ (ys & Eys & Hlen & Hys)];
    cbn [comprehension].
  - by exists [].
  - rewrite Ey, bind_Ok, Eys, bind_Ok. exists (y :: ys).
    split; [done|]. split; [cbn; by rewrite Hlen|by constructor].
Qed.

Lemma insert_reverse_spec {A : Type} (P : Q * A -> Prop) (x : Q * A)
    (l : list (Q * A)) :
  P x -> Forall P l ->
  Forall P (insert_reverse x l) /\ length (insert_reverse x l) = S (length l).
Proof.
  intros Hx. induction 1 as [|y l Hy Hl IH]; cbn [insert_reverse].
  - split; [by repeat constructor|done].
  - destruct (x.1 <? y.1).
    + destruct IH as [IH1 IH2]. split; [by constructor|cbn; by rewrite IH2].
    + split; [by repeat constructor|done].
Qed.

Lemma sorted_reverse_spec {A : Type} (P : A -> Prop) (key : A -> result Q)
    (xs : list A) :
  Forall (fun x => P x /\ exists k, key x = Ok k) xs ->
  exists ys, sorted_reverse key xs = Ok ys /\
             length ys = length xs /\ Forall P ys.
Proof.
  intros H. unfold sorted_reverse.
  destruct (comprehension_spec (fun kx : Q * A => P kx.2)
              (fun x => k ← key x; mret (k, x)) xs)
    as (keyed & E & Hlen & Hkeyed).
  { eapply Forall_impl; [exact H|]. intros x (Hx & k & Ek).
    exists (k, x). by rewrite Ek, bind_Ok. }
  rewrite E, bind_Ok. eexists. split; [reflexivity|].
  assert (Hsorted : Forall (fun kx : Q * A => P kx.2)
                      (foldr insert_reverse [] keyed) /\
                    length (foldr insert_reverse [] keyed) = length keyed).
  { clear E Hlen H. induction Hkeyed as [|kx l Hkx Hl [IH1 IH2]]; cbn [foldr].
    - split; [constructor|done].
    - destruct (insert_reverse_spec (fun kx : Q * A => P kx.2) kx
                  (foldr insert_reverse [] l) Hkx IH1) as [H1 H2].
      split; [done|]. cbn [length]. by rewrite H2, IH2. }
  destruct Hsorted as [H1 H2].
  rewrite length_map, H2, Hlen. split; [done|].
  apply Forall_forall. intros y Hy. apply list_elem_of_In, in_map_iff in Hy as (kx & <- & Hkx).
  rewrite Forall_forall in H1. apply H1. by apply list_elem_of_In.
Qed.

Lemma peak_indices_spec (total : ndarray) :
  (24 <= length total)%nat ->
  exists peaks, Baseline.peak_indices total = Ok peaks /\
                length peaks = 12%nat /\ Forall (fun p => (p < 24)%nat) peaks.
Proof.
  intros Hlen. unfold Baseline.peak_indices.
  destruct (comprehension_spec (fun p => (p < 24)%nat)
              (fun i => k ← np_argmax (np_slice total (i * 2) ((i + 1) * 2));
                        mret (k + i * 2)%nat)
              (range 12))
    as (peaks & E & Hl & Hp); [|by exists peaks].
  apply Forall_forall. intros i Hi%elem_of_seq.
  assert (Hs : length (np_slice total (i * 2) ((i + 1) * 2)) = 2%nat).
  { unfold np_slice. rewrite length_take, length_drop. lia. }
  destruct (np_argmax_spec (np_slice total (i * 2) ((i + 1) * 2)))
    as (k & m & Ek & _ & Hk & _).
  { intros E. rewrite E in Hs. discriminate. }
  apply lookup_lt_Some in Hk. rewrite Hs in Hk.
  exists (k + i * 2)%nat. rewrite Ek, bind_Ok. split; [done|lia].
Qed.

Lemma major_peaks_spec (total : ndarray) :
  (24 <= length total)%nat ->
  exists peaks, Baseline.major_peaks total = Ok peaks /\
                length peaks = 3%nat /\ Forall (fun p => (p < 24)%nat) peaks.
Proof.
  intros Hlen. unfold Baseline.major_peaks.
  destruct (peak_indices_spec total Hlen) as (idx & E & Hl & Hp).
  rewrite E, bind_Ok.
  destruct (sorted_reverse_spec (fun p => (p < 24)%nat)
              (fun i => np_getitem total i) idx)
    as (sorted & Es & Hls & Hs).
  { eapply Forall_impl; [exact Hp|]. intros p Hlt. cbn beta in Hlt.
    split; [done|].
    destruct (lookup_in_range total _ p eq_refl) as (x & Ex); [lia|].
    exists x. unfold np_getitem. by rewrite Ex. }
  rewrite Es, bind_Ok. eexists. split; [reflexivity|].
  split; [rewrite length_take; lia|by apply Forall_take].
Qed.

(** X16.  The peak markers of the baseline's [plot_interactive]: for a
    model on the half-hour axis with 48-entry series the three assignments
    return, exactly three stars are drawn, and every star sits at an hour
    before 12, because the candidates are taken from the slots 0..23
    only. *)
Theorem peak_markers_stay_before_noon (self : Baseline.model) :
  Forall2 Qeq (Baseline.hours self) half_hours ->
  Forall (fun a : ndarray => length a = 48%nat)
         (dict_values (Baseline.bandwidth_data self)) ->
  exists stars,
    Baseline.peak_markers self = Ok stars /\
    length stars = 3%nat /\
    Forall (fun star : Q * Q => star.1 < 12) stars.
Proof.
  intros Hh Hd. unfold Baseline.peak_markers, Baseline.get_total_bandwidth.
  assert (Hlen : length (Baseline.hours self) = 48%nat)
    by (by rewrite (Forall2_length _ _ _ Hh)).
  destruct (total_over_spec (Baseline.hours self) (Baseline.bandwidth_data self))
    as (total & Et & Hl & _); [by rewrite Hlen|].
  rewrite Et, bind_Ok.
  destruct (major_peaks_spec total) as (peaks & Ep & Hlp & Hp); [lia|].
  rewrite Ep, bind_Ok.
  destruct (comprehension_spec (fun star : Q * Q => star.1 < 12)
              (fun peak => h ← np_getitem (Baseline.hours self) peak;
                           t ← np_getitem total peak;
                           mret (h, t))
              peaks)
    as (stars & Es & Hls & Hs).
  { eapply Forall_impl; [exact Hp|]. intros p Hlt. cbn beta in Hlt.
    destruct (lookup_in_range (Baseline.hours self) 48 p Hlen) as (h & Eh); [lia|].
    destruct (lookup_in_range total _ p eq_refl) as (t & Etp); [lia|].
    exists (h, t). unfold np_getitem. rewrite Eh, bind_Ok, Etp, bind_Ok.
    split; [done|]. cbn [fst].
    destruct (Forall2_lookup_l _ _ _ _ _ Hh Eh) as (h' & Eh' & ->).
    clear -Hlt Eh'. unfold half_hours in Eh'.
    do 24 (destruct p as [|p]; [injection Eh' as <-; reflexivity|]). lia. }
  exists stars. split; [done|]. split; [by rewrite Hls|done].
Qed.

(** ** v18: the period of a slot *)

Lemma period_outside (h : Q) : V18.period h = None <-> ~ (0 < h <= 24).
Proof.
  unfold V18.period. cbn [pd_cut]. unfold Qltb.
  repeat match goal with
         | |- context [Qle_bool ?a ?b] =>
             let C := fresh "C" in
             destruct (Qle_bool a b) eqn:C;
             [apply Qle_bool_iff in C|apply Qle_bool_false in C]
         end; cbn [negb andb]; split; try discriminate; try lra; try done.
Qed.

(** X17.  In the [period] column of v18's time-series table exactly the
    00:00 slot is left without a period: for the entry [h] at index [i] of
    the axis [np.arange(0, 24, 0.5)], [pd.cut] answers NaN if and only if
    [i = 0]. *)
Theorem only_midnight_has_no_period (i : nat) (h : Q) :
  np_arange 0 24 0.5 !! i = Some h ->
  (V18.period h = None <-> i = 0%nat).
Proof.
  intros Hi. rewrite period_outside.
  assert (Hlt : (i < 48)%nat) by (apply lookup_lt_Some in Hi; exact Hi).
  unfold np_arange in Hi. rewrite list_lookup_fmap in Hi.
  change (Z.to_nat (Qceiling ((24 - 0) / 0.5))) with 48%nat in Hi.
  rewrite lookup_seq_lt in Hi by done. injection Hi as <-.
  cbn [Nat.add].
  assert (Hi0 : 0 <= inject_Z (Z.of_nat i))
    by (change 0 with (inject_Z 0); rewrite <- Zle_Qle; lia).
  assert (Hi48 : inject_Z (Z.of_nat i) <= 47)
    by (change 47 with (inject_Z 47); rewrite <- Zle_Qle; lia).
  split.
  - intros Hout. destruct i as [|i]; [done|]. exfalso. apply Hout.
    assert (1 <= inject_Z (Z.of_nat (S i)))
      by (change 1 with (inject_Z 1); rewrite <- Zle_Qle; lia).
    lra.
  - intros ->. change (inject_Z (Z.of_nat 0)) with 0. lra.
Qed.

(** ** The hover handlers *)

Lemma py_int_nonneg (x : Q) : 0 <= x -> py_int x = Qfloor x.
Proof.
  intros H. unfold py_int, Qltb.
  apply Qle_bool_iff in H. by rewrite H.
Qed.

(** The half-hour slot of a position on the time axis. *)
Lemma slot_of_position (x : Q) :
  0 <= x ->
  exists idx : nat,
    py_int (x * 2) = Z.of_nat idx /\
    inject_Z (Z.of_nat idx) * 0.5 <= x < inject_Z (Z.of_nat idx) * 0.5 + 0.5.
Proof.
  intros Hx. rewrite py_int_nonneg by lra.
  assert (H0 : (0 <= Qfloor (x * 2))%Z).
  { change 0%Z with (Qfloor 0). apply Qfloor_resp_le. lra. }
  exists (Z.to_nat (Qfloor (x * 2))). rewrite Z2Nat.id by done.
  split; [done|].
  pose proof (Qfloor_le (x * 2)) as Hlo.
  pose proof (Qlt_floor (x * 2)) as Hhi.
  rewrite inject_Z_plus in Hhi. change (inject_Z 1) with 1 in Hhi. lra.
Qed.

Lemma slot_in_the_day (x : Q) (idx : nat) :
  inject_Z (Z.of_nat idx) * 0.5 <= x -> x < 24 -> (idx < 48)%nat.
Proof.
  intros Hlo Hhi.
  assert (H : inject_Z (Z.of_nat idx) < inject_Z 48)
    by (change (inject_Z 48) with 48; lra).
  rewrite <- Zlt_Qlt in H. lia.
Qed.

Lemma covered_reading (d : dict ndarray) (k : string) (i : nat) :
  covers_day d k -> (i < 48)%nat -> subscript2 d k i = Ok (reading d k i).
Proof.
  intros Hk Hi. destruct (covers_day_subscript d k i Hk Hi) as (x & E).
  by rewrite (reading_ok _ _ _ _ E).
Qed.

Lemma band_shape_covers (wifi : dict ndarray) (b : band) :
  shape wifi = band_shape -> covers_day wifi (band_key b).
Proof.
  intros (a0 & b0 & c0 & -> & Ha & Hb & Hc)%band_shape_inv.
  destruct b; eexists; (split; [reflexivity|lia]).
Qed.

Lemma activities_baseline (idx : nat) :
  (idx < 48)%nat ->
  exists activity,
    Baseline._generate_activity_descriptions !! idx = Some activity.
Proof. intros Hi. by apply lookup_lt_is_Some_2. Qed.

Lemma activities_v8 (idx : nat) :
  (idx < 48)%nat ->
  exists activity, V8._generate_activity_descriptions !! idx = Some activity.
Proof. intros Hi. by apply lookup_lt_is_Some_2. Qed.

Lemma on_hover_v8 (self : V8.model)
    (annotation : mpl.annotation V8.hover_text) (ax : V8.axes) (x : Q) :
  length (V8.hours self) = 48%nat ->
  four_series (V8.bandwidth_data self) ->
  shape (V8.wifi_band_data self) = band_shape ->
  ax <> V8.ax_other ->
  0 <= x < 24 ->
  exists (idx : nat) (total : ndarray) (v : Q) (activity : string),
    py_int (x * 2) = Z.of_nat idx /\ (idx < 48)%nat /\
    inject_Z (Z.of_nat idx) * 0.5 <= x < inject_Z (Z.of_nat idx) * 0.5 + 0.5 /\
    total_over (V8.hours self) (V8.bandwidth_data self) = Ok total /\
    total !! idx = Some v /\ v == total_at (V8.bandwidth_data self) idx /\
    V8._generate_activity_descriptions !! idx = Some activity /\
    V8._on_hover self annotation
      {| mpl.inaxes := Some ax; mpl.xdata := Some x |}
    = Ok {| mpl.text := Some (hover_text_v8 self x idx v activity);
            mpl.xy :=
              (x, match ax with
                  | V8.ax_overlay => v
                  | _ => reading (V8.wifi_band_data self) "2.4GHz" idx
                         + reading (V8.wifi_band_data self) "5GHz" idx
                         + reading (V8.wifi_band_data self) "6GHz" idx
                  end);
            mpl.visible := true |}.
Proof.
  intros Hh H4 Hs Hax [Hx0 Hx24].
  destruct (slot_of_position x Hx0) as (idx & Eidx & Hlo & Hhi).
  pose proof (slot_in_the_day x idx Hlo Hx24) as Hidx.
  destruct (total_over_four _ _ Hh H4) as (total & Et & _ & Hpt & _).
  destruct (Hpt idx Hidx) as (v & Ev & Hv).
  destruct (four_series_well_formed _ H4) as (Cw & Cp & Cl & Ct).
  destruct (activities_v8 idx Hidx) as (activity & Ea).
  exists idx, total, v, activity.
  split; [exact Eidx|]. split; [exact Hidx|]. split; [by split|].
  split; [exact Et|]. split; [exact Ev|]. split; [exact Hv|].
  split; [exact Ea|].
  unfold V8._on_hover. cbv zeta.
  replace (mpl.inaxes {| mpl.inaxes := Some ax; mpl.xdata := Some x |})
    with (Some ax) by reflexivity.
  replace (mpl.xdata {| mpl.inaxes := Some ax; mpl.xdata := Some x |})
    with (Some x) by reflexivity.
  assert (Hguard : (0 <=? x) && (x <? 24) = true).
  { apply andb_true_iff. split; [by apply Qle_bool_iff|].
    unfold Qltb. apply negb_true_iff.
    destruct (Qle_bool 24 x) eqn:C; [|done].
    apply Qle_bool_iff in C. lra. }
  destruct ax; [| |done];
    (rewrite Hguard, Eidx;
     replace (Z.to_nat (Z.min (Z.of_nat idx) 47)) with idx by lia;
     unfold V8.get_total_bandwidth; rewrite Et, bind_Ok;
     unfold np_getitem at 1; rewrite Ev, bind_Ok;
     rewrite (covered_reading _ _ _ Cl Hidx), bind_Ok;
     rewrite (covered_reading _ _ _ Cp Hidx), bind_Ok;
     rewrite (covered_reading _ _ _ Ct Hidx), bind_Ok;
     rewrite (covered_reading _ _ _ Cw Hidx), bind_Ok;
     rewrite (covered_reading _ "2.4GHz" _ (band_shape_covers _ GHz2_4 Hs) Hidx),
       bind_Ok;
     rewrite (covered_reading _ "5GHz" _ (band_shape_covers _ GHz5 Hs) Hidx),
       bind_Ok;
     rewrite (covered_reading _ "6GHz" _ (band_shape_covers _ GHz6 Hs) Hidx),
       bind_Ok;
     unfold list_getitem; rewrite Ea, bind_Ok; reflexivity).
Qed.

(** X18.  [_on_hover] of v8, on a model with 48 hours, the four 48-slot
    device series and the three 48-slot bands: for an event over the
    overlay or the band axes with [0 <= x < 24] it returns and shows the
    annotation.  The slot it reads is the half-hour [idx < 48] with
    [idx * 0.5 <= x < idx * 0.5 + 0.5], so [min(..., 47)] never cuts; the
    values in the text are the total, the four devices, the three bands and
    the activity of that slot; the anchor is [(x, total)] over the overlay
    axes and [(x, band_24 + band_5 + band_6)] over the band axes. *)
Theorem hover_shows_the_slot_under_the_mouse (self : V8.model)
    (annotation : mpl.annotation V8.hover_text) (ax : V8.axes) (x : Q) :
  length (V8.hours self) = 48%nat ->
  four_series (V8.bandwidth_data self) ->
  shape (V8.wifi_band_data self) = band_shape ->
  ax <> V8.ax_other ->
  0 <= x < 24 ->
  exists (idx : nat) (t : V8.hover_text),
    (idx < 48)%nat /\
    inject_Z (Z.of_nat idx) * 0.5 <= x < inject_Z (Z.of_nat idx) * 0.5 + 0.5 /\
    V8._on_hover self annotation
      {| mpl.inaxes := Some ax; mpl.xdata := Some x |}
    = Ok {| mpl.text := Some t;
            mpl.xy := (x, match ax with
                          | V8.ax_overlay => V8.shown_total t
                          | _ => V8.shown_band_24 t + V8.shown_band_5 t
                                 + V8.shown_band_6 t
                          end);
            mpl.visible := true |} /\
    V8.shown_total t == total_at (V8.bandwidth_data self) idx /\
    V8.shown_laptop t = reading (V8.bandwidth_data self) "laptop" idx /\
    V8.shown_phone t = reading (V8.bandwidth_data self) "smartphone" idx /\
    V8.shown_tablet t = reading (V8.bandwidth_data self) "tablet" idx /\
    V8.shown_watch t = reading (V8.bandwidth_data self) "smartwatch" idx /\
    V8.shown_band_24 t = reading (V8.wifi_band_data self) "2.4GHz" idx /\
    V8.shown_band_5 t = reading (V8.wifi_band_data self) "5GHz" idx /\
    V8.shown_band_6 t = reading (V8.wifi_band_data self) "6GHz" idx /\
    V8._generate_activity_descriptions !! idx = Some (V8.shown_activity t).
Proof.
  intros Hh H4 Hs Hax Hx.
  destruct (on_hover_v8 self annotation ax x Hh H4 Hs Hax Hx)
    as (idx & total & v & activity & _ & Hidx & Hb & _ & _ & Hv & Ea & E).
  exists idx, (hover_text_v8 self x idx v activity).
  split; [exact Hidx|]. split; [exact Hb|]. split; [exact E|].
  split; [exact Hv|]. repeat (split; [reflexivity|]). exact Ea.
Qed.

Lemma filled_reading (f : band -> nat -> Q) (wifi : dict ndarray) (b : band)
    (i : nat) :
  filled f 48 wifi -> (i < 48)%nat -> reading wifi (band_key b) i == f b i.
Proof.
  intros F Hi. destruct (F b i Hi) as (y & Ey & Hy).
  rewrite (reading_ok _ _ _ _ Ey). by rewrite decide_True in Hy by done.
Qed.

(** X19.  In v8, when the band table is the one generated from the device
    series, hovering at the same [x] with [0 <= x < 24] over the overlay
    axes and over the band axes shows the annotation with the same text,
    at anchors with the same [x] and equal [y]: the total and the sum of
    the three bands of the slot agree. *)
Theorem hover_anchor_is_the_same_on_both_charts (self : V8.model)
    (annotation : mpl.annotation V8.hover_text) (x : Q) :
  length (V8.hours self) = 48%nat ->
  four_series (V8.bandwidth_data self) ->
  V8._generate_wifi_band_data (V8.bandwidth_data self)
    = Ok (V8.wifi_band_data self) ->
  0 <= x < 24 ->
  exists over_lines over_bands : mpl.annotation V8.hover_text,
    V8._on_hover self annotation
      {| mpl.inaxes := Some V8.ax_overlay; mpl.xdata := Some x |}
    = Ok over_lines /\
    V8._on_hover self annotation
      {| mpl.inaxes := Some V8.ax_bands; mpl.xdata := Some x |}
    = Ok over_bands /\
    mpl.visible over_lines = true /\ mpl.visible over_bands = true /\
    mpl.text over_lines = mpl.text over_bands /\
    (mpl.xy over_lines).1 = (mpl.xy over_bands).1 /\
    (mpl.xy over_lines).2 == (mpl.xy over_bands).2.
Proof.
  intros Hh H4 Ew Hx.
  pose proof (generate_wifi_band_data_v8_shape _ _ Ew) as Hs.
  destruct (generate_wifi_band_data_v8 _ (four_series_well_formed _ H4))
    as (wifi & E & F).
  rewrite Ew in E. injection E as <-.
  destruct (on_hover_v8 self annotation V8.ax_overlay x Hh H4 Hs) as
    (i1 & tot1 & v1 & a1 & Ei1 & Hi1 & _ & Et1 & Ev1 & Hv1 & Ea1 & E1);
    [done|done|].
  destruct (on_hover_v8 self annotation V8.ax_bands x Hh H4 Hs) as
    (i2 & tot2 & v2 & a2 & Ei2 & Hi2 & _ & Et2 & Ev2 & Hv2 & Ea2 & E2);
    [done|done|].
  assert (i2 = i1) as -> by lia.
  rewrite Et1 in Et2. injection Et2 as <-.
  rewrite Ev1 in Ev2. injection Ev2 as <-.
  rewrite Ea1 in Ea2. injection Ea2 as <-.
  do 2 eexists. split; [exact E1|]. split; [exact E2|].
  cbn [mpl.visible mpl.text mpl.xy fst snd].
  split; [done|]. split; [done|]. split; [done|]. split; [done|].
  rewrite Hv1, <- table_v8_total.
  change "2.4GHz"%string with (band_key GHz2_4).
  change "5GHz"%string with (band_key GHz5).
  change "6GHz"%string with (band_key GHz6).
  by rewrite !(filled_reading _ _ _ _ F Hi1).
Qed.

Lemma axes_eqb_refl (ax : Baseline.axes) : Baseline.axes_eqb ax ax = true.
Proof. by destruct ax. Qed.

Lemma on_hover_baseline (self : Baseline.model)
    (annotation : mpl.annotation Baseline.hover_text) (ax : Baseline.axes)
    (x : Q) (idx : nat) :
  length (Baseline.hours self) = 48%nat ->
  four_series (Baseline.bandwidth_data self) ->
  0 <= x <= 24 ->
  (idx < 48)%nat ->
  Z.to_nat (if (py_int (x * 2) >=? 48)%Z then 47%Z else py_int (x * 2)) = idx ->
  exists (v : Q) (activity : string),
    v == total_at (Baseline.bandwidth_data self) idx /\
    Baseline._generate_activity_descriptions !! idx = Some activity /\
    Baseline._on_hover self annotation
      {| mpl.inaxes := Some ax; mpl.xdata := Some x |} ax
    = Ok {| mpl.text := Some (hover_text_baseline self x idx v activity);
            mpl.xy := (x, v);
            mpl.visible := true |}.
Proof.
  intros Hh H4 [Hx0 Hx24] Hidx Eidx.
  destruct (total_over_four _ _ Hh H4) as (total & Et & _ & Hpt & _).
  destruct (Hpt idx Hidx) as (v & Ev & Hv).
  destruct (four_series_well_formed _ H4) as (Cw & Cp & Cl & Ct).
  destruct (activities_baseline idx Hidx) as (activity & Ea).
  exists v, activity. split; [exact Hv|]. split; [exact Ea|].
  unfold Baseline._on_hover. cbv zeta.
  replace (mpl.inaxes {| mpl.inaxes := Some ax; mpl.xdata := Some x |})
    with (Some ax) by reflexivity.
  replace (mpl.xdata {| mpl.inaxes := Some ax; mpl.xdata := Some x |})
    with (Some x) by reflexivity.
  rewrite axes_eqb_refl.
  assert (Hguard : (0 <=? x) && (x <=? 24) = true)
    by (apply andb_true_iff; split; by apply Qle_bool_iff).
  rewrite Hguard.
  change (length Baseline._generate_activity_descriptions) with 48%nat.
  change (Z.of_nat 48 - 1)%Z with 47%Z. change (Z.of_nat 48) with 48%Z.
  rewrite Eidx.
  unfold Baseline.get_total_bandwidth. rewrite Et, bind_Ok.
  unfold np_getitem at 1. rewrite Ev, bind_Ok.
  rewrite (covered_reading _ _ _ Cl Hidx), bind_Ok.
  rewrite (covered_reading _ _ _ Cp Hidx), bind_Ok.
  rewrite (covered_reading _ _ _ Ct Hidx), bind_Ok.
  rewrite (covered_reading _ _ _ Cw Hidx), bind_Ok.
  unfold list_getitem. rewrite Ea, bind_Ok. reflexivity.
Qed.

(** X20.  [_on_hover] of the baseline accepts [0 <= x <= 24] over its
    axes and never indexes out of range: for [x < 24] it shows the slot
    [idx] with [idx * 0.5 <= x < idx * 0.5 + 0.5]; at [x = 24] it shows
    the last slot, 47 (23:30), under the time 24:00.  The values in the
    text are those of the slot shown and the anchor is [(x, total)]. *)
Theorem hover_at_the_right_edge_shows_the_last_slot (self : Baseline.model)
    (annotation : mpl.annotation Baseline.hover_text) (ax : Baseline.axes)
    (x : Q) :
  length (Baseline.hours self) = 48%nat ->
  four_series (Baseline.bandwidth_data self) ->
  0 <= x <= 24 ->
  exists (idx : nat) (t : Baseline.hover_text),
    (idx < 48)%nat /\
    (x < 24 ->
     inject_Z (Z.of_nat idx) * 0.5 <= x < inject_Z (Z.of_nat idx) * 0.5 + 0.5) /\
    (x == 24 -> idx = 47%nat /\ Baseline.time_str t = (24, 0)%Z) /\
    Baseline._on_hover self annotation
      {| mpl.inaxes := Some ax; mpl.xdata := Some x |} ax
    = Ok {| mpl.text := Some t;
            mpl.xy := (x, Baseline.shown_total t);
            mpl.visible := true |} /\
    Baseline.shown_total t == total_at (Baseline.bandwidth_data self) idx /\
    Baseline.shown_laptop t = reading (Baseline.bandwidth_data self) "laptop" idx /\
    Baseline.shown_phone t
    = reading (Baseline.bandwidth_data self) "smartphone" idx /\
    Baseline.shown_tablet t = reading (Baseline.bandwidth_data self) "tablet" idx /\
    Baseline.shown_watch t
    = reading (Baseline.bandwidth_data self) "smartwatch" idx /\
    Baseline._generate_activity_descriptions !! idx
    = Some (Baseline.shown_activity t).
Proof.
  intros Hh H4 [Hx0 Hx24].
  destruct (slot_of_position x Hx0) as (i & Ei & Hlo & Hhi).
  destruct (Qlt_le_dec x 24) as [Hlt|Hge].
  - pose proof (slot_in_the_day x i Hlo Hlt) as Hi.
    destruct (on_hover_baseline self annotation ax x i Hh H4 (conj Hx0 Hx24) Hi)
      as (v & activity & Hv & Ea & E).
    { rewrite Ei. destruct (Z.geb_spec (Z.of_nat i) 48); lia. }
    exists i, (hover_text_baseline self x i v activity).
    split; [exact Hi|]. split; [done|]. split; [intros Heq; lra|].
    split; [exact E|]. split; [exact Hv|].
    repeat (split; [reflexivity|]). exact Ea.
  - assert (Heq : x == 24) by lra.
    assert (Ei48 : i = 48%nat).
    { assert (H1 : inject_Z (Z.of_nat i) <= inject_Z 48)
        by (change (inject_Z 48) with 48; lra).
      assert (H2 : inject_Z 47 < inject_Z (Z.of_nat i))
        by (change (inject_Z 47) with 47; lra).
      rewrite <- Zle_Qle in H1. rewrite <- Zlt_Qlt in H2. lia. }
    subst i.
    destruct (on_hover_baseline self annotation ax x 47 Hh H4 (conj Hx0 Hx24))
      as (v & activity & Hv & Ea & E); [lia| |].
    { rewrite Ei. reflexivity. }
    exists 47%nat, (hover_text_baseline self x 47 v activity).
    split; [lia|]. split; [intros Hlt; lra|]. split.
    { intros _. split; [done|]. cbn [hover_text_baseline Baseline.time_str].
      assert (E1 : py_int x = 24%Z).
      { rewrite py_int_nonneg by done. by rewrite (Qfloor_comp _ _ Heq). }
      assert (E2 : py_int (py_mod x 1 * 60) = 0%Z).
      { assert (Hm : py_mod x 1 * 60 == 0).
        { unfold py_mod.
          assert (Hd : x / 1 == 24) by (rewrite Heq; reflexivity).
          rewrite (Qfloor_comp _ _ Hd), Heq. reflexivity. }
        rewrite py_int_nonneg by lra. by rewrite (Qfloor_comp _ _ Hm). }
      by rewrite E1, E2. }
    split; [exact E|]. split; [exact Hv|].
    repeat (split; [reflexivity|]). exact Ea.
Qed.

(** ** The hover handler of v13 *)

Lemma activities_v13 (idx : nat) :
  (idx < 48)%nat ->
  exists activity, V13._generate_activity_descriptions !! idx = Some activity.
Proof. intros Hi. by apply lookup_lt_is_Some_2. Qed.

Lemma hover_guard (x : Q) : 0 <= x < 24 -> (0 <=? x) && (x <? 24) = true.
Proof.
  intros [H0 H24]. apply andb_true_iff. split; [by apply Qle_bool_iff|].
  unfold Qltb. apply negb_true_iff.
  destruct (Qle_bool 24 x) eqn:C; [|done]. apply Qle_bool_iff in C. lra.
Qed.

Lemma stateful_bind_Ok {S A B : Type} (m : stateful S A) (f : A -> stateful S B)
    (s s' : S) (a : A) :
  m s = (Ok a, s') -> (m ≫= f) s = f a s'.
Proof. intros E. unfold mbind, stateful_bind. by rewrite E. Qed.

Lemma on_hover_bands_v13 (self : V13.model) (e : V13.hover_elements) (x : Q) :
  shape (V13.wifi_band_data self) = band_shape ->
  0 <= x < 24 ->
  exists (idx : nat) (activity : string),
    (idx < 48)%nat /\
    inject_Z (Z.of_nat idx) * 0.5 <= x < inject_Z (Z.of_nat idx) * 0.5 + 0.5 /\
    V13._generate_activity_descriptions !! idx = Some activity /\
    V13._on_hover self {| mpl.inaxes := Some V13.ax_bands; mpl.xdata := Some x |} e
    = (Ok (),
       {| V13.vline_overlay := V13.vline_overlay e;
          V13.markers_overlay := V13.markers_overlay e;
          V13.info_box_overlay := V13.info_box_overlay e;
          V13.vline_bands :=
            {| mpl.line_xdata := [x; x];
               mpl.line_ydata := mpl.line_ydata (V13.vline_bands e);
               mpl.line_visible := true |};
          V13.info_box_bands :=
            {| mpl.box_text :=
                 Some (bands_text_v13 self x idx activity);
               mpl.box_visible := true |} |}).
Proof.
  intros Hs [Hx0 Hx24].
  destruct (slot_of_position x Hx0) as (idx & Eidx & Hlo & Hhi).
  pose proof (slot_in_the_day x idx Hlo Hx24) as Hidx.
  destruct (activities_v13 idx Hidx) as (activity & Ea).
  exists idx, activity. split; [exact Hidx|]. split; [by split|].
  split; [exact Ea|].
  unfold V13._on_hover. cbv zeta.
  replace (mpl.inaxes {| mpl.inaxes := Some V13.ax_bands; mpl.xdata := Some x |})
    with (Some V13.ax_bands) by reflexivity.
  replace (mpl.xdata {| mpl.inaxes := Some V13.ax_bands; mpl.xdata := Some x |})
    with (Some x) by reflexivity.
  rewrite (hover_guard x (conj Hx0 Hx24)), Eidx.
  replace (Z.to_nat (Z.min (Z.of_nat idx) 47)) with idx by lia.
  rewrite (covered_reading _ "2.4GHz" _ (band_shape_covers _ GHz2_4 Hs) Hidx).
  rewrite (covered_reading _ "5GHz" _ (band_shape_covers _ GHz5 Hs) Hidx).
  rewrite (covered_reading _ "6GHz" _ (band_shape_covers _ GHz6 Hs) Hidx).
  unfold list_getitem. rewrite Ea. reflexivity.
Qed.

(** X21.  [_on_hover] of v13 over the band axes, on a model with the four
    48-slot device series, the band table generated from them and a total
    that is positive at every slot: for [0 <= x < 24] it returns, puts the
    cursor line of the band chart at [x] and shows the info box; the
    [total_bands] it divides by is positive and the three percentages it
    shows add up to 100. *)
Theorem band_hover_never_divides_by_zero (self : V13.model)
    (e : V13.hover_elements) (x : Q) :
  four_series (V13.bandwidth_data self) ->
  V13._generate_wifi_band_data (V13.bandwidth_data self)
    = Ok (V13.wifi_band_data self) ->
  (forall i, (i < 48)%nat -> 0 < total_at (V13.bandwidth_data self) i) ->
  0 <= x < 24 ->
  exists (e' : V13.hover_elements) (t : V13.bands_text),
    V13._on_hover self {| mpl.inaxes := Some V13.ax_bands; mpl.xdata := Some x |} e
    = (Ok (), e') /\
    mpl.line_xdata (V13.vline_bands e') = [x; x] /\
    mpl.line_visible (V13.vline_bands e') = true /\
    mpl.box_visible (V13.info_box_bands e') = true /\
    mpl.box_text (V13.info_box_bands e') = Some t /\
    0 < V13.shown_total_bands t /\
    V13.shown_percent_24 t + V13.shown_percent_5 t + V13.shown_percent_6 t
    == 100.
Proof.
  intros H4 Ew Hpos Hx.
  assert (Ew8 : V8._generate_wifi_band_data (V13.bandwidth_data self)
                = Ok (V13.wifi_band_data self)) by exact Ew.
  pose proof (generate_wifi_band_data_v8_shape _ _ Ew8) as Hs.
  destruct (generate_wifi_band_data_v8 _ (four_series_well_formed _ H4))
    as (wifi & E & F).
  rewrite Ew8 in E. injection E as <-.
  destruct (on_hover_bands_v13 self e x Hs Hx)
    as (idx & activity & Hidx & _ & _ & E).
  do 2 eexists. split; [exact E|].
  cbn [V13.vline_bands V13.info_box_bands mpl.line_xdata mpl.line_visible
       mpl.box_visible mpl.box_text].
  split; [done|]. split; [done|]. split; [done|]. split; [done|].
  unfold bands_text_v13. cbv zeta.
  cbn [V13.shown_total_bands V13.shown_percent_24 V13.shown_percent_5
       V13.shown_percent_6].
  assert (Hsum : reading (V13.wifi_band_data self) "2.4GHz" idx
                 + reading (V13.wifi_band_data self) "5GHz" idx
                 + reading (V13.wifi_band_data self) "6GHz" idx
                 == total_at (V13.bandwidth_data self) idx).
  { rewrite <- table_v8_total.
    change "2.4GHz"%string with (band_key GHz2_4).
    change "5GHz"%string with (band_key GHz5).
    change "6GHz"%string with (band_key GHz6).
    by rewrite !(filled_reading _ _ _ _ F Hidx). }
  pose proof (Hpos idx Hidx) as Hp.
  split; [by rewrite Hsum|].
  field. rewrite Hsum. lra.
Qed.

Lemma on_marker_ok (device : string) (m : mpl.line2d -> mpl.line2d)
    (e : V13.hover_elements) (marker : mpl.line2d) :
  dict_get (V13.markers_overlay e) device = Some marker ->
  V13.on_marker device m e
  = (Ok (),
     {| V13.vline_overlay := V13.vline_overlay e;
        V13.markers_overlay := dict_set (V13.markers_overlay e) device (m marker);
        V13.info_box_overlay := V13.info_box_overlay e;
        V13.vline_bands := V13.vline_bands e;
        V13.info_box_bands := V13.info_box_bands e |}).
Proof.
  intros E. unfold V13.on_marker, mbind, stateful_bind, st_get, st_lift,
    dict_getitem. by rewrite E.
Qed.

(** The loop over the markers changes the markers only, and keeps their
    keys. *)
Lemma markers_loop (self : V13.model) (x : Q) (idx : nat)
    (devices : list string) (e : V13.hover_elements) :
  (idx < 48)%nat ->
  Forall (fun d => covers_day (V13.bandwidth_data self) d /\
                   is_Some (dict_get (V13.markers_overlay e) d)) devices ->
  exists markers,
    st_for_each devices
      (fun device =>
         y_val ← st_lift (subscript2 (V13.bandwidth_data self) device idx);
         V13.on_marker device (mpl.line_set_data [x] [y_val]);;
         V13.on_marker device (mpl.line_set_visible true)) e
    = (Ok (),
       {| V13.vline_overlay := V13.vline_overlay e;
          V13.markers_overlay := markers;
          V13.info_box_overlay := V13.info_box_overlay e;
          V13.vline_bands := V13.vline_bands e;
          V13.info_box_bands := V13.info_box_bands e |}) /\
    forall d, is_Some (dict_get markers d)
              <-> is_Some (dict_get (V13.markers_overlay e) d).
Proof.
  intros Hidx. revert e.
  induction devices as [|d devices IH]; intros e Hall.
  - exists (V13.markers_overlay e). split; [by destruct e|done].
  - apply Forall_cons in Hall as [[Hc [marker Hm]] Hall].
    cbn [st_for_each].
    set (e1 := {| V13.vline_overlay := V13.vline_overlay e;
                  V13.markers_overlay :=
                    dict_set (V13.markers_overlay e) d
                      (mpl.line_set_data [x]
                         [reading (V13.bandwidth_data self) d idx] marker);
                  V13.info_box_overlay := V13.info_box_overlay e;
                  V13.vline_bands := V13.vline_bands e;
                  V13.info_box_bands := V13.info_box_bands e |}).
    set (e2 := {| V13.vline_overlay := V13.vline_overlay e;
                  V13.markers_overlay :=
                    dict_set (V13.markers_overlay e1) d
                      (mpl.line_set_visible true
                         (mpl.line_set_data [x]
                            [reading (V13.bandwidth_data self) d idx] marker));
                  V13.info_box_overlay := V13.info_box_overlay e;
                  V13.vline_bands := V13.vline_bands e;
                  V13.info_box_bands := V13.info_box_bands e |}).
    assert (Hkeys : forall k, is_Some (dict_get (V13.markers_overlay e2) k)
                              <-> is_Some (dict_get (V13.markers_overlay e) k)).
    { intros k. cbn [e2 e1 V13.markers_overlay].
      destruct (decide (d = k)) as [<-|Hne].
      - rewrite dict_get_set_eq, Hm. by split.
      - by rewrite !dict_get_set_ne. }
    destruct (IH e2) as (markers & E & Hk).
    { eapply Forall_impl; [exact Hall|]. intros k [Hck Hsk].
      split; [done|]. by apply Hkeys. }
    exists markers. split.
    + assert (Hbody :
        (y_val ← st_lift (subscript2 (V13.bandwidth_data self) d idx);
         V13.on_marker d (mpl.line_set_data [x] [y_val]);;
         V13.on_marker d (mpl.line_set_visible true)) e = (Ok (), e2)).
      { rewrite (stateful_bind_Ok _ _ e e
                   (reading (V13.bandwidth_data self) d idx))
          by (unfold st_lift; by rewrite (covered_reading _ _ _ Hc Hidx)).
        rewrite (stateful_bind_Ok _ _ e e1 ())
          by exact (on_marker_ok d _ e marker Hm).
        exact (on_marker_ok d _ e1 _ (dict_get_set_eq _ _ _)). }
      etrans; [|exact E].
      unfold mbind at 1. unfold stateful_bind at 1. by rewrite Hbody.
    + intros k. rewrite Hk. apply Hkeys.
Qed.

Lemma on_hover_overlay_v13 (self : V13.model) (e : V13.hover_elements)
    (x : Q) :
  length (V13.hours self) = 48%nat ->
  four_series (V13.bandwidth_data self) ->
  Forall (fun d => is_Some (dict_get (V13.markers_overlay e) d))
         ["laptop"; "smartphone"; "tablet"; "smartwatch"]%string ->
  0 <= x < 24 ->
  exists (markers : dict mpl.line2d) (t : V13.overlay_text),
    V13._on_hover self
      {| mpl.inaxes := Some V13.ax_overlay; mpl.xdata := Some x |} e
    = (Ok (),
       {| V13.vline_overlay :=
            {| mpl.line_xdata := [x; x];
               mpl.line_ydata := mpl.line_ydata (V13.vline_overlay e);
               mpl.line_visible := true |};
          V13.markers_overlay := markers;
          V13.info_box_overlay :=
            {| mpl.box_text := Some t; mpl.box_visible := true |};
          V13.vline_bands := V13.vline_bands e;
          V13.info_box_bands := V13.info_box_bands e |}).
Proof.
  intros Hh H4 Hm [Hx0 Hx24].
  destruct (slot_of_position x Hx0) as (idx & Eidx & Hlo & Hhi).
  pose proof (slot_in_the_day x idx Hlo Hx24) as Hidx.
  destruct (total_over_four _ _ Hh H4) as (total & Et & _ & Hpt & _).
  destruct (Hpt idx Hidx) as (v & Ev & Hv).
  destruct (four_series_well_formed _ H4) as (Cw & Cp & Cl & Ct).
  destruct (activities_v13 idx Hidx) as (activity & Ea).
  set (e1 := {| V13.vline_overlay :=
                  {| mpl.line_xdata := [x; x];
                     mpl.line_ydata := mpl.line_ydata (V13.vline_overlay e);
                     mpl.line_visible := true |};
                V13.markers_overlay := V13.markers_overlay e;
                V13.info_box_overlay := V13.info_box_overlay e;
                V13.vline_bands := V13.vline_bands e;
                V13.info_box_bands := V13.info_box_bands e |}).
  destruct (markers_loop self x idx
              ["laptop"; "smartphone"; "tablet"; "smartwatch"]%string e1 Hidx)
    as (markers & El & _).
  { apply Forall_cons in Hm as [M1 Hm]. apply Forall_cons in Hm as [M2 Hm].
    apply Forall_cons in Hm as [M3 Hm]. apply Forall_cons in Hm as [M4 _].
    by repeat constructor. }
  exists markers. eexists.
  unfold V13._on_hover. cbv zeta.
  replace (mpl.inaxes {| mpl.inaxes := Some V13.ax_overlay; mpl.xdata := Some x |})
    with (Some V13.ax_overlay) by reflexivity.
  replace (mpl.xdata {| mpl.inaxes := Some V13.ax_overlay; mpl.xdata := Some x |})
    with (Some x) by reflexivity.
  rewrite (hover_guard x (conj Hx0 Hx24)), Eidx.
  replace (Z.to_nat (Z.min (Z.of_nat idx) 47)) with idx by lia.
  rewrite (stateful_bind_Ok _ _ e
             {| V13.vline_overlay :=
                  mpl.line_set_xdata [x; x] (V13.vline_overlay e);
                V13.markers_overlay := V13.markers_overlay e;
                V13.info_box_overlay := V13.info_box_overlay e;
                V13.vline_bands := V13.vline_bands e;
                V13.info_box_bands := V13.info_box_bands e |} ())
    by reflexivity.
  rewrite (stateful_bind_Ok _ _ _ e1 ()) by reflexivity.
  rewrite (stateful_bind_Ok _ _ e1 _ () El).
  set (e2 := {| V13.vline_overlay := V13.vline_overlay e1;
                V13.markers_overlay := markers;
                V13.info_box_overlay := V13.info_box_overlay e1;
                V13.vline_bands := V13.vline_bands e1;
                V13.info_box_bands := V13.info_box_bands e1 |}).
  rewrite (stateful_bind_Ok _ _ e2 e2 total)
    by (unfold st_lift, V13.get_total_bandwidth; by rewrite Et).
  rewrite (stateful_bind_Ok _ _ e2 e2 v)
    by (unfold st_lift, np_getitem; by rewrite Ev).
  rewrite (stateful_bind_Ok _ _ e2 e2 _)
    by (unfold st_lift; by rewrite (covered_reading _ _ _ Cl Hidx)).
  rewrite (stateful_bind_Ok _ _ e2 e2 _)
    by (unfold st_lift; by rewrite (covered_reading _ _ _ Cp Hidx)).
  rewrite (stateful_bind_Ok _ _ e2 e2 _)
    by (unfold st_lift; by rewrite (covered_reading _ _ _ Ct Hidx)).
  rewrite (stateful_bind_Ok _ _ e2 e2 _)
    by (unfold st_lift; by rewrite (covered_reading _ _ _ Cw Hidx)).
  rewrite (stateful_bind_Ok _ _ e2 e2 activity)
    by (unfold st_lift, list_getitem; by rewrite Ea).
  reflexivity.
Qed.

(** X22.  [_on_hover] of v13 hides the elements of a chart only when the
    mouse is over that chart outside [0 <= x < 24], or over neither chart.
    So after an event over the overlay axes at [x1] followed by one over
    the band axes at [x2] (both in range, the markers of the four devices
    existing) both calls return and the cursor line and the info box of
    the overlay chart are still visible, the line still at [x1], next to
    those of the band chart at [x2]. *)
Theorem moving_between_the_charts_keeps_both_cursors (self : V13.model)
    (e : V13.hover_elements) (x1 x2 : Q) :
  length (V13.hours self) = 48%nat ->
  four_series (V13.bandwidth_data self) ->
  shape (V13.wifi_band_data self) = band_shape ->
  Forall (fun d => is_Some (dict_get (V13.markers_overlay e) d))
         ["laptop"; "smartphone"; "tablet"; "smartwatch"]%string ->
  0 <= x1 < 24 ->
  0 <= x2 < 24 ->
  exists e1 e2 : V13.hover_elements,
    V13._on_hover self
      {| mpl.inaxes := Some V13.ax_overlay; mpl.xdata := Some x1 |} e
    = (Ok (), e1) /\
    V13._on_hover self
      {| mpl.inaxes := Some V13.ax_bands; mpl.xdata := Some x2 |} e1
    = (Ok (), e2) /\
    mpl.line_xdata (V13.vline_overlay e2) = [x1; x1] /\
    mpl.line_visible (V13.vline_overlay e2) = true /\
    mpl.box_visible (V13.info_box_overlay e2) = true /\
    mpl.line_xdata (V13.vline_bands e2) = [x2; x2] /\
    mpl.line_visible (V13.vline_bands e2) = true /\
    mpl.box_visible (V13.info_box_bands e2) = true.
Proof.
  intros Hh H4 Hs Hm Hx1 Hx2.
  destruct (on_hover_overlay_v13 self e x1 Hh H4 Hm Hx1) as (markers & t & E1).
  destruct (on_hover_bands_v13 self
              {| V13.vline_overlay :=
                   {| mpl.line_xdata := [x1; x1];
                      mpl.line_ydata := mpl.line_ydata (V13.vline_overlay e);
                      mpl.line_visible := true |};
                 V13.markers_overlay := markers;
                 V13.info_box_overlay :=
                   {| mpl.box_text := Some t; mpl.box_visible := true |};
                 V13.vline_bands := V13.vline_bands e;
                 V13.info_box_bands := V13.info_box_bands e |} x2 Hs Hx2)
    as (idx & activity & _ & _ & _ & E2).
  do 2 eexists. split; [exact E1|]. split; [exact E2|].
  cbn [V13.vline_overlay V13.info_box_overlay V13.vline_bands
       V13.info_box_bands mpl.line_xdata mpl.line_visible mpl.box_visible].
  repeat split.
Qed.

(** ** The theorems at the data of the programs *)

Lemma generated_series_are_clipped_smartwatch :
  exists data a,
    V18._generate_bandwidth_data V18.default_device_config = Ok data /\
    dict_get data "smartwatch" = Some a /\
    length a = 48%nat /\
    exists row : V18.device_row,
      row ∈ V18.default_device_config /\ V18.enabled row = true /\
      V18.device row = "smartwatch"%string /\
      (0 <= V18.max_bandwidth_mbps row ->
       Forall (fun x => 0 <= x <= V18.max_bandwidth_mbps row) a).
Proof.
  do 2 eexists. split; [exact default_data_v18|]. split; [reflexivity|].
  eapply (generated_series_are_clipped V18.default_device_config _ "smartwatch");
    [exact default_data_v18|reflexivity].
Defined.

Lemma six_GHz_needs_a_6E_row_above_15_at_1h :
  exists data wifi,
    rows_covered V18.default_device_config data /\
    V18._generate_wifi_band_data V18.default_device_config data = Ok wifi /\
    (2 < 48)%nat /\
    ~ reaches_6GHz V18.default_device_config data 2 /\
    exists y, subscript2 wifi "6GHz" 2 = Ok y /\ y == 0.
Proof.
  pose proof (proj1 (generate_bandwidth_data_ok _ _ default_data_v18)) as Hcov.
  destruct (generate_wifi_band_data_v18 _ _ Hcov) as (wifi & E & _).
  eexists. exists wifi. split; [exact Hcov|]. split; [exact E|].
  split; [lia|]. split; [exact laptop_idle_at_1h|].
  apply (six_GHz_needs_a_6E_row_above_15 V18.default_device_config _ wifi 2
           Hcov E); [lia|exact laptop_idle_at_1h].
Defined.

Lemma band_generation_follows_bandwidth_generation_by_default :
  exists data,
    V18._generate_bandwidth_data V18.default_device_config = Ok data /\
    exists wifi,
      V18._generate_wifi_band_data V18.default_device_config data = Ok wifi /\
      shape wifi = band_shape.
Proof.
  eexists. split; [exact default_data_v18|].
  apply (band_generation_follows_bandwidth_generation
           V18.default_device_config _ default_data_v18).
Defined.

Lemma timeseries_totals_are_row_sums_before_allocation :
  exists data,
    length (np_arange 0 24 0.5) = 48%nat /\
    (forall k a, dict_get data k = Some a -> length a = 48%nat) /\
    shape [("2.4GHz"%string, np_zeros 48); ("5GHz"%string, np_zeros 48);
           ("6GHz"%string, np_zeros 48)] = band_shape /\
    exists df,
      V18._create_timeseries_dataframe (np_arange 0 24 0.5) data
        [("2.4GHz"%string, np_zeros 48); ("5GHz"%string, np_zeros 48);
         ("6GHz"%string, np_zeros 48)] = Ok df /\
      dict_keys df =
        ["hour_decimal"; "laptop_mbps"; "smartphone_mbps"; "tablet_mbps";
         "smartwatch_mbps"; "band_2.4GHz"; "band_5GHz"; "band_6GHz";
         "total_mbps"; "total_band_mbps"]%string /\
      forall i, (i < 48)%nat ->
        (exists x, subscript2 df "total_mbps" i = Ok x /\
                   x == total_at data i) /\
        (exists y s, subscript2 df "total_band_mbps" i = Ok y /\
                     band_sum
                       [("2.4GHz"%string, np_zeros 48);
                        ("5GHz"%string, np_zeros 48);
                        ("6GHz"%string, np_zeros 48)] i = Ok s /\ y == s).
Proof.
  pose proof (series_within_length _ _
                (proj2 (generate_bandwidth_data_ok _ _ default_data_v18)))
    as Hlen.
  eexists. split; [reflexivity|]. split; [exact Hlen|]. split; [reflexivity|].
  eapply (timeseries_totals_are_row_sums (np_arange 0 24 0.5));
    [reflexivity|exact Hlen|reflexivity].
Defined.

Lemma import_with_first_row_disabled_keeps_old_tables_at_start :
  exists m row rest,
    V18.__init__ = Ok m /\
    ({["device_config.csv" := "device,enabled"]} : gmap string string)
      !! "device_config.csv" = Some "device,enabled"%string /\
    (fun _ : string =>
       Ok (V18.set_at_enabled V18.default_device_config 0 false))
      "device,enabled"%string = Ok (row :: rest) /\
    V18.enabled row = false /\
    V18.import_device_config
      (fun _ => Ok (V18.set_at_enabled V18.default_device_config 0 false))
      {["device_config.csv" := "device,enabled"]} "device_config.csv" m
    = (Raise (UnboundLocalError "device_name"),
       {| V18.hours := V18.hours m;
          V18.device_config := row :: rest;
          V18.bandwidth_data := V18.bandwidth_data m;
          V18.wifi_band_data := V18.wifi_band_data m;
          V18.timeseries_df := V18.timeseries_df m |}).
Proof.
  destruct started_v18 as [m Em]. exists m. do 2 eexists.
  split; [exact Em|]. split; [reflexivity|]. split; [reflexivity|].
  split; [reflexivity|].
  apply (import_with_first_row_disabled_keeps_old_tables
           (fun _ => Ok (V18.set_at_enabled V18.default_device_config 0 false))
           {["device_config.csv" := "device,enabled"]} "device_config.csv"
           "device,enabled" _ _ m); reflexivity.
Defined.

Lemma import_installs_the_parsed_configuration_at_start :
  exists m,
    V18.__init__ = Ok m /\
    ({["device_config.csv" := "device,enabled"]} : gmap string string)
      !! "device_config.csv" = Some "device,enabled"%string /\
    (fun _ : string =>
       Ok (V18.set_at_enabled V18.default_device_config 3 false))
      "device,enabled"%string
    = Ok (V18.set_at_enabled V18.default_device_config 3 false) /\
    length (V18.hours m) = 48%nat /\
    (forall row rest,
       V18.set_at_enabled V18.default_device_config 3 false = row :: rest ->
       V18.enabled row = true) /\
    exists self',
      V18.import_device_config
        (fun _ => Ok (V18.set_at_enabled V18.default_device_config 3 false))
        {["device_config.csv" := "device,enabled"]} "device_config.csv" m
      = (Ok (), self') /\
      V18.hours self' = V18.hours m /\
      V18.device_config self'
      = V18.set_at_enabled V18.default_device_config 3 false /\
      V18._generate_bandwidth_data
        (V18.set_at_enabled V18.default_device_config 3 false)
      = Ok (V18.bandwidth_data self') /\
      consistent self'.
Proof.
  destruct started_v18 as [m Em]. exists m.
  assert (Hfirst : forall row rest,
            V18.set_at_enabled V18.default_device_config 3 false = row :: rest ->
            V18.enabled row = true) by (by intros row rest [= <- _]).
  split; [exact Em|]. split; [reflexivity|]. split; [reflexivity|].
  split; [exact (init_v18_hours m Em)|]. split; [exact Hfirst|].
  apply (import_installs_the_parsed_configuration
           (fun _ => Ok (V18.set_at_enabled V18.default_device_config 3 false))
           {["device_config.csv" := "device,enabled"]} "device_config.csv"
           "device,enabled" _ m);
    [reflexivity|reflexivity|exact (init_v18_hours m Em)|exact Hfirst].
Defined.

Lemma toggling_out_of_range_changes_nothing_below_zero :
  exists m,
    V18.__init__ = Ok m /\
    ~ (1 <= -1 <= Z.of_nat (length (V18.device_config m)))%Z /\
    V18.enable_disable_device_menu (-1) m
    = (if (-1 <? 0)%Z then Raise (KeyError (pretty (-1 - 1)%Z)) else Ok (), m).
Proof.
  destruct started_v18 as [m Em]. exists m. split; [exact Em|].
  split; [lia|].
  apply (toggling_out_of_range_changes_nothing (-1) m). lia.
Defined.

Lemma toggling_twice_restores_the_model_for_the_laptop :
  exists m,
    V18.__init__ = Ok m /\
    consistent m /\
    (1 <= 1 <= Z.of_nat (length (V18.device_config m)))%Z /\
    V18.enable_disable_device_menu 1 (V18.enable_disable_device_menu 1 m).2
    = (Ok (), m).
Proof.
  destruct started_v18 as [m Em]. exists m.
  assert (Hlen : (1 <= 1 <= Z.of_nat (length (V18.device_config m)))%Z).
  { destruct (init_v18 m Em) as (_ & -> & _). cbn. lia. }
  split; [exact Em|]. split; [exact (init_v18_consistent m Em)|].
  split; [exact Hlen|].
  apply (toggling_twice_restores_the_model 1 m);
    [exact (init_v18_consistent m Em)|exact Hlen].
Defined.

Lemma init_v18_not_empty (m : V18.model) :
  V18.__init__ = Ok m -> V18.hours m <> [].
Proof. intros (-> & _)%init_v18. discriminate. Qed.

Lemma peak_time_is_the_first_slot_of_the_peak_at_start :
  exists m,
    V18.__init__ = Ok m /\
    V18.hours m <> [] /\
    Forall (fun a : ndarray => length a = length (V18.hours m))
           (dict_values (V18.bandwidth_data m)) /\
    Forall (fun a : ndarray => a <> []) (dict_values (V18.wifi_band_data m)) /\
    exists total st k,
      V18.get_total_bandwidth m = Ok total /\
      V18.get_statistics m = Ok st /\
      V18.hours m !! k = Some (V18.peak_time st) /\
      total !! k = Some (V18.peak_bandwidth st) /\
      forall j x, total !! j = Some x ->
        x <= V18.peak_bandwidth st /\ ((j < k)%nat -> x < V18.peak_bandwidth st).
Proof.
  destruct started_v18 as [m Em]. exists m.
  split; [exact Em|]. split; [exact (init_v18_not_empty m Em)|].
  split; [exact (init_v18_lengths m Em)|]. split; [exact (init_v18_bands m Em)|].
  apply (peak_time_is_the_first_slot_of_the_peak m
           (init_v18_not_empty m Em) (init_v18_lengths m Em) (init_v18_bands m Em)).
Defined.

Lemma device_averages_add_up_to_the_average_at_start :
  exists m,
    V18.__init__ = Ok m /\
    V18.hours m <> [] /\
    Forall (fun a : ndarray => length a = length (V18.hours m))
           (dict_values (V18.bandwidth_data m)) /\
    Forall (fun a : ndarray => a <> []) (dict_values (V18.wifi_band_data m)) /\
    exists st,
      V18.get_statistics m = Ok st /\
      dict_keys (V18.device_contributions st) = dict_keys (V18.bandwidth_data m) /\
      sum_list (map average_mbps (dict_values (V18.device_contributions st)))
      == V18.average_bandwidth st.
Proof.
  destruct started_v18 as [m Em]. exists m.
  split; [exact Em|]. split; [exact (init_v18_not_empty m Em)|].
  split; [exact (init_v18_lengths m Em)|]. split; [exact (init_v18_bands m Em)|].
  apply (device_averages_add_up_to_the_average m
           (init_v18_not_empty m Em) (init_v18_lengths m Em) (init_v18_bands m Em)).
Defined.

Lemma init_v8_ready (m : V8.model) :
  V8.__init__ = Ok m ->
  length (V8.hours m) = 48%nat /\
  four_series (V8.bandwidth_data m) /\
  V8._generate_wifi_band_data (V8.bandwidth_data m) = Ok (V8.wifi_band_data m) /\
  ~ sum_over_slots 48 (total_at (V8.bandwidth_data m)) == 0.
Proof.
  intros (-> & -> & E)%init_v8.
  split; [exact hours_48|]. split; [exact four_series_v8|].
  split; [exact E|exact total_nonzero_v8].
Qed.

Lemma band_percentages_sum_to_100_at_start :
  exists m,
    V8.__init__ = Ok m /\
    length (V8.hours m) = 48%nat /\
    four_series (V8.bandwidth_data m) /\
    V8._generate_wifi_band_data (V8.bandwidth_data m) = Ok (V8.wifi_band_data m) /\
    ~ sum_over_slots 48 (total_at (V8.bandwidth_data m)) == 0 /\
    exists st,
      V8.get_statistics m = Ok st /\
      dict_keys (V8.wifi_band_usage st) = band_names /\
      sum_list (percentages (V8.wifi_band_usage st)) == 100.
Proof.
  destruct started_v8 as [m Em]. exists m.
  destruct (init_v8_ready m Em) as (Hh & H4 & Ew & Hnz).
  split; [exact Em|]. split; [exact Hh|]. split; [exact H4|].
  split; [exact Ew|]. split; [exact Hnz|].
  apply (band_percentages_sum_to_100 m Hh H4 Ew Hnz).
Defined.

Lemma consistent_model_conserves_total_at_start :
  exists m,
    V18.__init__ = Ok m /\
    consistent m /\
    NoDup (map V18.device (V18.device_config m)) /\
    length (V18.hours m) = 48%nat /\
    exists total,
      V18.get_total_bandwidth m = Ok total /\
      forall i, (i < 48)%nat ->
        exists s t, band_sum (V18.wifi_band_data m) i = Ok s /\
                    total !! i = Some t /\ s == t.
Proof.
  destruct started_v18 as [m Em]. exists m.
  split; [exact Em|]. split; [exact (init_v18_consistent m Em)|].
  split; [exact (init_v18_names m Em)|]. split; [exact (init_v18_hours m Em)|].
  apply (consistent_model_conserves_total m (init_v18_consistent m Em)
           (init_v18_names m Em) (init_v18_hours m Em)).
Defined.

Lemma peak_markers_stay_before_noon_at_start :
  Forall2 Qeq (Baseline.hours Baseline.__init__) half_hours /\
  Forall (fun a : ndarray => length a = 48%nat)
         (dict_values (Baseline.bandwidth_data Baseline.__init__)) /\
  exists stars,
    Baseline.peak_markers Baseline.__init__ = Ok stars /\
    length stars = 3%nat /\
    Forall (fun star : Q * Q => star.1 < 12) stars.
Proof.
  assert (Hd : Forall (fun a : ndarray => length a = 48%nat)
                 (dict_values (Baseline.bandwidth_data Baseline.__init__)))
    by (by repeat constructor).
  split; [exact (proj2 day_axis_arange)|]. split; [exact Hd|].
  apply (peak_markers_stay_before_noon Baseline.__init__
           (proj2 day_axis_arange) Hd).
Defined.

Lemma only_midnight_has_no_period_at_6h :
  np_arange 0 24 0.5 !! 12%nat = Some 6.0 /\
  (V18.period 6.0 = None <-> 12%nat = 0%nat).
Proof.
  split; [reflexivity|].
  apply (only_midnight_has_no_period 12 6.0). reflexivity.
Defined.

Lemma init_v8_shape (m : V8.model) :
  V8.__init__ = Ok m -> shape (V8.wifi_band_data m) = band_shape.
Proof.
  intros (_ & _ & E)%init_v8. by eapply generate_wifi_band_data_v8_shape.
Qed.

Lemma hover_shows_the_slot_under_the_mouse_at_19h45 :
  exists m,
    V8.__init__ = Ok m /\
    length (V8.hours m) = 48%nat /\
    four_series (V8.bandwidth_data m) /\
    shape (V8.wifi_band_data m) = band_shape /\
    V8.ax_bands <> V8.ax_other /\
    0 <= 19.75 < 24 /\
    exists (idx : nat) (t : V8.hover_text),
      (idx < 48)%nat /\
      inject_Z (Z.of_nat idx) * 0.5 <= 19.75
        < inject_Z (Z.of_nat idx) * 0.5 + 0.5 /\
      V8._on_hover m
        {| mpl.text := None; mpl.xy := (0, 0); mpl.visible := false |}
        {| mpl.inaxes := Some V8.ax_bands; mpl.xdata := Some 19.75 |}
      = Ok {| mpl.text := Some t;
              mpl.xy := (19.75, V8.shown_band_24 t + V8.shown_band_5 t
                                + V8.shown_band_6 t);
              mpl.visible := true |} /\
      V8.shown_total t == total_at (V8.bandwidth_data m) idx /\
      V8.shown_laptop t = reading (V8.bandwidth_data m) "laptop" idx /\
      V8.shown_phone t = reading (V8.bandwidth_data m) "smartphone" idx /\
      V8.shown_tablet t = reading (V8.bandwidth_data m) "tablet" idx /\
      V8.shown_watch t = reading (V8.bandwidth_data m) "smartwatch" idx /\
      V8.shown_band_24 t = reading (V8.wifi_band_data m) "2.4GHz" idx /\
      V8.shown_band_5 t = reading (V8.wifi_band_data m) "5GHz" idx /\
      V8.shown_band_6 t = reading (V8.wifi_band_data m) "6GHz" idx /\
      V8._generate_activity_descriptions !! idx = Some (V8.shown_activity t).
Proof.
  destruct started_v8 as [m Em]. exists m.
  destruct (init_v8_ready m Em) as (Hh & H4 & _ & _).
  assert (Hax : V8.ax_bands <> V8.ax_other) by discriminate.
  assert (Hx : 0 <= 19.75 < 24) by (split; [discriminate|reflexivity]).
  split; [exact Em|]. split; [exact Hh|]. split; [exact H4|].
  split; [exact (init_v8_shape m Em)|]. split; [exact Hax|]. split; [exact Hx|].
  apply (hover_shows_the_slot_under_the_mouse m
           {| mpl.text := None; mpl.xy := (0, 0); mpl.visible := false |}
           V8.ax_bands 19.75 Hh H4 (init_v8_shape m Em) Hax Hx).
Defined.

Lemma hover_anchor_is_the_same_on_both_charts_in_gym_hour :
  exists m,
    V8.__init__ = Ok m /\
    length (V8.hours m) = 48%nat /\
    four_series (V8.bandwidth_data m) /\
    V8._generate_wifi_band_data (V8.bandwidth_data m)
      = Ok (V8.wifi_band_data m) /\
    0 <= 15.2 < 24 /\
    exists over_lines over_bands : mpl.annotation V8.hover_text,
      V8._on_hover m
        {| mpl.text := None; mpl.xy := (0, 0); mpl.visible := false |}
        {| mpl.inaxes := Some V8.ax_overlay; mpl.xdata := Some 15.2 |}
      = Ok over_lines /\
      V8._on_hover m
        {| mpl.text := None; mpl.xy := (0, 0); mpl.visible := false |}
        {| mpl.inaxes := Some V8.ax_bands; mpl.xdata := Some 15.2 |}
      = Ok over_bands /\
      mpl.visible over_lines = true /\ mpl.visible over_bands = true /\
      mpl.text over_lines = mpl.text over_bands /\
      (mpl.xy over_lines).1 = (mpl.xy over_bands).1 /\
      (mpl.xy over_lines).2 == (mpl.xy over_bands).2.
Proof.
  destruct started_v8 as [m Em]. exists m.
  destruct (init_v8_ready m Em) as (Hh & H4 & Ew & _).
  assert (Hx : 0 <= 15.2 < 24) by (split; [discriminate|reflexivity]).
  split; [exact Em|]. split; [exact Hh|]. split; [exact H4|].
  split; [exact Ew|]. split; [exact Hx|].
  apply (hover_anchor_is_the_same_on_both_charts m
           {| mpl.text := None; mpl.xy := (0, 0); mpl.visible := false |}
           15.2 Hh H4 Ew Hx).
Defined.

Lemma hover_at_the_right_edge_shows_the_last_slot_at_24h :
  length (Baseline.hours Baseline.__init__) = 48%nat /\
  four_series (Baseline.bandwidth_data Baseline.__init__) /\
  0 <= 24 <= 24 /\
  exists (idx : nat) (t : Baseline.hover_text),
    (idx < 48)%nat /\
    (24 < 24 ->
     inject_Z (Z.of_nat idx) * 0.5 <= 24 < inject_Z (Z.of_nat idx) * 0.5 + 0.5) /\
    (24 == 24 -> idx = 47%nat /\ Baseline.time_str t = (24, 0)%Z) /\
    Baseline._on_hover Baseline.__init__
      {| mpl.text := None; mpl.xy := (0, 0); mpl.visible := false |}
      {| mpl.inaxes := Some Baseline.ax1; mpl.xdata := Some 24 |} Baseline.ax1
    = Ok {| mpl.text := Some t;
            mpl.xy := (24, Baseline.shown_total t);
            mpl.visible := true |} /\
    Baseline.shown_total t
    == total_at (Baseline.bandwidth_data Baseline.__init__) idx /\
    Baseline.shown_laptop t
    = reading (Baseline.bandwidth_data Baseline.__init__) "laptop" idx /\
    Baseline.shown_phone t
    = reading (Baseline.bandwidth_data Baseline.__init__) "smartphone" idx /\
    Baseline.shown_tablet t
    = reading (Baseline.bandwidth_data Baseline.__init__) "tablet" idx /\
    Baseline.shown_watch t
    = reading (Baseline.bandwidth_data Baseline.__init__) "smartwatch" idx /\
    Baseline._generate_activity_descriptions !! idx
    = Some (Baseline.shown_activity t).
Proof.
  assert (Hx : 0 <= 24 <= 24) by (split; discriminate).
  split; [exact hours_48|]. split; [exact four_series_baseline|].
  split; [exact Hx|].
  apply (hover_at_the_right_edge_shows_the_last_slot Baseline.__init__
           {| mpl.text := None; mpl.xy := (0, 0); mpl.visible := false |}
           Baseline.ax1 24 hours_48 four_series_baseline Hx).
Defined.

(** The baseline's own day: the stars sit at 06:30, 11:00 and 00:00, and
    the slot of the day's peak, 19:30, is not among them. *)
Example baseline_peak_is_not_marked :
  exists total,
    Baseline.get_total_bandwidth Baseline.__init__ = Ok total /\
    Baseline.major_peaks total = Ok [13; 22; 0]%nat /\
    np_argmax total = Ok 39%nat.
Proof. eexists. split; [vm_compute; reflexivity|]. split; reflexivity. Qed.

Lemma disabled_row_zeroes_the_row_before_for_two_rows :
  let laptop :=
    {| V18.device := "laptop"; V18.display_name := "Laptop";
       V18.color := "#4ECDC4"; V18.line_style := "-";
       V18.wifi_capability := "WiFi 6E";
       V18.max_bandwidth_mbps := 100; V18.typical_usage_mbps := 15;
       V18.power_mode := "high"; V18.preferred_band := "6GHz";
       V18.device_count := 1; V18.enabled := true |} in
  let tablet :=
    {| V18.device := "tablet"; V18.display_name := "Tablet";
       V18.color := "#45B7D1"; V18.line_style := "-";
       V18.wifi_capability := "WiFi 6";
       V18.max_bandwidth_mbps := 40; V18.typical_usage_mbps := 5;
       V18.power_mode := "medium"; V18.preferred_band := "5GHz";
       V18.device_count := 1; V18.enabled := false |} in
  NoDup (map V18.device ([] ++ laptop :: tablet :: [])) /\
  V18.enabled laptop = true /\
  V18.enabled tablet = false /\
  V18._generate_bandwidth_data ([] ++ laptop :: tablet :: [])
  = Ok [("laptop"%string, np_zeros 48)] /\
  dict_get [("laptop"%string, np_zeros 48)] (V18.device laptop)
  = Some (np_zeros 48) /\
  dict_get [("laptop"%string, np_zeros 48)] (V18.device tablet) = None.
Proof.
  intros laptop tablet.
  assert (Hnd : NoDup (map V18.device ([] ++ laptop :: tablet :: [])))
    by (apply (bool_decide_unpack _); vm_compute; exact I).
  assert (E : V18._generate_bandwidth_data ([] ++ laptop :: tablet :: [])
              = Ok [("laptop"%string, np_zeros 48)])
    by (vm_compute; reflexivity).
  split; [exact Hnd|]. split; [reflexivity|]. split; [reflexivity|].
  split; [exact E|].
  apply (disabled_row_zeroes_the_row_before [] [] laptop tablet
           [("laptop"%string, np_zeros 48)] Hnd eq_refl eq_refl E).
Defined.

Lemma init_v13_ready (m : V13.model) :
  V13.__init__ = Ok m ->
  length (V13.hours m) = 48%nat /\
  four_series (V13.bandwidth_data m) /\
  V13._generate_wifi_band_data (V13.bandwidth_data m)
    = Ok (V13.wifi_band_data m) /\
  shape (V13.wifi_band_data m) = band_shape /\
  forall i, (i < 48)%nat -> 0 < total_at (V13.bandwidth_data m) i.
Proof.
  intros (-> & -> & E)%init_v13.
  split; [exact hours_48|]. split; [exact four_series_v13|].
  split; [exact E|]. split.
  - by apply (generate_wifi_band_data_v8_shape V13._generate_bandwidth_data).
  - intros i Hi.
    do 48 (destruct i as [|i]; [vm_compute; reflexivity|]). lia.
Qed.

Lemma markers_created :
  Forall (fun d => is_Some (dict_get
                              (V13.markers_overlay V13.hover_elements_created) d))
         ["laptop"; "smartphone"; "tablet"; "smartwatch"]%string.
Proof. repeat constructor; by eexists. Qed.

Lemma band_hover_never_divides_by_zero_at_7h18 :
  exists m,
    V13.__init__ = Ok m /\
    four_series (V13.bandwidth_data m) /\
    V13._generate_wifi_band_data (V13.bandwidth_data m)
      = Ok (V13.wifi_band_data m) /\
    (forall i, (i < 48)%nat -> 0 < total_at (V13.bandwidth_data m) i) /\
    0 <= 7.3 < 24 /\
    exists (e' : V13.hover_elements) (t : V13.bands_text),
      V13._on_hover m
        {| mpl.inaxes := Some V13.ax_bands; mpl.xdata := Some 7.3 |}
        V13.hover_elements_created
      = (Ok (), e') /\
      mpl.line_xdata (V13.vline_bands e') = [7.3; 7.3] /\
      mpl.line_visible (V13.vline_bands e') = true /\
      mpl.box_visible (V13.info_box_bands e') = true /\
      mpl.box_text (V13.info_box_bands e') = Some t /\
      0 < V13.shown_total_bands t /\
      V13.shown_percent_24 t + V13.shown_percent_5 t + V13.shown_percent_6 t
      == 100.
Proof.
  destruct started_v13 as [m Em]. exists m.
  destruct (init_v13_ready m Em) as (_ & H4 & Ew & _ & Hpos).
  assert (Hx : 0 <= 7.3 < 24) by (split; [discriminate|reflexivity]).
  split; [exact Em|]. split; [exact H4|]. split; [exact Ew|].
  split; [exact Hpos|]. split; [exact Hx|].
  apply (band_hover_never_divides_by_zero m V13.hover_elements_created 7.3
           H4 Ew Hpos Hx).
Defined.

Lemma moving_between_the_charts_keeps_both_cursors_at_start :
  exists m,
    V13.__init__ = Ok m /\
    length (V13.hours m) = 48%nat /\
    four_series (V13.bandwidth_data m) /\
    shape (V13.wifi_band_data m) = band_shape /\
    Forall (fun d => is_Some (dict_get
                                (V13.markers_overlay V13.hover_elements_created)
                                d))
           ["laptop"; "smartphone"; "tablet"; "smartwatch"]%string /\
    0 <= 19.75 < 24 /\
    0 <= 3 < 24 /\
    exists e1 e2 : V13.hover_elements,
      V13._on_hover m
        {| mpl.inaxes := Some V13.ax_overlay; mpl.xdata := Some 19.75 |}
        V13.hover_elements_created
      = (Ok (), e1) /\
      V13._on_hover m
        {| mpl.inaxes := Some V13.ax_bands; mpl.xdata := Some 3 |} e1
      = (Ok (), e2) /\
      mpl.line_xdata (V13.vline_overlay e2) = [19.75; 19.75] /\
      mpl.line_visible (V13.vline_overlay e2) = true /\
      mpl.box_visible (V13.info_box_overlay e2) = true /\
      mpl.line_xdata (V13.vline_bands e2) = [3; 3] /\
      mpl.line_visible (V13.vline_bands e2) = true /\
      mpl.box_visible (V13.info_box_bands e2) = true.
Proof.
  destruct started_v13 as [m Em]. exists m.
  destruct (init_v13_ready m Em) as (Hh & H4 & _ & Hs & _).
  assert (Hx1 : 0 <= 19.75 < 24) by (split; [discriminate|reflexivity]).
  assert (Hx2 : 0 <= 3 < 24) by (split; [discriminate|reflexivity]).
  split; [exact Em|]. split; [exact Hh|]. split; [exact H4|].
  split; [exact Hs|]. split; [exact markers_created|].
  split; [exact Hx1|]. split; [exact Hx2|].
  apply (moving_between_the_charts_keeps_both_cursors m
           V13.hover_elements_created 19.75 3 Hh H4 Hs markers_created Hx1 Hx2).
Defined.

Lemma enabled_row_gets_its_clipped_pattern_for_three_laptops :
  let laptop :=
    {| V18.device := "laptop"; V18.display_name := "Laptop";
       V18.color := "#4ECDC4"; V18.line_style := "-";
       V18.wifi_capability := "WiFi 6E";
       V18.max_bandwidth_mbps := 50; V18.typical_usage_mbps := 15;
       V18.power_mode := "high"; V18.preferred_band := "6GHz";
       V18.device_count := 3; V18.enabled := true |} in
  NoDup (map V18.device ([] ++ laptop :: [])) /\
  V18.enabled laptop = true /\
  (forall next rest, @nil V18.device_row = next :: rest ->
                     V18.enabled next = true) /\
  V18._generate_bandwidth_data ([] ++ laptop :: [])
  = Ok [("laptop"%string, row_series laptop)] /\
  dict_get [("laptop"%string, row_series laptop)] (V18.device laptop)
  = Some (row_series laptop) /\
  length (row_series laptop) = 48%nat /\
  forall i x,
    default (np_scale (np_ones 48) (V18.typical_usage_mbps laptop))
            (dict_get V18.base_patterns (V18.device laptop)) !! i = Some x ->
    row_series laptop !! i
    = Some (clip1 0 (V18.max_bandwidth_mbps laptop)
              (x * inject_Z (V18.device_count laptop))).
Proof.
  intros laptop.
  assert (Hnd : NoDup (map V18.device ([] ++ laptop :: [])))
    by (apply (bool_decide_unpack _); vm_compute; exact I).
  assert (Hnext : forall next rest, @nil V18.device_row = next :: rest ->
                                    V18.enabled next = true) by discriminate.
  assert (E : V18._generate_bandwidth_data ([] ++ laptop :: [])
              = Ok [("laptop"%string, row_series laptop)]) by reflexivity.
  split; [exact Hnd|]. split; [reflexivity|]. split; [exact Hnext|].
  split; [exact E|].
  apply (enabled_row_gets_its_clipped_pattern [] [] laptop
           [("laptop"%string, row_series laptop)] Hnd eq_refl Hnext E).
Defined.

(** * Every version, beyond the default configuration of v18 *)

(** ** Statistics of v18 for any configuration *)

Lemma aggregates_of_series (hours total : ndarray)
    (bandwidth_data : dict ndarray) (peak : Q) :
  length hours = 48%nat ->
  Forall (fun a : ndarray => length a = 48%nat) (dict_values bandwidth_data) ->
  total_over hours bandwidth_data = Ok total ->
  np_max total = Ok peak ->
  aggregates (total_of_series bandwidth_data) peak (np_mean total)
    (np_sum total * 0.5 * 3600 / (8 * 1024)).
Proof.
  intros Hh Hd Htot Hmax.
  destruct (total_over_spec hours bandwidth_data)
    as (total' & E & Hlen & Hpt & _).
  { by rewrite Hh. }
  rewrite Htot in E. injection E as <-. rewrite Hh in Hlen, Hpt.
  assert (Hsum : np_sum total == sum_over_slots 48 (total_of_series bandwidth_data)).
  { rewrite np_sum_sum_list. unfold sum_over_slots.
    apply sum_list_Forall2. by apply pointwise_Forall2. }
  split; [|split].
  - by eapply maximum_of_total.
  - unfold np_mean. rewrite Hlen, Hsum. reflexivity.
  - rewrite Hsum. field.
Qed.

Lemma statistics_of_series (self : V18.model) :
  length (V18.hours self) = 48%nat ->
  Forall (fun a : ndarray => length a = 48%nat)
         (dict_values (V18.bandwidth_data self)) ->
  Forall (fun a : ndarray => a <> []) (dict_values (V18.wifi_band_data self)) ->
  exists total st,
    V18.get_total_bandwidth self = Ok total /\
    V18.get_statistics self = Ok st /\
    aggregates (total_of_series (V18.bandwidth_data self))
      (V18.peak_bandwidth st) (V18.average_bandwidth st)
      (V18.total_daily_data_gb st) /\
    dict_keys (V18.device_contributions st)
    = dict_keys (V18.bandwidth_data self) /\
    (~ np_sum total == 0 ->
     sum_list (percentages (V18.device_contributions st)) == 100).
Proof.
  intros Hh Hd Hb.
  assert (Hne : V18.hours self <> []).
  { intros E. rewrite E in Hh. discriminate. }
  assert (Hd' : Forall (fun a : ndarray => length a = length (V18.hours self))
                  (dict_values (V18.bandwidth_data self))) by (by rewrite Hh).
  destruct (get_statistics_returns_v18 self Hne Hd' Hb)
    as (total & st & k & Et & _ & _ & Es & _).
  destruct (get_statistics_v18 _ _ Es) as (total' & Et' & Ep & Eavg & Edaily & Eu).
  unfold V18.get_total_bandwidth in Et. rewrite Et in Et'. injection Et' as <-.
  exists total, st. split; [exact Et|]. split; [exact Es|]. split; [|split].
  - rewrite Eavg, Edaily.
    exact (aggregates_of_series _ _ _ _ Hh Hd Et Ep).
  - by apply usage_table_spec in Eu as [? _].
  - intros Hnz.
    exact (percentages_sum _ _ _ _ Hd' Et Eu Hnz).
Qed.

(** ** v18 after a configuration with all rows enabled is imported *)

Lemma generated_lengths (device_config : list V18.device_row)
    (data : dict ndarray) :
  V18._generate_bandwidth_data device_config = Ok data ->
  Forall (fun a : ndarray => length a = 48%nat) (dict_values data).
Proof.
  intros E. destruct (generate_bandwidth_data_ok _ _ E) as [_ Hw].
  pose proof (generate_bandwidth_data_NoDup _ _ E) as Hnd.
  apply Forall_forall. intros a Ha.
  apply list_elem_of_fmap in Ha as ([k a'] & -> & Hka). cbn [snd].
  apply (series_within_length _ _ Hw k a').
  by apply dict_get_elem_of.
Qed.

Lemma all_enabled_filter (device_config : list V18.device_row) :
  Forall (fun row => V18.enabled row = true) device_config ->
  List.filter V18.enabled device_config = device_config.
Proof.
  induction 1 as [|row rows Hrow _ IH]; cbn [List.filter]; [done|].
  by rewrite Hrow, IH.
Qed.

Lemma day_table_of_shape (wifi : dict ndarray) :
  shape wifi = band_shape -> day_table band_names wifi.
Proof.
  intros (a & b & c & -> & La & Lb & Lc)%band_shape_inv.
  split; [reflexivity|]. by repeat constructor.
Qed.

Section ImportedConfiguration.

Variable parse_device_csv : string -> result (list V18.device_row).
Variable files : gmap string string.
Variables filename text : string.
Variable imported : list V18.device_row.
Variable self : V18.model.
Hypothesis Hfile : files !! filename = Some text.
Hypothesis Hparse : parse_device_csv text = Ok imported.
Hypothesis Hhours : length (V18.hours self) = 48%nat.
Hypothesis Hfirst :
  forall row rest, imported = row :: rest -> V18.enabled row = true.

Lemma imported_model :
  exists self',
    V18.import_device_config parse_device_csv files filename self
    = (Ok (), self') /\
    V18.hours self' = V18.hours self /\
    V18.device_config self' = imported /\
    V18._generate_bandwidth_data imported = Ok (V18.bandwidth_data self') /\
    Forall (fun a : ndarray => length a = 48%nat)
           (dict_values (V18.bandwidth_data self')) /\
    shape (V18.wifi_band_data self') = band_shape.
Proof.
  rewrite (import_device_config_parsed _ _ _ _ _ Hfile Hparse).
  destruct (regenerate_returns_if_first_enabled
              {| V18.hours := V18.hours self;
                 V18.device_config := imported;
                 V18.bandwidth_data := V18.bandwidth_data self;
                 V18.wifi_band_data := V18.wifi_band_data self;
                 V18.timeseries_df := V18.timeseries_df self |} Hhours Hfirst)
    as (self' & Er & Eh & Ec & Ed & Hc).
  cbn [V18.hours V18.device_config] in Eh, Ec, Ed.
  exists self'. split; [exact Er|]. split; [exact Eh|]. split; [exact Ec|].
  split; [exact Ed|]. split; [exact (generated_lengths _ _ Ed)|].
  destruct (consistent_tables self' Hc) as (_ & Ew & _).
  exact (generate_wifi_band_data_v18_shape _ _ _ Ew).
Qed.

End ImportedConfiguration.

Lemma five_devices_imported (m : V18.model) :
  V18.__init__ = Ok m ->
  exists m',
    V18.import_device_config read_five_devices five_devices_files
      "five_devices.csv" m = (Ok (), m') /\
    length (V18.hours m') = 48%nat /\
    Forall (fun a : ndarray => length a = 48%nat)
           (dict_values (V18.bandwidth_data m')) /\
    Forall (fun a : ndarray => a <> []) (dict_values (V18.wifi_band_data m')) /\
    V18._generate_bandwidth_data five_devices = Ok (V18.bandwidth_data m').
Proof.
  intros Em.
  destruct (imported_model read_five_devices five_devices_files
              "five_devices.csv" five_devices_text five_devices m)
    as (m' & Ei & Eh & _ & Ed & Hl & Hs);
    [reflexivity|reflexivity|exact (init_v18_hours m Em)
    |by intros row rest [= <- _]|].
  exists m'. split; [exact Ei|]. split; [by rewrite Eh, (init_v18_hours m Em)|].
  split; [exact Hl|]. split; [exact (shape_nonempty _ Hs)|exact Ed].
Qed.

Lemma five_devices_data :
  V18._generate_bandwidth_data five_devices
  = Ok (map (fun name : string =>
               (name, default (np_scale (np_ones 48) 10)
                        (dict_get V18.base_patterns name)))
            (device_names ++ ["console"%string])).
Proof. vm_compute. reflexivity. Qed.

(** Bounds over the 48 slots by evaluation. *)
Lemma bounded_over_slots (f : nat -> Q) (m : Q) :
  forallb (fun i => Qle_bool (f i) m) (seq 0 48) = true ->
  forall i : nat, (i < 48)%nat -> f i <= m.
Proof.
  intros H i Hi. rewrite forallb_forall in H.
  apply Qle_bool_iff, H. apply in_seq. lia.
Qed.

(** ** Summary statistics, whatever the series *)

(** C5, as amended.  In every version [get_statistics] returns as
    [peak_bandwidth] the maximum over the 48 slots of the total bandwidth,
    as [average_bandwidth] its sum divided by 48 and as
    [total_daily_data_gb] that sum times [0.5 * 3600] over [8 * 1024],
    where the total at slot [i] is entry [i] of [get_total_bandwidth()],
    the sum over all the series of [bandwidth_data].  In the baseline, v8
    and v13, and in v18 under its default configuration, these are the four
    device series.  In v18 they are whatever series [bandwidth_data]
    holds: on every model with 48 hours, 48-slot device series and band
    series that are not empty. *)
Theorem summary_statistics_are_aggregates_of_the_series (self : V18.model) :
  length (V18.hours self) = 48%nat ->
  Forall (fun a : ndarray => length a = 48%nat)
         (dict_values (V18.bandwidth_data self)) ->
  Forall (fun a : ndarray => a <> []) (dict_values (V18.wifi_band_data self)) ->
  (exists st,
     Baseline.get_statistics Baseline.__init__ = Ok st /\
     stated_aggregates (Baseline.bandwidth_data Baseline.__init__)
       (Baseline.peak_bandwidth st) (Baseline.average_bandwidth st)
       (Baseline.total_daily_data_gb st)) /\
  (exists m st,
     V8.__init__ = Ok m /\ V8.get_statistics m = Ok st /\
     stated_aggregates (V8.bandwidth_data m)
       (V8.peak_bandwidth st) (V8.average_bandwidth st)
       (V8.total_daily_data_gb st)) /\
  (exists m st,
     V13.__init__ = Ok m /\ V13.get_statistics m = Ok st /\
     stated_aggregates (V13.bandwidth_data m)
       (V13.peak_bandwidth st) (V13.average_bandwidth st)
       (V13.total_daily_data_gb st)) /\
  (exists m st,
     V18.__init__ = Ok m /\ V18.get_statistics m = Ok st /\
     stated_aggregates (V18.bandwidth_data m)
       (V18.peak_bandwidth st) (V18.average_bandwidth st)
       (V18.total_daily_data_gb st)) /\
  (exists st,
     V18.get_statistics self = Ok st /\
     aggregates (total_of_series (V18.bandwidth_data self))
       (V18.peak_bandwidth st) (V18.average_bandwidth st)
       (V18.total_daily_data_gb st)).
Proof.
  intros Hh Hd Hb.
  destruct summary_statistics_at_start as (H0 & H8 & H13 & H18).
  split; [exact H0|]. split; [exact H8|]. split; [exact H13|].
  split; [exact H18|].
  destruct (statistics_of_series self Hh Hd Hb) as (total & st & _ & Es & Ha & _).
  exists st. split; [exact Es|exact Ha].
Qed.

(** C5 as stated fails in v18 once a configuration with a fifth device is
    imported.  The console adds 10 Mbps to every slot of the total, so
    [peak_bandwidth] is 54.1, while the four device series add up to at
    most 44.1 (at 19:30): the statistics are not the aggregates of the
    four-device sum. *)
Lemma fifth_device_raises_the_peak :
  exists m m' st,
    V18.__init__ = Ok m /\
    V18.import_device_config read_five_devices five_devices_files
      "five_devices.csv" m = (Ok (), m') /\
    V18.get_statistics m' = Ok st /\
    V18.peak_bandwidth st == 54.1 /\
    maximum_over_slots 48 (total_at (V18.bandwidth_data m')) 44.1 /\
    ~ stated_aggregates (V18.bandwidth_data m')
        (V18.peak_bandwidth st) (V18.average_bandwidth st)
        (V18.total_daily_data_gb st).
Proof.
  destruct started_v18 as [m Em].
  destruct (five_devices_imported m Em) as (m' & Ei & Hh & Hd & Hb & Ed).
  destruct (statistics_of_series m' Hh Hd Hb) as (total & st & Et & Es & Ha & _).
  exists m, m', st. split; [exact Em|]. split; [exact Ei|]. split; [exact Es|].
  rewrite five_devices_data in Ed. injection Ed as Ed.
  destruct Ha as ((Hle & i & Hi & Ei') & _). rewrite <- Ed in Hle, Ei'.
  assert (Hpeak : V18.peak_bandwidth st == 54.1).
  { apply Qle_antisym.
    - rewrite Ei'. clear Ei' Hle. revert i Hi. apply bounded_over_slots.
      vm_compute. reflexivity.
    - assert (H39 : (39 < 48)%nat) by lia.
      specialize (Hle 39%nat H39). vm_compute in Hle. vm_compute. exact Hle. }
  assert (Hmax : maximum_over_slots 48 (total_at (V18.bandwidth_data m')) 44.1).
  { rewrite <- Ed. split.
    - apply bounded_over_slots. vm_compute. reflexivity.
    - exists 39%nat. split; [lia|]. vm_compute. reflexivity. }
  split; [exact Hpeak|]. split; [exact Hmax|].
  intros ((_ & j & Hj & Ej) & _).
  destruct Hmax as (Hle' & _). specialize (Hle' j Hj).
  rewrite <- Ej, Hpeak in Hle'. vm_compute in Hle'. by apply Hle'.
Qed.

Lemma summary_statistics_are_aggregates_of_the_series_with_five_devices :
  exists m m',
    V18.__init__ = Ok m /\
    V18.import_device_config read_five_devices five_devices_files
      "five_devices.csv" m = (Ok (), m') /\
    length (V18.hours m') = 48%nat /\
    Forall (fun a : ndarray => length a = 48%nat)
           (dict_values (V18.bandwidth_data m')) /\
    Forall (fun a : ndarray => a <> []) (dict_values (V18.wifi_band_data m')) /\
    exists st,
      V18.get_statistics m' = Ok st /\
      aggregates (total_of_series (V18.bandwidth_data m'))
        (V18.peak_bandwidth st) (V18.average_bandwidth st)
        (V18.total_daily_data_gb st).
Proof.
  destruct started_v18 as [m Em].
  destruct (five_devices_imported m Em) as (m' & Ei & Hh & Hd & Hb & _).
  exists m, m'. split; [exact Em|]. split; [exact Ei|]. split; [exact Hh|].
  split; [exact Hd|]. split; [exact Hb|].
  exact (proj2 (proj2 (proj2 (proj2
    (summary_statistics_are_aggregates_of_the_series m' Hh Hd Hb))))).
Defined.

(** ** Device contributions, whatever the series *)

(** C9, as amended.  In the baseline, v8 and v13, and in v18 under its
    default configuration, the four [percentage_of_total] values of
    [get_statistics()['device_contributions']] add up to 100 in exact
    arithmetic.  In v18, on every model with 48 hours, 48-slot device
    series and band series that are not empty, [device_contributions] has
    one entry for each series of [bandwidth_data], whichever they are, and
    their [percentage_of_total] values add up to 100 in exact arithmetic
    as long as the total over the day, by which each of them is divided,
    is not zero. *)
Theorem percentages_of_the_series_sum_to_100 (self : V18.model) :
  length (V18.hours self) = 48%nat ->
  Forall (fun a : ndarray => length a = 48%nat)
         (dict_values (V18.bandwidth_data self)) ->
  Forall (fun a : ndarray => a <> []) (dict_values (V18.wifi_band_data self)) ->
  (forall total, V18.get_total_bandwidth self = Ok total -> ~ np_sum total == 0) ->
  (exists st,
     Baseline.get_statistics Baseline.__init__ = Ok st /\
     dict_keys (Baseline.device_contributions st) ≡ₚ device_names /\
     sum_list (percentages (Baseline.device_contributions st)) == 100) /\
  (exists m st,
     V8.__init__ = Ok m /\ V8.get_statistics m = Ok st /\
     dict_keys (V8.device_contributions st) ≡ₚ device_names /\
     sum_list (percentages (V8.device_contributions st)) == 100) /\
  (exists m st,
     V13.__init__ = Ok m /\ V13.get_statistics m = Ok st /\
     dict_keys (V13.device_contributions st) ≡ₚ device_names /\
     sum_list (percentages (V13.device_contributions st)) == 100) /\
  (exists m st,
     V18.__init__ = Ok m /\ V18.get_statistics m = Ok st /\
     dict_keys (V18.device_contributions st) ≡ₚ device_names /\
     sum_list (percentages (V18.device_contributions st)) == 100) /\
  (exists st,
     V18.get_statistics self = Ok st /\
     dict_keys (V18.device_contributions st)
     = dict_keys (V18.bandwidth_data self) /\
     sum_list (percentages (V18.device_contributions st)) == 100).
Proof.
  intros Hh Hd Hb Hnz.
  destruct device_percentages_at_start as (H0 & H8 & H13 & H18).
  split; [exact H0|]. split; [exact H8|]. split; [exact H13|].
  split; [exact H18|].
  destruct (statistics_of_series self Hh Hd Hb)
    as (total & st & Et & Es & _ & Hk & Hsum).
  exists st. split; [exact Es|]. split; [exact Hk|].
  exact (Hsum (Hnz total Et)).
Qed.

(** The day's total with the console: 1360.63, of which the four devices
    of the default configuration use 880.63. *)
Lemma five_devices_total (m' : V18.model) (total : ndarray) :
  V18._generate_bandwidth_data five_devices = Ok (V18.bandwidth_data m') ->
  length (V18.hours m') = 48%nat ->
  V18.get_total_bandwidth m' = Ok total -> np_sum total == 1360.63.
Proof.
  rewrite five_devices_data. intros [= Ed] Hh.
  unfold V18.get_total_bandwidth, total_over, np_zeros_like.
  rewrite <- Ed, Hh. intros Et. vm_compute in Et. injection Et as <-.
  vm_compute. reflexivity.
Qed.

(** C9 as stated fails in v18 once a configuration with a fifth device is
    imported: [device_contributions] then has five entries, and the
    percentages of laptop, smartphone, tablet and smartwatch add up to
    880.63 / 1360.63 of 100, about 64.7, the console taking the rest. *)
Lemma fifth_device_takes_its_share :
  exists m m' st laptop smartphone tablet smartwatch,
    V18.__init__ = Ok m /\
    V18.import_device_config read_five_devices five_devices_files
      "five_devices.csv" m = (Ok (), m') /\
    V18.get_statistics m' = Ok st /\
    dict_get (V18.device_contributions st) "laptop" = Some laptop /\
    dict_get (V18.device_contributions st) "smartphone" = Some smartphone /\
    dict_get (V18.device_contributions st) "tablet" = Some tablet /\
    dict_get (V18.device_contributions st) "smartwatch" = Some smartwatch /\
    percentage_of_total laptop + percentage_of_total smartphone
    + percentage_of_total tablet + percentage_of_total smartwatch
    == 880.63 / 1360.63 * 100 /\
    ~ dict_keys (V18.device_contributions st) ≡ₚ device_names.
Proof.
  destruct started_v18 as [m Em].
  destruct (five_devices_imported m Em) as (m' & Ei & Hh & Hd & Hb & Ed).
  destruct (statistics_of_series m' Hh Hd Hb)
    as (total & st & Et & Es & _ & Hk & _).
  destruct (get_statistics_v18 _ _ Es) as (total' & Et' & _ & _ & _ & Eu).
  unfold V18.get_total_bandwidth in Et. rewrite Et in Et'. injection Et' as <-.
  pose proof Ed as Ed'. rewrite five_devices_data in Ed'. injection Ed' as Ed'.
  unfold total_over, np_zeros_like in Et. rewrite Hh in Et.
  rewrite <- Ed' in Eu, Et.
  vm_compute in Et. injection Et as <-.
  exists m, m', st.
  destruct (V18.device_contributions st) as [|c1 cs] eqn:Edc.
  { vm_compute in Eu. discriminate. }
  clear Edc. vm_compute in Eu. injection Eu as <- <-.
  do 4 eexists.
  split; [exact Em|]. split; [exact Ei|]. split; [exact Es|].
  split; [reflexivity|]. split; [reflexivity|]. split; [reflexivity|].
  split; [reflexivity|]. split; [vm_compute; reflexivity|].
  intros Hperm. apply Permutation_length in Hperm. discriminate.
Qed.

Lemma percentages_of_the_series_sum_to_100_with_five_devices :
  exists m m',
    V18.__init__ = Ok m /\
    V18.import_device_config read_five_devices five_devices_files
      "five_devices.csv" m = (Ok (), m') /\
    length (V18.hours m') = 48%nat /\
    Forall (fun a : ndarray => length a = 48%nat)
           (dict_values (V18.bandwidth_data m')) /\
    Forall (fun a : ndarray => a <> []) (dict_values (V18.wifi_band_data m')) /\
    (forall total, V18.get_total_bandwidth m' = Ok total -> ~ np_sum total == 0) /\
    exists st,
      V18.get_statistics m' = Ok st /\
      dict_keys (V18.device_contributions st)
      = dict_keys (V18.bandwidth_data m') /\
      sum_list (percentages (V18.device_contributions st)) == 100.
Proof.
  destruct started_v18 as [m Em].
  destruct (five_devices_imported m Em) as (m' & Ei & Hh & Hd & Hb & Ed).
  assert (Hnz : forall total,
            V18.get_total_bandwidth m' = Ok total -> ~ np_sum total == 0).
  { intros total Et. rewrite (five_devices_total m' total Ed Hh Et).
    vm_compute. discriminate. }
  exists m, m'. split; [exact Em|]. split; [exact Ei|]. split; [exact Hh|].
  split; [exact Hd|]. split; [exact Hb|]. split; [exact Hnz|].
  exact (proj2 (proj2 (proj2 (proj2
    (percentages_of_the_series_sum_to_100 m' Hh Hd Hb Hnz))))).
Defined.

(** The condition on the day's total is needed.  The file with the header
    line alone parses to a configuration without rows; after it is
    imported the total is zero all day and [device_contributions] is
    empty, so its percentages add up to 0.  (With a row whose series is
    zero all day each percentage would be the quotient of two zeros, which
    numpy answers with nan.) *)
Example no_devices_no_shares :
  exists m m' total st,
    V18.__init__ = Ok m /\
    V18.import_device_config read_no_devices no_devices_files
      "no_devices.csv" m = (Ok (), m') /\
    V18.get_total_bandwidth m' = Ok total /\
    np_sum total == 0 /\
    V18.get_statistics m' = Ok st /\
    V18.device_contributions st = [] /\
    sum_list (percentages (V18.device_contributions st)) == 0.
Proof.
  destruct started_v18 as [m Em].
  destruct (imported_model read_no_devices no_devices_files
              "no_devices.csv" no_devices_text [] m)
    as (m' & Ei & Eh & _ & Ed & Hl & Hs);
    [reflexivity|reflexivity|exact (init_v18_hours m Em)|by intros row rest|].
  assert (Hh : length (V18.hours m') = 48%nat)
    by (by rewrite Eh, (init_v18_hours m Em)).
  destruct (statistics_of_series m' Hh Hl (shape_nonempty _ Hs))
    as (total & st & Et & Es & _ & Hk & _).
  cbn in Ed. injection Ed as Ed.
  assert (Edc : V18.device_contributions st = []).
  { rewrite <- Ed in Hk. by destruct (V18.device_contributions st). }
  exists m, m', total, st.
  split; [exact Em|]. split; [exact Ei|]. split; [exact Et|]. split.
  - unfold V18.get_total_bandwidth, total_over, np_zeros_like in Et.
    rewrite <- Ed, Hh in Et. vm_compute in Et. injection Et as <-.
    vm_compute. reflexivity.
  - split; [exact Es|]. split; [exact Edc|]. rewrite Edc. reflexivity.
Qed.

(** ** The shape of the data, whatever the configuration *)

(** C6, as amended.  In the baseline, v8 and v13, and in v18 under its
    default configuration, the time axis is the 48 points 0.0, 0.5, ...,
    23.5, [bandwidth_data] has exactly the keys laptop, smartphone, tablet
    and smartwatch, each with a 48-element series, and where there is a
    [wifi_band_data] it has exactly the keys 2.4GHz, 5GHz and 6GHz, each
    with a 48-element series.  In v18 the keys of [bandwidth_data] follow
    the configuration: after [import_device_config] of a file that parses
    to rows that are all enabled and have distinct device names, into a
    model with that time axis, the time axis is unchanged,
    [bandwidth_data] has exactly the device names of those rows as keys,
    each with a 48-element series, and [wifi_band_data] has the three band
    keys, each with a 48-element series. *)
Theorem tables_follow_the_configuration
    (parse_device_csv : string -> result (list V18.device_row))
    (files : gmap string string) (filename text : string)
    (imported : list V18.device_row) (self : V18.model) :
  files !! filename = Some text ->
  parse_device_csv text = Ok imported ->
  day_axis (V18.hours self) ->
  Forall (fun row => V18.enabled row = true) imported ->
  NoDup (map V18.device imported) ->
  (day_axis (Baseline.hours Baseline.__init__) /\
   day_table device_names (Baseline.bandwidth_data Baseline.__init__)) /\
  (exists m, V8.__init__ = Ok m /\
     day_axis (V8.hours m) /\
     day_table device_names (V8.bandwidth_data m) /\
     day_table band_names (V8.wifi_band_data m)) /\
  (exists m, V13.__init__ = Ok m /\
     day_axis (V13.hours m) /\
     day_table device_names (V13.bandwidth_data m) /\
     day_table band_names (V13.wifi_band_data m)) /\
  (exists m, V18.__init__ = Ok m /\
     day_axis (V18.hours m) /\
     day_table device_names (V18.bandwidth_data m) /\
     day_table band_names (V18.wifi_band_data m)) /\
  (exists self',
     V18.import_device_config parse_device_csv files filename self
     = (Ok (), self') /\
     day_axis (V18.hours self') /\
     day_table (map V18.device imported) (V18.bandwidth_data self') /\
     day_table band_names (V18.wifi_band_data self')).
Proof.
  intros Hfile Hparse Hax Hen Hnd.
  destruct fixed_day_at_start as (H0 & H8 & H13 & H18).
  split; [exact H0|]. split; [exact H8|]. split; [exact H13|].
  split; [exact H18|].
  destruct (imported_model parse_device_csv files filename text imported self
              Hfile Hparse (proj1 Hax))
    as (self' & Ei & Eh & _ & Ed & Hl & Hs).
  { intros row rest ->. by apply Forall_cons in Hen as [? _]. }
  exists self'. split; [exact Ei|]. split; [by rewrite Eh|]. split.
  - split; [|exact Hl].
    rewrite (generated_keys_are_enabled_names _ _ Hnd Ed).
    by rewrite (all_enabled_filter _ Hen).
  - exact (day_table_of_shape _ Hs).
Qed.

(** C6 as stated fails in v18 once a configuration with a fifth device is
    imported: [bandwidth_data] then has five keys. *)
Lemma fifth_device_adds_a_key :
  exists m m',
    V18.__init__ = Ok m /\
    V18.import_device_config read_five_devices five_devices_files
      "five_devices.csv" m = (Ok (), m') /\
    dict_keys (V18.bandwidth_data m')
    = ["laptop"; "smartphone"; "tablet"; "smartwatch"; "console"]%string /\
    ~ day_table device_names (V18.bandwidth_data m').
Proof.
  destruct started_v18 as [m Em].
  destruct (five_devices_imported m Em) as (m' & Ei & _ & _ & _ & Ed).
  rewrite five_devices_data in Ed. injection Ed as Ed.
  exists m, m'. split; [exact Em|]. split; [exact Ei|]. rewrite <- Ed.
  split; [reflexivity|].
  intros [Hperm _]. apply Permutation_length in Hperm. discriminate.
Qed.

Lemma tables_follow_the_configuration_with_five_devices :
  exists m,
    V18.__init__ = Ok m /\
    five_devices_files !! "five_devices.csv" = Some five_devices_text /\
    read_five_devices five_devices_text = Ok five_devices /\
    day_axis (V18.hours m) /\
    Forall (fun row => V18.enabled row = true) five_devices /\
    NoDup (map V18.device five_devices) /\
    exists m',
      V18.import_device_config read_five_devices five_devices_files
        "five_devices.csv" m = (Ok (), m') /\
      day_axis (V18.hours m') /\
      day_table (map V18.device five_devices) (V18.bandwidth_data m') /\
      day_table band_names (V18.wifi_band_data m').
Proof.
  destruct started_v18 as [m Em]. exists m.
  assert (Hax : day_axis (V18.hours m)).
  { destruct (init_v18 m Em) as (-> & _). apply day_axis_arange. }
  assert (Hen : Forall (fun row => V18.enabled row = true) five_devices)
    by (by repeat constructor).
  assert (Hnd : NoDup (map V18.device five_devices))
    by (apply (bool_decide_unpack _); vm_compute; exact I).
  split; [exact Em|]. split; [reflexivity|]. split; [reflexivity|].
  split; [exact Hax|]. split; [exact Hen|]. split; [exact Hnd|].
  exact (proj2 (proj2 (proj2 (proj2
    (tables_follow_the_configuration read_five_devices five_devices_files
       "five_devices.csv" five_devices_text five_devices m
       eq_refl eq_refl Hax Hen Hnd))))).
Defined.
